(** * Scroll-following viewers of vibe-kanban: a shallow embedding

    The four source files hold six React components (several files carry two
    revisions of a component, one after the other):

    - [ProcessLogsViewerContent]   (tasks/TaskDetails/ProcessLogsViewer.tsx)
    - [VirtualizedProcessLogs]     (ui-new/containers/VirtualizedProcessLogs.tsx)
    - [CachedProcessLogs]          (second component of ConversationListContainer.tsx,
                                    also named VirtualizedProcessLogs there)
    - [ConversationList]           (first component of ConversationListContainer.tsx)
    - [VirtualizedList]            (first component of logs/VirtualizedList.tsx)
    - [PollingList]                (second component of logs/VirtualizedList.tsx,
                                    also named VirtualizedList there)

    The first file also carries [SearchableDropdown], a virtualized dropdown
    with no state of its own; its rendering is embedded as well.

    A component instance is a record of its hook cells ([useState] values and
    [useRef] cells); event handlers, effects and timer callbacks are functions
    on that record and on the part of the browser they touch: the timer table,
    the animation-frame queue, the scroll container behind [parentRef], and the
    calls made on objects that live outside the component (the container's
    [scrollTo], the virtualizer's [scrollToIndex], the entries context). *)

From Stdlib Require Import ZArith Lia.
From stdpp Require Import base tactics option list strings gmap pretty.

Local Open Scope Z_scope.

(** ** JavaScript values that may be [null], and the exception of reading through them *)

Inductive js (A : Type) : Type :=
  | Ok (a : A)
  | TypeError.
Arguments Ok {A} a.
Arguments TypeError {A}.

Global Instance js_ret : MRet js := @Ok.
Global Instance js_bind : MBind js := λ A B k m,
  match m with
  | Ok a => k a
  | TypeError => TypeError
  end.

Definition succeeds {A} (m : js A) : Prop := ∃ a, m = Ok a.

Module Dom.

(** The three layout numbers of the scroll container the components read.
    Pixel quantities are taken as integers. *)
Record HTMLDivElement := {
  scrollHeight : Z;
  scrollTop : Z;
  clientHeight : Z;
}.

(** [parentRef.current : HTMLDivElement | null]. *)
Definition Ref := option HTMLDivElement.

(** [!el] is false exactly for an element. *)
Definition truthy (el : Ref) : bool :=
  match el with Some _ => true | None => false end.

(** [el.f]: reading a property of [null] throws. *)
Definition prop (f : HTMLDivElement → Z) (el : Ref) : js Z :=
  match el with
  | Some e => Ok (f e)
  | None => TypeError
  end.

Inductive ScrollBehavior := auto | smooth.
Inductive Align := AlignStart | AlignEnd.

End Dom.
Import Dom.

(** ** The data handed to the components *)

(** Modelled from the spec: [LogEntry] is declared in shared/types (absent);
    a log entry is a channel (stdout or stderr) and its text content. *)
Inductive Channel := Stdout | Stderr.
Inductive LogEntry :=
  | LOG_STDOUT (content : string)
  | LOG_STDERR (content : string).

Definition log_content (e : LogEntry) : string :=
  match e with LOG_STDOUT c | LOG_STDERR c => c end.

(** [entry.type === 'STDERR' ? 'stderr' : 'stdout'] *)
Definition log_channel (e : LogEntry) : Channel :=
  match e with LOG_STDERR _ => Stderr | LOG_STDOUT _ => Stdout end.

(** Modelled from the spec: [PatchTypeWithKey] is declared in
    hooks/useConversationHistory (absent); a conversation entry is one of a
    raw stdout line, a raw stderr line, or a normalized structured entry, keyed
    by a patch identifier and linked to an originating process id.  The
    structured payload is only handed on to the display component. *)
Definition NormalizedEntry := string.
Inductive PatchTypeWithKey :=
  | STDOUT (content : string) (patchKey : string) (executionProcessId : string)
  | STDERR (content : string) (patchKey : string) (executionProcessId : string)
  | NORMALIZED_ENTRY (content : NormalizedEntry) (patchKey : string)
      (executionProcessId : string).

(** [AddEntryType] is a union of string literals declared next to
    [PatchTypeWithKey]; at run time it is a string compared with [===]. *)
Definition AddEntryType := string.

(** What the virtualizer hands back for a visible row. *)
Record VirtualItem := {
  index : nat;
  start : Z;
}.

(** ** Calls a component makes on objects outside itself *)

Inductive Command :=
  | ScrollTo (top : Z) (behavior : ScrollBehavior)    (* el.scrollTo({top, behavior}) *)
  | ScrollToIndex (i : Z) (align : Align)             (* virtualizer.scrollToIndex(i, {align}) *)
  | ScrollToMatch (logIndex : option Z)               (* virtualizer.scrollToIndex(matchIndices[k],
                                                         {align: 'center'}); undefined out of range *)
  | CtxSetEntries (entries : list PatchTypeWithKey)   (* setEntries of useEntries() *)
  | CtxReset.                                         (* reset of useEntries() *)

(** ** The browser: clock, timers, animation frames, the container, the call log *)

Module Browser.
Section Browser.
(** [Task] is the component's type of timer callbacks (closures, with what
    they captured). *)
Context {Task : Type}.

(** A pending [requestAnimationFrame] callback; every one in the sources
    is a single [virtualizer.scrollToIndex] call. *)
Inductive Frame := FrameScrollToIndex (i : Z) (align : Align).

Record t := mk {
  now : Z;                               (* milliseconds *)
  timers : gmap positive (Z * Task);     (* id ↦ (due time, callback) *)
  next_timer : positive;                 (* timer ids are positive integers *)
  frames : list Frame;
  parentRef : Ref;
  out : list Command;
}.

Definition init : t :=
  {| now := 0; timers := ∅; next_timer := 1%positive; frames := [];
     parentRef := None; out := [] |}.

Definition setTimeout (task : Task) (delay : Z) (b : t) : positive * t :=
  (next_timer b,
   {| now := now b;
      timers := <[next_timer b := (now b + delay, task)]> (timers b);
      next_timer := Pos.succ (next_timer b);
      frames := frames b; parentRef := parentRef b; out := out b |}).

Definition clearTimeout (id : positive) (b : t) : t :=
  {| now := now b; timers := delete id (timers b); next_timer := next_timer b;
     frames := frames b; parentRef := parentRef b; out := out b |}.

(** Re-arm an interval under its own id, one period later. *)
Definition rearm (id : positive) (task : Task) (period : Z) (b : t) : t :=
  {| now := now b; timers := <[id := (now b + period, task)]> (timers b);
     next_timer := next_timer b;
     frames := frames b; parentRef := parentRef b; out := out b |}.

Definition requestAnimationFrame (f : Frame) (b : t) : t :=
  {| now := now b; timers := timers b; next_timer := next_timer b;
     frames := frames b ++ [f]; parentRef := parentRef b; out := out b |}.

Definition emit (cs : list Command) (b : t) : t :=
  {| now := now b; timers := timers b; next_timer := next_timer b;
     frames := frames b; parentRef := parentRef b; out := out b ++ cs |}.

Definition set_parentRef (r : Ref) (b : t) : t :=
  {| now := now b; timers := timers b; next_timer := next_timer b;
     frames := frames b; parentRef := r; out := out b |}.

Definition advance (dt : Z) (b : t) : t :=
  {| now := now b + Z.max 0 dt; timers := timers b; next_timer := next_timer b;
     frames := frames b; parentRef := parentRef b; out := out b |}.

Definition run_frame (f : Frame) : Command :=
  match f with FrameScrollToIndex i a => ScrollToIndex i a end.

(** The next paint runs every queued frame callback, in order. *)
Definition paint (b : t) : t :=
  {| now := now b; timers := timers b; next_timer := next_timer b;
     frames := []; parentRef := parentRef b;
     out := out b ++ map run_frame (frames b) |}.

(** A timer that is pending and due, if [id] names one. *)
Definition due (id : positive) (b : t) : option Task :=
  match timers b !! id with
  | Some (at_, task) => if at_ <=? now b then Some task else None
  | None => None
  end.

End Browser.
Arguments t : clear implicits.
End Browser.


(** ** What a component renders *)

Inductive View (R : Type) :=
  | NoLogs                        (* the "no logs available" placeholder *)
  | ErrorView (error : string)    (* the error text, no container *)
  | ListView (rows : list R).     (* the scroll container with its visible rows *)
Arguments NoLogs {R}.
Arguments ErrorView {R} error.
Arguments ListView {R} rows.

(** [!error] for [error : string | null]: [null] and the empty string are falsy. *)
Definition truthy_string (s : option string) : bool :=
  match s with
  | Some s => negb (String.eqb s "")
  | None => false
  end.

(** [a[i]] followed by a property read: [undefined.f] throws. *)
Definition at_index {A} (a : list A) (i : nat) : js A :=
  match a !! i with
  | Some x => Ok x
  | None => TypeError
  end.

(** The virtualizer is given [count = n]: every row it reports has an index
    below [n]. *)
Definition in_range (n : nat) (items : list VirtualItem) : Prop :=
  Forall (λ vi, (index vi < n)%nat) items.


(** ** VirtualizedProcessLogs (ui-new/containers/VirtualizedProcessLogs.tsx) *)

Module VirtualizedProcessLogs.

Record Props := {
  logs : list LogEntry;
  error : option string;            (* string | null *)
  searchQuery : string;
  matchIndices : list Z;
  currentMatchIndex : Z;
}.

(** Timer callbacks the component schedules. *)
Inductive Task :=
  | DoScroll (attempts : Z)         (* () => doScroll(attempts) *)
  | ScrollIfAtBottom.               (* () => { if (isAtBottom()) scrollToBottom('smooth') } *)

Record Hooks := {
  didInitScroll : bool;                   (* useRef(false) *)
  prevLogsLengthRef : Z;                  (* useRef(0) *)
  prevCurrentMatchRef : option Z;         (* useRef<number | undefined>(undefined) *)
  rendered : option Props;                (* props of the last commit; None before mount *)
  unmounted : bool;
  initJumps : nat;                        (* ghost: times the initial-scroll branch ran *)
}.

Record World := {
  hooks : Hooks;
  browser : Browser.t Task;
}.

Definition init : World :=
  {| hooks := {| didInitScroll := false; prevLogsLengthRef := 0;
                 prevCurrentMatchRef := None; rendered := None;
                 unmounted := false; initJumps := 0 |};
     browser := Browser.init |}.

Definition with_browser (f : Browser.t Task → Browser.t Task) (w : World) : World :=
  {| hooks := hooks w; browser := f (browser w) |}.

Definition with_hooks (f : Hooks → Hooks) (w : World) : World :=
  {| hooks := f (hooks w); browser := browser w |}.

(** [scrollToBottom(behavior)] *)
Definition scrollToBottom (behavior : ScrollBehavior) (parentRef : Ref) : js (list Command) :=
  let el := parentRef in
  if truthy el then
    top ← prop scrollHeight el;
    mret [ScrollTo top behavior]
  else mret [].

Definition threshold : Z := 50.

(** [isAtBottom()] *)
Definition isAtBottom (parentRef : Ref) : js bool :=
  let el := parentRef in
  if negb (truthy el) then mret true
  else
    sh ← prop scrollHeight el;
    st ← prop scrollTop el;
    ch ← prop clientHeight el;
    mret (sh - st - ch <? threshold).

(** [checkAtBottom()], the [onScroll] handler: the result is dropped. *)
Definition checkAtBottom (parentRef : Ref) : js unit :=
  _ ← isAtBottom parentRef; mret ().

Definition len (p : Props) : Z := Z.of_nat (length (logs p)).

(** Effect 1, deps [logs.length]: initial scroll to bottom with retries. *)
Definition initScrollEffect (p : Props) (w : World) : World :=
  let h := hooks w in
  if negb (didInitScroll h) && (len p >? 0) then
    {| hooks := {| didInitScroll := true;
                   prevLogsLengthRef := prevLogsLengthRef h;
                   prevCurrentMatchRef := prevCurrentMatchRef h;
                   rendered := rendered h; unmounted := unmounted h;
                   initJumps := S (initJumps h) |};
       browser := (Browser.setTimeout (DoScroll 3) 50 (browser w)).2 |}
  else w.

(** [doScroll(attempts)], run from a timer. *)
Definition doScroll (attempts : Z) (w : World) : js World :=
  cs ← scrollToBottom auto (Browser.parentRef (browser w));
  let w1 := with_browser (Browser.emit cs) w in
  if attempts >? 0 then
    mret (with_browser (λ b, (Browser.setTimeout (DoScroll (attempts - 1)) 100 b).2) w1)
  else mret w1.

(** Effect 2, deps [logs.length]: follow new logs. *)
Definition autoScrollEffect (p : Props) (w : World) : World :=
  let h := hooks w in
  let prev := prevLogsLengthRef h in
  let grewBy := len p - prev in
  let w1 :=
    {| hooks := {| didInitScroll := didInitScroll h;
                   prevLogsLengthRef := len p;
                   prevCurrentMatchRef := prevCurrentMatchRef h;
                   rendered := rendered h; unmounted := unmounted h;
                   initJumps := initJumps h |};
       browser := browser w |} in
  if (grewBy >? 0) && (len p >? 0) && didInitScroll h then
    with_browser (λ b, (Browser.setTimeout ScrollIfAtBottom 50 b).2) w1
  else w1.

(** The callback of effect 2's timer. *)
Definition scrollIfAtBottom (w : World) : js World :=
  atB ← isAtBottom (Browser.parentRef (browser w));
  if (atB : bool) then
    cs ← scrollToBottom smooth (Browser.parentRef (browser w));
    mret (with_browser (Browser.emit cs) w)
  else mret w.

(** [currentMatchIndex !== prevCurrentMatchRef.current] *)
Definition differs (i : Z) (prev : option Z) : bool :=
  match prev with Some j => negb (i =? j) | None => true end.

(** Effect 3, deps [currentMatchIndex, matchIndices]: scroll to the current
    search match. *)
Definition matchEffect (p : Props) (w : World) : World :=
  let h := hooks w in
  if (Z.of_nat (length (matchIndices p)) >? 0) && (currentMatchIndex p >=? 0)
     && differs (currentMatchIndex p) (prevCurrentMatchRef h) then
    {| hooks := {| didInitScroll := didInitScroll h;
                   prevLogsLengthRef := prevLogsLengthRef h;
                   prevCurrentMatchRef := Some (currentMatchIndex p);
                   rendered := rendered h; unmounted := unmounted h;
                   initJumps := initJumps h |};
       browser := Browser.emit
         [ScrollToMatch (matchIndices p !! Z.to_nat (currentMatchIndex p))]
         (browser w) |}
  else w.

(** Which effects React re-runs: all of them at mount, afterwards those with a
    changed dependency.  The callbacks among the dependencies ([scrollToBottom],
    [isAtBottom], the virtualizer) keep their identity and are left out;
    [matchIndices] is compared by content. *)
Definition len_changed (p : Props) (h : Hooks) : bool :=
  match rendered h with
  | None => true
  | Some q => negb (len q =? len p)
  end.

Definition match_changed (p : Props) (h : Hooks) : bool :=
  match rendered h with
  | None => true
  | Some q => negb (currentMatchIndex q =? currentMatchIndex p)
              || negb (bool_decide (matchIndices q = matchIndices p))
  end.

Definition set_rendered (p : Props) (h : Hooks) : Hooks :=
  {| didInitScroll := didInitScroll h; prevLogsLengthRef := prevLogsLengthRef h;
     prevCurrentMatchRef := prevCurrentMatchRef h; rendered := Some p;
     unmounted := unmounted h; initJumps := initJumps h |}.

Definition set_unmounted (h : Hooks) : Hooks :=
  {| didInitScroll := didInitScroll h; prevLogsLengthRef := prevLogsLengthRef h;
     prevCurrentMatchRef := prevCurrentMatchRef h; rendered := rendered h;
     unmounted := true; initJumps := initJumps h |}.

(** One commit: the effects in the order of their declaration. *)
Definition commit (p : Props) (w : World) : World :=
  let run12 := len_changed p (hooks w) in
  let run3 := match_changed p (hooks w) in
  let w1 := if run12 then initScrollEffect p w else w in
  let w2 := if run12 then autoScrollEffect p w1 else w1 in
  let w3 := if run3 then matchEffect p w2 else w2 in
  with_hooks (set_rendered p) w3.

Inductive Event :=
  | Render (p : Props)              (* mount, or the parent passes new props *)
  | Scroll (el : HTMLDivElement)    (* a scroll event; [el] is the container then *)
  | Layout (r : Ref)                (* the container is attached, detached or resized *)
  | Advance (dt : Z)                (* time passes *)
  | Timeout (id : positive)         (* the browser runs timer [id] if it is due *)
  | Unmount.

Definition run_task (task : Task) (w : World) : js World :=
  match task with
  | DoScroll attempts => doScroll attempts w
  | ScrollIfAtBottom => scrollIfAtBottom w
  end.

(** The component is on the page: it has rendered and was not unmounted. *)
Definition mounted (h : Hooks) : bool :=
  match rendered h with
  | Some _ => negb (unmounted h)
  | None => false
  end.

Definition step (w : World) (e : Event) : js World :=
  match e with
  | Render p =>
      if unmounted (hooks w) then mret w else mret (commit p w)
  | Scroll el =>
      if negb (mounted (hooks w)) then mret w
      else
        let w1 := with_browser (Browser.set_parentRef (Some el)) w in
        _ ← checkAtBottom (Browser.parentRef (browser w1)); mret w1
  | Layout r =>
      if negb (mounted (hooks w)) then mret w
      else mret (with_browser (Browser.set_parentRef r) w)
  | Advance dt => mret (with_browser (Browser.advance dt) w)
  | Timeout id =>
      match Browser.due id (browser w) with
      | Some task => run_task task (with_browser (Browser.clearTimeout id) w)
      | None => mret w
      end
  | Unmount =>
      (* no effect has a cleanup; React detaches the ref *)
      if negb (mounted (hooks w)) then mret w
      else mret (with_hooks set_unmounted (with_browser (Browser.set_parentRef None) w))
  end.

Fixpoint run (w : World) (es : list Event) : js World :=
  match es with
  | [] => mret w
  | e :: es => w' ← step w e; run w' es
  end.

(** *** The states the component can reach *)

Record Inv (w : World) : Prop := {
  inv_prev : ∀ p, rendered (hooks w) = Some p → prevLogsLengthRef (hooks w) = len p;
  inv_init : ∀ p, rendered (hooks w) = Some p → logs p ≠ [] →
               didInitScroll (hooks w) = true;
  inv_count : initJumps (hooks w) = (if didInitScroll (hooks w) then 1 else 0)%nat;
  inv_fresh : rendered (hooks w) = None → hooks w = hooks init;
}.

Definition reachable (w : World) : Prop := ∃ es, run init es = Ok w.

(** What the follow-up timer asks of the container [r] it finds. *)
Definition follow (r : Ref) : list Command :=
  match r with
  | Some el =>
      if scrollHeight el - scrollTop el - clientHeight el <? threshold
      then [ScrollTo (scrollHeight el) smooth]
      else []
  | None => []
  end.

(** The guard of effect 3 in a render with props [p]. *)
Definition match_fires (p : Props) (h : Hooks) : bool :=
  match_changed p h
  && ((Z.of_nat (length (matchIndices p)) >? 0) && (currentMatchIndex p >=? 0)
      && differs (currentMatchIndex p) (prevCurrentMatchRef h)).

(** What effect 3 asks of the virtualizer in that render. *)
Definition search_scroll (p : Props) (h : Hooks) : list Command :=
  if match_fires p h
  then [ScrollToMatch (matchIndices p !! Z.to_nat (currentMatchIndex p))]
  else [].

(** *** Rendering *)

Record LogEntryWithKey := {
  entry : LogEntry;
  key : string;
  originalIndex : nat;
}.

Record Row := {
  row_key : string;
  row_start : Z;                       (* translateY(start px) *)
  row_content : string;
  row_channel : Channel;
  row_searchQuery : option string;     (* isMatch ? searchQuery : undefined *)
  row_isCurrentMatch : bool;
}.

(** [logs.map((entry, index) => ({...entry, key: `log-${index}`, originalIndex: index}))] *)
Definition logsWithKeys (p : Props) : list LogEntryWithKey :=
  imap (λ index entry,
          {| entry := entry; key := "log-" +:+ pretty index; originalIndex := index |})
       (logs p).

(** [matchIndices.includes(k)] *)
Definition includes (l : list Z) (k : nat) : bool :=
  bool_decide (Z.of_nat k ∈ l).

(** [matchIndices[currentMatchIndex] === k] *)
Definition is_current (p : Props) (k : nat) : bool :=
  if currentMatchIndex p <? 0 then false
  else bool_decide (matchIndices p !! Z.to_nat (currentMatchIndex p) = Some (Z.of_nat k)).

Definition render_row (p : Props) (virtualRow : VirtualItem) : js Row :=
  data ← at_index (logsWithKeys p) (index virtualRow);
  let isMatch := includes (matchIndices p) (originalIndex data) in
  let isCurrentMatch := is_current p (originalIndex data) in
  mret {| row_key := key data; row_start := start virtualRow;
          row_content := log_content (entry data);
          row_channel := log_channel (entry data);
          row_searchQuery := if isMatch then Some (searchQuery p) else None;
          row_isCurrentMatch := isCurrentMatch |}.

(** The component's return value, given the rows the virtualizer reports
    ([virtualizer.getVirtualItems()]). *)
Definition render (p : Props) (virtualItems : list VirtualItem) : js (View Row) :=
  if (len p =? 0) && negb (truthy_string (error p)) then mret NoLogs
  else if truthy_string (error p) then
    mret (ErrorView (default "" (error p)))
  else
    rows ← mapM (render_row p) virtualItems;
    mret (ListView rows).

(** The row that shows entry [e] at the place of the visible item [vi]. *)
Definition row_of (p : Props) (vi : VirtualItem) (e : LogEntry) : Row :=
  {| row_key := "log-" +:+ pretty (index vi); row_start := start vi;
     row_content := log_content e; row_channel := log_channel e;
     row_searchQuery := if includes (matchIndices p) (index vi)
                        then Some (searchQuery p) else None;
     row_isCurrentMatch := is_current p (index vi) |}.

End VirtualizedProcessLogs.

(** ** ProcessLogsViewerContent (tasks/TaskDetails/ProcessLogsViewer.tsx) *)

Module ProcessLogsViewerContent.

Record Props := {
  logs : list LogEntry;
  error : option string;            (* string | null *)
}.

Inductive Task :=
  | DoScroll (attempts : Z)         (* () => doScroll(attempts) *)
  | ScrollIfAtBottom.               (* () => { if (isAtBottom()) scrollToBottom('smooth') } *)

Record Hooks := {
  didInitScroll : bool;             (* useRef(false) *)
  prevLenRef : Z;                   (* useRef(0) *)
  rendered : option Props;          (* props of the last commit; None before mount *)
  unmounted : bool;
  initJumps : nat;                  (* ghost: times the initial-scroll branch ran *)
}.

Record World := {
  hooks : Hooks;
  browser : Browser.t Task;
}.

Definition init : World :=
  {| hooks := {| didInitScroll := false; prevLenRef := 0; rendered := None;
                 unmounted := false; initJumps := 0 |};
     browser := Browser.init |}.

Definition with_browser (f : Browser.t Task → Browser.t Task) (w : World) : World :=
  {| hooks := hooks w; browser := f (browser w) |}.

Definition with_hooks (f : Hooks → Hooks) (w : World) : World :=
  {| hooks := f (hooks w); browser := browser w |}.

(** [scrollToBottom(behavior)] *)
Definition scrollToBottom (behavior : ScrollBehavior) (parentRef : Ref) : js (list Command) :=
  let el := parentRef in
  if truthy el then
    top ← prop scrollHeight el;
    mret [ScrollTo top behavior]
  else mret [].

Definition threshold : Z := 50.

(** [isAtBottom()] *)
Definition isAtBottom (parentRef : Ref) : js bool :=
  let el := parentRef in
  if negb (truthy el) then mret true
  else
    sh ← prop scrollHeight el;
    st ← prop scrollTop el;
    ch ← prop clientHeight el;
    mret (sh - st - ch <? threshold).

(** [checkAtBottom()], the [onScroll] handler. *)
Definition checkAtBottom (parentRef : Ref) : js unit :=
  _ ← isAtBottom parentRef; mret ().

Definition len (p : Props) : Z := Z.of_nat (length (logs p)).

(** Effect 1, deps [logs.length]: initial jump to bottom once data appears. *)
Definition initScrollEffect (p : Props) (w : World) : World :=
  let h := hooks w in
  if negb (didInitScroll h) && (len p >? 0) then
    {| hooks := {| didInitScroll := true; prevLenRef := prevLenRef h;
                   rendered := rendered h; unmounted := unmounted h;
                   initJumps := S (initJumps h) |};
       browser := (Browser.setTimeout (DoScroll 3) 50 (browser w)).2 |}
  else w.

(** [doScroll(attempts)], run from a timer. *)
Definition doScroll (attempts : Z) (w : World) : js World :=
  cs ← scrollToBottom auto (Browser.parentRef (browser w));
  let w1 := with_browser (Browser.emit cs) w in
  if attempts >? 0 then
    mret (with_browser (λ b, (Browser.setTimeout (DoScroll (attempts - 1)) 100 b).2) w1)
  else mret w1.

(** Effect 2, deps [logs.length]: new logs while at the bottom. *)
Definition autoScrollEffect (p : Props) (w : World) : World :=
  let h := hooks w in
  let prev := prevLenRef h in
  let grewBy := len p - prev in
  let w1 :=
    {| hooks := {| didInitScroll := didInitScroll h; prevLenRef := len p;
                   rendered := rendered h; unmounted := unmounted h;
                   initJumps := initJumps h |};
       browser := browser w |} in
  if (grewBy >? 0) && (len p >? 0) && didInitScroll h then
    with_browser (λ b, (Browser.setTimeout ScrollIfAtBottom 50 b).2) w1
  else w1.

(** The callback of effect 2's timer. *)
Definition scrollIfAtBottom (w : World) : js World :=
  atB ← isAtBottom (Browser.parentRef (browser w));
  if (atB : bool) then
    cs ← scrollToBottom smooth (Browser.parentRef (browser w));
    mret (with_browser (Browser.emit cs) w)
  else mret w.

Definition len_changed (p : Props) (h : Hooks) : bool :=
  match rendered h with
  | None => true
  | Some q => negb (len q =? len p)
  end.

Definition set_rendered (p : Props) (h : Hooks) : Hooks :=
  {| didInitScroll := didInitScroll h; prevLenRef := prevLenRef h;
     rendered := Some p; unmounted := unmounted h; initJumps := initJumps h |}.

Definition set_unmounted (h : Hooks) : Hooks :=
  {| didInitScroll := didInitScroll h; prevLenRef := prevLenRef h;
     rendered := rendered h; unmounted := true; initJumps := initJumps h |}.

(** One commit: both effects depend on [logs.length] only (the two callbacks
    in their dependency lists keep their identity). *)
Definition commit (p : Props) (w : World) : World :=
  let w2 :=
    if len_changed p (hooks w) then autoScrollEffect p (initScrollEffect p w) else w in
  with_hooks (set_rendered p) w2.

Inductive Event :=
  | Render (p : Props)              (* mount, or the parent passes new props *)
  | Scroll (el : HTMLDivElement)    (* a scroll event; [el] is the container then *)
  | Layout (r : Ref)                (* the container is attached, detached or resized *)
  | Advance (dt : Z)                (* time passes *)
  | Timeout (id : positive)         (* the browser runs timer [id] if it is due *)
  | Unmount.

Definition run_task (task : Task) (w : World) : js World :=
  match task with
  | DoScroll attempts => doScroll attempts w
  | ScrollIfAtBottom => scrollIfAtBottom w
  end.

(** The component is on the page: it has rendered and was not unmounted. *)
Definition mounted (h : Hooks) : bool :=
  match rendered h with
  | Some _ => negb (unmounted h)
  | None => false
  end.

Definition step (w : World) (e : Event) : js World :=
  match e with
  | Render p =>
      if unmounted (hooks w) then mret w else mret (commit p w)
  | Scroll el =>
      if negb (mounted (hooks w)) then mret w
      else
        let w1 := with_browser (Browser.set_parentRef (Some el)) w in
        _ ← checkAtBottom (Browser.parentRef (browser w1)); mret w1
  | Layout r =>
      if negb (mounted (hooks w)) then mret w
      else mret (with_browser (Browser.set_parentRef r) w)
  | Advance dt => mret (with_browser (Browser.advance dt) w)
  | Timeout id =>
      match Browser.due id (browser w) with
      | Some task => run_task task (with_browser (Browser.clearTimeout id) w)
      | None => mret w
      end
  | Unmount =>
      (* neither effect returns a cleanup; React detaches the ref *)
      if negb (mounted (hooks w)) then mret w
      else mret (with_hooks set_unmounted (with_browser (Browser.set_parentRef None) w))
  end.

Fixpoint run (w : World) (es : list Event) : js World :=
  match es with
  | [] => mret w
  | e :: es => w' ← step w e; run w' es
  end.

(** *** The states the component can reach *)

Record Inv (w : World) : Prop := {
  inv_prev : ∀ p, rendered (hooks w) = Some p → prevLenRef (hooks w) = len p;
  inv_init : ∀ p, rendered (hooks w) = Some p → logs p ≠ [] →
               didInitScroll (hooks w) = true;
  inv_count : initJumps (hooks w) = (if didInitScroll (hooks w) then 1 else 0)%nat;
  inv_fresh : rendered (hooks w) = None → hooks w = hooks init;
}.

Definition reachable (w : World) : Prop := ∃ es, run init es = Ok w.

(** What the follow-up timer asks of the container [r] it finds. *)
Definition follow (r : Ref) : list Command :=
  match r with
  | Some el =>
      if scrollHeight el - scrollTop el - clientHeight el <? threshold
      then [ScrollTo (scrollHeight el) smooth]
      else []
  | None => []
  end.

(** *** Rendering *)

Record Row := {
  row_key : nat;                    (* key={virtualRow.index} *)
  row_start : Z;                    (* translateY(start px) *)
  row_content : string;
  row_channel : Channel;
}.

(** [formatLogLine(logs[virtualRow.index], virtualRow.index)] inside the
    positioned [div]. *)
Definition render_row (p : Props) (virtualRow : VirtualItem) : js Row :=
  entry ← at_index (logs p) (index virtualRow);
  mret {| row_key := index virtualRow; row_start := start virtualRow;
          row_content := log_content entry; row_channel := log_channel entry |}.

Definition render (p : Props) (virtualItems : list VirtualItem) : js (View Row) :=
  if (len p =? 0) && negb (truthy_string (error p)) then mret NoLogs
  else if truthy_string (error p) then
    mret (ErrorView (default "" (error p)))
  else
    rows ← mapM (render_row p) virtualItems;
    mret (ListView rows).

(** The row that shows entry [e] at the place of the visible item [vi]. *)
Definition row_of (vi : VirtualItem) (e : LogEntry) : Row :=
  {| row_key := index vi; row_start := start vi;
     row_content := log_content e; row_channel := log_channel e |}.

End ProcessLogsViewerContent.

(** ** Rows of the conversation lists *)

Inductive ConvRow :=
  | Paragraph (key : string) (dataIndex : nat) (start : Z) (content : string)
      (* <div key data-index style><p>{data.content}</p></div> *)
  | DisplayEntry (key : string) (dataIndex : nat) (start : Z)
      (expansionKey : string) (entry : NormalizedEntry) (executionProcessId : string).
      (* <div ...><DisplayConversationEntry expansionKey entry executionProcessId .../></div> *)

(** The chain of [if (data.type === ...)] of the three conversation lists,
    with the key prefix of the list.  The closing [return null] is not reached
    for the three members of the union. *)
Definition conv_row (prefix : string) (virtualRow : VirtualItem) (data : PatchTypeWithKey)
  : ConvRow :=
  match data with
  | STDOUT content patchKey _ =>
      Paragraph (prefix +:+ patchKey) (index virtualRow) (start virtualRow) content
  | STDERR content patchKey _ =>
      Paragraph (prefix +:+ patchKey) (index virtualRow) (start virtualRow) content
  | NORMALIZED_ENTRY content patchKey executionProcessId =>
      DisplayEntry (prefix +:+ patchKey) (index virtualRow) (start virtualRow)
        patchKey content executionProcessId
  end.


(** ** ConversationList (ui-new/containers/ConversationListContainer.tsx), debounced *)

Module ConversationList.

(** The object kept in [pendingUpdateRef]. *)
Record Pending := {
  pending_entries : list PatchTypeWithKey;
  pending_addType : AddEntryType;
  pending_loading : bool;
}.

(** The one timer callback: the arrow function given to [setTimeout] inside
    [onEntriesUpdated].  It closes over [loading] of the render that built
    [onEntriesUpdated]. *)
Inductive Task := Debounced (loading : bool).

(** Dependency values of the last commit. *)
Record Deps := {
  dep_attempt : string;             (* attempt.id *)
  dep_len : Z;                      (* entries.length *)
  dep_loading : bool;
  dep_atBottom : bool;
}.

Record Hooks := {
  entries : list PatchTypeWithKey;          (* useState([]) *)
  loading : bool;                           (* useState(true) *)
  atBottom : bool;                          (* useState(true) *)
  didInitScroll : bool;                     (* useRef(false) *)
  prevEntriesLengthRef : Z;                 (* useRef(0) *)
  addTypeRef : AddEntryType;                (* useRef('initial') *)
  pendingUpdateRef : option Pending;        (* useRef(null) *)
  debounceTimeoutRef : option positive;     (* useRef(null) *)
  rendered : option Deps;                   (* None before mount *)
  unmounted : bool;
  initJumps : nat;                          (* ghost: times the initial-scroll branch ran *)
}.

Record World := {
  hooks : Hooks;
  browser : Browser.t Task;
}.

Definition init : World :=
  {| hooks := {| entries := []; loading := true; atBottom := true;
                 didInitScroll := false; prevEntriesLengthRef := 0;
                 addTypeRef := "initial"; pendingUpdateRef := None;
                 debounceTimeoutRef := None; rendered := None;
                 unmounted := false; initJumps := 0 |};
     browser := Browser.init |}.

Definition with_browser (f : Browser.t Task → Browser.t Task) (w : World) : World :=
  {| hooks := hooks w; browser := f (browser w) |}.

Definition with_hooks (f : Hooks → Hooks) (w : World) : World :=
  {| hooks := f (hooks w); browser := browser w |}.

Definition len (h : Hooks) : Z := Z.of_nat (length (entries h)).

(** *** Effects.  An effect sees the state values of the render it belongs to
    (its closure) and the current content of the refs. *)

(** Effect 1, deps [attempt.id]: the refs change at once, the two state
    setters are queued ([apply_reset] below), [reset()] goes to the context. *)
Definition resetEffect (w : World) : World :=
  let h := hooks w in
  {| hooks := {| entries := entries h; loading := loading h; atBottom := atBottom h;
                 didInitScroll := false; prevEntriesLengthRef := 0;
                 addTypeRef := addTypeRef h; pendingUpdateRef := pendingUpdateRef h;
                 debounceTimeoutRef := debounceTimeoutRef h; rendered := rendered h;
                 unmounted := unmounted h; initJumps := initJumps h |};
     browser := Browser.emit [CtxReset] (browser w) |}.

(** [setLoading(true); setEntriesState([])] taking effect. *)
Definition apply_reset (h : Hooks) : Hooks :=
  {| entries := []; loading := true; atBottom := atBottom h;
     didInitScroll := didInitScroll h; prevEntriesLengthRef := prevEntriesLengthRef h;
     addTypeRef := addTypeRef h; pendingUpdateRef := pendingUpdateRef h;
     debounceTimeoutRef := debounceTimeoutRef h; rendered := rendered h;
     unmounted := unmounted h; initJumps := initJumps h |}.

(** Effect 3, deps [entries.length, loading]: initial scroll once data appears. *)
Definition initScrollEffect (entries_length : Z) (loading_ : bool) (w : World) : World :=
  let h := hooks w in
  if negb (didInitScroll h) && (entries_length >? 0) && negb loading_ then
    {| hooks := {| entries := entries h; loading := loading h; atBottom := atBottom h;
                   didInitScroll := true; prevEntriesLengthRef := prevEntriesLengthRef h;
                   addTypeRef := addTypeRef h; pendingUpdateRef := pendingUpdateRef h;
                   debounceTimeoutRef := debounceTimeoutRef h; rendered := rendered h;
                   unmounted := unmounted h; initJumps := S (initJumps h) |};
       browser := Browser.requestAnimationFrame
                    (Browser.FrameScrollToIndex (entries_length - 1) AlignEnd) (browser w) |}
  else w.

(** Effect 4, deps [entries.length, atBottom, loading]: follow new entries,
    by add type. *)
Definition autoScrollEffect (entries_length : Z) (atBottom_ loading_ : bool) (w : World)
  : World :=
  let h := hooks w in
  let prev := prevEntriesLengthRef h in
  let grewBy := entries_length - prev in
  let w1 :=
    {| hooks := {| entries := entries h; loading := loading h; atBottom := atBottom h;
                   didInitScroll := didInitScroll h; prevEntriesLengthRef := entries_length;
                   addTypeRef := addTypeRef h; pendingUpdateRef := pendingUpdateRef h;
                   debounceTimeoutRef := debounceTimeoutRef h; rendered := rendered h;
                   unmounted := unmounted h; initJumps := initJumps h |};
       browser := browser w |} in
  if (grewBy >? 0) && (entries_length >? 0) && didInitScroll h then
    let addType := addTypeRef h in
    if String.eqb addType "plan" && negb loading_ then
      with_browser (Browser.requestAnimationFrame
                      (Browser.FrameScrollToIndex (entries_length - 1) AlignStart)) w1
    else if String.eqb addType "running" && negb loading_ && atBottom_ then
      with_browser (Browser.requestAnimationFrame
                      (Browser.FrameScrollToIndex (entries_length - 1) AlignEnd)) w1
    else w1
  else w1.

Definition attempt_changed (attempt_id : string) (h : Hooks) : bool :=
  match rendered h with
  | None => true
  | Some d => negb (String.eqb (dep_attempt d) attempt_id)
  end.

Definition init_deps_changed (h : Hooks) : bool :=
  match rendered h with
  | None => true
  | Some d => negb (dep_len d =? len h) || negb (eqb (dep_loading d) (loading h))
  end.

Definition auto_deps_changed (h : Hooks) : bool :=
  match rendered h with
  | None => true
  | Some d => negb (dep_len d =? len h) || negb (eqb (dep_atBottom d) (atBottom h))
              || negb (eqb (dep_loading d) (loading h))
  end.

Definition set_rendered (d : Deps) (h : Hooks) : Hooks :=
  {| entries := entries h; loading := loading h; atBottom := atBottom h;
     didInitScroll := didInitScroll h; prevEntriesLengthRef := prevEntriesLengthRef h;
     addTypeRef := addTypeRef h; pendingUpdateRef := pendingUpdateRef h;
     debounceTimeoutRef := debounceTimeoutRef h; rendered := Some d;
     unmounted := unmounted h; initJumps := initJumps h |}.

(** One render and its effects, in the order of their declaration (effect 2
    only registers the unmount cleanup).  The state the render saw is [h0];
    state set by an effect shows in the next render. *)
Definition pass (attempt_id : string) (w : World) : World :=
  let h0 := hooks w in
  let w1 := if attempt_changed attempt_id h0 then resetEffect w else w in
  let w3 := if init_deps_changed h0 then initScrollEffect (len h0) (loading h0) w1 else w1 in
  let w4 := if auto_deps_changed h0
            then autoScrollEffect (len h0) (atBottom h0) (loading h0) w3 else w3 in
  let w5 := with_hooks (set_rendered {| dep_attempt := attempt_id; dep_len := len h0;
                                        dep_loading := loading h0;
                                        dep_atBottom := atBottom h0 |}) w4 in
  if attempt_changed attempt_id h0 then with_hooks apply_reset w5 else w5.

(** A commit: the render, and the re-render that the state set by effect 1
    asks for. *)
Definition commit (attempt_id : string) (w : World) : World :=
  pass attempt_id (pass attempt_id w).

(** Re-render after a state change, with the props of the last render. *)
Definition rerender (w : World) : World :=
  match rendered (hooks w) with
  | Some d => commit (dep_attempt d) w
  | None => w
  end.

(** *** Handlers *)

Definition set_pending (u : Pending) (id : positive) (h : Hooks) : Hooks :=
  {| entries := entries h; loading := loading h; atBottom := atBottom h;
     didInitScroll := didInitScroll h; prevEntriesLengthRef := prevEntriesLengthRef h;
     addTypeRef := addTypeRef h; pendingUpdateRef := Some u;
     debounceTimeoutRef := Some id; rendered := rendered h;
     unmounted := unmounted h; initJumps := initJumps h |}.

(** [onEntriesUpdated(newEntries, addType, newLoading)], for the instance of
    the callback that closed over [loading_]. *)
Definition onEntriesUpdated (loading_ : bool)
    (newEntries : list PatchTypeWithKey) (addType : AddEntryType) (newLoading : bool)
    (w : World) : World :=
  let u := {| pending_entries := newEntries; pending_addType := addType;
              pending_loading := newLoading |} in
  let b1 := match debounceTimeoutRef (hooks w) with
            | Some id => Browser.clearTimeout id (browser w)
            | None => browser w
            end in
  let '(id, b2) := Browser.setTimeout (Debounced loading_) 100 b1 in
  {| hooks := set_pending u id (hooks w); browser := b2 |}.

(** What the debounced callback assigns: the ref always, the two state cells
    only while the component is mounted (React drops state set after
    unmount). *)
Definition apply_pending (loading_ : bool) (u : Pending) (h : Hooks) : Hooks :=
  {| entries := if unmounted h then entries h else pending_entries u;
     loading := if unmounted h then loading h
                else if loading_ then pending_loading u else loading h;
     atBottom := atBottom h;
     didInitScroll := didInitScroll h; prevEntriesLengthRef := prevEntriesLengthRef h;
     addTypeRef := pending_addType u; pendingUpdateRef := pendingUpdateRef h;
     debounceTimeoutRef := debounceTimeoutRef h; rendered := rendered h;
     unmounted := unmounted h; initJumps := initJumps h |}.

(** The body of the debounced callback, then the re-render it causes. *)
Definition debounced (loading_ : bool) (w : World) : World :=
  match pendingUpdateRef (hooks w) with
  | None => w
  | Some pending =>
      let w1 :=
        {| hooks := apply_pending loading_ pending (hooks w);
           browser := Browser.emit [CtxSetEntries (pending_entries pending)] (browser w) |} in
      if unmounted (hooks w) then w1 else rerender w1
  end.

Definition threshold : Z := 100.

Definition set_atBottom (v : bool) (h : Hooks) : Hooks :=
  {| entries := entries h; loading := loading h; atBottom := v;
     didInitScroll := didInitScroll h; prevEntriesLengthRef := prevEntriesLengthRef h;
     addTypeRef := addTypeRef h; pendingUpdateRef := pendingUpdateRef h;
     debounceTimeoutRef := debounceTimeoutRef h; rendered := rendered h;
     unmounted := unmounted h; initJumps := initJumps h |}.

(** [checkAtBottom()], the [onScroll] handler. *)
Definition checkAtBottom (parentRef : Ref) (h : Hooks) : js Hooks :=
  let el := parentRef in
  if negb (truthy el) then mret h
  else
    sh ← prop scrollHeight el;
    st ← prop scrollTop el;
    ch ← prop clientHeight el;
    let isAtBottom := sh - st - ch <? threshold in
    mret (set_atBottom isAtBottom h).

Definition set_unmounted (h : Hooks) : Hooks :=
  {| entries := entries h; loading := loading h; atBottom := atBottom h;
     didInitScroll := didInitScroll h; prevEntriesLengthRef := prevEntriesLengthRef h;
     addTypeRef := addTypeRef h; pendingUpdateRef := pendingUpdateRef h;
     debounceTimeoutRef := debounceTimeoutRef h; rendered := rendered h;
     unmounted := true; initJumps := initJumps h |}.

(** The cleanup of effect 2, run at unmount. *)
Definition cleanup (w : World) : World :=
  match debounceTimeoutRef (hooks w) with
  | Some id => with_browser (Browser.clearTimeout id) w
  | None => w
  end.

Inductive Event :=
  | Render (attempt_id : string)    (* mount, or the parent passes an attempt *)
  | EntriesUpdated (newEntries : list PatchTypeWithKey) (addType : AddEntryType)
      (newLoading : bool)           (* useConversationHistory calls onEntriesUpdated *)
  | Scroll (el : HTMLDivElement)    (* a scroll event; [el] is the container then *)
  | Layout (r : Ref)                (* the container is attached, detached or resized *)
  | Advance (dt : Z)                (* time passes *)
  | Timeout (id : positive)         (* the browser runs timer [id] if it is due *)
  | Paint                           (* the browser runs the animation-frame callbacks *)
  | Unmount.

(** The component is on the page: it has rendered and was not unmounted. *)
Definition mounted (h : Hooks) : bool :=
  match rendered h with
  | Some _ => negb (unmounted h)
  | None => false
  end.

Definition step (w : World) (e : Event) : js World :=
  match e with
  | Render attempt_id =>
      if unmounted (hooks w) then mret w else mret (commit attempt_id w)
  | EntriesUpdated newEntries addType newLoading =>
      (* the hook exists once the component has rendered, and holds the
         callback of the latest render *)
      if rendered (hooks w) is None then mret w
      else mret (onEntriesUpdated (loading (hooks w)) newEntries addType newLoading w)
  | Scroll el =>
      if negb (mounted (hooks w)) then mret w
      else
        let w1 := with_browser (Browser.set_parentRef (Some el)) w in
        h ← checkAtBottom (Browser.parentRef (browser w1)) (hooks w1);
        mret (rerender {| hooks := h; browser := browser w1 |})
  | Layout r =>
      if negb (mounted (hooks w)) then mret w
      else mret (with_browser (Browser.set_parentRef r) w)
  | Advance dt => mret (with_browser (Browser.advance dt) w)
  | Timeout id =>
      match Browser.due id (browser w) with
      | Some (Debounced loading_) =>
          mret (debounced loading_ (with_browser (Browser.clearTimeout id) w))
      | None => mret w
      end
  | Paint => mret (with_browser Browser.paint w)
  | Unmount =>
      if negb (mounted (hooks w)) then mret w
      else mret (with_hooks set_unmounted
                   (with_browser (Browser.set_parentRef None) (cleanup w)))
  end.

Fixpoint run (w : World) (es : list Event) : js World :=
  match es with
  | [] => mret w
  | e :: es => w' ← step w e; run w' es
  end.

(** *** Reading the effects; the states the component can reach *)

(** The guard of effect 3. *)
Definition init_fires (entries_length : Z) (loading_ : bool) (h : Hooks) : bool :=
  negb (didInitScroll h) && (entries_length >? 0) && negb loading_.

(** The outer guard of effect 4. *)
Definition auto_fires (entries_length : Z) (h : Hooks) : bool :=
  (entries_length - prevEntriesLengthRef h >? 0) && (entries_length >? 0)
  && didInitScroll h.

(** The frame callbacks effect 4 queues once its outer guard holds. *)
Definition follow (addType : AddEntryType) (entries_length : Z) (atBottom_ loading_ : bool)
  : list Browser.Frame :=
  if String.eqb addType "plan" && negb loading_
  then [Browser.FrameScrollToIndex (entries_length - 1) AlignStart]
  else if String.eqb addType "running" && negb loading_ && atBottom_
       then [Browser.FrameScrollToIndex (entries_length - 1) AlignEnd]
       else [].

(** The dependencies on record are those of the current state. *)
Definition synced (h : Hooks) : Prop :=
  ∀ d, rendered h = Some d →
    dep_len d = len h ∧ dep_loading d = loading h ∧ dep_atBottom d = atBottom h.

(** Between a handler's assignments and the re-render, the dependencies on
    record still describe the state before. *)
Definition stale (h : Hooks) : Prop :=
  ∃ d, rendered h = Some d ∧ prevEntriesLengthRef h = dep_len d
       ∧ (didInitScroll h = false → dep_len d = 0 ∨ dep_loading d = true).

Record Inv (w : World) : Prop := {
  (* the only timer there can be is the one [debounceTimeoutRef] names *)
  inv_single : ∀ id t, Browser.timers (browser w) !! id = Some t →
                 debounceTimeoutRef (hooks w) = Some id;
  (* a pending callback that closed over [loading = true] is not out of date *)
  inv_closure : ∀ id at_, Browser.timers (browser w) !! id = Some (at_, Debounced true) →
                 loading (hooks w) = true;
  inv_synced : synced (hooks w);
  inv_prev : rendered (hooks w) ≠ None →
                 prevEntriesLengthRef (hooks w) = len (hooks w);
  inv_init : didInitScroll (hooks w) = false →
                 entries (hooks w) = [] ∨ loading (hooks w) = true;
  inv_fresh : rendered (hooks w) = None →
                 hooks w = hooks init ∧ Browser.timers (browser w) = ∅;
}.

Definition reachable (w : World) : Prop := ∃ es, run init es = Ok w.

(** An event that leaves the attempt alone: a render, if it is one, is for
    attempt [a]. *)
Definition keeps_attempt (a : string) (e : Event) : Prop :=
  match e with
  | Render a' => a' = a
  | _ => True
  end.

(** The attempt the component was last rendered for, if any, is [a]. *)
Definition attempt_is (a : string) (w : World) : Prop :=
  ∀ d, rendered (hooks w) = Some d → dep_attempt d = a.

(** Time passing and timers running, nothing else. *)
Definition clock_event (e : Event) : Prop :=
  match e with
  | Advance _ | Timeout _ => True
  | _ => False
  end.

(** A call of [onEntriesUpdated] and the time that passed before it. *)
Record Update := {
  upd_after : Z;
  upd_entries : list PatchTypeWithKey;
  upd_addType : AddEntryType;
  upd_loading : bool;
}.

(** Updates that follow one another with no timer run in between. *)
Definition burst (us : list Update) : list Event :=
  flat_map (λ u, [Advance (upd_after u);
                  EntriesUpdated (upd_entries u) (upd_addType u) (upd_loading u)]) us.

Definition pending_of (u : Update) : Pending :=
  {| pending_entries := upd_entries u; pending_addType := upd_addType u;
     pending_loading := upd_loading u |}.

(** Nothing that a render shows, and no call made, tells [w'] from [w]. *)
Definition same_view (w w' : World) : Prop :=
  entries (hooks w') = entries (hooks w)
  ∧ loading (hooks w') = loading (hooks w)
  ∧ atBottom (hooks w') = atBottom (hooks w)
  ∧ addTypeRef (hooks w') = addTypeRef (hooks w)
  ∧ didInitScroll (hooks w') = didInitScroll (hooks w)
  ∧ prevEntriesLengthRef (hooks w') = prevEntriesLengthRef (hooks w)
  ∧ rendered (hooks w') = rendered (hooks w)
  ∧ unmounted (hooks w') = unmounted (hooks w)
  ∧ initJumps (hooks w') = initJumps (hooks w)
  ∧ Browser.frames (browser w') = Browser.frames (browser w)
  ∧ Browser.out (browser w') = Browser.out (browser w).

(** *** Rendering *)

Record ConvView := {
  hasContent : bool;                (* opacity-100 when true, opacity-0 otherwise *)
  rows : list ConvRow;
}.

Definition render_row (h : Hooks) (virtualRow : VirtualItem) : js ConvRow :=
  data ← at_index (entries h) (index virtualRow);
  mret (conv_row "conv-" virtualRow data).

Definition render (h : Hooks) (virtualItems : list VirtualItem) : js ConvView :=
  rows ← mapM (render_row h) virtualItems;
  mret {| hasContent := negb (loading h) || (len h >? 0); rows := rows |}.

End ConversationList.

(** ** VirtualizedList (components/logs/VirtualizedList.tsx, first component) *)

Module VirtualizedList.

(** The component schedules no timer. *)
Inductive Task := .

Record Deps := {
  dep_attempt : string;             (* attempt.id *)
  dep_len : Z;                      (* entries.length *)
  dep_loading : bool;
  dep_atBottom : bool;
}.

Record Hooks := {
  entries : list PatchTypeWithKey;          (* useState([]) *)
  loading : bool;                           (* useState(true) *)
  atBottom : bool;                          (* useState(true) *)
  didInitScroll : bool;                     (* useRef(false) *)
  prevEntriesLengthRef : Z;                 (* useRef(0) *)
  addTypeRef : AddEntryType;                (* useRef('initial') *)
  rendered : option Deps;                   (* None before mount *)
  unmounted : bool;
  initJumps : nat;                          (* ghost: times the initial-scroll branch ran *)
}.

Record World := {
  hooks : Hooks;
  browser : Browser.t Task;
}.

Definition init : World :=
  {| hooks := {| entries := []; loading := true; atBottom := true;
                 didInitScroll := false; prevEntriesLengthRef := 0;
                 addTypeRef := "initial"; rendered := None;
                 unmounted := false; initJumps := 0 |};
     browser := Browser.init |}.

Definition with_browser (f : Browser.t Task → Browser.t Task) (w : World) : World :=
  {| hooks := hooks w; browser := f (browser w) |}.

Definition with_hooks (f : Hooks → Hooks) (w : World) : World :=
  {| hooks := f (hooks w); browser := browser w |}.

Definition len (h : Hooks) : Z := Z.of_nat (length (entries h)).

(** Effect 1, deps [attempt.id]: refs at once, state queued, [reset()]. *)
Definition resetEffect (w : World) : World :=
  let h := hooks w in
  {| hooks := {| entries := entries h; loading := loading h; atBottom := atBottom h;
                 didInitScroll := false; prevEntriesLengthRef := 0;
                 addTypeRef := addTypeRef h; rendered := rendered h;
                 unmounted := unmounted h; initJumps := initJumps h |};
     browser := Browser.emit [CtxReset] (browser w) |}.

(** [setLoading(true); setEntriesState([])] taking effect. *)
Definition apply_reset (h : Hooks) : Hooks :=
  {| entries := []; loading := true; atBottom := atBottom h;
     didInitScroll := didInitScroll h; prevEntriesLengthRef := prevEntriesLengthRef h;
     addTypeRef := addTypeRef h; rendered := rendered h;
     unmounted := unmounted h; initJumps := initJumps h |}.

(** Effect 2, deps [entries.length, loading]: initial scroll once data appears. *)
Definition initScrollEffect (entries_length : Z) (loading_ : bool) (w : World) : World :=
  let h := hooks w in
  if negb (didInitScroll h) && (entries_length >? 0) && negb loading_ then
    {| hooks := {| entries := entries h; loading := loading h; atBottom := atBottom h;
                   didInitScroll := true; prevEntriesLengthRef := prevEntriesLengthRef h;
                   addTypeRef := addTypeRef h; rendered := rendered h;
                   unmounted := unmounted h; initJumps := S (initJumps h) |};
       browser := Browser.requestAnimationFrame
                    (Browser.FrameScrollToIndex (entries_length - 1) AlignEnd) (browser w) |}
  else w.

(** Effect 3, deps [entries.length, atBottom]: follow new entries if at bottom. *)
Definition autoScrollEffect (entries_length : Z) (atBottom_ : bool) (w : World) : World :=
  let h := hooks w in
  let prev := prevEntriesLengthRef h in
  let grewBy := entries_length - prev in
  let w1 :=
    {| hooks := {| entries := entries h; loading := loading h; atBottom := atBottom h;
                   didInitScroll := didInitScroll h; prevEntriesLengthRef := entries_length;
                   addTypeRef := addTypeRef h; rendered := rendered h;
                   unmounted := unmounted h; initJumps := initJumps h |};
       browser := browser w |} in
  if (grewBy >? 0) && atBottom_ && (entries_length >? 0) && didInitScroll h then
    let addType := addTypeRef h in
    if String.eqb addType "running" || String.eqb addType "plan" then
      with_browser (Browser.requestAnimationFrame
                      (Browser.FrameScrollToIndex (entries_length - 1) AlignEnd)) w1
    else w1
  else w1.

Definition attempt_changed (attempt_id : string) (h : Hooks) : bool :=
  match rendered h with
  | None => true
  | Some d => negb (String.eqb (dep_attempt d) attempt_id)
  end.

Definition init_deps_changed (h : Hooks) : bool :=
  match rendered h with
  | None => true
  | Some d => negb (dep_len d =? len h) || negb (eqb (dep_loading d) (loading h))
  end.

Definition auto_deps_changed (h : Hooks) : bool :=
  match rendered h with
  | None => true
  | Some d => negb (dep_len d =? len h) || negb (eqb (dep_atBottom d) (atBottom h))
  end.

Definition set_rendered (d : Deps) (h : Hooks) : Hooks :=
  {| entries := entries h; loading := loading h; atBottom := atBottom h;
     didInitScroll := didInitScroll h; prevEntriesLengthRef := prevEntriesLengthRef h;
     addTypeRef := addTypeRef h; rendered := Some d;
     unmounted := unmounted h; initJumps := initJumps h |}.

(** One render and its effects, in the order of their declaration. *)
Definition pass (attempt_id : string) (w : World) : World :=
  let h0 := hooks w in
  let w1 := if attempt_changed attempt_id h0 then resetEffect w else w in
  let w2 := if init_deps_changed h0 then initScrollEffect (len h0) (loading h0) w1 else w1 in
  let w3 := if auto_deps_changed h0 then autoScrollEffect (len h0) (atBottom h0) w2 else w2 in
  let w4 := with_hooks (set_rendered {| dep_attempt := attempt_id; dep_len := len h0;
                                        dep_loading := loading h0;
                                        dep_atBottom := atBottom h0 |}) w3 in
  if attempt_changed attempt_id h0 then with_hooks apply_reset w4 else w4.

Definition commit (attempt_id : string) (w : World) : World :=
  pass attempt_id (pass attempt_id w).

Definition rerender (w : World) : World :=
  match rendered (hooks w) with
  | Some d => commit (dep_attempt d) w
  | None => w
  end.

(** What [onEntriesUpdated] assigns; the state cells only while mounted. *)
Definition apply_update (loading_ : bool) (newEntries : list PatchTypeWithKey)
    (addType : AddEntryType) (newLoading : bool) (h : Hooks) : Hooks :=
  {| entries := if unmounted h then entries h else newEntries;
     loading := if unmounted h then loading h
                else if loading_ then newLoading else loading h;
     atBottom := atBottom h;
     didInitScroll := didInitScroll h; prevEntriesLengthRef := prevEntriesLengthRef h;
     addTypeRef := addType; rendered := rendered h;
     unmounted := unmounted h; initJumps := initJumps h |}.

(** [onEntriesUpdated(newEntries, addType, newLoading)], for the instance of
    the callback that closed over [loading_], then the re-render it causes. *)
Definition onEntriesUpdated (loading_ : bool)
    (newEntries : list PatchTypeWithKey) (addType : AddEntryType) (newLoading : bool)
    (w : World) : World :=
  let w1 := {| hooks := apply_update loading_ newEntries addType newLoading (hooks w);
               browser := Browser.emit [CtxSetEntries newEntries] (browser w) |} in
  if unmounted (hooks w) then w1 else rerender w1.

Definition threshold : Z := 100.

Definition set_atBottom (v : bool) (h : Hooks) : Hooks :=
  {| entries := entries h; loading := loading h; atBottom := v;
     didInitScroll := didInitScroll h; prevEntriesLengthRef := prevEntriesLengthRef h;
     addTypeRef := addTypeRef h; rendered := rendered h;
     unmounted := unmounted h; initJumps := initJumps h |}.

(** [checkAtBottom()], the [onScroll] handler. *)
Definition checkAtBottom (parentRef : Ref) (h : Hooks) : js Hooks :=
  let el := parentRef in
  if negb (truthy el) then mret h
  else
    sh ← prop scrollHeight el;
    st ← prop scrollTop el;
    ch ← prop clientHeight el;
    let isAtBottom := sh - st - ch <? threshold in
    mret (set_atBottom isAtBottom h).

Definition set_unmounted (h : Hooks) : Hooks :=
  {| entries := entries h; loading := loading h; atBottom := atBottom h;
     didInitScroll := didInitScroll h; prevEntriesLengthRef := prevEntriesLengthRef h;
     addTypeRef := addTypeRef h; rendered := rendered h;
     unmounted := true; initJumps := initJumps h |}.

Inductive Event :=
  | Render (attempt_id : string)
  | EntriesUpdated (newEntries : list PatchTypeWithKey) (addType : AddEntryType)
      (newLoading : bool)
  | Scroll (el : HTMLDivElement)
  | Layout (r : Ref)
  | Paint
  | Unmount.

(** The component is on the page: it has rendered and was not unmounted. *)
Definition mounted (h : Hooks) : bool :=
  match rendered h with
  | Some _ => negb (unmounted h)
  | None => false
  end.

Definition step (w : World) (e : Event) : js World :=
  match e with
  | Render attempt_id =>
      if unmounted (hooks w) then mret w else mret (commit attempt_id w)
  | EntriesUpdated newEntries addType newLoading =>
      (* the hook exists once the component has rendered, and holds the
         callback of the latest render *)
      if rendered (hooks w) is None then mret w
      else mret (onEntriesUpdated (loading (hooks w)) newEntries addType newLoading w)
  | Scroll el =>
      if negb (mounted (hooks w)) then mret w
      else
        let w1 := with_browser (Browser.set_parentRef (Some el)) w in
        h ← checkAtBottom (Browser.parentRef (browser w1)) (hooks w1);
        mret (rerender {| hooks := h; browser := browser w1 |})
  | Layout r =>
      if negb (mounted (hooks w)) then mret w
      else mret (with_browser (Browser.set_parentRef r) w)
  | Paint => mret (with_browser Browser.paint w)
  | Unmount =>
      if negb (mounted (hooks w)) then mret w
      else mret (with_hooks set_unmounted (with_browser (Browser.set_parentRef None) w))
  end.

Fixpoint run (w : World) (es : list Event) : js World :=
  match es with
  | [] => mret w
  | e :: es => w' ← step w e; run w' es
  end.

(** *** Reading the effects; the states the component can reach *)

(** The guard of effect 2. *)
Definition init_fires (entries_length : Z) (loading_ : bool) (h : Hooks) : bool :=
  negb (didInitScroll h) && (entries_length >? 0) && negb loading_.

(** The outer guard of effect 3. *)
Definition auto_fires (entries_length : Z) (atBottom_ : bool) (h : Hooks) : bool :=
  (entries_length - prevEntriesLengthRef h >? 0) && atBottom_ && (entries_length >? 0)
  && didInitScroll h.

(** The frame callbacks effect 3 queues once its outer guard holds. *)
Definition follow (addType : AddEntryType) (entries_length : Z) : list Browser.Frame :=
  if String.eqb addType "running" || String.eqb addType "plan"
  then [Browser.FrameScrollToIndex (entries_length - 1) AlignEnd]
  else [].

(** The dependencies on record are those of the current state. *)
Definition synced (h : Hooks) : Prop :=
  ∀ d, rendered h = Some d →
    dep_len d = len h ∧ dep_loading d = loading h ∧ dep_atBottom d = atBottom h.

(** Between a handler's assignments and the re-render, the dependencies on
    record still describe the state before. *)
Definition stale (h : Hooks) : Prop :=
  ∃ d, rendered h = Some d ∧ prevEntriesLengthRef h = dep_len d
       ∧ (didInitScroll h = false → dep_len d = 0 ∨ dep_loading d = true).

Record Inv (w : World) : Prop := {
  inv_synced : synced (hooks w);
  inv_prev : rendered (hooks w) ≠ None →
                 prevEntriesLengthRef (hooks w) = len (hooks w);
  inv_init : didInitScroll (hooks w) = false →
                 entries (hooks w) = [] ∨ loading (hooks w) = true;
  inv_fresh : rendered (hooks w) = None → hooks w = hooks init;
}.

Definition reachable (w : World) : Prop := ∃ es, run init es = Ok w.

(** An event that leaves the attempt alone. *)
Definition keeps_attempt (a : string) (e : Event) : Prop :=
  match e with
  | Render a' => a' = a
  | _ => True
  end.

(** The attempt the component was last rendered for, if any, is [a]. *)
Definition attempt_is (a : string) (w : World) : Prop :=
  ∀ d, rendered (hooks w) = Some d → dep_attempt d = a.

(** *** Rendering *)

Record ConvView := {
  rows : list ConvRow;
  overlay : bool;                   (* the "Loading History" overlay, shown while loading *)
}.

Definition render_row (h : Hooks) (virtualRow : VirtualItem) : js ConvRow :=
  data ← at_index (entries h) (index virtualRow);
  mret (conv_row "l-" virtualRow data).

Definition render (h : Hooks) (virtualItems : list VirtualItem) : js ConvView :=
  rows ← mapM (render_row h) virtualItems;
  mret {| rows := rows; overlay := loading h |}.

End VirtualizedList.

(** ** PollingList (components/logs/VirtualizedList.tsx, second component) *)

Module PollingList.

(** The [setInterval] callback.  [elapsed] is the closure's counter as it
    stands before the tick, [entries_length] the length [scrollToEnd] closed
    over. *)
Inductive Task := Poll (elapsed : Z) (entries_length : Z).

Record Deps := {
  dep_attempt : string;             (* attempt.id *)
  dep_len : Z;                      (* entries.length *)
}.

Record Hooks := {
  entries : list PatchTypeWithKey;          (* useState([]) *)
  loading : bool;                           (* useState(true) *)
  interval : option positive;               (* the cleanup React keeps for the scroll
                                               effect: () => clearInterval(interval) *)
  rendered : option Deps;                   (* None before mount *)
  unmounted : bool;
}.

Record World := {
  hooks : Hooks;
  browser : Browser.t Task;
}.

Definition init : World :=
  {| hooks := {| entries := []; loading := true; interval := None;
                 rendered := None; unmounted := false |};
     browser := Browser.init |}.

Definition with_browser (f : Browser.t Task → Browser.t Task) (w : World) : World :=
  {| hooks := hooks w; browser := f (browser w) |}.

Definition with_hooks (f : Hooks → Hooks) (w : World) : World :=
  {| hooks := f (hooks w); browser := browser w |}.

Definition len (h : Hooks) : Z := Z.of_nat (length (entries h)).

(** Effect 1, deps [attempt.id]. *)
Definition resetEffect (w : World) : World :=
  with_browser (Browser.emit [CtxReset]) w.

(** [setLoading(true); setEntriesState([])] taking effect. *)
Definition apply_reset (h : Hooks) : Hooks :=
  {| entries := []; loading := true; interval := interval h;
     rendered := rendered h; unmounted := unmounted h |}.

Definition set_interval (i : option positive) (h : Hooks) : Hooks :=
  {| entries := entries h; loading := loading h; interval := i;
     rendered := rendered h; unmounted := unmounted h |}.

(** [scrollToEnd()] of the render with [entries_length] entries. *)
Definition scrollToEnd (entries_length : Z) : list Command :=
  [ScrollToIndex (entries_length - 1) AlignEnd].

(** The cleanup of the scroll effect, run before the effect runs again and
    at unmount. *)
Definition cleanup (w : World) : World :=
  match interval (hooks w) with
  | Some id => with_hooks (set_interval None) (with_browser (Browser.clearTimeout id) w)
  | None => w
  end.

(** Effect 2, deps [entries.length]: scroll to the last item whenever entries
    change. *)
Definition scrollEffect (entries_length : Z) (w : World) : World :=
  let w0 := cleanup w in
  if entries_length =? 0 then w0
  else
    let b1 := Browser.emit (scrollToEnd entries_length) (browser w0) in
    let '(id, b2) := Browser.setTimeout (Poll 0 entries_length) 50 b1 in
    {| hooks := set_interval (Some id) (hooks w0); browser := b2 |}.

(** [el ? el.scrollHeight - el.scrollTop - el.clientHeight < 50 : false] *)
Definition poll_atBottom (parentRef : Ref) : js bool :=
  let el := parentRef in
  if truthy el then
    sh ← prop scrollHeight el;
    st ← prop scrollTop el;
    ch ← prop clientHeight el;
    mret (sh - st - ch <? 50)
  else mret false.

(** One tick of the interval [id]. *)
Definition poll (id : positive) (elapsed entries_length : Z) (w : World) : js World :=
  let elapsed := elapsed + 50 in
  atBottom ← poll_atBottom (Browser.parentRef (browser w));
  if (atBottom : bool) || (elapsed >=? 500) then
    mret (with_browser (Browser.clearTimeout id) w)
  else
    mret (with_browser
            (λ b, Browser.rearm id (Poll elapsed entries_length) 50
                    (Browser.emit (scrollToEnd entries_length) b)) w).

Definition attempt_changed (attempt_id : string) (h : Hooks) : bool :=
  match rendered h with
  | None => true
  | Some d => negb (String.eqb (dep_attempt d) attempt_id)
  end.

Definition len_changed (h : Hooks) : bool :=
  match rendered h with
  | None => true
  | Some d => negb (dep_len d =? len h)
  end.

Definition set_rendered (d : Deps) (h : Hooks) : Hooks :=
  {| entries := entries h; loading := loading h; interval := interval h;
     rendered := Some d; unmounted := unmounted h |}.

Definition pass (attempt_id : string) (w : World) : World :=
  let h0 := hooks w in
  let w1 := if attempt_changed attempt_id h0 then resetEffect w else w in
  let w2 := if len_changed h0 then scrollEffect (len h0) w1 else w1 in
  let w3 := with_hooks (set_rendered {| dep_attempt := attempt_id; dep_len := len h0 |}) w2 in
  if attempt_changed attempt_id h0 then with_hooks apply_reset w3 else w3.

Definition commit (attempt_id : string) (w : World) : World :=
  pass attempt_id (pass attempt_id w).

Definition rerender (w : World) : World :=
  match rendered (hooks w) with
  | Some d => commit (dep_attempt d) w
  | None => w
  end.

(** What [onEntriesUpdated] assigns; state only while mounted. *)
Definition apply_update (newEntries : list PatchTypeWithKey) (newLoading : bool)
    (h : Hooks) : Hooks :=
  {| entries := if unmounted h then entries h else newEntries;
     loading := if unmounted h then loading h
                else if negb newLoading then false else loading h;
     interval := interval h; rendered := rendered h; unmounted := unmounted h |}.

(** [onEntriesUpdated(newEntries, _addType, newLoading)], then the re-render. *)
Definition onEntriesUpdated
    (newEntries : list PatchTypeWithKey) (_addType : AddEntryType) (newLoading : bool)
    (w : World) : World :=
  let w1 := {| hooks := apply_update newEntries newLoading (hooks w);
               browser := Browser.emit [CtxSetEntries newEntries] (browser w) |} in
  if unmounted (hooks w) then w1 else rerender w1.

Definition set_unmounted (h : Hooks) : Hooks :=
  {| entries := entries h; loading := loading h; interval := interval h;
     rendered := rendered h; unmounted := true |}.

Inductive Event :=
  | Render (attempt_id : string)
  | EntriesUpdated (newEntries : list PatchTypeWithKey) (addType : AddEntryType)
      (newLoading : bool)
  | Layout (r : Ref)                (* the container is attached, detached, resized
                                       or scrolled; the component has no onScroll *)
  | Advance (dt : Z)
  | Timeout (id : positive)         (* the browser runs interval [id] if it is due *)
  | Unmount.

(** The component is on the page: it has rendered and was not unmounted. *)
Definition mounted (h : Hooks) : bool :=
  match rendered h with
  | Some _ => negb (unmounted h)
  | None => false
  end.

Definition step (w : World) (e : Event) : js World :=
  match e with
  | Render attempt_id =>
      if unmounted (hooks w) then mret w else mret (commit attempt_id w)
  | EntriesUpdated newEntries addType newLoading =>
      (* the hook exists once the component has rendered *)
      if rendered (hooks w) is None then mret w
      else mret (onEntriesUpdated newEntries addType newLoading w)
  | Layout r =>
      if negb (mounted (hooks w)) then mret w
      else mret (with_browser (Browser.set_parentRef r) w)
  | Advance dt => mret (with_browser (Browser.advance dt) w)
  | Timeout id =>
      match Browser.due id (browser w) with
      | Some (Poll elapsed entries_length) => poll id elapsed entries_length w
      | None => mret w
      end
  | Unmount =>
      if negb (mounted (hooks w)) then mret w
      else mret (with_hooks set_unmounted
                   (with_browser (Browser.set_parentRef None) (cleanup w)))
  end.

Fixpoint run (w : World) (es : list Event) : js World :=
  match es with
  | [] => mret w
  | e :: es => w' ← step w e; run w' es
  end.

(** *** The states the component can reach *)

Record Inv (w : World) : Prop := {
  inv_synced : ∀ d, rendered (hooks w) = Some d → dep_len d = len (hooks w);
  inv_fresh : rendered (hooks w) = None → hooks w = hooks init;
}.

Definition reachable (w : World) : Prop := ∃ es, run init es = Ok w.

(** An event that leaves the attempt alone. *)
Definition keeps_attempt (a : string) (e : Event) : Prop :=
  match e with
  | Render a' => a' = a
  | _ => True
  end.

(** The attempt the component was last rendered for, if any, is [a]. *)
Definition attempt_is (a : string) (w : World) : Prop :=
  ∀ d, rendered (hooks w) = Some d → dep_attempt d = a.

(** *** Rendering *)

Record ConvView := {
  rows : list (option ConvRow);     (* a row may be [null] *)
  overlay : bool;
}.

(** [if (!data) return null] guards the property reads. *)
Definition render_row (h : Hooks) (virtualRow : VirtualItem) : js (option ConvRow) :=
  let data := entries h !! index virtualRow in
  match data with
  | None => mret None
  | Some d => mret (Some (conv_row "l-" virtualRow d))
  end.

Definition render (h : Hooks) (virtualItems : list VirtualItem) : js ConvView :=
  rows ← mapM (render_row h) virtualItems;
  mret {| rows := rows; overlay := loading h |}.

End PollingList.

(** ** CachedProcessLogs (ConversationListContainer.tsx, second component) *)

Module CachedProcessLogs.

Record Props := {
  logs : list LogEntry;
  error : option string;            (* string | null *)
  searchQuery : string;
  matchIndices : list Z;
  currentMatchIndex : Z;
}.

(** The component schedules no timer. *)
Inductive Task := .

Record Hooks := {
  atBottom : bool;                        (* useState(true) *)
  didInitScroll : bool;                   (* useRef(false) *)
  prevLogsLengthRef : Z;                  (* useRef(0) *)
  prevCurrentMatchRef : option Z;         (* useRef<number | undefined>(undefined) *)
  rendered : option (Props * bool);       (* props and atBottom of the last commit *)
  unmounted : bool;
  initJumps : nat;                        (* ghost: times the initial-scroll branch ran *)
}.

Record World := {
  hooks : Hooks;
  browser : Browser.t Task;
}.

Definition init : World :=
  {| hooks := {| atBottom := true; didInitScroll := false; prevLogsLengthRef := 0;
                 prevCurrentMatchRef := None; rendered := None;
                 unmounted := false; initJumps := 0 |};
     browser := Browser.init |}.

Definition with_browser (f : Browser.t Task → Browser.t Task) (w : World) : World :=
  {| hooks := hooks w; browser := f (browser w) |}.

Definition with_hooks (f : Hooks → Hooks) (w : World) : World :=
  {| hooks := f (hooks w); browser := browser w |}.

Definition threshold : Z := 50.

Definition set_atBottom (v : bool) (h : Hooks) : Hooks :=
  {| atBottom := v; didInitScroll := didInitScroll h;
     prevLogsLengthRef := prevLogsLengthRef h;
     prevCurrentMatchRef := prevCurrentMatchRef h; rendered := rendered h;
     unmounted := unmounted h; initJumps := initJumps h |}.

(** [checkAtBottom()], the [onScroll] handler. *)
Definition checkAtBottom (parentRef : Ref) (h : Hooks) : js Hooks :=
  let el := parentRef in
  if negb (truthy el) then mret h
  else
    sh ← prop scrollHeight el;
    st ← prop scrollTop el;
    ch ← prop clientHeight el;
    let isAtBottom := sh - st - ch <? threshold in
    mret (set_atBottom isAtBottom h).

Definition len (p : Props) : Z := Z.of_nat (length (logs p)).

(** Effect 1, deps [logs.length]: initial scroll to bottom. *)
Definition initScrollEffect (p : Props) (w : World) : World :=
  let h := hooks w in
  if negb (didInitScroll h) && (len p >? 0) then
    {| hooks := {| atBottom := atBottom h; didInitScroll := true;
                   prevLogsLengthRef := prevLogsLengthRef h;
                   prevCurrentMatchRef := prevCurrentMatchRef h;
                   rendered := rendered h; unmounted := unmounted h;
                   initJumps := S (initJumps h) |};
       browser := Browser.requestAnimationFrame
                    (Browser.FrameScrollToIndex (len p - 1) AlignEnd) (browser w) |}
  else w.

(** Effect 2, deps [logs.length, atBottom]: follow new logs if at bottom. *)
Definition autoScrollEffect (p : Props) (atBottom_ : bool) (w : World) : World :=
  let h := hooks w in
  let prev := prevLogsLengthRef h in
  let grewBy := len p - prev in
  let w1 :=
    {| hooks := {| atBottom := atBottom h; didInitScroll := didInitScroll h;
                   prevLogsLengthRef := len p;
                   prevCurrentMatchRef := prevCurrentMatchRef h;
                   rendered := rendered h; unmounted := unmounted h;
                   initJumps := initJumps h |};
       browser := browser w |} in
  if (grewBy >? 0) && atBottom_ && (len p >? 0) then
    with_browser (Browser.requestAnimationFrame
                    (Browser.FrameScrollToIndex (len p - 1) AlignEnd)) w1
  else w1.

(** [currentMatchIndex !== prevCurrentMatchRef.current] *)
Definition differs (i : Z) (prev : option Z) : bool :=
  match prev with Some j => negb (i =? j) | None => true end.

(** Effect 3, deps [currentMatchIndex, matchIndices]: scroll to the current
    search match. *)
Definition matchEffect (p : Props) (w : World) : World :=
  let h := hooks w in
  if (Z.of_nat (length (matchIndices p)) >? 0) && (currentMatchIndex p >=? 0)
     && differs (currentMatchIndex p) (prevCurrentMatchRef h) then
    {| hooks := {| atBottom := atBottom h; didInitScroll := didInitScroll h;
                   prevLogsLengthRef := prevLogsLengthRef h;
                   prevCurrentMatchRef := Some (currentMatchIndex p);
                   rendered := rendered h; unmounted := unmounted h;
                   initJumps := initJumps h |};
       browser := Browser.emit
         [ScrollToMatch (matchIndices p !! Z.to_nat (currentMatchIndex p))]
         (browser w) |}
  else w.

Definition len_changed (p : Props) (h : Hooks) : bool :=
  match rendered h with
  | None => true
  | Some (q, _) => negb (len q =? len p)
  end.

Definition auto_deps_changed (p : Props) (h : Hooks) : bool :=
  match rendered h with
  | None => true
  | Some (q, ab) => negb (len q =? len p) || negb (eqb ab (atBottom h))
  end.

Definition match_changed (p : Props) (h : Hooks) : bool :=
  match rendered h with
  | None => true
  | Some (q, _) => negb (currentMatchIndex q =? currentMatchIndex p)
                   || negb (bool_decide (matchIndices q = matchIndices p))
  end.

Definition set_rendered (p : Props) (ab : bool) (h : Hooks) : Hooks :=
  {| atBottom := atBottom h; didInitScroll := didInitScroll h;
     prevLogsLengthRef := prevLogsLengthRef h;
     prevCurrentMatchRef := prevCurrentMatchRef h; rendered := Some (p, ab);
     unmounted := unmounted h; initJumps := initJumps h |}.

Definition set_unmounted (h : Hooks) : Hooks :=
  {| atBottom := atBottom h; didInitScroll := didInitScroll h;
     prevLogsLengthRef := prevLogsLengthRef h;
     prevCurrentMatchRef := prevCurrentMatchRef h; rendered := rendered h;
     unmounted := true; initJumps := initJumps h |}.

(** One commit: the effects in the order of their declaration; none sets
    state. *)
Definition commit (p : Props) (w : World) : World :=
  let h0 := hooks w in
  let w1 := if len_changed p h0 then initScrollEffect p w else w in
  let w2 := if auto_deps_changed p h0 then autoScrollEffect p (atBottom h0) w1 else w1 in
  let w3 := if match_changed p h0 then matchEffect p w2 else w2 in
  with_hooks (set_rendered p (atBottom h0)) w3.

Definition rerender (w : World) : World :=
  match rendered (hooks w) with
  | Some (p, _) => commit p w
  | None => w
  end.

Inductive Event :=
  | Render (p : Props)
  | Scroll (el : HTMLDivElement)
  | Layout (r : Ref)
  | Paint
  | Unmount.

(** The component is on the page: it has rendered and was not unmounted. *)
Definition mounted (h : Hooks) : bool :=
  match rendered h with
  | Some _ => negb (unmounted h)
  | None => false
  end.

Definition step (w : World) (e : Event) : js World :=
  match e with
  | Render p =>
      if unmounted (hooks w) then mret w else mret (commit p w)
  | Scroll el =>
      if negb (mounted (hooks w)) then mret w
      else
        let w1 := with_browser (Browser.set_parentRef (Some el)) w in
        h ← checkAtBottom (Browser.parentRef (browser w1)) (hooks w1);
        mret (rerender {| hooks := h; browser := browser w1 |})
  | Layout r =>
      if negb (mounted (hooks w)) then mret w
      else mret (with_browser (Browser.set_parentRef r) w)
  | Paint => mret (with_browser Browser.paint w)
  | Unmount =>
      if negb (mounted (hooks w)) then mret w
      else mret (with_hooks set_unmounted (with_browser (Browser.set_parentRef None) w))
  end.

Fixpoint run (w : World) (es : list Event) : js World :=
  match es with
  | [] => mret w
  | e :: es => w' ← step w e; run w' es
  end.

(** *** The states the component can reach *)

Record Inv (w : World) : Prop := {
  inv_prev : ∀ p ab, rendered (hooks w) = Some (p, ab) →
               prevLogsLengthRef (hooks w) = len p ∧ ab = atBottom (hooks w);
  inv_init : ∀ p ab, rendered (hooks w) = Some (p, ab) → logs p ≠ [] →
               didInitScroll (hooks w) = true;
  inv_count : initJumps (hooks w) = (if didInitScroll (hooks w) then 1 else 0)%nat;
  inv_fresh : rendered (hooks w) = None → hooks w = hooks init;
}.

Definition reachable (w : World) : Prop := ∃ es, run init es = Ok w.

(** The guard of effect 3 in a render with props [p]. *)
Definition match_fires (p : Props) (h : Hooks) : bool :=
  match_changed p h
  && ((Z.of_nat (length (matchIndices p)) >? 0) && (currentMatchIndex p >=? 0)
      && differs (currentMatchIndex p) (prevCurrentMatchRef h)).

(** What effect 3 asks of the virtualizer in that render. *)
Definition search_scroll (p : Props) (h : Hooks) : list Command :=
  if match_fires p h
  then [ScrollToMatch (matchIndices p !! Z.to_nat (currentMatchIndex p))]
  else [].

(** *** Rendering (as in VirtualizedProcessLogs.tsx) *)

Record LogEntryWithKey := {
  entry : LogEntry;
  key : string;
  originalIndex : nat;
}.

Record Row := {
  row_key : string;
  row_start : Z;
  row_content : string;
  row_channel : Channel;
  row_searchQuery : option string;
  row_isCurrentMatch : bool;
}.

Definition logsWithKeys (p : Props) : list LogEntryWithKey :=
  imap (λ index entry,
          {| entry := entry; key := "log-" +:+ pretty index; originalIndex := index |})
       (logs p).

Definition includes (l : list Z) (k : nat) : bool :=
  bool_decide (Z.of_nat k ∈ l).

Definition is_current (p : Props) (k : nat) : bool :=
  if currentMatchIndex p <? 0 then false
  else bool_decide (matchIndices p !! Z.to_nat (currentMatchIndex p) = Some (Z.of_nat k)).

Definition render_row (p : Props) (virtualRow : VirtualItem) : js Row :=
  data ← at_index (logsWithKeys p) (index virtualRow);
  let isMatch := includes (matchIndices p) (originalIndex data) in
  let isCurrentMatch := is_current p (originalIndex data) in
  mret {| row_key := key data; row_start := start virtualRow;
          row_content := log_content (entry data);
          row_channel := log_channel (entry data);
          row_searchQuery := if isMatch then Some (searchQuery p) else None;
          row_isCurrentMatch := isCurrentMatch |}.

Definition render (p : Props) (virtualItems : list VirtualItem) : js (View Row) :=
  if (len p =? 0) && negb (truthy_string (error p)) then mret NoLogs
  else if truthy_string (error p) then
    mret (ErrorView (default "" (error p)))
  else
    rows ← mapM (render_row p) virtualItems;
    mret (ListView rows).

(** The row that shows entry [e] at the place of the visible item [vi]. *)
Definition row_of (p : Props) (vi : VirtualItem) (e : LogEntry) : Row :=
  {| row_key := "log-" +:+ pretty (index vi); row_start := start vi;
     row_content := log_content e; row_channel := log_channel e;
     row_searchQuery := if includes (matchIndices p) (index vi)
                        then Some (searchQuery p) else None;
     row_isCurrentMatch := is_current p (index vi) |}.

End CachedProcessLogs.

(** ** Sample data for the worked examples *)

Module Sample.

(** A container 20 px above its bottom, and one scrolled all the way up. *)
Definition near_bottom : HTMLDivElement :=
  {| scrollHeight := 1000; scrollTop := 880; clientHeight := 100 |}.
Definition scrolled_up : HTMLDivElement :=
  {| scrollHeight := 1000; scrollTop := 0; clientHeight := 100 |}.

Definition line1 : LogEntry := LOG_STDOUT "compiling".
Definition line2 : LogEntry := LOG_STDERR "warning: unused variable".

Definition e1 : PatchTypeWithKey := STDOUT "compiling" "k1" "proc-1".
Definition e2 : PatchTypeWithKey := NORMALIZED_ENTRY "plan ready" "k2" "proc-1".

Definition row0 : VirtualItem := {| index := 0; start := 0 |}.
Definition row1 : VirtualItem := {| index := 1; start := 24 |}.

(** The world a run ends in (the run's start if it throws). *)
Definition outcome {W} (start : W) (m : js W) : W :=
  match m with
  | Ok w => w
  | TypeError => start
  end.

(** ProcessLogsViewerContent with one line, then two. *)
Definition pv_one : ProcessLogsViewerContent.Props :=
  {| ProcessLogsViewerContent.logs := [line1]; ProcessLogsViewerContent.error := None |}.
Definition pv_two : ProcessLogsViewerContent.Props :=
  {| ProcessLogsViewerContent.logs := [line1; line2];
     ProcessLogsViewerContent.error := None |}.
Definition pv_shown : ProcessLogsViewerContent.World :=
  outcome ProcessLogsViewerContent.init
    (ProcessLogsViewerContent.run ProcessLogsViewerContent.init
       [ProcessLogsViewerContent.Render pv_one]).

(** VirtualizedProcessLogs with one line, then two; no search. *)
Definition vp_one : VirtualizedProcessLogs.Props :=
  VirtualizedProcessLogs.Build_Props [line1] None "" [] 0.
Definition vp_two : VirtualizedProcessLogs.Props :=
  VirtualizedProcessLogs.Build_Props [line1; line2] None "" [] 0.
Definition vp_shown : VirtualizedProcessLogs.World :=
  outcome VirtualizedProcessLogs.init
    (VirtualizedProcessLogs.run VirtualizedProcessLogs.init
       [VirtualizedProcessLogs.Render vp_one]).

(** CachedProcessLogs likewise. *)
Definition cp_one : CachedProcessLogs.Props :=
  CachedProcessLogs.Build_Props [line1] None "" [] 0.
Definition cp_two : CachedProcessLogs.Props :=
  CachedProcessLogs.Build_Props [line1; line2] None "" [] 0.
Definition cp_shown : CachedProcessLogs.World :=
  outcome CachedProcessLogs.init
    (CachedProcessLogs.run CachedProcessLogs.init [CachedProcessLogs.Render cp_one]).

(** ConversationList: mounted for attempt "a1"; one entry arrived and was
    applied after the debounce window; the user then scrolled up. *)
Definition cl_mount : list ConversationList.Event :=
  [ConversationList.Render "a1"].
Definition cl_first_entry : list ConversationList.Event :=
  [ConversationList.Render "a1";
   ConversationList.EntriesUpdated [e1] "running" false;
   ConversationList.Advance 100;
   ConversationList.Timeout 1;
   ConversationList.Paint].
Definition cl_scrolled_up : list ConversationList.Event :=
  cl_first_entry ++ [ConversationList.Scroll scrolled_up].
Definition cl_mounted : ConversationList.World :=
  outcome ConversationList.init (ConversationList.run ConversationList.init cl_mount).
Definition cl_loaded : ConversationList.World :=
  outcome ConversationList.init (ConversationList.run ConversationList.init cl_first_entry).
Definition cl_away : ConversationList.World :=
  outcome ConversationList.init (ConversationList.run ConversationList.init cl_scrolled_up).
(** A further update, of add type 'plan', pending and due in [cl_away]. *)
Definition cl_plan_pending : ConversationList.World :=
  outcome ConversationList.init
    (ConversationList.run cl_away
       [ConversationList.EntriesUpdated [e1; e2] "plan" false;
        ConversationList.Advance 100]).

(** VirtualizedList and PollingList: mounted, one entry, loading finished. *)
Definition vl_first_entry : list VirtualizedList.Event :=
  [VirtualizedList.Render "a1";
   VirtualizedList.EntriesUpdated [e1] "running" false].
Definition vl_loaded : VirtualizedList.World :=
  outcome VirtualizedList.init (VirtualizedList.run VirtualizedList.init vl_first_entry).

Definition pl_first_entry : list PollingList.Event :=
  [PollingList.Render "a1";
   PollingList.EntriesUpdated [e1] "running" false;
   PollingList.Layout (Some scrolled_up)].
Definition pl_loaded : PollingList.World :=
  outcome PollingList.init (PollingList.run PollingList.init pl_first_entry).

(** The three conversation lists showing two entries. *)
Definition cl_two : ConversationList.World :=
  outcome ConversationList.init
    (ConversationList.run cl_plan_pending [ConversationList.Timeout 2]).
Definition vl_two : VirtualizedList.World :=
  outcome VirtualizedList.init
    (VirtualizedList.run vl_loaded [VirtualizedList.EntriesUpdated [e1; e2] "running" false]).
Definition pl_two : PollingList.World :=
  outcome PollingList.init
    (PollingList.run pl_loaded [PollingList.EntriesUpdated [e1; e2] "running" false]).


End Sample.

(** ** SearchableDropdown (second component of tasks/TaskDetails/ProcessLogsViewer.tsx) *)

Module SearchableDropdown.
Section SearchableDropdown.
(** The component is generic in the item type. *)
Context {T : Type}.

(** The props the component reads.  The callbacks are handed
    [filteredItems[virtualRow.index]] as it is: an item, or [undefined] for an
    index past the end ([None]).  [trigger], [open], [onOpenChange],
    [onKeyDown], [onSearchTermChange] and [contentClassName] are passed on
    unread. *)
Record Props := {
  filteredItems : list T;
  selectedValue : option string;              (* string | null | undefined *)
  getItemKey : option T → string;
  getItemLabel : option T → string;
  getItemBadge : option (option T → option string);   (* optional prop *)
  searchTerm : string;
  highlightedIndex : option Z;                (* number | null *)
  placeholder : option string;                (* default 'Search' *)
  emptyMessage : option string;               (* default 'No items found' *)
}.

Record Row := {
  row_key : string;                 (* key={key ?? virtualRow.index}; the key is a string *)
  row_start : Z;                    (* translateY(start px) *)
  row_label : string;               (* {getItemLabel(item)} *)
  row_badge : option string;        (* badge={getItemBadge?.(item)} *)
  row_isSelected : bool;
  row_isHighlighted : bool;
  row_onSelect : option T;          (* what onSelect is called with *)
  row_onMouseEnter : nat;           (* what onHighlightedIndexChange is called with *)
}.

Inductive Body :=
  | EmptyMessage (message : string)   (* no scroll container is rendered *)
  | Items (rows : list Row).

Record View := {
  input_placeholder : string;
  input_value : string;
  body : Body;
}.

(** [selectedValue === key] *)
Definition is_selected (p : Props) (key : string) : bool :=
  match selectedValue p with
  | Some v => String.eqb v key
  | None => false
  end.

(** [virtualRow.index === highlightedIndex] *)
Definition is_highlighted (p : Props) (i : nat) : bool :=
  match highlightedIndex p with
  | Some k => Z.of_nat i =? k
  | None => false
  end.

Definition render_row (p : Props) (virtualRow : VirtualItem) : Row :=
  let item := filteredItems p !! index virtualRow in
  let key := getItemKey p item in
  let isHighlighted := is_highlighted p (index virtualRow) in
  let isSelected := is_selected p key in
  {| row_key := key; row_start := start virtualRow;
     row_label := getItemLabel p item;
     row_badge := match getItemBadge p with Some f => f item | None => None end;
     row_isSelected := isSelected; row_isHighlighted := isHighlighted;
     row_onSelect := item; row_onMouseEnter := index virtualRow |}.

(** The component's return value, given the rows the virtualizer reports. *)
Definition render (p : Props) (virtualItems : list VirtualItem) : View :=
  {| input_placeholder := default "Search" (placeholder p);
     input_value := searchTerm p;
     body := if Z.of_nat (length (filteredItems p)) =? 0
             then EmptyMessage (default "No items found" (emptyMessage p))
             else Items (map (render_row p) virtualItems) |}.

End SearchableDropdown.
Arguments Props : clear implicits.
Arguments Row : clear implicits.
Arguments Body : clear implicits.
Arguments View : clear implicits.
End SearchableDropdown.

(** ** Timer schedules of the log viewers *)

(** The browser runs the retry chain of the initial scroll: timer [id] first,
    then, 100 ms apart, the timers that [doScroll] arms one after the other
    ([next] is the id the next [setTimeout] hands out). *)
Fixpoint viewer_retry_chain (k : nat) (id next : positive)
  : list ProcessLogsViewerContent.Event :=
  ProcessLogsViewerContent.Timeout id ::
  match k with
  | O => []
  | S k' => ProcessLogsViewerContent.Advance 100
            :: viewer_retry_chain k' next (Pos.succ next)
  end.

Fixpoint logs_retry_chain (k : nat) (id next : positive)
  : list VirtualizedProcessLogs.Event :=
  VirtualizedProcessLogs.Timeout id ::
  match k with
  | O => []
  | S k' => VirtualizedProcessLogs.Advance 100
            :: logs_retry_chain k' next (Pos.succ next)
  end.

(** ** Keys of conversation rows *)

(** [data.patchKey] *)
Definition patch_key (data : PatchTypeWithKey) : string :=
  match data with
  | STDOUT _ patchKey _ | STDERR _ patchKey _ | NORMALIZED_ENTRY _ patchKey _ => patchKey
  end.

(** The [key] prop of a rendered conversation row. *)
Definition conv_row_key (r : ConvRow) : string :=
  match r with
  | Paragraph key _ _ _ | DisplayEntry key _ _ _ _ _ => key
  end.

(** ** Ticks of the polling list's interval *)

(** One tick per container state in [rs]: the container is found in that
    state, 50 ms pass, and the browser runs the interval [id]. *)
Definition poll_ticks (id : positive) (rs : list Ref) : list PollingList.Event :=
  flat_map (λ r, [PollingList.Layout r; PollingList.Advance 50; PollingList.Timeout id]) rs.

(** Every timer in the table is the interval the scroll effect's cleanup
    holds. *)
Definition poll_owned (w : PollingList.World) : Prop :=
  ∀ id t, Browser.timers (PollingList.browser w) !! id = Some t →
          PollingList.interval (PollingList.hooks w) = Some id.

(** A polling list that shows no entries has no interval pending. *)
Definition poll_idle_when_empty (w : PollingList.World) : Prop :=
  PollingList.entries (PollingList.hooks w) = [] →
  Browser.timers (PollingList.browser w) = ∅.

(** ** The component's calls to the entries context *)

(** The list the component last handed to the entries context: the argument
    of its last [setEntries] call, the empty list if its last call was
    [reset()] or if it has made none. *)
Definition ctx_told (cs : list Command) : list PatchTypeWithKey :=
  fold_left (λ acc c, match c with
                      | CtxSetEntries entries => entries
                      | CtxReset => []
                      | _ => acc
                      end) cs [].

(** While the first VirtualizedList is loading, it has not made its initial
    scroll. *)
Definition vl_loading_uninit (w : VirtualizedList.World) : Prop :=
  VirtualizedList.loading (VirtualizedList.hooks w) = true →
  VirtualizedList.didInitScroll (VirtualizedList.hooks w) = false.

(** * Properties *)

(** ** Proof tools *)

Ltac js_simpl :=
  cbn [mbind mret js_bind js_ret Dom.prop Dom.truthy negb] in *.

Ltac js_ok := unfold succeeds; js_simpl; eauto.





(** ** The at-bottom test *)

Lemma viewer_isAtBottom_el el :
  ProcessLogsViewerContent.isAtBottom (Some el)
  = Ok (scrollHeight el - scrollTop el - clientHeight el <? 50).
Proof. reflexivity. Qed.

Lemma logs_isAtBottom_el el :
  VirtualizedProcessLogs.isAtBottom (Some el)
  = Ok (scrollHeight el - scrollTop el - clientHeight el <? 50).
Proof. reflexivity. Qed.

Lemma cached_checkAtBottom_el el h :
  CachedProcessLogs.checkAtBottom (Some el) h
  = Ok (CachedProcessLogs.set_atBottom
          (scrollHeight el - scrollTop el - clientHeight el <? 50) h).
Proof. reflexivity. Qed.

Lemma conversation_checkAtBottom_el el h :
  ConversationList.checkAtBottom (Some el) h
  = Ok (ConversationList.set_atBottom
          (scrollHeight el - scrollTop el - clientHeight el <? 100) h).
Proof. reflexivity. Qed.

Lemma list_checkAtBottom_el el h :
  VirtualizedList.checkAtBottom (Some el) h
  = Ok (VirtualizedList.set_atBottom
          (scrollHeight el - scrollTop el - clientHeight el <? 100) h).
Proof. reflexivity. Qed.

Ltac browser_simpl :=
  cbn [Browser.now Browser.timers Browser.next_timer Browser.frames Browser.parentRef
       Browser.out negb andb orb fst snd] in *.

Ltac boolify :=
  repeat match goal with
  | H : negb _ = true |- _ => apply negb_true_iff in H
  | H : negb _ = false |- _ => apply negb_false_iff in H
  | H : _ && _ = true |- _ => apply andb_true_iff in H; destruct H
  | H : _ || _ = false |- _ => apply orb_false_iff in H; destruct H
  | H : (_ =? _)%Z = true |- _ => apply Z.eqb_eq in H
  | H : (_ =? _)%Z = false |- _ => apply Z.eqb_neq in H
  | H : (_ >? _)%Z = true |- _ => rewrite Z.gtb_ltb in H; apply Z.ltb_lt in H
  | H : (_ >? _)%Z = false |- _ => rewrite Z.gtb_ltb in H; apply Z.ltb_ge in H
  | H : (_ <? _)%Z = true |- _ => apply Z.ltb_lt in H
  | H : (_ <? _)%Z = false |- _ => apply Z.ltb_ge in H
  | H : eqb _ _ = true |- _ => apply eqb_prop in H
  | H : eqb _ _ = false |- _ => apply eqb_false_iff in H
  | H : String.eqb _ _ = true |- _ => apply String.eqb_eq in H
  | H : String.eqb _ _ = false |- _ => apply String.eqb_neq in H
  end.

Lemma due_lookup {Task} id (b : Browser.t Task) task :
  Browser.due id b = Some task →
  ∃ at_, Browser.timers b !! id = Some (at_, task) ∧ at_ ≤ Browser.now b.
Proof.
  unfold Browser.due. destruct (Browser.timers b !! id) as [[at_ t]|]; [|done].
  destruct (at_ <=? Browser.now b) eqn:E; [|done]. intros [= ->].
  exists at_. split; [done|]. by apply Z.leb_le.
Qed.

(** ** ConversationList: renders, commits and the invariant *)

Section ConversationListFacts.
Import ConversationList.

Ltac cl_simpl :=
  cbn [hooks browser entries loading atBottom didInitScroll prevEntriesLengthRef addTypeRef
       pendingUpdateRef debounceTimeoutRef rendered unmounted initJumps
       dep_attempt dep_len dep_loading dep_atBottom
       pending_entries pending_addType pending_loading] in *;
  browser_simpl.

Lemma cl_initScrollEffect_eq n l h b :
  initScrollEffect n l {| hooks := h; browser := b |} =
  {| hooks :=
       {| entries := entries h; loading := loading h; atBottom := atBottom h;
          didInitScroll := didInitScroll h || init_fires n l h;
          prevEntriesLengthRef := prevEntriesLengthRef h;
          addTypeRef := addTypeRef h; pendingUpdateRef := pendingUpdateRef h;
          debounceTimeoutRef := debounceTimeoutRef h; rendered := rendered h;
          unmounted := unmounted h;
          initJumps := if init_fires n l h then S (initJumps h) else initJumps h |};
     browser :=
       {| Browser.now := Browser.now b; Browser.timers := Browser.timers b;
          Browser.next_timer := Browser.next_timer b;
          Browser.frames := Browser.frames b ++
            (if init_fires n l h then [Browser.FrameScrollToIndex (n - 1) AlignEnd] else []);
          Browser.parentRef := Browser.parentRef b; Browser.out := Browser.out b |} |}.
Proof.
  unfold initScrollEffect, init_fires. cl_simpl.
  destruct (negb (didInitScroll h) && (n >? 0) && negb l) eqn:E.
  - rewrite orb_true_r. reflexivity.
  - rewrite orb_false_r, app_nil_r. by destruct h, b.
Qed.

Lemma cl_autoScrollEffect_eq n ab l h b :
  autoScrollEffect n ab l {| hooks := h; browser := b |} =
  {| hooks :=
       {| entries := entries h; loading := loading h; atBottom := atBottom h;
          didInitScroll := didInitScroll h;
          prevEntriesLengthRef := n;
          addTypeRef := addTypeRef h; pendingUpdateRef := pendingUpdateRef h;
          debounceTimeoutRef := debounceTimeoutRef h; rendered := rendered h;
          unmounted := unmounted h; initJumps := initJumps h |};
     browser :=
       {| Browser.now := Browser.now b; Browser.timers := Browser.timers b;
          Browser.next_timer := Browser.next_timer b;
          Browser.frames := Browser.frames b ++
            (if auto_fires n h then follow (addTypeRef h) n ab l else []);
          Browser.parentRef := Browser.parentRef b; Browser.out := Browser.out b |} |}.
Proof.
  unfold autoScrollEffect, auto_fires, follow, with_browser, Browser.requestAnimationFrame.
  cl_simpl.
  destruct ((n - prevEntriesLengthRef h >? 0) && (n >? 0) && didInitScroll h).
  - destruct (String.eqb (addTypeRef h) "plan" && negb l); [reflexivity|].
    destruct (String.eqb (addTypeRef h) "running" && negb l && ab); [reflexivity|].
    rewrite app_nil_r. by destruct b.
  - rewrite app_nil_r. by destruct b.
Qed.


Lemma cl_pass_eq a h b :
  let ch := attempt_changed a h in
  let n := len h in
  let did1 := if ch then false else didInitScroll h in
  let prev1 := if ch then 0 else prevEntriesLengthRef h in
  let fire_init := init_deps_changed h && (negb did1 && (n >? 0) && negb (loading h)) in
  let did3 := did1 || fire_init in
  let fire_auto := auto_deps_changed h && ((n - prev1 >? 0) && (n >? 0) && did3) in
  pass a {| hooks := h; browser := b |} =
  {| hooks :=
       {| entries := if ch then [] else entries h;
          loading := if ch then true else loading h;
          atBottom := atBottom h;
          didInitScroll := did3;
          prevEntriesLengthRef := if auto_deps_changed h then n else prev1;
          addTypeRef := addTypeRef h;
          pendingUpdateRef := pendingUpdateRef h;
          debounceTimeoutRef := debounceTimeoutRef h;
          rendered := Some {| dep_attempt := a; dep_len := n; dep_loading := loading h;
                              dep_atBottom := atBottom h |};
          unmounted := unmounted h;
          initJumps := if fire_init then S (initJumps h) else initJumps h |};
     browser :=
       {| Browser.now := Browser.now b;
          Browser.timers := Browser.timers b;
          Browser.next_timer := Browser.next_timer b;
          Browser.frames :=
            (Browser.frames b
             ++ (if fire_init then [Browser.FrameScrollToIndex (n - 1) AlignEnd] else []))
             ++ (if fire_auto then follow (addTypeRef h) n (atBottom h) (loading h) else []);
          Browser.parentRef := Browser.parentRef b;
          Browser.out := Browser.out b ++ (if ch then [CtxReset] else []) |} |}.
Proof.
  cbn zeta. unfold pass. cl_simpl.
  generalize (attempt_changed a h) (init_deps_changed h) (auto_deps_changed h) (len h).
  intros ch ci ca n.
  destruct ch, ci, ca; unfold resetEffect, with_hooks, set_rendered, apply_reset, Browser.emit;
    cl_simpl; rewrite ?cl_initScrollEffect_eq, ?cl_autoScrollEffect_eq;
    unfold init_fires, auto_fires; cl_simpl; rewrite ?app_nil_r, ?orb_false_r;
    try reflexivity.
  all: destruct h, b; reflexivity.
Qed.


Lemma cl_attempt_changed_after a h b :
  attempt_changed a (hooks (pass a {| hooks := h; browser := b |})) = false.
Proof.
  rewrite cl_pass_eq. cl_simpl. unfold attempt_changed. cl_simpl.
  by rewrite String.eqb_refl.
Qed.

Lemma cl_synced_no_deps_change h :
  synced h → rendered h ≠ None →
  init_deps_changed h = false ∧ auto_deps_changed h = false.
Proof.
  unfold synced, init_deps_changed, auto_deps_changed.
  destruct (rendered h) as [d|]; [|done]. intros Hs _.
  destruct (Hs d eq_refl) as (-> & -> & ->).
  rewrite Z.eqb_refl, !eqb_reflx. done.
Qed.

(** A second pass with nothing changed is the identity. *)
Lemma cl_pass_stable a h b :
  attempt_changed a h = false → synced h →
  pass a {| hooks := h; browser := b |} = {| hooks := h; browser := b |}.
Proof.
  intros Ha Hs. rewrite cl_pass_eq. cbn zeta. rewrite Ha.
  unfold attempt_changed in Ha. destruct (rendered h) as [d|] eqn:Hd; [|done].
  assert (Hne : rendered h ≠ None) by congruence.
  destruct (cl_synced_no_deps_change h Hs Hne) as [Hi Hau].
  rewrite Hi.
  rewrite Hau.
  destruct (Hs d Hd) as (Hl & Hlo & Hab).
  apply negb_false_iff, String.eqb_eq in Ha.
  cl_simpl. rewrite !app_nil_r, orb_false_r.
  destruct d as [da dl dlo dab]; cl_simpl. subst da dl dlo dab.
  rewrite <- Hd. by destruct h, b.
Qed.

Lemma cl_pass_synced a h b :
  attempt_changed a h = false →
  synced (hooks (pass a {| hooks := h; browser := b |})).
Proof.
  intros Ha. rewrite cl_pass_eq. cbn zeta. rewrite Ha. intros d. cl_simpl.
  intros [= <-]. cl_simpl. done.
Qed.

Lemma cl_commit_same a h b :
  attempt_changed a h = false →
  commit a {| hooks := h; browser := b |} = pass a {| hooks := h; browser := b |}.
Proof.
  intros Ha. unfold commit.
  pose proof (cl_pass_synced a h b Ha) as Hs.
  pose proof (cl_attempt_changed_after a h b) as Ha'.
  destruct (pass a {| hooks := h; browser := b |}) as [h' b'].
  by apply cl_pass_stable.
Qed.

Lemma cl_commit_changed a h b :
  attempt_changed a h = true →
  init_deps_changed h && ((len h >? 0) && negb (loading h)) = false →
  commit a {| hooks := h; browser := b |} =
  {| hooks :=
       {| entries := []; loading := true; atBottom := atBottom h;
          didInitScroll := false; prevEntriesLengthRef := 0;
          addTypeRef := addTypeRef h; pendingUpdateRef := pendingUpdateRef h;
          debounceTimeoutRef := debounceTimeoutRef h;
          rendered := Some {| dep_attempt := a; dep_len := 0; dep_loading := true;
                              dep_atBottom := atBottom h |};
          unmounted := unmounted h; initJumps := initJumps h |};
     browser := Browser.emit [CtxReset] b |}.
Proof.
  intros Ha Hfire. unfold commit. rewrite (cl_pass_eq a h b). cbn zeta.
  rewrite Ha. cl_simpl. rewrite Hfire. cl_simpl. rewrite ?andb_false_r, ?app_nil_r.
  set (ca := auto_deps_changed h). set (n := len h).
  rewrite cl_pass_eq. cbn zeta.
  unfold attempt_changed, init_deps_changed, auto_deps_changed, len. cl_simpl.
  rewrite String.eqb_refl. cl_simpl. rewrite ?andb_false_r, ?app_nil_r. cl_simpl.
  rewrite ?app_nil_r. unfold Browser.emit.
  repeat f_equal.
  rewrite eqb_reflx. cl_simpl. rewrite orb_false_r. change (Z.of_nat (length [])) with 0.
  destruct ca, (n =? 0) eqn:E1, (negb (eqb (loading h) true)); cl_simpl;
    try reflexivity; boolify; lia.
Qed.


Lemma cl_init_Inv : Inv init.
Proof.
  split; cbn; unfold synced; cbn; intros; try done; auto.
Qed.

Lemma cl_len_nil_iff h : len h = 0 ↔ entries h = [].
Proof.
  unfold len. destruct (entries h); cbn; split; try done; lia.
Qed.

(** No init fire in a render whose attempt changed *)
Lemma cl_Inv_no_fire w :
  Inv w →
  init_deps_changed (hooks w) && ((len (hooks w) >? 0) && negb (loading (hooks w))) = false.
Proof.
  intros HI. destruct (rendered (hooks w)) as [d|] eqn:Hd.
  - destruct (cl_synced_no_deps_change _ (inv_synced _ HI)) as [-> _]; [congruence|done].
  - destruct (inv_fresh _ HI Hd) as [-> _]. reflexivity.
Qed.

Lemma cl_commit_Inv a w : Inv w → Inv (commit a w).
Proof.
  intros HI. destruct w as [h b].
  destruct (attempt_changed a h) eqn:Ha.
  - rewrite cl_commit_changed by (done || apply (cl_Inv_no_fire _ HI)).
    destruct HI as [H1 H2 H3 H4 H5 H6]. cl_simpl.
    split; cl_simpl; try done.
    + intros d [= <-]. by cl_simpl.
    + auto.
  - rewrite cl_commit_same, cl_pass_stable by (done || apply HI). done.
Qed.

Lemma cl_rerender_eq h b d :
  rendered h = Some d →
  rerender {| hooks := h; browser := b |} = pass (dep_attempt d) {| hooks := h; browser := b |}.
Proof.
  intros Hd. unfold rerender. cl_simpl. rewrite Hd. apply cl_commit_same.
  unfold attempt_changed. rewrite Hd. by rewrite String.eqb_refl.
Qed.

(** The state between a handler's assignments and the re-render: the
    dependencies on record still describe the state before. *)
Lemma cl_Inv_stale w :
  Inv w → rendered (hooks w) ≠ None → stale (hooks w).
Proof.
  intros HI Hr. destruct (rendered (hooks w)) as [d|] eqn:Hd; [|done].
  exists d. destruct (inv_synced _ HI d Hd) as (Hl & Hlo & _).
  split; [done|]. split.
  - rewrite Hl. apply HI. congruence.
  - intros Hdid. destruct (inv_init _ HI Hdid) as [He|Hlo'].
    + left. rewrite Hl. by apply cl_len_nil_iff.
    + right. congruence.
Qed.

Lemma cl_rerender_Inv h b :
  stale h →
  (∀ id t, Browser.timers b !! id = Some t → debounceTimeoutRef h = Some id) →
  (∀ id at_, Browser.timers b !! id = Some (at_, Debounced true) → loading h = true) →
  Inv (rerender {| hooks := h; browser := b |}).
Proof.
  intros (d & Hd & Hprev & Hinit) H1 H2.
  rewrite (cl_rerender_eq _ _ d Hd).
  assert (Ha : attempt_changed (dep_attempt d) h = false).
  { unfold attempt_changed. rewrite Hd. by rewrite String.eqb_refl. }
  pose proof (cl_pass_synced (dep_attempt d) h b Ha) as Hs.
  rewrite cl_pass_eq in *. cbn zeta in *. rewrite Ha in *. cl_simpl.
  split; cl_simpl; try done.
  - intros _. unfold auto_deps_changed. rewrite Hd.
    destruct (dep_len d =? len h) eqn:E; cl_simpl; [|done].
    unfold len in *; cl_simpl. repeat case_match; boolify; lia.
  - unfold init_deps_changed. rewrite Hd. intros Hdid.
    apply orb_false_iff in Hdid as [Hdid Hfire]. rewrite Hdid in Hfire. cl_simpl.
    destruct (entries h) as [|e es] eqn:He; [by left|right].
    assert (Hn : (len h >? 0) = true).
    { unfold len. rewrite He. cbn. reflexivity. }
    rewrite Hn in Hfire. cl_simpl.
    destruct (loading h) eqn:Hlo; [done|]. cl_simpl. rewrite andb_true_r in Hfire.
    boolify. destruct (Hinit Hdid) as [Hz|Ht]; [lia|congruence].
Qed.

Lemma cl_stale_ext h h' :
  stale h → rendered h' = rendered h →
  prevEntriesLengthRef h' = prevEntriesLengthRef h →
  didInitScroll h' = didInitScroll h → stale h'.
Proof.
  intros (d & Hd & Hp & Hi) Hr Hp' Hd'. exists d.
  rewrite Hr, Hp', Hd'. done.
Qed.

Lemma cl_step_Inv w e w' : Inv w → step w e = Ok w' → Inv w'.
Proof.
  intros HI. destruct w as [h b]. destruct e; cbn [step]; cl_simpl.
  - (* Render *)
    destruct (unmounted h); intros [= <-]; [done|]. by apply cl_commit_Inv.
  - (* EntriesUpdated *)
    destruct (rendered h) as [d|] eqn:Hd; intros [= <-]; [|done].
    destruct HI as [H1 H2 H3 H4 H5 H6]. cl_simpl.
    unfold onEntriesUpdated, Browser.setTimeout, set_pending. cl_simpl.
    assert (Hold : ∀ id t,
      Browser.timers (match debounceTimeoutRef h with
                      | Some id0 => Browser.clearTimeout id0 b
                      | None => b end) !! id = Some t → False).
    { intros id t. destruct (debounceTimeoutRef h) as [old|] eqn:Ho; cl_simpl.
      - unfold Browser.clearTimeout. cl_simpl. intros Hl.
        apply lookup_delete_Some in Hl as [Hne Hl]. apply H1 in Hl. congruence.
      - intros Hl. apply H1 in Hl. congruence. }
    split; cl_simpl; try done.
    + intros id t Hl. apply lookup_insert_Some in Hl as [[-> _]|[_ Hl]]; [done|].
      by apply Hold in Hl.
    + intros id at_ Hl. apply lookup_insert_Some in Hl as [[_ [= _ <-]]|[_ Hl]]; [done|].
      by apply Hold in Hl.
    + rewrite Hd. done.
  - (* Scroll *)
    unfold mounted. destruct (rendered h) as [d|] eqn:Hd; cl_simpl; [|by intros [= <-]].
    destruct (unmounted h) eqn:Hu; cl_simpl; [by intros [= <-]|].
    unfold with_browser, Browser.set_parentRef. cl_simpl.
    rewrite conversation_checkAtBottom_el. js_simpl. intros [= <-].
    apply cl_rerender_Inv; cl_simpl; try apply HI.
    eapply cl_stale_ext; [apply (cl_Inv_stale _ HI); cl_simpl; congruence|..]; done.
  - (* Layout *)
    destruct (negb (mounted h)); intros [= <-]; [done|].
    destruct HI; split; done.
  - (* Advance *)
    intros [= <-]. destruct HI; split; done.
  - (* Timeout *)
    destruct (Browser.due id b) as [[cl]|] eqn:Hdue; intros [= <-]; [|done].
    apply due_lookup in Hdue as (at_ & Hl & _).
    assert (Hr : rendered h ≠ None).
    { intros Hr. destruct (inv_fresh _ HI Hr) as [_ He]. cl_simpl.
      rewrite He in Hl. done. }
    assert (Hgone : ∀ id' t, delete id (Browser.timers b) !! id' = Some t → False).
    { intros id' t Hl'. apply lookup_delete_Some in Hl' as [Hne Hl'].
      apply (inv_single _ HI) in Hl'. apply (inv_single _ HI) in Hl. cl_simpl.
      congruence. }
    unfold debounced, with_browser. cl_simpl.
    destruct (pendingUpdateRef h) as [u|] eqn:Hu.
    + destruct (unmounted h) eqn:Hun.
      * destruct HI as [H1 H2 H3 H4 H5 H6]. cl_simpl.
        unfold apply_pending. rewrite Hun.
        split; cl_simpl; try done.
        -- intros id' t Hl'. by apply Hgone in Hl'.
        -- intros id' t Hl'. by apply Hgone in Hl'.
      * apply cl_rerender_Inv; cl_simpl.
        -- eapply cl_stale_ext; [apply (cl_Inv_stale _ HI Hr)|..]; done.
        -- intros id' t Hl'. by apply Hgone in Hl'.
        -- intros id' t Hl'. by apply Hgone in Hl'.
    + destruct HI as [H1 H2 H3 H4 H5 H6]. cl_simpl.
      split; cl_simpl; try done.
      * intros id' t Hl'. by apply Hgone in Hl'.
      * intros id' t Hl'. by apply Hgone in Hl'.
  - (* Paint *)
    intros [= <-]. destruct HI; split; done.
  - (* Unmount *)
    unfold mounted. destruct (rendered h) as [d|] eqn:Hd; cl_simpl; [|by intros [= <-]].
    destruct (unmounted h) eqn:Hu; cl_simpl; intros [= <-]; [done|].
    destruct HI as [H1 H2 H3 H4 H5 H6]. cl_simpl.
    unfold cleanup. cl_simpl.
    destruct (debounceTimeoutRef h) as [old|] eqn:Ho;
      unfold with_hooks, with_browser, Browser.set_parentRef, Browser.clearTimeout,
        set_unmounted;
      split; cl_simpl; rewrite ?Ho; try done; try congruence.
    + intros id t Hl. apply lookup_delete_Some in Hl as [Hne Hl]. apply H1 in Hl. congruence.
    + intros id t Hl. apply lookup_delete_Some in Hl as [Hne Hl]. eauto.
Qed.
End ConversationListFacts.

Section ConversationListTraces.
Import ConversationList.

Ltac cl_simpl :=
  cbn [hooks browser entries loading atBottom didInitScroll prevEntriesLengthRef addTypeRef
       pendingUpdateRef debounceTimeoutRef rendered unmounted initJumps
       dep_attempt dep_len dep_loading dep_atBottom
       pending_entries pending_addType pending_loading] in *;
  browser_simpl.

Lemma cl_checkAtBottom_ok r h : ∃ h', checkAtBottom r h = Ok h'.
Proof. destruct r; cbn; eauto. Qed.

Lemma cl_step_ok w e : ∃ w', step w e = Ok w'.
Proof.
  destruct e; cbn [step]; repeat case_match; js_simpl; eauto.
Qed.


Lemma cl_run_app es1 es2 w :
  run w (es1 ++ es2) = w1 ← run w es1; run w1 es2.
Proof.
  revert w. induction es1 as [|e es1 IH]; intros w; cbn [run app]; [done|].
  destruct (step w e); js_simpl; [apply IH|done].
Qed.

Lemma cl_run_Inv es : ∀ w w', Inv w → run w es = Ok w' → Inv w'.
Proof.
  induction es as [|e es IH]; intros w w' HI; cbn [run]; js_simpl.
  - by intros [= <-].
  - destruct (step w e) as [w1|] eqn:Hs; js_simpl; [|done].
    apply IH. by eapply cl_step_Inv.
Qed.

Lemma cl_reachable_Inv w : reachable w → Inv w.
Proof. intros [es Hes]. eapply cl_run_Inv; [apply cl_init_Inv | exact Hes]. Qed.

(** A re-render on unchanged props, in closed form. *)
Lemma cl_rerender_nf h b d :
  rendered h = Some d →
  let n := len h in
  let fire_init := init_deps_changed h && init_fires n (loading h) h in
  let did := didInitScroll h || fire_init in
  let fire_auto := auto_deps_changed h
                   && ((n - prevEntriesLengthRef h >? 0) && (n >? 0) && did) in
  rerender {| hooks := h; browser := b |} =
  {| hooks :=
       {| entries := entries h; loading := loading h; atBottom := atBottom h;
          didInitScroll := did;
          prevEntriesLengthRef :=
            if auto_deps_changed h then n else prevEntriesLengthRef h;
          addTypeRef := addTypeRef h; pendingUpdateRef := pendingUpdateRef h;
          debounceTimeoutRef := debounceTimeoutRef h;
          rendered := Some {| dep_attempt := dep_attempt d; dep_len := n;
                              dep_loading := loading h; dep_atBottom := atBottom h |};
          unmounted := unmounted h;
          initJumps := if fire_init then S (initJumps h) else initJumps h |};
     browser :=
       {| Browser.now := Browser.now b; Browser.timers := Browser.timers b;
          Browser.next_timer := Browser.next_timer b;
          Browser.frames :=
            (Browser.frames b
             ++ (if fire_init then [Browser.FrameScrollToIndex (n - 1) AlignEnd] else []))
             ++ (if fire_auto then follow (addTypeRef h) n (atBottom h) (loading h) else []);
          Browser.parentRef := Browser.parentRef b; Browser.out := Browser.out b |} |}.
Proof.
  intros Hd. cbn zeta. rewrite (cl_rerender_eq _ _ d Hd), cl_pass_eq. cbn zeta.
  assert (Ha : attempt_changed (dep_attempt d) h = false).
  { unfold attempt_changed. rewrite Hd. by rewrite String.eqb_refl. }
  rewrite Ha. unfold init_fires. by rewrite app_nil_r.
Qed.

Lemma cl_mounted_rendered h : mounted h = true → ∃ d, rendered h = Some d ∧ unmounted h = false.
Proof.
  unfold mounted. destruct (rendered h) as [d|]; [|done].
  intros Hm. exists d. split; [done|]. by apply negb_true_iff.
Qed.



(** A render for another attempt. *)
Lemma cl_attempt_change a w d :
  Inv w → rendered (hooks w) = Some d → unmounted (hooks w) = false →
  dep_attempt d ≠ a →
  ∃ w', step w (Render a) = Ok w'
    ∧ entries (hooks w') = [] ∧ loading (hooks w') = true
    ∧ didInitScroll (hooks w') = false ∧ prevEntriesLengthRef (hooks w') = 0
    ∧ Browser.out (browser w') = Browser.out (browser w) ++ [CtxReset]
    ∧ Browser.frames (browser w') = Browser.frames (browser w)
    ∧ initJumps (hooks w') = initJumps (hooks w).
Proof.
  intros HI Hd Hu Hne. destruct w as [h b]. cl_simpl. cbn [step]. cl_simpl.
  rewrite Hu. eexists. split; [reflexivity|].
  rewrite cl_commit_changed.
  - cl_simpl. done.
  - unfold attempt_changed. rewrite Hd. apply negb_true_iff.
    by apply String.eqb_neq.
  - apply (cl_Inv_no_fire _ HI).
Qed.

(** When every timer there is carries the id on record, clearing that id
    empties the table. *)
Lemma only_timer_gone {T} (m : gmap positive T) (o : option positive) :
  (∀ i t, m !! i = Some t → o = Some i) →
  match o with Some old => delete old m | None => m end = ∅.
Proof.
  intros H. apply map_eq. intros i. rewrite lookup_empty.
  destruct o as [old|].
  - destruct (decide (old = i)) as [->|Hne]; [apply lookup_delete_eq|].
    rewrite lookup_delete_ne by done.
    destruct (m !! i) as [t|] eqn:Hl; [|done]. apply H in Hl. congruence.
  - destruct (m !! i) as [t|] eqn:Hl; [|done]. apply H in Hl. congruence.
Qed.

Lemma cl_same_view_refl w : same_view w w.
Proof. by repeat split. Qed.

Lemma cl_same_view_trans w1 w2 w3 : same_view w1 w2 → same_view w2 w3 → same_view w1 w3.
Proof.
  unfold same_view. intros (?&?&?&?&?&?&?&?&?&?&?) (?&?&?&?&?&?&?&?&?&?&?).
  repeat split; congruence.
Qed.

(** One call of [onEntriesUpdated], some time after the state [w]. *)
Lemma cl_update_once w u :
  Inv w → rendered (hooks w) ≠ None →
  ∃ w1 id, run w (burst [u]) = Ok w1
    ∧ same_view w w1
    ∧ pendingUpdateRef (hooks w1) = Some (pending_of u)
    ∧ debounceTimeoutRef (hooks w1) = Some id
    ∧ Browser.timers (browser w1)
      = {[ id := (Browser.now (browser w1) + 100, Debounced (loading (hooks w))) ]}.
Proof.
  intros HI Hr. destruct w as [h b]. cl_simpl.
  cbn [burst flat_map app run step]. js_simpl.
  unfold with_browser. cl_simpl.
  destruct (rendered h) as [d|] eqn:Hd; [|done]. js_simpl.
  pose proof (only_timer_gone (Browser.timers b) (debounceTimeoutRef h)
                (inv_single _ HI)) as He.
  unfold onEntriesUpdated, Browser.setTimeout, set_pending, Browser.advance. cl_simpl.
  destruct (debounceTimeoutRef h) as [old|] eqn:Ho;
    unfold Browser.clearTimeout; cl_simpl; rewrite He;
    do 2 eexists; (split; [reflexivity|]); cl_simpl;
    (split; [unfold same_view; cl_simpl; by repeat split|]);
    (split; [reflexivity|]); (split; [reflexivity|]); apply insert_empty.
Qed.

(** Any number of calls with no timer run in between: only the last is
    pending, under one timer due 100 ms after it. *)
Lemma cl_burst_pending us : ∀ w u,
  Inv w → rendered (hooks w) ≠ None →
  ∃ w1 id, run w (burst (us ++ [u])) = Ok w1
    ∧ same_view w w1
    ∧ pendingUpdateRef (hooks w1) = Some (pending_of u)
    ∧ debounceTimeoutRef (hooks w1) = Some id
    ∧ Browser.timers (browser w1)
      = {[ id := (Browser.now (browser w1) + 100, Debounced (loading (hooks w))) ]}.
Proof.
  induction us as [|u0 us IH]; intros w u HI Hr.
  - apply cl_update_once; done.
  - destruct (cl_update_once w u0 HI Hr) as (w0 & id0 & Hrun0 & Hv0 & _).
    assert (HI0 : Inv w0) by (eapply cl_run_Inv; eauto).
    assert (Hr0 : rendered (hooks w0) ≠ None).
    { destruct Hv0 as (_&_&_&_&_&_&->&_). done. }
    destruct (IH w0 u HI0 Hr0) as (w1 & id & Hrun1 & Hv1 & Hp & Hid & Ht).
    exists w1, id. split; [|split; [|split; [done|split; [done|]]]].
    + change (burst ((u0 :: us) ++ [u])) with (burst [u0] ++ burst (us ++ [u])).
      rewrite cl_run_app, Hrun0. js_simpl. exact Hrun1.
    + by eapply cl_same_view_trans.
    + rewrite Ht. destruct Hv0 as (_&->&_). done.
Qed.

(** The debounced callback, run when due. *)
Lemma cl_fire w id at_ cl u :
  Inv w → unmounted (hooks w) = false →
  Browser.timers (browser w) !! id = Some (at_, Debounced cl) →
  pendingUpdateRef (hooks w) = Some u →
  at_ ≤ Browser.now (browser w) →
  ∃ w', step w (Timeout id) = Ok w'
    ∧ entries (hooks w') = pending_entries u
    ∧ addTypeRef (hooks w') = pending_addType u
    ∧ loading (hooks w') = (if cl then pending_loading u else loading (hooks w))
    ∧ Browser.out (browser w') = Browser.out (browser w) ++ [CtxSetEntries (pending_entries u)]
    ∧ Browser.timers (browser w') = delete id (Browser.timers (browser w))
    ∧ (didInitScroll (hooks w) = true →
       (length (entries (hooks w)) < length (pending_entries u))%nat →
       Browser.frames (browser w') =
         Browser.frames (browser w)
         ++ follow (pending_addType u) (Z.of_nat (length (pending_entries u)))
              (atBottom (hooks w)) (if cl then pending_loading u else loading (hooks w))).
Proof.
  intros HI Hun Hl Hu Hdue. destruct w as [h b]. cl_simpl. cbn [step]. cl_simpl.
  unfold Browser.due. rewrite Hl. apply Z.leb_le in Hdue. rewrite Hdue.
  eexists. split; [reflexivity|].
  assert (Hr : ∃ d, rendered h = Some d).
  { destruct (rendered h) as [d|] eqn:Hd; [by eexists|].
    destruct (inv_fresh _ HI Hd) as [_ He]. cl_simpl. rewrite He in Hl. done. }
  destruct Hr as [d Hd].
  unfold debounced, with_browser, Browser.clearTimeout. cl_simpl. rewrite Hu, Hun.
  rewrite (cl_rerender_nf _ _ d) by (unfold apply_pending; cl_simpl; exact Hd).
  cbn zeta. unfold apply_pending, init_fires, Browser.emit. rewrite Hun. cl_simpl.
  repeat split; try done.
  intros Hdid Hgrow. rewrite Hdid. cl_simpl. rewrite andb_false_r, app_nil_r.
  unfold len, auto_deps_changed. cl_simpl. rewrite Hd.
  destruct (inv_synced _ HI d Hd) as (Hlen & _). unfold len in Hlen. cl_simpl.
  pose proof (inv_prev _ HI) as Hprev. cl_simpl. rewrite Hprev by congruence.
  unfold len. rewrite Hlen. cl_simpl.
  replace (Z.of_nat (length (entries h)) =? Z.of_nat (length (pending_entries u)))
    with false by (symmetry; apply Z.eqb_neq; lia).
  replace (Z.of_nat (length (pending_entries u)) - Z.of_nat (length (entries h)) >? 0)
    with true by (symmetry; apply Z.gtb_lt; lia).
  replace (Z.of_nat (length (pending_entries u)) >? 0)
    with true by (symmetry; apply Z.gtb_lt; lia).
  reflexivity.
Qed.

(** A timer that is not yet due does not run. *)
Lemma cl_not_due w id at_ task :
  Browser.timers (browser w) !! id = Some (at_, task) →
  Browser.now (browser w) < at_ →
  step w (Timeout id) = Ok w.
Proof.
  intros Hl Hlt. cbn [step]. unfold Browser.due. rewrite Hl.
  replace (at_ <=? Browser.now (browser w)) with false; [done|].
  symmetry. apply Z.leb_gt. lia.
Qed.

(** With no timer left, time passing changes nothing but the clock. *)
Lemma cl_idle es : ∀ w,
  Browser.timers (browser w) = ∅ → Forall clock_event es →
  ∃ w', run w es = Ok w' ∧ hooks w' = hooks w
    ∧ Browser.out (browser w') = Browser.out (browser w)
    ∧ Browser.frames (browser w') = Browser.frames (browser w)
    ∧ Browser.timers (browser w') = ∅.
Proof.
  induction es as [|e es IH]; intros w He Hes; cbn [run]; js_simpl.
  - by exists w.
  - apply Forall_cons in Hes as [Hc Hes]. destruct e; try done; cbn [step].
    + js_simpl. destruct (IH (with_browser (Browser.advance dt) w)) as (w' & -> & ?);
        [done|done|]. by exists w'.
    + unfold Browser.due. rewrite He, lookup_empty. js_simpl. by apply IH.
Qed.

Lemma cl_unmount_clears w :
  Inv w → mounted (hooks w) = true →
  ∃ w', step w Unmount = Ok w' ∧ Browser.timers (browser w') = ∅
    ∧ unmounted (hooks w') = true
    ∧ entries (hooks w') = entries (hooks w)
    ∧ Browser.out (browser w') = Browser.out (browser w).
Proof.
  intros HI Hm. cbn [step]. rewrite Hm. cbn [negb]. eexists. split; [reflexivity|].
  destruct w as [h b]. unfold cleanup. cl_simpl.
  assert (He : ∀ i t, Browser.timers b !! i = Some t → debounceTimeoutRef h = Some i)
    by apply HI.
  destruct (debounceTimeoutRef h) as [old|] eqn:Ho; cbn; repeat split; try done.
  - apply map_eq. intros i. rewrite lookup_empty.
    destruct (decide (old = i)) as [->|Hne]; [apply lookup_delete_eq|].
    rewrite lookup_delete_ne by done.
    destruct (Browser.timers b !! i) as [t|] eqn:Hl; [|done].
    apply He in Hl. congruence.
  - apply map_eq. intros i. rewrite lookup_empty.
    destruct (Browser.timers b !! i) as [t|] eqn:Hl; [|done].
    apply He in Hl. congruence.
Qed.

Lemma cl_scroll_sets h b el :
  mounted h = true →
  ∃ w', step {| hooks := h; browser := b |} (Scroll el) = Ok w'
    ∧ atBottom (hooks w')
      = (scrollHeight el - scrollTop el - clientHeight el <? 100).
Proof.
  intros Hm. cbn [step]. cl_simpl. rewrite Hm. cbn [negb].
  destruct (cl_mounted_rendered _ Hm) as (d & Hd & Hu).
  unfold with_browser, Browser.set_parentRef. cl_simpl.
  rewrite conversation_checkAtBottom_el. js_simpl.
  rewrite (cl_rerender_nf _ _ d) by (unfold set_atBottom; cl_simpl; exact Hd).
  cbn zeta. eexists. split; [reflexivity|]. unfold set_atBottom. by cl_simpl.
Qed.

End ConversationListTraces.

(** ** VirtualizedList: renders, commits and the invariant *)

Section VirtualizedListFacts.
Import VirtualizedList.

Ltac vl_simpl :=
  cbn [hooks browser entries loading atBottom didInitScroll prevEntriesLengthRef addTypeRef
       rendered unmounted initJumps dep_attempt dep_len dep_loading dep_atBottom] in *;
  browser_simpl.

Lemma vl_initScrollEffect_eq n l h b :
  initScrollEffect n l {| hooks := h; browser := b |} =
  {| hooks :=
       {| entries := entries h; loading := loading h; atBottom := atBottom h;
          didInitScroll := didInitScroll h || init_fires n l h;
          prevEntriesLengthRef := prevEntriesLengthRef h;
          addTypeRef := addTypeRef h; rendered := rendered h;
          unmounted := unmounted h;
          initJumps := if init_fires n l h then S (initJumps h) else initJumps h |};
     browser :=
       {| Browser.now := Browser.now b; Browser.timers := Browser.timers b;
          Browser.next_timer := Browser.next_timer b;
          Browser.frames := Browser.frames b ++
            (if init_fires n l h then [Browser.FrameScrollToIndex (n - 1) AlignEnd] else []);
          Browser.parentRef := Browser.parentRef b; Browser.out := Browser.out b |} |}.
Proof.
  unfold initScrollEffect, init_fires. vl_simpl.
  destruct (negb (didInitScroll h) && (n >? 0) && negb l) eqn:E.
  - rewrite orb_true_r. reflexivity.
  - rewrite orb_false_r, app_nil_r. by destruct h, b.
Qed.

Lemma vl_autoScrollEffect_eq n ab h b :
  autoScrollEffect n ab {| hooks := h; browser := b |} =
  {| hooks :=
       {| entries := entries h; loading := loading h; atBottom := atBottom h;
          didInitScroll := didInitScroll h;
          prevEntriesLengthRef := n;
          addTypeRef := addTypeRef h; rendered := rendered h;
          unmounted := unmounted h; initJumps := initJumps h |};
     browser :=
       {| Browser.now := Browser.now b; Browser.timers := Browser.timers b;
          Browser.next_timer := Browser.next_timer b;
          Browser.frames := Browser.frames b ++
            (if auto_fires n ab h then follow (addTypeRef h) n else []);
          Browser.parentRef := Browser.parentRef b; Browser.out := Browser.out b |} |}.
Proof.
  unfold autoScrollEffect, auto_fires, follow, with_browser, Browser.requestAnimationFrame.
  vl_simpl.
  destruct ((n - prevEntriesLengthRef h >? 0) && ab && (n >? 0) && didInitScroll h).
  - destruct (String.eqb (addTypeRef h) "running" || String.eqb (addTypeRef h) "plan");
      [reflexivity|].
    rewrite app_nil_r. by destruct b.
  - rewrite app_nil_r. by destruct b.
Qed.

Lemma vl_pass_eq a h b :
  let ch := attempt_changed a h in
  let n := len h in
  let did1 := if ch then false else didInitScroll h in
  let prev1 := if ch then 0 else prevEntriesLengthRef h in
  let fire_init := init_deps_changed h && (negb did1 && (n >? 0) && negb (loading h)) in
  let did3 := did1 || fire_init in
  let fire_auto := auto_deps_changed h
                   && ((n - prev1 >? 0) && atBottom h && (n >? 0) && did3) in
  pass a {| hooks := h; browser := b |} =
  {| hooks :=
       {| entries := if ch then [] else entries h;
          loading := if ch then true else loading h;
          atBottom := atBottom h;
          didInitScroll := did3;
          prevEntriesLengthRef := if auto_deps_changed h then n else prev1;
          addTypeRef := addTypeRef h;
          rendered := Some {| dep_attempt := a; dep_len := n; dep_loading := loading h;
                              dep_atBottom := atBottom h |};
          unmounted := unmounted h;
          initJumps := if fire_init then S (initJumps h) else initJumps h |};
     browser :=
       {| Browser.now := Browser.now b;
          Browser.timers := Browser.timers b;
          Browser.next_timer := Browser.next_timer b;
          Browser.frames :=
            (Browser.frames b
             ++ (if fire_init then [Browser.FrameScrollToIndex (n - 1) AlignEnd] else []))
             ++ (if fire_auto then follow (addTypeRef h) n else []);
          Browser.parentRef := Browser.parentRef b;
          Browser.out := Browser.out b ++ (if ch then [CtxReset] else []) |} |}.
Proof.
  cbn zeta. unfold pass. vl_simpl.
  generalize (attempt_changed a h) (init_deps_changed h) (auto_deps_changed h) (len h).
  intros ch ci ca n.
  destruct ch, ci, ca; unfold resetEffect, with_hooks, set_rendered, apply_reset, Browser.emit;
    vl_simpl; rewrite ?vl_initScrollEffect_eq, ?vl_autoScrollEffect_eq;
    unfold init_fires, auto_fires; vl_simpl; rewrite ?app_nil_r, ?orb_false_r;
    try reflexivity.
  all: destruct h, b; reflexivity.
Qed.

Lemma vl_attempt_changed_after a h b :
  attempt_changed a (hooks (pass a {| hooks := h; browser := b |})) = false.
Proof.
  rewrite vl_pass_eq. vl_simpl. unfold attempt_changed. vl_simpl.
  by rewrite String.eqb_refl.
Qed.

Lemma vl_synced_no_deps_change h :
  synced h → rendered h ≠ None →
  init_deps_changed h = false ∧ auto_deps_changed h = false.
Proof.
  unfold synced, init_deps_changed, auto_deps_changed.
  destruct (rendered h) as [d|]; [|done]. intros Hs _.
  destruct (Hs d eq_refl) as (-> & -> & ->).
  rewrite Z.eqb_refl, !eqb_reflx. done.
Qed.

Lemma vl_pass_stable a h b :
  attempt_changed a h = false → synced h →
  pass a {| hooks := h; browser := b |} = {| hooks := h; browser := b |}.
Proof.
  intros Ha Hs. rewrite vl_pass_eq. cbn zeta. rewrite Ha.
  unfold attempt_changed in Ha. destruct (rendered h) as [d|] eqn:Hd; [|done].
  assert (Hne : rendered h ≠ None) by congruence.
  destruct (vl_synced_no_deps_change h Hs Hne) as [Hi Hau].
  rewrite Hi.
  rewrite Hau.
  destruct (Hs d Hd) as (Hl & Hlo & Hab).
  apply negb_false_iff, String.eqb_eq in Ha.
  vl_simpl. rewrite !app_nil_r, orb_false_r.
  destruct d as [da dl dlo dab]; vl_simpl. subst da dl dlo dab.
  rewrite <- Hd. by destruct h, b.
Qed.

Lemma vl_pass_synced a h b :
  attempt_changed a h = false →
  synced (hooks (pass a {| hooks := h; browser := b |})).
Proof.
  intros Ha. rewrite vl_pass_eq. cbn zeta. rewrite Ha. intros d. vl_simpl.
  intros [= <-]. vl_simpl. done.
Qed.

Lemma vl_commit_same a h b :
  attempt_changed a h = false →
  commit a {| hooks := h; browser := b |} = pass a {| hooks := h; browser := b |}.
Proof.
  intros Ha. unfold commit.
  pose proof (vl_pass_synced a h b Ha) as Hs.
  pose proof (vl_attempt_changed_after a h b) as Ha'.
  destruct (pass a {| hooks := h; browser := b |}) as [h' b'].
  by apply vl_pass_stable.
Qed.

Lemma vl_commit_changed a h b :
  attempt_changed a h = true →
  init_deps_changed h && ((len h >? 0) && negb (loading h)) = false →
  commit a {| hooks := h; browser := b |} =
  {| hooks :=
       {| entries := []; loading := true; atBottom := atBottom h;
          didInitScroll := false; prevEntriesLengthRef := 0;
          addTypeRef := addTypeRef h;
          rendered := Some {| dep_attempt := a; dep_len := 0; dep_loading := true;
                              dep_atBottom := atBottom h |};
          unmounted := unmounted h; initJumps := initJumps h |};
     browser := Browser.emit [CtxReset] b |}.
Proof.
  intros Ha Hfire. unfold commit. rewrite (vl_pass_eq a h b). cbn zeta.
  rewrite Ha. vl_simpl. rewrite Hfire. vl_simpl. rewrite ?andb_false_r, ?app_nil_r.
  set (ca := auto_deps_changed h). set (n := len h).
  rewrite vl_pass_eq. cbn zeta.
  unfold attempt_changed, init_deps_changed, auto_deps_changed, len. vl_simpl.
  rewrite String.eqb_refl. vl_simpl. rewrite ?andb_false_r, ?app_nil_r. vl_simpl.
  rewrite ?app_nil_r. unfold Browser.emit.
  repeat f_equal.
  rewrite eqb_reflx. vl_simpl. rewrite orb_false_r. change (Z.of_nat (length [])) with 0.
  destruct ca, (n =? 0) eqn:E1; vl_simpl; try reflexivity; boolify; lia.
Qed.

Lemma vl_init_Inv : Inv init.
Proof.
  split; cbn; unfold synced; cbn; intros; try done; auto.
Qed.

Lemma vl_len_nil_iff h : len h = 0 ↔ entries h = [].
Proof.
  unfold len. destruct (entries h); cbn; split; try done; lia.
Qed.

Lemma vl_Inv_no_fire w :
  Inv w →
  init_deps_changed (hooks w) && ((len (hooks w) >? 0) && negb (loading (hooks w))) = false.
Proof.
  intros HI. destruct (rendered (hooks w)) as [d|] eqn:Hd.
  - destruct (vl_synced_no_deps_change _ (inv_synced _ HI)) as [-> _]; [congruence|done].
  - rewrite (inv_fresh _ HI Hd). reflexivity.
Qed.

Lemma vl_commit_Inv a w : Inv w → Inv (commit a w).
Proof.
  intros HI. destruct w as [h b].
  destruct (attempt_changed a h) eqn:Ha.
  - rewrite vl_commit_changed by (done || apply (vl_Inv_no_fire _ HI)).
    destruct HI as [H3 H4 H5 H6]. vl_simpl.
    split; vl_simpl; try done.
    + intros d [= <-]. by vl_simpl.
    + auto.
  - rewrite vl_commit_same, vl_pass_stable by (done || apply HI). done.
Qed.

Lemma vl_rerender_eq h b d :
  rendered h = Some d →
  rerender {| hooks := h; browser := b |} = pass (dep_attempt d) {| hooks := h; browser := b |}.
Proof.
  intros Hd. unfold rerender. vl_simpl. rewrite Hd. apply vl_commit_same.
  unfold attempt_changed. rewrite Hd. by rewrite String.eqb_refl.
Qed.

(** A re-render on unchanged props, in closed form. *)
Lemma vl_rerender_nf h b d :
  rendered h = Some d →
  let n := len h in
  let fire_init := init_deps_changed h && init_fires n (loading h) h in
  let did := didInitScroll h || fire_init in
  let fire_auto := auto_deps_changed h
                   && ((n - prevEntriesLengthRef h >? 0) && atBottom h && (n >? 0) && did) in
  rerender {| hooks := h; browser := b |} =
  {| hooks :=
       {| entries := entries h; loading := loading h; atBottom := atBottom h;
          didInitScroll := did;
          prevEntriesLengthRef :=
            if auto_deps_changed h then n else prevEntriesLengthRef h;
          addTypeRef := addTypeRef h;
          rendered := Some {| dep_attempt := dep_attempt d; dep_len := n;
                              dep_loading := loading h; dep_atBottom := atBottom h |};
          unmounted := unmounted h;
          initJumps := if fire_init then S (initJumps h) else initJumps h |};
     browser :=
       {| Browser.now := Browser.now b; Browser.timers := Browser.timers b;
          Browser.next_timer := Browser.next_timer b;
          Browser.frames :=
            (Browser.frames b
             ++ (if fire_init then [Browser.FrameScrollToIndex (n - 1) AlignEnd] else []))
             ++ (if fire_auto then follow (addTypeRef h) n else []);
          Browser.parentRef := Browser.parentRef b; Browser.out := Browser.out b |} |}.
Proof.
  intros Hd. cbn zeta. rewrite (vl_rerender_eq _ _ d Hd), vl_pass_eq. cbn zeta.
  assert (Ha : attempt_changed (dep_attempt d) h = false).
  { unfold attempt_changed. rewrite Hd. by rewrite String.eqb_refl. }
  rewrite Ha. unfold init_fires. by rewrite app_nil_r.
Qed.

Lemma vl_Inv_stale w :
  Inv w → rendered (hooks w) ≠ None → stale (hooks w).
Proof.
  intros HI Hr. destruct (rendered (hooks w)) as [d|] eqn:Hd; [|done].
  exists d. destruct (inv_synced _ HI d Hd) as (Hl & Hlo & _).
  split; [done|]. split.
  - rewrite Hl. apply HI. congruence.
  - intros Hdid. destruct (inv_init _ HI Hdid) as [He|Hlo'].
    + left. rewrite Hl. by apply vl_len_nil_iff.
    + right. congruence.
Qed.

Lemma vl_rerender_Inv h b :
  stale h → Inv (rerender {| hooks := h; browser := b |}).
Proof.
  intros (d & Hd & Hprev & Hinit).
  rewrite (vl_rerender_eq _ _ d Hd).
  assert (Ha : attempt_changed (dep_attempt d) h = false).
  { unfold attempt_changed. rewrite Hd. by rewrite String.eqb_refl. }
  pose proof (vl_pass_synced (dep_attempt d) h b Ha) as Hs.
  rewrite vl_pass_eq in *. cbn zeta in *. rewrite Ha in *. vl_simpl.
  split; vl_simpl; try done.
  - intros _. unfold auto_deps_changed. rewrite Hd.
    destruct (dep_len d =? len h) eqn:E; vl_simpl; [|done].
    unfold len in *; vl_simpl. repeat case_match; boolify; lia.
  - unfold init_deps_changed. rewrite Hd. intros Hdid.
    apply orb_false_iff in Hdid as [Hdid Hfire]. rewrite Hdid in Hfire. vl_simpl.
    destruct (entries h) as [|e es] eqn:He; [by left|right].
    assert (Hn : (len h >? 0) = true).
    { unfold len. rewrite He. cbn. reflexivity. }
    rewrite Hn in Hfire. vl_simpl.
    destruct (loading h) eqn:Hlo; [done|]. vl_simpl. rewrite andb_true_r in Hfire.
    boolify. destruct (Hinit Hdid) as [Hz|Ht]; [lia|congruence].
Qed.

Lemma vl_stale_ext h h' :
  stale h → rendered h' = rendered h →
  prevEntriesLengthRef h' = prevEntriesLengthRef h →
  didInitScroll h' = didInitScroll h → stale h'.
Proof.
  intros (d & Hd & Hp & Hi) Hr Hp' Hd'. exists d.
  rewrite Hr, Hp', Hd'. done.
Qed.

Lemma vl_mounted_rendered h : mounted h = true → ∃ d, rendered h = Some d ∧ unmounted h = false.
Proof.
  unfold mounted. destruct (rendered h) as [d|]; [|done].
  intros Hm. exists d. split; [done|]. by apply negb_true_iff.
Qed.

Lemma vl_step_Inv w e w' : Inv w → step w e = Ok w' → Inv w'.
Proof.
  intros HI. destruct w as [h b]. destruct e; cbn [step]; vl_simpl.
  - (* Render *)
    destruct (unmounted h); intros [= <-]; [done|]. by apply vl_commit_Inv.
  - (* EntriesUpdated *)
    destruct (rendered h) as [d|] eqn:Hd; intros [= <-]; [|done].
    unfold onEntriesUpdated. vl_simpl.
    destruct (unmounted h) eqn:Hun.
    + destruct HI as [H3 H4 H5 H6]. vl_simpl. unfold apply_update. rewrite Hun.
      split; vl_simpl; try done. by rewrite Hd.
    + apply vl_rerender_Inv.
      eapply vl_stale_ext; [apply (vl_Inv_stale _ HI); vl_simpl; congruence|..]; done.
  - (* Scroll *)
    destruct (mounted h) eqn:Hm; vl_simpl; [|by intros [= <-]].
    destruct (vl_mounted_rendered _ Hm) as (d & Hd & Hu).
    unfold with_browser, Browser.set_parentRef. vl_simpl.
    rewrite list_checkAtBottom_el. js_simpl. intros [= <-].
    apply vl_rerender_Inv; vl_simpl.
    eapply vl_stale_ext; [apply (vl_Inv_stale _ HI); vl_simpl; congruence|..]; done.
  - (* Layout *)
    destruct (negb (mounted h)); intros [= <-]; [done|].
    destruct HI; split; done.
  - (* Paint *)
    intros [= <-]. destruct HI; split; done.
  - (* Unmount *)
    destruct (mounted h) eqn:Hm; vl_simpl; intros [= <-]; [|done].
    destruct (vl_mounted_rendered _ Hm) as (d & Hd & Hu).
    destruct HI as [H3 H4 H5 H6]. vl_simpl.
    unfold with_hooks, with_browser, set_unmounted. split; vl_simpl; try done; congruence.
Qed.

Lemma vl_step_ok w e : ∃ w', step w e = Ok w'.
Proof.
  destruct e; cbn [step]; repeat case_match; js_simpl; eauto.
Qed.

Lemma vl_run_Inv es : ∀ w w', Inv w → run w es = Ok w' → Inv w'.
Proof.
  induction es as [|e es IH]; intros w w' HI; cbn [run]; js_simpl.
  - by intros [= <-].
  - destruct (step w e) as [w1|] eqn:Hs; js_simpl; [|done].
    apply IH. by eapply vl_step_Inv.
Qed.

Lemma vl_reachable_Inv w : reachable w → Inv w.
Proof. intros [es Hes]. eapply vl_run_Inv; [apply vl_init_Inv | exact Hes]. Qed.



Lemma vl_attempt_change a w d :
  Inv w → rendered (hooks w) = Some d → unmounted (hooks w) = false →
  dep_attempt d ≠ a →
  ∃ w', step w (Render a) = Ok w'
    ∧ entries (hooks w') = [] ∧ loading (hooks w') = true
    ∧ didInitScroll (hooks w') = false ∧ prevEntriesLengthRef (hooks w') = 0
    ∧ Browser.out (browser w') = Browser.out (browser w) ++ [CtxReset]
    ∧ Browser.frames (browser w') = Browser.frames (browser w)
    ∧ initJumps (hooks w') = initJumps (hooks w).
Proof.
  intros HI Hd Hu Hne. destruct w as [h b]. vl_simpl. cbn [step]. vl_simpl.
  rewrite Hu. eexists. split; [reflexivity|].
  rewrite vl_commit_changed.
  - vl_simpl. done.
  - unfold attempt_changed. rewrite Hd. apply negb_true_iff.
    by apply String.eqb_neq.
  - apply (vl_Inv_no_fire _ HI).
Qed.

Lemma vl_scroll_sets h b el :
  mounted h = true →
  ∃ w', step {| hooks := h; browser := b |} (Scroll el) = Ok w'
    ∧ atBottom (hooks w')
      = (scrollHeight el - scrollTop el - clientHeight el <? 100).
Proof.
  intros Hm. cbn [step]. vl_simpl. rewrite Hm. cbn [negb].
  destruct (vl_mounted_rendered _ Hm) as (d & Hd & Hu).
  unfold with_browser, Browser.set_parentRef. vl_simpl.
  rewrite list_checkAtBottom_el. js_simpl.
  rewrite (vl_rerender_nf _ _ d) by (unfold set_atBottom; vl_simpl; exact Hd).
  cbn zeta. eexists. split; [reflexivity|]. unfold set_atBottom. by vl_simpl.
Qed.

(** An update that grows the list after the initial scroll. *)
Lemma vl_growth w newEntries addType newLoading :
  Inv w → mounted (hooks w) = true → didInitScroll (hooks w) = true →
  (length (entries (hooks w)) < length newEntries)%nat →
  ∃ w', step w (EntriesUpdated newEntries addType newLoading) = Ok w'
    ∧ entries (hooks w') = newEntries
    ∧ Browser.out (browser w') = Browser.out (browser w) ++ [CtxSetEntries newEntries]
    ∧ Browser.frames (browser w') =
        Browser.frames (browser w)
        ++ (if atBottom (hooks w) then follow addType (Z.of_nat (length newEntries)) else []).
Proof.
  intros HI Hm Hdid Hgrow. destruct w as [h b]. vl_simpl. cbn [step]. vl_simpl.
  destruct (vl_mounted_rendered _ Hm) as (d & Hd & Hun). rewrite Hd.
  eexists. split; [reflexivity|].
  unfold onEntriesUpdated. vl_simpl. rewrite Hun.
  rewrite (vl_rerender_nf _ _ d) by (unfold apply_update; vl_simpl; exact Hd).
  cbn zeta. unfold apply_update, init_fires, Browser.emit. rewrite Hun. vl_simpl.
  repeat split; try done.
  rewrite Hdid. vl_simpl. rewrite andb_false_r, app_nil_r.
  unfold len, auto_deps_changed. vl_simpl. rewrite Hd.
  destruct (inv_synced _ HI d Hd) as (Hlen & _). unfold len in Hlen. vl_simpl.
  pose proof (inv_prev _ HI) as Hprev. vl_simpl. rewrite Hprev by congruence.
  unfold len. rewrite Hlen. vl_simpl.
  replace (Z.of_nat (length (entries h)) =? Z.of_nat (length newEntries))
    with false by (symmetry; apply Z.eqb_neq; lia).
  replace (Z.of_nat (length newEntries) - Z.of_nat (length (entries h)) >? 0)
    with true by (symmetry; apply Z.gtb_lt; lia).
  replace (Z.of_nat (length newEntries) >? 0)
    with true by (symmetry; apply Z.gtb_lt; lia).
  vl_simpl. by destruct (atBottom h).
Qed.

End VirtualizedListFacts.

(** ** PollingList: renders and commits *)

Section PollingListFacts.
Import PollingList.

Ltac pl_simpl :=
  cbn [hooks browser entries loading interval rendered unmounted dep_attempt dep_len] in *;
  browser_simpl.

(** What the scroll effect leaves alone, and what it asks of the virtualizer. *)
Lemma pl_scrollEffect_fields n w :
  let w' := scrollEffect n w in
  entries (hooks w') = entries (hooks w)
  ∧ loading (hooks w') = loading (hooks w)
  ∧ rendered (hooks w') = rendered (hooks w)
  ∧ unmounted (hooks w') = unmounted (hooks w)
  ∧ Browser.out (browser w')
    = Browser.out (browser w) ++ (if n =? 0 then [] else scrollToEnd n).
Proof.
  destruct w as [h b]. cbn zeta. unfold scrollEffect, cleanup. pl_simpl.
  destruct (interval h) as [id|]; destruct (n =? 0); cbn; rewrite ?app_nil_r; done.
Qed.

Lemma pl_pass_fields a w :
  let h := hooks w in
  let w' := pass a w in
  entries (hooks w') = (if attempt_changed a h then [] else entries h)
  ∧ loading (hooks w') = (if attempt_changed a h then true else loading h)
  ∧ rendered (hooks w') = Some {| dep_attempt := a; dep_len := len h |}
  ∧ unmounted (hooks w') = unmounted h
  ∧ Browser.out (browser w')
    = (Browser.out (browser w) ++ (if attempt_changed a h then [CtxReset] else []))
      ++ (if len_changed h && negb (len h =? 0) then scrollToEnd (len h) else []).
Proof.
  cbn zeta. unfold pass.
  set (w1 := if attempt_changed a (hooks w) then resetEffect w else w).
  assert (H1 : hooks w1 = hooks w ∧ Browser.out (browser w1)
            = Browser.out (browser w) ++ (if attempt_changed a (hooks w) then [CtxReset] else [])).
  { subst w1. destruct (attempt_changed a (hooks w)); cbn; rewrite ?app_nil_r; done. }
  destruct H1 as [Hh Ho].
  set (w2 := if len_changed (hooks w) then scrollEffect (len (hooks w)) w1 else w1).
  assert (H2 : entries (hooks w2) = entries (hooks w)
             ∧ loading (hooks w2) = loading (hooks w)
             ∧ unmounted (hooks w2) = unmounted (hooks w)
             ∧ Browser.out (browser w2)
               = Browser.out (browser w1)
                 ++ (if len_changed (hooks w) && negb (len (hooks w) =? 0)
                     then scrollToEnd (len (hooks w)) else [])).
  { subst w2. destruct (len_changed (hooks w)); cbn [andb].
    - destruct (pl_scrollEffect_fields (len (hooks w)) w1) as (He & Hl & _ & Hu & Hout).
      rewrite He, Hl, Hu, Hout, Hh. repeat split. by destruct (len (hooks w) =? 0).
    - rewrite Hh, app_nil_r. done. }
  destruct H2 as (He & Hl & Hu & Hout). rewrite Ho in Hout.
  destruct (attempt_changed a (hooks w)); cbn; repeat split; done.
Qed.

Lemma pl_len_changed_after a w :
  len_changed (hooks (pass a w))
  = (if attempt_changed a (hooks w) then negb (len (hooks w) =? 0) else false).
Proof.
  destruct (pl_pass_fields a w) as (He & _ & Hr & _). cbn zeta in *.
  unfold len_changed. rewrite Hr. pl_simpl.
  assert (Hlen : len (hooks (pass a w))
                 = Z.of_nat (length (if attempt_changed a (hooks w)
                                     then [] else entries (hooks w))))
    by (unfold len; congruence).
  rewrite Hlen. unfold len.
  destruct (attempt_changed a (hooks w)); cbn [length]; [done|].
  by rewrite Z.eqb_refl.
Qed.

Lemma pl_attempt_changed_after a w : attempt_changed a (hooks (pass a w)) = false.
Proof.
  destruct (pl_pass_fields a w) as (_ & _ & Hr & _). cbn zeta in *.
  unfold attempt_changed. rewrite Hr. pl_simpl. by rewrite String.eqb_refl.
Qed.

(** A commit: both renders together. *)
Lemma pl_commit_fields a w :
  let h := hooks w in
  let w' := commit a w in
  entries (hooks w') = (if attempt_changed a h then [] else entries h)
  ∧ loading (hooks w') = (if attempt_changed a h then true else loading h)
  ∧ (∃ d, rendered (hooks w') = Some d ∧ dep_attempt d = a ∧ dep_len d = len (hooks w'))
  ∧ unmounted (hooks w') = unmounted h
  ∧ Browser.out (browser w')
    = (Browser.out (browser w) ++ (if attempt_changed a h then [CtxReset] else []))
      ++ (if len_changed h && negb (len h =? 0) then scrollToEnd (len h) else []).
Proof.
  cbn zeta. unfold commit.
  destruct (pl_pass_fields a w) as (He & Hl & Hr & Hu & Ho).
  destruct (pl_pass_fields a (pass a w)) as (He2 & Hl2 & Hr2 & Hu2 & Ho2).
  cbn zeta in *. rewrite pl_attempt_changed_after in *. rewrite pl_len_changed_after in *.
  rewrite He2, Hl2, Hu2, Ho2, He, Hl, Hu, Ho, Hr2.
  repeat split.
  - eexists. split; [reflexivity|]. pl_simpl. split; [done|].
    unfold len. by rewrite He2, He.
  - rewrite app_nil_r.
    destruct (attempt_changed a (hooks w)); cbn [andb]; rewrite ?app_nil_r; [|done].
    assert (Hz : len (hooks (pass a w)) = 0) by (unfold len; by rewrite He).
    rewrite Hz. cbn. by rewrite andb_false_r, app_nil_r.
Qed.

Lemma pl_mounted_rendered h : mounted h = true → ∃ d, rendered h = Some d ∧ unmounted h = false.
Proof.
  unfold mounted. destruct (rendered h) as [d|]; [|done].
  intros Hm. exists d. split; [done|]. by apply negb_true_iff.
Qed.

Lemma pl_init_Inv : Inv init.
Proof. split; cbn; intros; done. Qed.

Lemma pl_commit_Inv a w : Inv (commit a w).
Proof.
  destruct (pl_commit_fields a w) as (_ & _ & (d & Hd & _ & Hl) & _). cbn zeta in *.
  split; rewrite Hd; [|done]. by intros d' [= <-].
Qed.

Lemma pl_rerender_Inv w : rendered (hooks w) ≠ None → Inv (rerender w).
Proof.
  unfold rerender. destruct (rendered (hooks w)); [|done]. intros _. apply pl_commit_Inv.
Qed.

Lemma pl_poll_ok id elapsed n w :
  ∃ w', poll id elapsed n w = Ok w' ∧ hooks w' = hooks w.
Proof.
  unfold poll, poll_atBottom. destruct (Browser.parentRef (browser w)); js_simpl;
    case_match; eexists; split; try reflexivity; done.
Qed.

Lemma pl_step_ok w e : ∃ w', step w e = Ok w'.
Proof.
  destruct e; cbn [step]; repeat case_match; js_simpl; eauto.
  destruct (pl_poll_ok id elapsed entries_length w) as (w' & -> & _). eauto.
Qed.

Lemma pl_step_Inv w e w' : Inv w → step w e = Ok w' → Inv w'.
Proof.
  intros HI. destruct e; cbn [step].
  - destruct (unmounted (hooks w)); intros [= <-]; [done|]. apply pl_commit_Inv.
  - destruct (rendered (hooks w)) as [d|] eqn:Hd; intros [= <-]; [|done].
    unfold onEntriesUpdated. destruct (unmounted (hooks w)) eqn:Hun.
    + destruct HI as [H1 H2]. unfold apply_update. rewrite Hun.
      split; pl_simpl; [done|]. intros Hr. congruence.
    + apply pl_rerender_Inv. unfold apply_update. pl_simpl. congruence.
  - destruct (negb (mounted (hooks w))); intros [= <-]; [done|].
    destruct HI; split; done.
  - intros [= <-]. destruct HI; split; done.
  - destruct (Browser.due id (browser w)) as [[elapsed n]|]; [|by intros [= <-]].
    destruct (pl_poll_ok id elapsed n w) as (w1 & -> & Hh). intros [= <-].
    destruct HI; split; rewrite Hh; done.
  - destruct (mounted (hooks w)) eqn:Hm; cbn [negb]; intros [= <-]; [|done].
    destruct (pl_mounted_rendered _ Hm) as (d & Hd & Hu).
    destruct HI as [H1 H2]. destruct w as [h b]. unfold cleanup. pl_simpl.
    destruct (interval h); unfold with_hooks, with_browser, set_unmounted, set_interval;
      split; pl_simpl; try done; congruence.
Qed.

Lemma pl_run_Inv es : ∀ w w', Inv w → run w es = Ok w' → Inv w'.
Proof.
  induction es as [|e es IH]; intros w w' HI; cbn [run]; js_simpl.
  - by intros [= <-].
  - destruct (step w e) as [w1|] eqn:Hs; js_simpl; [|done].
    apply IH. by eapply pl_step_Inv.
Qed.

Lemma pl_reachable_Inv w : reachable w → Inv w.
Proof. intros [es Hes]. eapply pl_run_Inv; [apply pl_init_Inv | exact Hes]. Qed.


(** A re-render after a state change keeps the state and the attempt. *)
Lemma pl_rerender_fields h b d :
  rendered h = Some d →
  let w' := rerender {| hooks := h; browser := b |} in
  entries (hooks w') = entries h ∧ loading (hooks w') = loading h
  ∧ (∃ d', rendered (hooks w') = Some d' ∧ dep_attempt d' = dep_attempt d)
  ∧ Browser.out (browser w')
    = Browser.out b ++ (if len_changed h && negb (len h =? 0) then scrollToEnd (len h) else []).
Proof.
  intros Hd. cbn zeta. unfold rerender. pl_simpl. rewrite Hd.
  destruct (pl_commit_fields (dep_attempt d) {| hooks := h; browser := b |})
    as (He & Hl & (d' & Hd' & Ha' & _) & _ & Ho).
  cbn zeta in *. pl_simpl.
  assert (Ha : attempt_changed (dep_attempt d) h = false).
  { unfold attempt_changed. rewrite Hd. by rewrite String.eqb_refl. }
  rewrite Ha in *. rewrite app_nil_r in Ho. repeat split; try done. by exists d'.
Qed.



Lemma pl_attempt_change a w d :
  Inv w → rendered (hooks w) = Some d → unmounted (hooks w) = false →
  dep_attempt d ≠ a →
  ∃ w', step w (Render a) = Ok w'
    ∧ entries (hooks w') = [] ∧ loading (hooks w') = true
    ∧ Browser.out (browser w') = Browser.out (browser w) ++ [CtxReset].
Proof.
  intros HI Hd Hu Hne. cbn [step]. rewrite Hu. eexists. split; [reflexivity|].
  destruct (pl_commit_fields a w) as (He & Hl & _ & _ & Ho). cbn zeta in *.
  assert (Ha : attempt_changed a (hooks w) = true).
  { unfold attempt_changed. rewrite Hd. apply negb_true_iff. by apply String.eqb_neq. }
  assert (Hlc : len_changed (hooks w) = false).
  { unfold len_changed. rewrite Hd, (inv_synced _ HI d Hd). by rewrite Z.eqb_refl. }
  rewrite He, Hl, Ho, Ha, Hlc. cbn. by rewrite app_nil_r.
Qed.

(** An update that changes the length of the list to something positive. *)
Lemma pl_growth w newEntries addType newLoading :
  Inv w → mounted (hooks w) = true →
  length newEntries ≠ length (entries (hooks w)) → newEntries ≠ [] →
  ∃ w', step w (EntriesUpdated newEntries addType newLoading) = Ok w'
    ∧ entries (hooks w') = newEntries
    ∧ Browser.out (browser w')
      = Browser.out (browser w)
        ++ [CtxSetEntries newEntries;
            ScrollToIndex (Z.of_nat (length newEntries) - 1) AlignEnd].
Proof.
  intros HI Hm Hlen Hne. destruct w as [h b]. pl_simpl. cbn [step]. pl_simpl.
  destruct (pl_mounted_rendered _ Hm) as (d & Hd & Hun). rewrite Hd.
  eexists. split; [reflexivity|].
  unfold onEntriesUpdated. pl_simpl. rewrite Hun.
  destruct (pl_rerender_fields (apply_update newEntries newLoading h)
              (Browser.emit [CtxSetEntries newEntries] b) d)
    as (He & _ & _ & Ho); [by unfold apply_update|].
  cbn zeta in *. rewrite He, Ho. clear He Ho.
  unfold len_changed, len, apply_update, Browser.emit. rewrite Hun. pl_simpl. rewrite Hd.
  split; [done|].
  pose proof (inv_synced _ HI d Hd) as Hs. unfold len in Hs. pl_simpl. rewrite Hs.
  replace (Z.of_nat (length (entries h)) =? Z.of_nat (length newEntries))
    with false by (symmetry; apply Z.eqb_neq; lia).
  replace (Z.of_nat (length newEntries) =? 0) with false.
  - cbn. rewrite <- app_assoc. done.
  - symmetry. apply Z.eqb_neq. destruct newEntries; [done|]. cbn [length]. lia.
Qed.

End PollingListFacts.

(** ** ProcessLogsViewerContent: commits and timers *)

Section ProcessLogsViewerFacts.
Import ProcessLogsViewerContent.

Ltac pv_simpl :=
  cbn [hooks browser didInitScroll prevLenRef rendered unmounted initJumps logs error] in *;
  browser_simpl.

Lemma pv_commit_eq p h b :
  let lc := len_changed p h in
  let n := len p in
  let fire_i := lc && (negb (didInitScroll h) && (n >? 0)) in
  let did := didInitScroll h || fire_i in
  let fire_a := lc && ((n - prevLenRef h >? 0) && (n >? 0) && did) in
  let b1 := if fire_i then (Browser.setTimeout (DoScroll 3) 50 b).2 else b in
  let b2 := if fire_a then (Browser.setTimeout ScrollIfAtBottom 50 b1).2 else b1 in
  commit p {| hooks := h; browser := b |} =
  {| hooks := {| didInitScroll := did;
                 prevLenRef := if lc then n else prevLenRef h;
                 rendered := Some p; unmounted := unmounted h;
                 initJumps := if fire_i then S (initJumps h) else initJumps h |};
     browser := b2 |}.
Proof.
  cbn zeta. unfold commit, initScrollEffect, autoScrollEffect, with_hooks, with_browser,
    set_rendered. pv_simpl.
  generalize (len_changed p h) (len p). intros lc n.
  destruct h as [did prev r u j]. pv_simpl.
  destruct lc, did, (n >? 0); cbn; try reflexivity;
    destruct (n - prev >? 0); reflexivity.
Qed.

Lemma pv_len_nil p : len p = 0 ↔ logs p = [].
Proof. unfold len. destruct (logs p); cbn; split; try done; lia. Qed.

Lemma pv_init_Inv : Inv init.
Proof. split; cbn; intros; done. Qed.

Lemma pv_commit_Inv p w : Inv w → Inv (commit p w).
Proof.
  intros [H1 H2 H3 H4]. destruct w as [h b]. rewrite pv_commit_eq. cbn zeta. pv_simpl.
  unfold len_changed in *.
  split; pv_simpl.
  - intros p' [= <-]. destruct (rendered h) as [q|] eqn:Hq; [|done].
    destruct (len q =? len p) eqn:E; cbn [negb]; [|done].
    rewrite (H1 q eq_refl). by apply Z.eqb_eq.
  - intros p' [= <-] Hne.
    assert (Hn : (len p >? 0) = true).
    { apply Z.gtb_lt. unfold len. destruct (logs p); [done|]. cbn [length]. lia. }
    rewrite Hn. destruct (didInitScroll h) eqn:Hdid; [done|]. cbn.
    destruct (rendered h) as [q|] eqn:Hq; [|done].
    destruct (len q =? len p) eqn:E; cbn [negb]; [|done].
    apply Z.eqb_eq in E. exfalso.
    assert (logs q ≠ []) as Hq'.
    { intros Hz. apply pv_len_nil in Hz. apply Z.gtb_lt in Hn. lia. }
    specialize (H2 q eq_refl Hq'). congruence.
  - rewrite H3. destruct (didInitScroll h); cbn; [by rewrite andb_false_r|].
    by destruct (_ && _).
  - done.
Qed.

Lemma pv_scrollToBottom_eq beh r :
  scrollToBottom beh r
  = Ok (match r with Some el => [ScrollTo (scrollHeight el) beh] | None => [] end).
Proof. by destruct r. Qed.

Lemma pv_scrollIfAtBottom_eq w :
  scrollIfAtBottom w = Ok (with_browser (Browser.emit (follow (Browser.parentRef (browser w)))) w).
Proof.
  unfold scrollIfAtBottom, follow, isAtBottom, scrollToBottom.
  destruct (Browser.parentRef (browser w)) as [el|]; js_simpl.
  - destruct (_ <? threshold); js_simpl; [done|].
    destruct w as [h []]. unfold with_browser, Browser.emit. cbn. by rewrite app_nil_r.
  - destruct w as [h []]. unfold with_browser, Browser.emit. cbn. by rewrite app_nil_r.
Qed.

Lemma pv_run_task_ok task w :
  ∃ w', run_task task w = Ok w' ∧ hooks w' = hooks w.
Proof.
  destruct task; cbn [run_task].
  - unfold doScroll. rewrite pv_scrollToBottom_eq. js_simpl.
    destruct (attempts >? 0); eexists; split; try reflexivity; done.
  - rewrite pv_scrollIfAtBottom_eq. eexists; split; try reflexivity; done.
Qed.

Lemma pv_step_ok w e : ∃ w', step w e = Ok w'.
Proof.
  destruct e; cbn [step].
  - destruct (unmounted (hooks w)); eauto.
  - destruct (negb (mounted (hooks w))); [eauto|].
    unfold checkAtBottom, isAtBottom. cbn. eauto.
  - destruct (negb (mounted (hooks w))); eauto.
  - eauto.
  - destruct (Browser.due id (browser w)) as [task|]; [|eauto].
    match goal with |- context [run_task ?t ?w0] =>
      destruct (pv_run_task_ok t w0) as (w' & -> & _) end. eauto.
  - destruct (negb (mounted (hooks w))); eauto.
Qed.

Lemma pv_mounted_rendered h : mounted h = true → ∃ p, rendered h = Some p ∧ unmounted h = false.
Proof.
  unfold mounted. destruct (rendered h) as [p|]; [|done].
  intros Hm. exists p. split; [done|]. by apply negb_true_iff.
Qed.

Lemma pv_Inv_hooks w w' : Inv w → hooks w' = hooks w → Inv w'.
Proof. intros [H1 H2 H3 H4] Hh. split; rewrite Hh; done. Qed.

Lemma pv_step_Inv w e w' : Inv w → step w e = Ok w' → Inv w'.
Proof.
  intros HI. destruct e; cbn [step].
  - destruct (unmounted (hooks w)); intros [= <-]; [done|]. by apply pv_commit_Inv.
  - destruct (negb (mounted (hooks w))); [by intros [= <-]|].
    unfold checkAtBottom, isAtBottom. cbn. intros [= <-]. by eapply pv_Inv_hooks.
  - destruct (negb (mounted (hooks w))); intros [= <-]; [done|]. by eapply pv_Inv_hooks.
  - intros [= <-]. by eapply pv_Inv_hooks.
  - destruct (Browser.due id (browser w)) as [task|]; [|by intros [= <-]].
    match goal with |- context [run_task ?t ?w0] =>
      destruct (pv_run_task_ok t w0) as (w1 & -> & Hh) end.
    intros [= <-]. eapply pv_Inv_hooks; [exact HI|]. by rewrite Hh.
  - destruct (mounted (hooks w)) eqn:Hm; cbn [negb]; intros [= <-]; [|done].
    destruct (pv_mounted_rendered _ Hm) as (p & Hp & Hu).
    destruct HI as [H1 H2 H3 H4]. destruct w as [h b].
    unfold with_hooks, with_browser, set_unmounted. split; pv_simpl; try done; congruence.
Qed.

Lemma pv_run_Inv es : ∀ w w', Inv w → run w es = Ok w' → Inv w'.
Proof.
  induction es as [|e es IH]; intros w w' HI; cbn [run]; js_simpl.
  - by intros [= <-].
  - destruct (step w e) as [w1|] eqn:Hs; js_simpl; [|done].
    apply IH. by eapply pv_step_Inv.
Qed.

Lemma pv_reachable_Inv w : reachable w → Inv w.
Proof. intros [es Hes]. eapply pv_run_Inv; [apply pv_init_Inv | exact Hes]. Qed.



(** New logs after the initial scroll: one follow-up timer, 50 ms out. *)
Lemma pv_growth w p q :
  Inv w → rendered (hooks w) = Some q → unmounted (hooks w) = false →
  didInitScroll (hooks w) = true → (length (logs q) < length (logs p))%nat →
  ∃ w', step w (Render p) = Ok w'
    ∧ Browser.timers (browser w')
      = <[Browser.next_timer (browser w)
            := (Browser.now (browser w) + 50, ScrollIfAtBottom)]> (Browser.timers (browser w))
    ∧ Browser.out (browser w') = Browser.out (browser w)
    ∧ Browser.now (browser w') = Browser.now (browser w)
    ∧ Browser.parentRef (browser w') = Browser.parentRef (browser w)
    ∧ mounted (hooks w') = true.
Proof.
  intros HI Hq Hu Hdid Hlen. destruct w as [h b]. pv_simpl. cbn [step]. pv_simpl.
  rewrite Hu. eexists. split; [reflexivity|].
  rewrite pv_commit_eq. cbn zeta. pv_simpl.
  pose proof (inv_prev _ HI q Hq) as Hprev. pv_simpl.
  unfold len_changed, mounted. pv_simpl. rewrite Hq, Hdid, Hprev. pv_simpl.
  unfold len. rewrite Hu.
  replace (Z.of_nat (length (logs q)) =? Z.of_nat (length (logs p)))
    with false by (symmetry; apply Z.eqb_neq; lia).
  replace (Z.of_nat (length (logs p)) - Z.of_nat (length (logs q)) >? 0)
    with true by (symmetry; apply Z.gtb_lt; lia).
  replace (Z.of_nat (length (logs p)) >? 0)
    with true by (symmetry; apply Z.gtb_lt; lia).
  cbn. done.
Qed.

(** The follow-up timer, run when due: it looks at the container as it is then. *)
Lemma pv_follow_fires w id at_ :
  Browser.timers (browser w) !! id = Some (at_, ScrollIfAtBottom) →
  at_ ≤ Browser.now (browser w) →
  ∃ w', step w (Timeout id) = Ok w'
    ∧ Browser.out (browser w')
      = Browser.out (browser w) ++ follow (Browser.parentRef (browser w))
    ∧ Browser.timers (browser w') = delete id (Browser.timers (browser w)).
Proof.
  intros Hl Hdue. cbn [step]. unfold Browser.due. rewrite Hl.
  apply Z.leb_le in Hdue. rewrite Hdue. cbn [run_task].
  rewrite pv_scrollIfAtBottom_eq. eexists. split; [reflexivity|].
  destruct w as [h b]. done.
Qed.

(** Unmount cancels no timer. *)
Lemma pv_unmount_keeps_timers w w' :
  step w Unmount = Ok w' → Browser.timers (browser w') = Browser.timers (browser w).
Proof.
  cbn [step]. destruct (negb (mounted (hooks w))); intros [= <-]; [done|].
  by destruct w as [h b].
Qed.

End ProcessLogsViewerFacts.

(** ** VirtualizedProcessLogs: commits and timers *)

Section VirtualizedProcessLogsFacts.
Import VirtualizedProcessLogs.

Ltac vp_simpl :=
  cbn [hooks browser didInitScroll prevLogsLengthRef prevCurrentMatchRef rendered unmounted
       initJumps logs error searchQuery matchIndices currentMatchIndex] in *;
  browser_simpl.

Lemma vp_commit_eq p h b :
  let lc := len_changed p h in
  let n := len p in
  let fire_i := lc && (negb (didInitScroll h) && (n >? 0)) in
  let did := didInitScroll h || fire_i in
  let fire_a := lc && ((n - prevLogsLengthRef h >? 0) && (n >? 0) && did) in
  let b1 := if fire_i then (Browser.setTimeout (DoScroll 3) 50 b).2 else b in
  let b2 := if fire_a then (Browser.setTimeout ScrollIfAtBottom 50 b1).2 else b1 in
  commit p {| hooks := h; browser := b |} =
  {| hooks := {| didInitScroll := did;
                 prevLogsLengthRef := if lc then n else prevLogsLengthRef h;
                 prevCurrentMatchRef :=
                   if match_fires p h then Some (currentMatchIndex p)
                   else prevCurrentMatchRef h;
                 rendered := Some p; unmounted := unmounted h;
                 initJumps := if fire_i then S (initJumps h) else initJumps h |};
     browser := Browser.emit (search_scroll p h) b2 |}.
Proof.
  cbn zeta. unfold commit, initScrollEffect, autoScrollEffect, matchEffect, with_hooks,
    with_browser, set_rendered, search_scroll, match_fires. vp_simpl.
  generalize (len_changed p h) (match_changed p h) (len p)
    (Z.of_nat (length (matchIndices p)) >? 0) (currentMatchIndex p >=? 0).
  intros lc mc n c1 c2.
  destruct h as [did prev pm r u j]. vp_simpl.
  assert (Hemit : ∀ b0 : Browser.t Task, Browser.emit [] b0 = b0).
  { intros []. unfold Browser.emit. cbn. by rewrite app_nil_r. }
  destruct lc, did, (n >? 0); cbn; try destruct (n - prev >? 0); cbn;
    destruct mc, c1, c2; cbn; rewrite ?Hemit; try reflexivity;
    destruct (differs (currentMatchIndex p) pm); cbn; rewrite ?Hemit; reflexivity.
Qed.

Lemma vp_len_nil p : len p = 0 ↔ logs p = [].
Proof. unfold len. destruct (logs p); cbn; split; try done; lia. Qed.

Lemma vp_init_Inv : Inv init.
Proof. split; cbn; intros; done. Qed.

Lemma vp_commit_Inv p w : Inv w → Inv (commit p w).
Proof.
  intros [H1 H2 H3 H4]. destruct w as [h b]. rewrite vp_commit_eq. cbn zeta. vp_simpl.
  unfold len_changed in *.
  split; vp_simpl.
  - intros p' [= <-]. destruct (rendered h) as [q|] eqn:Hq; [|done].
    destruct (len q =? len p) eqn:E; cbn [negb]; [|done].
    rewrite (H1 q eq_refl). by apply Z.eqb_eq.
  - intros p' [= <-] Hne.
    assert (Hn : (len p >? 0) = true).
    { apply Z.gtb_lt. unfold len. destruct (logs p); [done|]. cbn [length]. lia. }
    rewrite Hn. destruct (didInitScroll h) eqn:Hdid; [done|]. cbn.
    destruct (rendered h) as [q|] eqn:Hq; [|done].
    destruct (len q =? len p) eqn:E; cbn [negb]; [|done].
    apply Z.eqb_eq in E. exfalso.
    assert (logs q ≠ []) as Hq'.
    { intros Hz. apply vp_len_nil in Hz. apply Z.gtb_lt in Hn. lia. }
    specialize (H2 q eq_refl Hq'). congruence.
  - rewrite H3. destruct (didInitScroll h); cbn; [by rewrite andb_false_r|].
    by destruct (_ && _).
  - done.
Qed.

Lemma vp_scrollToBottom_eq beh r :
  scrollToBottom beh r
  = Ok (match r with Some el => [ScrollTo (scrollHeight el) beh] | None => [] end).
Proof. by destruct r. Qed.

Lemma vp_scrollIfAtBottom_eq w :
  scrollIfAtBottom w = Ok (with_browser (Browser.emit (follow (Browser.parentRef (browser w)))) w).
Proof.
  unfold scrollIfAtBottom, follow, isAtBottom, scrollToBottom.
  destruct (Browser.parentRef (browser w)) as [el|]; js_simpl.
  - destruct (_ <? threshold); js_simpl; [done|].
    destruct w as [h []]. unfold with_browser, Browser.emit. cbn. by rewrite app_nil_r.
  - destruct w as [h []]. unfold with_browser, Browser.emit. cbn. by rewrite app_nil_r.
Qed.

Lemma vp_run_task_ok task w :
  ∃ w', run_task task w = Ok w' ∧ hooks w' = hooks w.
Proof.
  destruct task; cbn [run_task].
  - unfold doScroll. rewrite vp_scrollToBottom_eq. js_simpl.
    destruct (attempts >? 0); eexists; split; try reflexivity; done.
  - rewrite vp_scrollIfAtBottom_eq. eexists; split; try reflexivity; done.
Qed.

Lemma vp_step_ok w e : ∃ w', step w e = Ok w'.
Proof.
  destruct e; cbn [step].
  - destruct (unmounted (hooks w)); eauto.
  - destruct (negb (mounted (hooks w))); [eauto|].
    unfold checkAtBottom, isAtBottom. cbn. eauto.
  - destruct (negb (mounted (hooks w))); eauto.
  - eauto.
  - destruct (Browser.due id (browser w)) as [task|]; [|eauto].
    match goal with |- context [run_task ?t ?w0] =>
      destruct (vp_run_task_ok t w0) as (w' & -> & _) end. eauto.
  - destruct (negb (mounted (hooks w))); eauto.
Qed.

Lemma vp_mounted_rendered h : mounted h = true → ∃ p, rendered h = Some p ∧ unmounted h = false.
Proof.
  unfold mounted. destruct (rendered h) as [p|]; [|done].
  intros Hm. exists p. split; [done|]. by apply negb_true_iff.
Qed.

Lemma vp_Inv_hooks w w' : Inv w → hooks w' = hooks w → Inv w'.
Proof. intros [H1 H2 H3 H4] Hh. split; rewrite Hh; done. Qed.

Lemma vp_step_Inv w e w' : Inv w → step w e = Ok w' → Inv w'.
Proof.
  intros HI. destruct e; cbn [step].
  - destruct (unmounted (hooks w)); intros [= <-]; [done|]. by apply vp_commit_Inv.
  - destruct (negb (mounted (hooks w))); [by intros [= <-]|].
    unfold checkAtBottom, isAtBottom. cbn. intros [= <-]. by eapply vp_Inv_hooks.
  - destruct (negb (mounted (hooks w))); intros [= <-]; [done|]. by eapply vp_Inv_hooks.
  - intros [= <-]. by eapply vp_Inv_hooks.
  - destruct (Browser.due id (browser w)) as [task|]; [|by intros [= <-]].
    match goal with |- context [run_task ?t ?w0] =>
      destruct (vp_run_task_ok t w0) as (w1 & -> & Hh) end.
    intros [= <-]. eapply vp_Inv_hooks; [exact HI|]. by rewrite Hh.
  - destruct (mounted (hooks w)) eqn:Hm; cbn [negb]; intros [= <-]; [|done].
    destruct (vp_mounted_rendered _ Hm) as (p & Hp & Hu).
    destruct HI as [H1 H2 H3 H4]. destruct w as [h b].
    unfold with_hooks, with_browser, set_unmounted. split; vp_simpl; try done; congruence.
Qed.

Lemma vp_run_Inv es : ∀ w w', Inv w → run w es = Ok w' → Inv w'.
Proof.
  induction es as [|e es IH]; intros w w' HI; cbn [run]; js_simpl.
  - by intros [= <-].
  - destruct (step w e) as [w1|] eqn:Hs; js_simpl; [|done].
    apply IH. by eapply vp_step_Inv.
Qed.

Lemma vp_reachable_Inv w : reachable w → Inv w.
Proof. intros [es Hes]. eapply vp_run_Inv; [apply vp_init_Inv | exact Hes]. Qed.



(** New logs after the initial scroll: one follow-up timer, 50 ms out. *)
Lemma vp_growth w p q :
  Inv w → rendered (hooks w) = Some q → unmounted (hooks w) = false →
  didInitScroll (hooks w) = true → (length (logs q) < length (logs p))%nat →
  ∃ w', step w (Render p) = Ok w'
    ∧ Browser.timers (browser w')
      = <[Browser.next_timer (browser w)
            := (Browser.now (browser w) + 50, ScrollIfAtBottom)]> (Browser.timers (browser w))
    ∧ Browser.out (browser w') = Browser.out (browser w) ++ search_scroll p (hooks w)
    ∧ Browser.now (browser w') = Browser.now (browser w)
    ∧ Browser.parentRef (browser w') = Browser.parentRef (browser w)
    ∧ mounted (hooks w') = true.
Proof.
  intros HI Hq Hu Hdid Hlen. destruct w as [h b]. vp_simpl. cbn [step]. vp_simpl.
  rewrite Hu. eexists. split; [reflexivity|].
  rewrite vp_commit_eq. cbn zeta. vp_simpl.
  pose proof (inv_prev _ HI q Hq) as Hprev. vp_simpl.
  unfold len_changed, mounted. vp_simpl. rewrite Hq, Hdid, Hprev. vp_simpl.
  unfold len. rewrite Hu.
  replace (Z.of_nat (length (logs q)) =? Z.of_nat (length (logs p)))
    with false by (symmetry; apply Z.eqb_neq; lia).
  replace (Z.of_nat (length (logs p)) - Z.of_nat (length (logs q)) >? 0)
    with true by (symmetry; apply Z.gtb_lt; lia).
  replace (Z.of_nat (length (logs p)) >? 0)
    with true by (symmetry; apply Z.gtb_lt; lia).
  cbn. done.
Qed.

(** The follow-up timer, run when due: it looks at the container as it is then. *)
Lemma vp_follow_fires w id at_ :
  Browser.timers (browser w) !! id = Some (at_, ScrollIfAtBottom) →
  at_ ≤ Browser.now (browser w) →
  ∃ w', step w (Timeout id) = Ok w'
    ∧ Browser.out (browser w')
      = Browser.out (browser w) ++ follow (Browser.parentRef (browser w))
    ∧ Browser.timers (browser w') = delete id (Browser.timers (browser w)).
Proof.
  intros Hl Hdue. cbn [step]. unfold Browser.due. rewrite Hl.
  apply Z.leb_le in Hdue. rewrite Hdue. cbn [run_task].
  rewrite vp_scrollIfAtBottom_eq. eexists. split; [reflexivity|].
  destruct w as [h b]. done.
Qed.

(** Unmount cancels no timer. *)
Lemma vp_unmount_keeps_timers w w' :
  step w Unmount = Ok w' → Browser.timers (browser w') = Browser.timers (browser w).
Proof.
  cbn [step]. destruct (negb (mounted (hooks w))); intros [= <-]; [done|].
  by destruct w as [h b].
Qed.

End VirtualizedProcessLogsFacts.

(** ** CachedProcessLogs: commits *)

Section CachedProcessLogsFacts.
Import CachedProcessLogs.

Ltac cp_simpl :=
  cbn [hooks browser atBottom didInitScroll prevLogsLengthRef prevCurrentMatchRef rendered
       unmounted initJumps logs error searchQuery matchIndices currentMatchIndex] in *;
  browser_simpl.

Lemma cp_commit_eq p h b :
  let lc := len_changed p h in
  let ac := auto_deps_changed p h in
  let n := len p in
  let fire_i := lc && (negb (didInitScroll h) && (n >? 0)) in
  let fire_a := ac && ((n - prevLogsLengthRef h >? 0) && atBottom h && (n >? 0)) in
  commit p {| hooks := h; browser := b |} =
  {| hooks := {| atBottom := atBottom h;
                 didInitScroll := didInitScroll h || fire_i;
                 prevLogsLengthRef := if ac then n else prevLogsLengthRef h;
                 prevCurrentMatchRef :=
                   if match_fires p h then Some (currentMatchIndex p)
                   else prevCurrentMatchRef h;
                 rendered := Some (p, atBottom h); unmounted := unmounted h;
                 initJumps := if fire_i then S (initJumps h) else initJumps h |};
     browser :=
       {| Browser.now := Browser.now b; Browser.timers := Browser.timers b;
          Browser.next_timer := Browser.next_timer b;
          Browser.frames :=
            (Browser.frames b
             ++ (if fire_i then [Browser.FrameScrollToIndex (n - 1) AlignEnd] else []))
            ++ (if fire_a then [Browser.FrameScrollToIndex (n - 1) AlignEnd] else []);
          Browser.parentRef := Browser.parentRef b;
          Browser.out := Browser.out b ++ search_scroll p h |} |}.
Proof.
  cbn zeta. unfold commit, initScrollEffect, autoScrollEffect, matchEffect, with_hooks,
    with_browser, set_rendered, search_scroll, match_fires, Browser.requestAnimationFrame,
    Browser.emit. cp_simpl.
  generalize (len_changed p h) (auto_deps_changed p h) (match_changed p h) (len p)
    (Z.of_nat (length (matchIndices p)) >? 0) (currentMatchIndex p >=? 0).
  intros lc ac mc n c1 c2.
  destruct h as [ab did prev pm r u j], b as [now tm nx fr pr out]. cp_simpl.
  destruct lc, did, (n >? 0); cbn;
    destruct ac; cbn; try destruct (n - prev >? 0); cbn; try destruct ab; cbn;
    destruct mc, c1, c2; cbn; rewrite ?app_nil_r; try reflexivity;
    destruct (differs (currentMatchIndex p) pm); cbn; rewrite ?app_nil_r; reflexivity.
Qed.

Lemma cp_len_nil p : len p = 0 ↔ logs p = [].
Proof. unfold len. destruct (logs p); cbn; split; try done; lia. Qed.

Lemma cp_init_Inv : Inv init.
Proof. split; cbn; intros; done. Qed.

Lemma cp_commit_Inv p w : Inv w → Inv (commit p w).
Proof.
  intros [H1 H2 H3 H4]. destruct w as [h b]. rewrite cp_commit_eq. cbn zeta. cp_simpl.
  unfold len_changed, auto_deps_changed in *.
  split; cp_simpl.
  - intros p' ab' [= <- <-]. split; [|done].
    destruct (rendered h) as [[q ab]|] eqn:Hq; [|done].
    destruct (len q =? len p) eqn:E; cbn [negb orb]; [|done].
    destruct (H1 q ab eq_refl) as [Hp Hab]. apply Z.eqb_eq in E.
    destruct (negb (eqb ab (atBottom h))); congruence.
  - intros p' ab' [= <- <-] Hne.
    assert (Hn : (len p >? 0) = true).
    { apply Z.gtb_lt. unfold len. destruct (logs p); [done|]. cbn [length]. lia. }
    rewrite Hn. destruct (didInitScroll h) eqn:Hdid; [done|]. cbn.
    destruct (rendered h) as [[q ab]|] eqn:Hq; [|done].
    destruct (len q =? len p) eqn:E; cbn [negb]; [|done].
    apply Z.eqb_eq in E. exfalso.
    assert (logs q ≠ []) as Hq'.
    { intros Hz. apply cp_len_nil in Hz. apply Z.gtb_lt in Hn. lia. }
    specialize (H2 q ab eq_refl Hq'). congruence.
  - rewrite H3. destruct (didInitScroll h); cbn; [by rewrite andb_false_r|].
    by destruct (_ && _).
  - done.
Qed.

Lemma cp_mounted_rendered h :
  mounted h = true → ∃ p ab, rendered h = Some (p, ab) ∧ unmounted h = false.
Proof.
  unfold mounted. destruct (rendered h) as [[p ab]|]; [|done].
  intros Hm. exists p, ab. split; [done|]. by apply negb_true_iff.
Qed.

Lemma cp_Inv_hooks w w' : Inv w → hooks w' = hooks w → Inv w'.
Proof. intros [H1 H2 H3 H4] Hh. split; rewrite Hh; done. Qed.

(** A scroll event: the cached flag is set, and the re-render moves nothing. *)
Lemma cp_scroll_fields h b el p ab :
  Inv {| hooks := h; browser := b |} → rendered h = Some (p, ab) → unmounted h = false →
  ∃ w', step {| hooks := h; browser := b |} (Scroll el) = Ok w'
    ∧ atBottom (hooks w') = (scrollHeight el - scrollTop el - clientHeight el <? 50)
    ∧ didInitScroll (hooks w') = didInitScroll h
    ∧ prevLogsLengthRef (hooks w') = prevLogsLengthRef h
    ∧ rendered (hooks w')
      = Some (p, scrollHeight el - scrollTop el - clientHeight el <? 50)
    ∧ unmounted (hooks w') = false
    ∧ initJumps (hooks w') = initJumps h
    ∧ Browser.frames (browser w') = Browser.frames b
    ∧ Browser.out (browser w') = Browser.out b.
Proof.
  intros HI Hp Hu. cbn [step]. cp_simpl.
  unfold mounted. rewrite Hp, Hu. cbn [negb].
  unfold with_browser, Browser.set_parentRef. cp_simpl.
  rewrite cached_checkAtBottom_el. js_simpl.
  eexists. split; [reflexivity|].
  unfold rerender, set_atBottom. cp_simpl. rewrite Hp.
  rewrite cp_commit_eq. cbn zeta. cp_simpl.
  destruct (inv_prev _ HI p ab Hp) as [Hprev Hab]. cp_simpl.
  unfold len_changed, auto_deps_changed, search_scroll, match_fires, match_changed.
  cp_simpl. rewrite Hprev. rewrite !Z.eqb_refl, Z.sub_diag. cbn [negb].
  rewrite bool_decide_eq_true_2 by done. cbn. rewrite !andb_false_r, !app_nil_r.
  rewrite orb_false_r. repeat split; try done; by case_match.
Qed.

Lemma cp_step_Inv w e w' : Inv w → step w e = Ok w' → Inv w'.
Proof.
  intros HI. destruct e; cbn [step].
  - destruct (unmounted (hooks w)); intros [= <-]; [done|]. by apply cp_commit_Inv.
  - destruct (mounted (hooks w)) eqn:Hm; cbn [negb]; [|by intros [= <-]].
    destruct w as [h b]. cp_simpl.
    destruct (cp_mounted_rendered _ Hm) as (p & ab & Hp & Hu).
    destruct (cp_scroll_fields h b el p ab HI Hp Hu)
      as (w1 & Hs & Hab & Hdid & Hprev & Hr & Hun & Hj & _).
    cbn [step] in Hs. cp_simpl. rewrite Hm in Hs. cbn [negb] in Hs. rewrite Hs.
    intros [= <-]. destruct HI as [H1 H2 H3 H4]. cp_simpl.
    split; rewrite ?Hr, ?Hprev, ?Hdid, ?Hj, ?Hab; try done.
    + intros p' ab' [= <- <-]. split; [|done]. by destruct (H1 p ab Hp).
    + intros p' ab' [= <- <-]. by apply (H2 p ab).
  - destruct (negb (mounted (hooks w))); intros [= <-]; [done|]. by eapply cp_Inv_hooks.
  - intros [= <-]. by eapply cp_Inv_hooks.
  - destruct (mounted (hooks w)) eqn:Hm; cbn [negb]; intros [= <-]; [|done].
    destruct (cp_mounted_rendered _ Hm) as (p & ab & Hp & Hu).
    destruct HI as [H1 H2 H3 H4]. destruct w as [h b].
    unfold with_hooks, with_browser, set_unmounted. split; cp_simpl; try done; congruence.
Qed.

Lemma cp_step_ok w e : ∃ w', step w e = Ok w'.
Proof.
  destruct e; cbn [step]; repeat case_match; js_simpl; eauto.
Qed.

Lemma cp_run_Inv es : ∀ w w', Inv w → run w es = Ok w' → Inv w'.
Proof.
  induction es as [|e es IH]; intros w w' HI; cbn [run]; js_simpl.
  - by intros [= <-].
  - destruct (step w e) as [w1|] eqn:Hs; js_simpl; [|done].
    apply IH. by eapply cp_step_Inv.
Qed.

Lemma cp_reachable_Inv w : reachable w → Inv w.
Proof. intros [es Hes]. eapply cp_run_Inv; [apply cp_init_Inv | exact Hes]. Qed.

(** New logs after the initial scroll. *)
Lemma cp_growth w p q ab :
  Inv w → rendered (hooks w) = Some (q, ab) → unmounted (hooks w) = false →
  didInitScroll (hooks w) = true → (length (logs q) < length (logs p))%nat →
  ∃ w', step w (Render p) = Ok w'
    ∧ Browser.frames (browser w')
      = Browser.frames (browser w)
        ++ (if atBottom (hooks w)
            then [Browser.FrameScrollToIndex (Z.of_nat (length (logs p)) - 1) AlignEnd]
            else [])
    ∧ Browser.out (browser w') = Browser.out (browser w) ++ search_scroll p (hooks w).
Proof.
  intros HI Hq Hu Hdid Hlen. destruct w as [h b]. cp_simpl. cbn [step]. cp_simpl.
  rewrite Hu. eexists. split; [reflexivity|].
  rewrite cp_commit_eq. cbn zeta. cp_simpl.
  destruct (inv_prev _ HI q ab Hq) as [Hprev Hab]. cp_simpl.
  unfold len_changed, auto_deps_changed. cp_simpl. rewrite Hq, Hdid, Hprev. cp_simpl.
  unfold len.
  replace (Z.of_nat (length (logs q)) =? Z.of_nat (length (logs p)))
    with false by (symmetry; apply Z.eqb_neq; lia).
  replace (Z.of_nat (length (logs p)) - Z.of_nat (length (logs q)) >? 0)
    with true by (symmetry; apply Z.gtb_lt; lia).
  replace (Z.of_nat (length (logs p)) >? 0)
    with true by (symmetry; apply Z.gtb_lt; lia).
  cbn. rewrite app_nil_r. split; [|done]. by destruct (atBottom h).
Qed.

Lemma cp_scroll_sets h b el :
  Inv {| hooks := h; browser := b |} → mounted h = true →
  ∃ w', step {| hooks := h; browser := b |} (Scroll el) = Ok w'
    ∧ atBottom (hooks w')
      = (scrollHeight el - scrollTop el - clientHeight el <? 50).
Proof.
  intros HI Hm. destruct (cp_mounted_rendered _ Hm) as (p & ab & Hp & Hu).
  destruct (cp_scroll_fields h b el p ab HI Hp Hu) as (w1 & Hs & Hab & _).
  by exists w1.
Qed.

End CachedProcessLogsFacts.

(** ** Follow-up and retry timers of the log viewers, end to end *)

Section ProcessLogsViewerTimers.
Import ProcessLogsViewerContent.

(** New logs after the initial scroll, then the container in some state [r],
    then at least 50 ms: the timer runs and asks for what [follow r] says. *)
Lemma pv_growth_run w p q r dt :
  Inv w → rendered (hooks w) = Some q → unmounted (hooks w) = false →
  didInitScroll (hooks w) = true → (length (logs q) < length (logs p))%nat →
  50 ≤ dt →
  ∃ w', run w [Render p; Layout r; Advance dt; Timeout (Browser.next_timer (browser w))]
        = Ok w'
    ∧ Browser.out (browser w') = (Browser.out (browser w) ++ []) ++ follow r.
Proof.
  intros HI Hq Hu Hdid Hlen Hdt.
  destruct (pv_growth w p q HI Hq Hu Hdid Hlen) as (w1 & Hs1 & Ht1 & Ho1 & Hn1 & Hp1 & Hm1).
  set (w2 := with_browser (Browser.advance dt)
               (with_browser (Browser.set_parentRef r) w1)).
  assert (HL : step w1 (Layout r) = Ok (with_browser (Browser.set_parentRef r) w1)).
  { cbn [step]. by rewrite Hm1. }
  assert (HA : step (with_browser (Browser.set_parentRef r) w1) (Advance dt) = Ok w2)
    by reflexivity.
  cbn [run]. rewrite Hs1. js_simpl. rewrite HL. js_simpl. rewrite HA. js_simpl.
  destruct (pv_follow_fires w2 (Browser.next_timer (browser w))
              (Browser.now (browser w) + 50)) as (w3 & Hs3 & Ho3 & _).
  - subst w2. destruct w1 as [h1 b1]. cbn in *. rewrite Ht1. apply lookup_insert_eq.
  - subst w2. destruct w1 as [h1 b1]. cbn in *. lia.
  - rewrite Hs3. js_simpl. exists w3. split; [done|].
    rewrite Ho3. subst w2. destruct w1 as [h1 b1]. cbn in *. by rewrite Ho1, app_nil_r.
Qed.

(** A pending retry of the initial scroll survives the unmount and runs:
    it finds no container, asks for nothing and, with attempts left, arms the
    next retry. *)
Lemma pv_retry_after_unmount w id at_ attempts :
  mounted (hooks w) = true →
  Browser.timers (browser w) !! id = Some (at_, DoScroll attempts) → 0 < attempts →
  ∃ w', run w [Unmount; Advance (at_ - Browser.now (browser w)); Timeout id] = Ok w'
    ∧ Browser.timers (browser w') !! Browser.next_timer (browser w)
      = Some (Browser.now (browser w') + 100, DoScroll (attempts - 1))
    ∧ Browser.out (browser w') = Browser.out (browser w).
Proof.
  intros Hm Hl Hpos. destruct w as [h b]. cbn [run step]. cbn in Hm, Hl. cbn [hooks browser].
  rewrite Hm. cbn [negb]. js_simpl.
  unfold with_hooks, with_browser, Browser.set_parentRef, Browser.advance, Browser.due.
  cbn [hooks browser Browser.timers Browser.now]. rewrite Hl.
  replace (at_ <=? Browser.now b + Z.max 0 (at_ - Browser.now b)) with true
    by (symmetry; apply Z.leb_le; lia).
  cbn [run_task]. unfold doScroll. rewrite pv_scrollToBottom_eq. js_simpl.
  replace (attempts >? 0) with true by (symmetry; apply Z.gtb_lt; lia).
  eexists. split; [reflexivity|].
  unfold with_browser, Browser.setTimeout, Browser.emit, Browser.clearTimeout. cbn.
  rewrite lookup_insert_eq, app_nil_r. done.
Qed.

End ProcessLogsViewerTimers.


Section VirtualizedProcessLogsTimers.
Import VirtualizedProcessLogs.

(** New logs after the initial scroll, then the container in some state [r],
    then at least 50 ms: the timer runs and asks for what [follow r] says. *)
Lemma vp_growth_run w p q r dt :
  Inv w → rendered (hooks w) = Some q → unmounted (hooks w) = false →
  didInitScroll (hooks w) = true → (length (logs q) < length (logs p))%nat →
  50 ≤ dt →
  ∃ w', run w [Render p; Layout r; Advance dt; Timeout (Browser.next_timer (browser w))]
        = Ok w'
    ∧ Browser.out (browser w') = (Browser.out (browser w) ++ search_scroll p (hooks w)) ++ follow r.
Proof.
  intros HI Hq Hu Hdid Hlen Hdt.
  destruct (vp_growth w p q HI Hq Hu Hdid Hlen) as (w1 & Hs1 & Ht1 & Ho1 & Hn1 & Hp1 & Hm1).
  set (w2 := with_browser (Browser.advance dt)
               (with_browser (Browser.set_parentRef r) w1)).
  assert (HL : step w1 (Layout r) = Ok (with_browser (Browser.set_parentRef r) w1)).
  { cbn [step]. by rewrite Hm1. }
  assert (HA : step (with_browser (Browser.set_parentRef r) w1) (Advance dt) = Ok w2)
    by reflexivity.
  cbn [run]. rewrite Hs1. js_simpl. rewrite HL. js_simpl. rewrite HA. js_simpl.
  destruct (vp_follow_fires w2 (Browser.next_timer (browser w))
              (Browser.now (browser w) + 50)) as (w3 & Hs3 & Ho3 & _).
  - subst w2. destruct w1 as [h1 b1]. cbn in *. rewrite Ht1. apply lookup_insert_eq.
  - subst w2. destruct w1 as [h1 b1]. cbn in *. lia.
  - rewrite Hs3. js_simpl. exists w3. split; [done|].
    rewrite Ho3. subst w2. destruct w1 as [h1 b1]. cbn in *. by rewrite Ho1.
Qed.

(** A pending retry of the initial scroll survives the unmount and runs:
    it finds no container, asks for nothing and, with attempts left, arms the
    next retry. *)
Lemma vp_retry_after_unmount w id at_ attempts :
  mounted (hooks w) = true →
  Browser.timers (browser w) !! id = Some (at_, DoScroll attempts) → 0 < attempts →
  ∃ w', run w [Unmount; Advance (at_ - Browser.now (browser w)); Timeout id] = Ok w'
    ∧ Browser.timers (browser w') !! Browser.next_timer (browser w)
      = Some (Browser.now (browser w') + 100, DoScroll (attempts - 1))
    ∧ Browser.out (browser w') = Browser.out (browser w).
Proof.
  intros Hm Hl Hpos. destruct w as [h b]. cbn [run step]. cbn in Hm, Hl. cbn [hooks browser].
  rewrite Hm. cbn [negb]. js_simpl.
  unfold with_hooks, with_browser, Browser.set_parentRef, Browser.advance, Browser.due.
  cbn [hooks browser Browser.timers Browser.now]. rewrite Hl.
  replace (at_ <=? Browser.now b + Z.max 0 (at_ - Browser.now b)) with true
    by (symmetry; apply Z.leb_le; lia).
  cbn [run_task]. unfold doScroll. rewrite vp_scrollToBottom_eq. js_simpl.
  replace (attempts >? 0) with true by (symmetry; apply Z.gtb_lt; lia).
  eexists. split; [reflexivity|].
  unfold with_browser, Browser.setTimeout, Browser.emit, Browser.clearTimeout. cbn.
  rewrite lookup_insert_eq, app_nil_r. done.
Qed.

End VirtualizedProcessLogsTimers.

(** ** What is rendered *)


Section RenderFacts.

Lemma pv_render_error logs msg items :
  msg ≠ "" →
  ProcessLogsViewerContent.render
    {| ProcessLogsViewerContent.logs := logs;
       ProcessLogsViewerContent.error := Some msg |} items
  = Ok (ErrorView msg).
Proof.
  intros Hne. unfold ProcessLogsViewerContent.render. cbn.
  replace (String.eqb msg "") with false by (symmetry; by apply String.eqb_neq).
  cbn. by rewrite andb_false_r.
Qed.

Lemma vp_render_error logs msg q mi cmi items :
  msg ≠ "" →
  VirtualizedProcessLogs.render
    (VirtualizedProcessLogs.Build_Props logs (Some msg) q mi cmi) items
  = Ok (ErrorView msg).
Proof.
  intros Hne. unfold VirtualizedProcessLogs.render. cbn.
  replace (String.eqb msg "") with false by (symmetry; by apply String.eqb_neq).
  cbn. by rewrite andb_false_r.
Qed.

Lemma cp_render_error logs msg q mi cmi items :
  msg ≠ "" →
  CachedProcessLogs.render
    (CachedProcessLogs.Build_Props logs (Some msg) q mi cmi) items
  = Ok (ErrorView msg).
Proof.
  intros Hne. unfold CachedProcessLogs.render. cbn.
  replace (String.eqb msg "") with false by (symmetry; by apply String.eqb_neq).
  cbn. by rewrite andb_false_r.
Qed.







End RenderFacts.

(** * The claims *)

(** C3. On a scroll event each component with a scroll handler decides
    "at bottom" exactly by [scrollHeight - scrollTop - clientHeight] being
    strictly below its threshold: 50 in the three log viewers, 100 in the two
    conversation lists that handle scroll events.  The two log viewers that do
    not cache compute the test and drop its value; the three that cache store
    it in [atBottom]. *)
Theorem at_bottom_threshold (el : HTMLDivElement) :
  let d := scrollHeight el - scrollTop el - clientHeight el in
  (∃ v, ProcessLogsViewerContent.isAtBottom (Some el) = Ok v ∧ (v = true ↔ d < 50))
  ∧ (∃ v, VirtualizedProcessLogs.isAtBottom (Some el) = Ok v ∧ (v = true ↔ d < 50))
  ∧ (∀ h, ∃ v, CachedProcessLogs.checkAtBottom (Some el) h
               = Ok (CachedProcessLogs.set_atBottom v h) ∧ (v = true ↔ d < 50))
  ∧ (∀ h, ∃ v, ConversationList.checkAtBottom (Some el) h
               = Ok (ConversationList.set_atBottom v h) ∧ (v = true ↔ d < 100))
  ∧ (∀ h, ∃ v, VirtualizedList.checkAtBottom (Some el) h
               = Ok (VirtualizedList.set_atBottom v h) ∧ (v = true ↔ d < 100))
  ∧ (∀ w, CachedProcessLogs.reachable w → CachedProcessLogs.mounted (CachedProcessLogs.hooks w) = true →
       ∃ w', CachedProcessLogs.step w (CachedProcessLogs.Scroll el) = Ok w'
         ∧ (CachedProcessLogs.atBottom (CachedProcessLogs.hooks w') = true ↔ d < 50))
  ∧ (∀ w, ConversationList.mounted (ConversationList.hooks w) = true →
       ∃ w', ConversationList.step w (ConversationList.Scroll el) = Ok w'
         ∧ (ConversationList.atBottom (ConversationList.hooks w') = true ↔ d < 100))
  ∧ (∀ w, VirtualizedList.mounted (VirtualizedList.hooks w) = true →
       ∃ w', VirtualizedList.step w (VirtualizedList.Scroll el) = Ok w'
         ∧ (VirtualizedList.atBottom (VirtualizedList.hooks w') = true ↔ d < 100)).
Proof.
  cbn zeta. repeat split.
  - eexists. split; [apply viewer_isAtBottom_el | apply Z.ltb_lt].
  - eexists. split; [apply logs_isAtBottom_el | apply Z.ltb_lt].
  - intros h. eexists. split; [apply cached_checkAtBottom_el | apply Z.ltb_lt].
  - intros h. eexists. split; [apply conversation_checkAtBottom_el | apply Z.ltb_lt].
  - intros h. eexists. split; [apply list_checkAtBottom_el | apply Z.ltb_lt].
  - intros [h b] Hr Hm.
    destruct (cp_scroll_sets h b el (cp_reachable_Inv _ Hr) Hm) as (w' & Hs & Hv).
    exists w'. split; [done|]. rewrite Hv. apply Z.ltb_lt.
  - intros [h b] Hm. destruct (cl_scroll_sets h b el Hm) as (w' & Hs & Hv).
    exists w'. split; [done|]. rewrite Hv. apply Z.ltb_lt.
  - intros [h b] Hm. destruct (vl_scroll_sets h b el Hm) as (w' & Hs & Hv).
    exists w'. split; [done|]. rewrite Hv. apply Z.ltb_lt.
Qed.

Lemma at_bottom_threshold_witness :
  CachedProcessLogs.reachable Sample.cp_shown
  ∧ CachedProcessLogs.mounted (CachedProcessLogs.hooks Sample.cp_shown) = true
  ∧ ConversationList.mounted (ConversationList.hooks Sample.cl_loaded) = true
  ∧ VirtualizedList.mounted (VirtualizedList.hooks Sample.vl_loaded) = true
  ∧ (∃ w', CachedProcessLogs.step Sample.cp_shown
             (CachedProcessLogs.Scroll Sample.near_bottom) = Ok w'
        ∧ (CachedProcessLogs.atBottom (CachedProcessLogs.hooks w') = true ↔ 20 < 50))
  ∧ (∃ w', ConversationList.step Sample.cl_loaded
             (ConversationList.Scroll Sample.near_bottom) = Ok w'
        ∧ (ConversationList.atBottom (ConversationList.hooks w') = true ↔ 20 < 100))
  ∧ (∃ w', VirtualizedList.step Sample.vl_loaded
             (VirtualizedList.Scroll Sample.near_bottom) = Ok w'
        ∧ (VirtualizedList.atBottom (VirtualizedList.hooks w') = true ↔ 20 < 100)).
Proof.
  assert (Hr : CachedProcessLogs.reachable Sample.cp_shown).
  { exists [CachedProcessLogs.Render Sample.cp_one]. reflexivity. }
  destruct (at_bottom_threshold Sample.near_bottom) as (_ & _ & _ & _ & _ & Hcp & Hcl & Hvl).
  split; [exact Hr|]. split; [reflexivity|]. split; [reflexivity|]. split; [reflexivity|].
  split; [exact (Hcp Sample.cp_shown Hr eq_refl)|].
  split; [exact (Hcl Sample.cl_loaded eq_refl) | exact (Hvl Sample.vl_loaded eq_refl)].
Defined.

(** C8. Every operation that touches the scroll container checks the ref
    first.  On [null]: [scrollToBottom] asks for nothing, the log viewers'
    [isAtBottom] answers true, the caching handlers leave the hooks as they
    are, the polling test answers false.  No operation throws, whatever the
    ref holds, and no event makes any of the six components throw. *)
Theorem null_container_is_harmless :
  (∀ beh, ProcessLogsViewerContent.scrollToBottom beh None = Ok []
          ∧ VirtualizedProcessLogs.scrollToBottom beh None = Ok [])
  ∧ ProcessLogsViewerContent.isAtBottom None = Ok true
  ∧ VirtualizedProcessLogs.isAtBottom None = Ok true
  ∧ ProcessLogsViewerContent.checkAtBottom None = Ok ()
  ∧ VirtualizedProcessLogs.checkAtBottom None = Ok ()
  ∧ (∀ h, CachedProcessLogs.checkAtBottom None h = Ok h)
  ∧ (∀ h, ConversationList.checkAtBottom None h = Ok h)
  ∧ (∀ h, VirtualizedList.checkAtBottom None h = Ok h)
  ∧ PollingList.poll_atBottom None = Ok false
  ∧ (∀ r beh, succeeds (ProcessLogsViewerContent.scrollToBottom beh r)
              ∧ succeeds (VirtualizedProcessLogs.scrollToBottom beh r))
  ∧ (∀ r, succeeds (ProcessLogsViewerContent.isAtBottom r)
          ∧ succeeds (VirtualizedProcessLogs.isAtBottom r)
          ∧ succeeds (PollingList.poll_atBottom r))
  ∧ (∀ r h, succeeds (CachedProcessLogs.checkAtBottom r h))
  ∧ (∀ r h, succeeds (ConversationList.checkAtBottom r h))
  ∧ (∀ r h, succeeds (VirtualizedList.checkAtBottom r h))
  ∧ (∀ w e, succeeds (ProcessLogsViewerContent.step w e))
  ∧ (∀ w e, succeeds (VirtualizedProcessLogs.step w e))
  ∧ (∀ w e, succeeds (CachedProcessLogs.step w e))
  ∧ (∀ w e, succeeds (ConversationList.step w e))
  ∧ (∀ w e, succeeds (VirtualizedList.step w e))
  ∧ (∀ w e, succeeds (PollingList.step w e)).
Proof.
  repeat split; try reflexivity.
  - destruct r; cbn; by eexists.
  - destruct r; cbn; by eexists.
  - destruct r; cbn; by eexists.
  - destruct r; cbn; by eexists.
  - destruct r; cbn; by eexists.
  - destruct r; cbn; by eexists.
  - destruct r; cbn; by eexists.
  - destruct r; cbn; by eexists.
  - apply pv_step_ok.
  - apply vp_step_ok.
  - apply cp_step_ok.
  - apply cl_step_ok.
  - apply vl_step_ok.
  - apply pl_step_ok.
Qed.

(** C2, as stated, fails: an error that is the empty string is a non-null
    string, yet the list is rendered (or the "no logs" placeholder when there
    are no logs), because the components test [error] for truthiness. *)
Lemma empty_error_string_shows_the_list :
  let p := {| ProcessLogsViewerContent.logs := [Sample.line1];
              ProcessLogsViewerContent.error := Some "" |} in
  let p0 := {| ProcessLogsViewerContent.logs := [];
               ProcessLogsViewerContent.error := Some "" |} in
  ProcessLogsViewerContent.render p [Sample.row0]
  = Ok (ListView [ProcessLogsViewerContent.row_of Sample.row0 Sample.line1])
  ∧ ProcessLogsViewerContent.render p0 [] = Ok NoLogs
  ∧ VirtualizedProcessLogs.render
      (VirtualizedProcessLogs.Build_Props [Sample.line1] (Some "") "" [] 0) [Sample.row0]
    = Ok (ListView [VirtualizedProcessLogs.row_of
                      (VirtualizedProcessLogs.Build_Props [Sample.line1] (Some "") "" [] 0)
                      Sample.row0 Sample.line1]).
Proof. cbn zeta. repeat split; reflexivity. Qed.

(** C2, amended.  Whenever the error prop is a non-empty string, each log
    viewer renders that string in place of the list, with no rows, whether the
    list of logs is empty or not. *)
Theorem error_replaces_list (msg : string) (logs : list LogEntry)
    (items : list VirtualItem) (query : string) (matchIndices : list Z)
    (currentMatchIndex : Z) :
  msg ≠ "" →
  ProcessLogsViewerContent.render
    {| ProcessLogsViewerContent.logs := logs;
       ProcessLogsViewerContent.error := Some msg |} items
  = Ok (ErrorView msg)
  ∧ VirtualizedProcessLogs.render
      (VirtualizedProcessLogs.Build_Props logs (Some msg) query matchIndices
         currentMatchIndex) items
    = Ok (ErrorView msg)
  ∧ CachedProcessLogs.render
      (CachedProcessLogs.Build_Props logs (Some msg) query matchIndices
         currentMatchIndex) items
    = Ok (ErrorView msg).
Proof.
  intros Hne. split; [by apply pv_render_error|].
  split; [by apply vp_render_error | by apply cp_render_error].
Qed.

Lemma error_replaces_list_witness :
  "stream closed" ≠ ""
  ∧ ProcessLogsViewerContent.render
      {| ProcessLogsViewerContent.logs := [Sample.line1; Sample.line2];
         ProcessLogsViewerContent.error := Some "stream closed" |}
      [Sample.row0; Sample.row1]
    = Ok (ErrorView "stream closed")
  ∧ ProcessLogsViewerContent.render
      {| ProcessLogsViewerContent.logs := [];
         ProcessLogsViewerContent.error := Some "stream closed" |} []
    = Ok (ErrorView "stream closed").
Proof.
  assert (Hne : "stream closed" ≠ "") by discriminate.
  split; [exact Hne|]. split.
  - exact (proj1 (error_replaces_list "stream closed" [Sample.line1; Sample.line2]
                    [Sample.row0; Sample.row1] "" [] 0 Hne)).
  - exact (proj1 (error_replaces_list "stream closed" [] [] "" [] 0 Hne)).
Defined.

(** ** Lists are stored as they are received *)





(** C5. The debounced list.  After any run of [onEntriesUpdated] calls with
    no timer run in between, nothing has been applied, one timer is pending,
    due 100 ms after the last call, and the pending update is the last one.
    Running that timer earlier does nothing; once it runs, the entries and add
    type of the last update, and of no other, are applied to the state and sent
    to the entries context, and no timer is left. *)
Theorem debounce_applies_latest_only
    (w : ConversationList.World) (superseded : list ConversationList.Update)
    (u : ConversationList.Update) :
  ConversationList.reachable w →
  ConversationList.mounted (ConversationList.hooks w) = true →
  ∃ w1 id,
    ConversationList.run w (ConversationList.burst (superseded ++ [u])) = Ok w1
    ∧ ConversationList.same_view w w1
    ∧ ConversationList.pendingUpdateRef (ConversationList.hooks w1)
      = Some (ConversationList.pending_of u)
    ∧ Browser.timers (ConversationList.browser w1)
      = {[ id := (Browser.now (ConversationList.browser w1) + 100,
                  ConversationList.Debounced
                    (ConversationList.loading (ConversationList.hooks w))) ]}
    ∧ (∀ dt, dt < 100 →
         ConversationList.run w1 [ConversationList.Advance dt; ConversationList.Timeout id]
         = Ok (ConversationList.with_browser (Browser.advance dt) w1))
    ∧ (∀ dt, 100 ≤ dt →
         ∃ w2,
           ConversationList.run w1 [ConversationList.Advance dt; ConversationList.Timeout id]
           = Ok w2
           ∧ ConversationList.entries (ConversationList.hooks w2)
             = ConversationList.upd_entries u
           ∧ ConversationList.addTypeRef (ConversationList.hooks w2)
             = ConversationList.upd_addType u
           ∧ Browser.out (ConversationList.browser w2)
             = Browser.out (ConversationList.browser w)
               ++ [CtxSetEntries (ConversationList.upd_entries u)]
           ∧ Browser.timers (ConversationList.browser w2) = ∅).
Proof.
  intros Hr Hm. pose proof (cl_reachable_Inv _ Hr) as HI.
  destruct (cl_mounted_rendered _ Hm) as (d & Hd & Hun).
  destruct (cl_burst_pending superseded w u HI) as (w1 & id & Hrun & Hv & Hp & Hid & Ht);
    [congruence|].
  exists w1, id. split; [exact Hrun|]. split; [exact Hv|]. split; [exact Hp|].
  split; [exact Ht|].
  assert (HI1 : ConversationList.Inv w1) by (eapply cl_run_Inv; eauto).
  split.
  - intros dt Hdt. cbn [ConversationList.run].
    change (ConversationList.step w1 (ConversationList.Advance dt))
      with (Ok (ConversationList.with_browser (Browser.advance dt) w1)). js_simpl.
    rewrite (cl_not_due _ id (Browser.now (ConversationList.browser w1) + 100)
               (ConversationList.Debounced
                  (ConversationList.loading (ConversationList.hooks w)))); [reflexivity| |].
    + destruct w1 as [h1 b1]. cbn in *. rewrite Ht. apply lookup_singleton_eq.
    + destruct w1 as [h1 b1]. cbn in *. lia.
  - intros dt Hdt. cbn [ConversationList.run].
    change (ConversationList.step w1 (ConversationList.Advance dt))
      with (Ok (ConversationList.with_browser (Browser.advance dt) w1)). js_simpl.
    destruct (cl_fire (ConversationList.with_browser (Browser.advance dt) w1) id
                (Browser.now (ConversationList.browser w1) + 100)
                (ConversationList.loading (ConversationList.hooks w))
                (ConversationList.pending_of u))
      as (w2 & Hs & He & Ha & _ & Ho & Htm & _).
    + destruct HI1 as [H1 H2 H3 H4 H5 H6]. destruct w1 as [h1 b1]. split; cbn in *; done.
    + destruct Hv as (_&_&_&_&_&_&_&Hu&_). destruct w1 as [h1 b1]. cbn in *. congruence.
    + destruct w1 as [h1 b1]. cbn in *. rewrite Ht. apply lookup_singleton_eq.
    + destruct w1 as [h1 b1]. cbn in *. exact Hp.
    + destruct w1 as [h1 b1]. cbn in *. lia.
    + rewrite Hs. js_simpl. exists w2.
      split; [reflexivity|]. split; [exact He|]. split; [exact Ha|]. split.
      * rewrite Ho. destruct Hv as (_&_&_&_&_&_&_&_&_&_&Hout).
        destruct w1 as [h1 b1]. cbn in *. by rewrite Hout.
      * rewrite Htm. destruct w1 as [h1 b1]. cbn in *. rewrite Ht.
        apply delete_singleton_eq.
Qed.

Lemma debounce_applies_latest_only_witness :
  let first := {| ConversationList.upd_after := 0;
                  ConversationList.upd_entries := [Sample.e1];
                  ConversationList.upd_addType := "running";
                  ConversationList.upd_loading := true |} in
  let second := {| ConversationList.upd_after := 40;
                   ConversationList.upd_entries := [Sample.e1; Sample.e2];
                   ConversationList.upd_addType := "plan";
                   ConversationList.upd_loading := false |} in
  ConversationList.reachable Sample.cl_mounted
  ∧ ConversationList.mounted (ConversationList.hooks Sample.cl_mounted) = true
  ∧ ∃ w1 id w2,
      ConversationList.run Sample.cl_mounted (ConversationList.burst [first; second]) = Ok w1
      ∧ ConversationList.entries (ConversationList.hooks w1) = []
      ∧ ConversationList.run w1 [ConversationList.Advance 100; ConversationList.Timeout id]
        = Ok w2
      ∧ ConversationList.entries (ConversationList.hooks w2) = [Sample.e1; Sample.e2]
      ∧ ConversationList.addTypeRef (ConversationList.hooks w2) = "plan"
      ∧ Browser.out (ConversationList.browser w2)
        = [CtxReset; CtxSetEntries [Sample.e1; Sample.e2]].
Proof.
  cbn zeta.
  assert (Hr : ConversationList.reachable Sample.cl_mounted).
  { exists Sample.cl_mount. reflexivity. }
  split; [exact Hr|]. split; [reflexivity|].
  destruct (debounce_applies_latest_only Sample.cl_mounted
              [{| ConversationList.upd_after := 0;
                  ConversationList.upd_entries := [Sample.e1];
                  ConversationList.upd_addType := "running";
                  ConversationList.upd_loading := true |}]
              {| ConversationList.upd_after := 40;
                 ConversationList.upd_entries := [Sample.e1; Sample.e2];
                 ConversationList.upd_addType := "plan";
                 ConversationList.upd_loading := false |} Hr eq_refl)
    as (w1 & id & Hrun & Hv & _ & _ & _ & Hfire).
  destruct (Hfire 100 ltac:(lia)) as (w2 & Hrun2 & He & Ha & Ho & _).
  exists w1, id, w2. split; [exact Hrun|].
  split; [exact (proj1 Hv)|]. split; [exact Hrun2|]. split; [exact He|].
  split; [exact Ha | exact Ho].
Defined.

(** ** The initial scroll, once *)


(** C7. Unmount.  The debounced list clears its timer: after the unmount no
    timer is left, so whatever time passes and whichever timer ids the browser
    tries, no pending update is applied and no call is made.  The log viewers
    cancel nothing: unmount leaves their timer table as it was, and a pending
    retry of the initial scroll still runs afterwards (it finds no container
    and arms the next retry). *)
Theorem unmount_cancellation :
  (∀ w, ConversationList.reachable w →
        ConversationList.mounted (ConversationList.hooks w) = true →
        ∃ w', ConversationList.step w ConversationList.Unmount = Ok w'
          ∧ Browser.timers (ConversationList.browser w') = ∅
          ∧ ∀ es, Forall ConversationList.clock_event es →
              ∃ w'', ConversationList.run w' es = Ok w''
                ∧ ConversationList.hooks w'' = ConversationList.hooks w'
                ∧ ConversationList.entries (ConversationList.hooks w'')
                  = ConversationList.entries (ConversationList.hooks w)
                ∧ Browser.out (ConversationList.browser w'')
                  = Browser.out (ConversationList.browser w))
  ∧ (∀ w w', ProcessLogsViewerContent.step w ProcessLogsViewerContent.Unmount = Ok w' →
             Browser.timers (ProcessLogsViewerContent.browser w')
             = Browser.timers (ProcessLogsViewerContent.browser w))
  ∧ (∀ w w', VirtualizedProcessLogs.step w VirtualizedProcessLogs.Unmount = Ok w' →
             Browser.timers (VirtualizedProcessLogs.browser w')
             = Browser.timers (VirtualizedProcessLogs.browser w))
  ∧ (∀ w id at_ attempts,
       ProcessLogsViewerContent.mounted (ProcessLogsViewerContent.hooks w) = true →
       Browser.timers (ProcessLogsViewerContent.browser w) !! id
       = Some (at_, ProcessLogsViewerContent.DoScroll attempts) →
       0 < attempts →
       ∃ w', ProcessLogsViewerContent.run w
               [ProcessLogsViewerContent.Unmount;
                ProcessLogsViewerContent.Advance
                  (at_ - Browser.now (ProcessLogsViewerContent.browser w));
                ProcessLogsViewerContent.Timeout id] = Ok w'
         ∧ Browser.timers (ProcessLogsViewerContent.browser w')
             !! Browser.next_timer (ProcessLogsViewerContent.browser w)
           = Some (Browser.now (ProcessLogsViewerContent.browser w') + 100,
                   ProcessLogsViewerContent.DoScroll (attempts - 1)))
  ∧ (∀ w id at_ attempts,
       VirtualizedProcessLogs.mounted (VirtualizedProcessLogs.hooks w) = true →
       Browser.timers (VirtualizedProcessLogs.browser w) !! id
       = Some (at_, VirtualizedProcessLogs.DoScroll attempts) →
       0 < attempts →
       ∃ w', VirtualizedProcessLogs.run w
               [VirtualizedProcessLogs.Unmount;
                VirtualizedProcessLogs.Advance
                  (at_ - Browser.now (VirtualizedProcessLogs.browser w));
                VirtualizedProcessLogs.Timeout id] = Ok w'
         ∧ Browser.timers (VirtualizedProcessLogs.browser w')
             !! Browser.next_timer (VirtualizedProcessLogs.browser w)
           = Some (Browser.now (VirtualizedProcessLogs.browser w') + 100,
                   VirtualizedProcessLogs.DoScroll (attempts - 1))).
Proof.
  repeat apply conj.
  - intros w Hr Hm.
    destruct (cl_unmount_clears w (cl_reachable_Inv _ Hr) Hm)
      as (w' & Hs & Ht & _ & He & Ho).
    exists w'. split; [exact Hs|]. split; [exact Ht|]. intros es Hes.
    destruct (cl_idle es w' Ht Hes) as (w'' & Hrun & Hh & Ho' & _).
    exists w''. split; [exact Hrun|]. split; [exact Hh|]. split; congruence.
  - apply pv_unmount_keeps_timers.
  - apply vp_unmount_keeps_timers.
  - intros w id at_ attempts Hm Hl Hpos.
    destruct (pv_retry_after_unmount w id at_ attempts Hm Hl Hpos) as (w' & Hrun & Ht & _).
    by exists w'.
  - intros w id at_ attempts Hm Hl Hpos.
    destruct (vp_retry_after_unmount w id at_ attempts Hm Hl Hpos) as (w' & Hrun & Ht & _).
    by exists w'.
Qed.

Lemma unmount_cancellation_witness :
  (* the debounced list with an update pending *)
  (ConversationList.reachable Sample.cl_plan_pending
   ∧ ConversationList.mounted (ConversationList.hooks Sample.cl_plan_pending) = true
   ∧ Browser.timers (ConversationList.browser Sample.cl_plan_pending) !! 2%positive
     = Some (200, ConversationList.Debounced false)
   ∧ Forall ConversationList.clock_event
       [ConversationList.Advance 1000; ConversationList.Timeout 2]
   ∧ ∃ w' w'', ConversationList.step Sample.cl_plan_pending ConversationList.Unmount = Ok w'
       ∧ ConversationList.run w' [ConversationList.Advance 1000; ConversationList.Timeout 2]
         = Ok w''
       ∧ ConversationList.entries (ConversationList.hooks w'') = [Sample.e1]
       ∧ Browser.out (ConversationList.browser w'')
         = Browser.out (ConversationList.browser Sample.cl_plan_pending))
  (* a log viewer with the first retry of the initial scroll pending *)
  ∧ (ProcessLogsViewerContent.mounted (ProcessLogsViewerContent.hooks Sample.pv_shown) = true
     ∧ Browser.timers (ProcessLogsViewerContent.browser Sample.pv_shown) !! 1%positive
       = Some (50, ProcessLogsViewerContent.DoScroll 3)
     ∧ 0 < 3
     ∧ ∃ w', ProcessLogsViewerContent.run Sample.pv_shown
               [ProcessLogsViewerContent.Unmount; ProcessLogsViewerContent.Advance 50;
                ProcessLogsViewerContent.Timeout 1] = Ok w'
         ∧ Browser.timers (ProcessLogsViewerContent.browser w') !! 3%positive
           = Some (Browser.now (ProcessLogsViewerContent.browser w') + 100,
                   ProcessLogsViewerContent.DoScroll 2))
  ∧ (VirtualizedProcessLogs.mounted (VirtualizedProcessLogs.hooks Sample.vp_shown) = true
     ∧ Browser.timers (VirtualizedProcessLogs.browser Sample.vp_shown) !! 1%positive
       = Some (50, VirtualizedProcessLogs.DoScroll 3)
     ∧ ∃ w', VirtualizedProcessLogs.run Sample.vp_shown
               [VirtualizedProcessLogs.Unmount; VirtualizedProcessLogs.Advance 50;
                VirtualizedProcessLogs.Timeout 1] = Ok w'
         ∧ Browser.timers (VirtualizedProcessLogs.browser w') !! 3%positive
           = Some (Browser.now (VirtualizedProcessLogs.browser w') + 100,
                   VirtualizedProcessLogs.DoScroll 2)).
Proof.
  destruct unmount_cancellation as (Hcl & Hpvk & Hvpk & Hpv & Hvp).
  assert (Rcl : ConversationList.reachable Sample.cl_plan_pending).
  { exists (Sample.cl_scrolled_up
              ++ [ConversationList.EntriesUpdated [Sample.e1; Sample.e2] "plan" false;
                  ConversationList.Advance 100]). by vm_compute. }
  assert (Mcl : ConversationList.mounted (ConversationList.hooks Sample.cl_plan_pending)
                = true) by (by vm_compute).
  assert (Kcl : Forall ConversationList.clock_event
                  [ConversationList.Advance 1000; ConversationList.Timeout 2]).
  { repeat constructor. }
  assert (Mpv : ProcessLogsViewerContent.mounted
                  (ProcessLogsViewerContent.hooks Sample.pv_shown) = true)
    by (by vm_compute).
  assert (Tpv : Browser.timers (ProcessLogsViewerContent.browser Sample.pv_shown)
                  !! 1%positive = Some (50, ProcessLogsViewerContent.DoScroll 3))
    by (by vm_compute).
  assert (Mvp : VirtualizedProcessLogs.mounted
                  (VirtualizedProcessLogs.hooks Sample.vp_shown) = true)
    by (by vm_compute).
  assert (Tvp : Browser.timers (VirtualizedProcessLogs.browser Sample.vp_shown)
                  !! 1%positive = Some (50, VirtualizedProcessLogs.DoScroll 3))
    by (by vm_compute).
  split; [|split].
  - split; [exact Rcl|]. split; [exact Mcl|]. split; [by vm_compute|]. split; [exact Kcl|].
    destruct (Hcl _ Rcl Mcl) as (w' & Hs & _ & Hidle).
    destruct (Hidle _ Kcl) as (w'' & Hrun & _ & He & Ho).
    exists w', w''. split; [exact Hs|]. split; [exact Hrun|]. split; [|exact Ho].
    rewrite He. by vm_compute.
  - split; [exact Mpv|]. split; [exact Tpv|]. split; [lia|].
    exact (Hpv Sample.pv_shown 1%positive 50 3 Mpv Tpv ltac:(lia)).
  - split; [exact Mvp|]. split; [exact Tvp|].
    exact (Hvp Sample.vp_shown 1%positive 50 3 Mvp Tvp ltac:(lia)).
Defined.

(** C9. A render for another attempt resets the conversation lists before
    any new data is taken: the entries are empty, loading is true, the init
    flag and the previous length are back at their initial values (where the
    component has them), [reset()] goes to the entries context, and no scroll
    is asked for. *)
Theorem attempt_change_resets (a : string) :
  (∀ w d, ConversationList.reachable w →
     ConversationList.rendered (ConversationList.hooks w) = Some d →
     ConversationList.unmounted (ConversationList.hooks w) = false →
     ConversationList.dep_attempt d ≠ a →
     ∃ w', ConversationList.step w (ConversationList.Render a) = Ok w'
       ∧ ConversationList.entries (ConversationList.hooks w') = []
       ∧ ConversationList.loading (ConversationList.hooks w') = true
       ∧ ConversationList.didInitScroll (ConversationList.hooks w') = false
       ∧ ConversationList.prevEntriesLengthRef (ConversationList.hooks w') = 0
       ∧ Browser.out (ConversationList.browser w')
         = Browser.out (ConversationList.browser w) ++ [CtxReset]
       ∧ Browser.frames (ConversationList.browser w')
         = Browser.frames (ConversationList.browser w))
  ∧ (∀ w d, VirtualizedList.reachable w →
     VirtualizedList.rendered (VirtualizedList.hooks w) = Some d →
     VirtualizedList.unmounted (VirtualizedList.hooks w) = false →
     VirtualizedList.dep_attempt d ≠ a →
     ∃ w', VirtualizedList.step w (VirtualizedList.Render a) = Ok w'
       ∧ VirtualizedList.entries (VirtualizedList.hooks w') = []
       ∧ VirtualizedList.loading (VirtualizedList.hooks w') = true
       ∧ VirtualizedList.didInitScroll (VirtualizedList.hooks w') = false
       ∧ VirtualizedList.prevEntriesLengthRef (VirtualizedList.hooks w') = 0
       ∧ Browser.out (VirtualizedList.browser w')
         = Browser.out (VirtualizedList.browser w) ++ [CtxReset]
       ∧ Browser.frames (VirtualizedList.browser w')
         = Browser.frames (VirtualizedList.browser w))
  ∧ (∀ w d, PollingList.reachable w →
     PollingList.rendered (PollingList.hooks w) = Some d →
     PollingList.unmounted (PollingList.hooks w) = false →
     PollingList.dep_attempt d ≠ a →
     ∃ w', PollingList.step w (PollingList.Render a) = Ok w'
       ∧ PollingList.entries (PollingList.hooks w') = []
       ∧ PollingList.loading (PollingList.hooks w') = true
       ∧ Browser.out (PollingList.browser w')
         = Browser.out (PollingList.browser w) ++ [CtxReset]).
Proof.
  repeat apply conj.
  - intros w d Hr Hd Hu Hne.
    destruct (cl_attempt_change a w d (cl_reachable_Inv _ Hr) Hd Hu Hne)
      as (w' & Hs & He & Hl & Hdi & Hp & Ho & Hf & _).
    exists w'. repeat split; done.
  - intros w d Hr Hd Hu Hne.
    destruct (vl_attempt_change a w d (vl_reachable_Inv _ Hr) Hd Hu Hne)
      as (w' & Hs & He & Hl & Hdi & Hp & Ho & Hf & _).
    exists w'. repeat split; done.
  - intros w d Hr Hd Hu Hne.
    exact (pl_attempt_change a w d (pl_reachable_Inv _ Hr) Hd Hu Hne).
Qed.

Lemma attempt_change_resets_witness :
  (ConversationList.reachable Sample.cl_two
   ∧ ConversationList.entries (ConversationList.hooks Sample.cl_two) = [Sample.e1; Sample.e2]
   ∧ ConversationList.loading (ConversationList.hooks Sample.cl_two) = false
   ∧ ∃ w', ConversationList.step Sample.cl_two (ConversationList.Render "a2") = Ok w'
       ∧ ConversationList.entries (ConversationList.hooks w') = []
       ∧ ConversationList.loading (ConversationList.hooks w') = true
       ∧ ConversationList.didInitScroll (ConversationList.hooks w') = false
       ∧ ConversationList.prevEntriesLengthRef (ConversationList.hooks w') = 0)
  ∧ (VirtualizedList.reachable Sample.vl_two
     ∧ ∃ w', VirtualizedList.step Sample.vl_two (VirtualizedList.Render "a2") = Ok w'
         ∧ VirtualizedList.entries (VirtualizedList.hooks w') = []
         ∧ VirtualizedList.loading (VirtualizedList.hooks w') = true
         ∧ VirtualizedList.didInitScroll (VirtualizedList.hooks w') = false
         ∧ VirtualizedList.prevEntriesLengthRef (VirtualizedList.hooks w') = 0)
  ∧ (PollingList.reachable Sample.pl_two
     ∧ ∃ w', PollingList.step Sample.pl_two (PollingList.Render "a2") = Ok w'
         ∧ PollingList.entries (PollingList.hooks w') = []
         ∧ PollingList.loading (PollingList.hooks w') = true).
Proof.
  destruct (attempt_change_resets "a2") as (Hcl & Hvl & Hpl).
  assert (Rcl : ConversationList.reachable Sample.cl_two).
  { exists (Sample.cl_scrolled_up
              ++ [ConversationList.EntriesUpdated [Sample.e1; Sample.e2] "plan" false;
                  ConversationList.Advance 100; ConversationList.Timeout 2]).
    by vm_compute. }
  assert (Rvl : VirtualizedList.reachable Sample.vl_two).
  { exists (Sample.vl_first_entry
              ++ [VirtualizedList.EntriesUpdated [Sample.e1; Sample.e2] "running" false]).
    by vm_compute. }
  assert (Rpl : PollingList.reachable Sample.pl_two).
  { exists (Sample.pl_first_entry
              ++ [PollingList.EntriesUpdated [Sample.e1; Sample.e2] "running" false]).
    by vm_compute. }
  split; [|split].
  - split; [exact Rcl|]. split; [by vm_compute|]. split; [by vm_compute|].
    destruct (Hcl Sample.cl_two
                {| ConversationList.dep_attempt := "a1"; ConversationList.dep_len := 2;
                   ConversationList.dep_loading := false;
                   ConversationList.dep_atBottom := false |} Rcl)
      as (w' & Hs & He & Hl & Hd & Hp & _); [by vm_compute|by vm_compute|discriminate|].
    exists w'. repeat split; done.
  - split; [exact Rvl|].
    destruct (Hvl Sample.vl_two
                {| VirtualizedList.dep_attempt := "a1"; VirtualizedList.dep_len := 2;
                   VirtualizedList.dep_loading := false;
                   VirtualizedList.dep_atBottom := true |} Rvl)
      as (w' & Hs & He & Hl & Hd & Hp & _); [by vm_compute|by vm_compute|discriminate|].
    exists w'. repeat split; done.
  - split; [exact Rpl|].
    destruct (Hpl Sample.pl_two
                {| PollingList.dep_attempt := "a1"; PollingList.dep_len := 2 |} Rpl)
      as (w' & Hs & He & Hl & _); [by vm_compute|by vm_compute|discriminate|].
    exists w'. repeat split; done.
Defined.




(** ** Loading, by callback instance *)

Section CallbackInstances.





End CallbackInstances.




(** C1, as stated, fails.  In ConversationList, with the user scrolled up
    (the last scroll event left [atBottom] false) and the initial scroll done,
    a 'plan' update that grows the list from one entry to two makes the
    component call [scrollToIndex(1, {align: 'start'})] at the next paint.
    In the polling VirtualizedList, with the container scrolled all the way
    up, an update that grows the list calls [scrollToIndex(1, {align: 'end'})]
    at once. *)
Lemma growth_scrolls_when_user_scrolled_up :
  (ConversationList.atBottom (ConversationList.hooks Sample.cl_away) = false
   ∧ ConversationList.didInitScroll (ConversationList.hooks Sample.cl_away) = true
   ∧ ConversationList.entries (ConversationList.hooks Sample.cl_away) = [Sample.e1]
   ∧ ∃ w', ConversationList.run Sample.cl_away
             [ConversationList.EntriesUpdated [Sample.e1; Sample.e2] "plan" false;
              ConversationList.Advance 100;
              ConversationList.Timeout 2;
              ConversationList.Paint] = Ok w'
       ∧ ConversationList.entries (ConversationList.hooks w') = [Sample.e1; Sample.e2]
       ∧ Browser.out (ConversationList.browser w')
         = Browser.out (ConversationList.browser Sample.cl_away)
           ++ [CtxSetEntries [Sample.e1; Sample.e2]; ScrollToIndex 1 AlignStart])
  ∧ (Browser.parentRef (PollingList.browser Sample.pl_loaded) = Some Sample.scrolled_up
     ∧ PollingList.entries (PollingList.hooks Sample.pl_loaded) = [Sample.e1]
     ∧ ∃ w', PollingList.step Sample.pl_loaded
               (PollingList.EntriesUpdated [Sample.e1; Sample.e2] "running" false) = Ok w'
         ∧ PollingList.entries (PollingList.hooks w') = [Sample.e1; Sample.e2]
         ∧ Browser.out (PollingList.browser w')
           = Browser.out (PollingList.browser Sample.pl_loaded)
             ++ [CtxSetEntries [Sample.e1; Sample.e2]; ScrollToIndex 1 AlignEnd]).
Proof.
  split.
  - split; [by vm_compute|]. split; [by vm_compute|]. split; [by vm_compute|].
    exists (Sample.outcome ConversationList.init
              (ConversationList.run Sample.cl_away
                 [ConversationList.EntriesUpdated [Sample.e1; Sample.e2] "plan" false;
                  ConversationList.Advance 100;
                  ConversationList.Timeout 2;
                  ConversationList.Paint])).
    split; [by vm_compute|]. split; by vm_compute.
  - split; [by vm_compute|]. split; [by vm_compute|].
    exists (Sample.outcome PollingList.init
              (PollingList.step Sample.pl_loaded
                 (PollingList.EntriesUpdated [Sample.e1; Sample.e2] "running" false))).
    split; [by vm_compute|]. split; by vm_compute.
Qed.

(** With no matches, a negative index, or the index last scrolled to, the
    search-match effect asks for nothing. *)
Lemma vp_no_new_match p h :
  VirtualizedProcessLogs.matchIndices p = []
  ∨ VirtualizedProcessLogs.currentMatchIndex p < 0
  ∨ VirtualizedProcessLogs.prevCurrentMatchRef h
    = Some (VirtualizedProcessLogs.currentMatchIndex p) →
  VirtualizedProcessLogs.search_scroll p h = [].
Proof.
  unfold VirtualizedProcessLogs.search_scroll, VirtualizedProcessLogs.match_fires,
    VirtualizedProcessLogs.differs.
  intros [->|[Hneg| ->]].
  - cbn. by rewrite andb_false_r.
  - replace (VirtualizedProcessLogs.currentMatchIndex p >=? 0) with false
      by (symmetry; rewrite Z.geb_leb; apply Z.leb_gt; lia).
    by rewrite andb_false_r, andb_false_l, andb_false_r.
  - rewrite Z.eqb_refl. cbn. by rewrite !andb_false_r.
Qed.

Lemma cp_no_new_match p h :
  CachedProcessLogs.matchIndices p = []
  ∨ CachedProcessLogs.currentMatchIndex p < 0
  ∨ CachedProcessLogs.prevCurrentMatchRef h
    = Some (CachedProcessLogs.currentMatchIndex p) →
  CachedProcessLogs.search_scroll p h = [].
Proof.
  unfold CachedProcessLogs.search_scroll, CachedProcessLogs.match_fires,
    CachedProcessLogs.differs.
  intros [->|[Hneg| ->]].
  - cbn. by rewrite andb_false_r.
  - replace (CachedProcessLogs.currentMatchIndex p >=? 0) with false
      by (symmetry; rewrite Z.geb_leb; apply Z.leb_gt; lia).
    by rewrite andb_false_r, andb_false_l, andb_false_r.
  - rewrite Z.eqb_refl. cbn. by rewrite !andb_false_r.
Qed.

(** C1, amended.  For an update that grows the list after the initial scroll:
    - ProcessLogsViewerContent and VirtualizedProcessLogs arm a timer; when it
      runs, 50 ms or more later, it scrolls to the bottom if the container is
      then within 50 px of it, and makes no call otherwise;
    - the cached-state VirtualizedProcessLogs and the first VirtualizedList
      queue a scroll to the last row for the next paint when the last scroll
      event left the user at the bottom (in VirtualizedList for add types
      'running' and 'plan' only), and queue nothing otherwise;
    - the two searching log viewers (VirtualizedProcessLogs and its
      cached-state revision) make one more call in such a render, the scroll to
      the current search match, when the render changes the current match;
      with no matches, a negative index or the index last scrolled to, they
      make none;
    - ConversationList, when the debounced update is applied, queues a scroll
      of the last row to the top of the view for a 'plan' update wherever the
      user is, to the bottom for a 'running' update if the user was at the
      bottom, both only once loading has finished, and nothing otherwise;
    - the polling VirtualizedList scrolls to the last row on every change of
      the list's length, wherever the user is.
    Apart from these scrolls the conversation lists call [setEntries] of the
    entries context, and nothing else. *)
Theorem follow_on_growth :
  (∀ w p q r dt,
     ProcessLogsViewerContent.reachable w →
     ProcessLogsViewerContent.rendered (ProcessLogsViewerContent.hooks w) = Some q →
     ProcessLogsViewerContent.unmounted (ProcessLogsViewerContent.hooks w) = false →
     ProcessLogsViewerContent.didInitScroll (ProcessLogsViewerContent.hooks w) = true →
     (length (ProcessLogsViewerContent.logs q)
      < length (ProcessLogsViewerContent.logs p))%nat →
     50 ≤ dt →
     ∃ w', ProcessLogsViewerContent.run w
             [ProcessLogsViewerContent.Render p; ProcessLogsViewerContent.Layout r;
              ProcessLogsViewerContent.Advance dt;
              ProcessLogsViewerContent.Timeout
                (Browser.next_timer (ProcessLogsViewerContent.browser w))] = Ok w'
       ∧ Browser.out (ProcessLogsViewerContent.browser w')
         = Browser.out (ProcessLogsViewerContent.browser w)
           ++ ProcessLogsViewerContent.follow r)
  ∧ (∀ w p q r dt,
     VirtualizedProcessLogs.reachable w →
     VirtualizedProcessLogs.rendered (VirtualizedProcessLogs.hooks w) = Some q →
     VirtualizedProcessLogs.unmounted (VirtualizedProcessLogs.hooks w) = false →
     VirtualizedProcessLogs.didInitScroll (VirtualizedProcessLogs.hooks w) = true →
     (length (VirtualizedProcessLogs.logs q)
      < length (VirtualizedProcessLogs.logs p))%nat →
     50 ≤ dt →
     ∃ w', VirtualizedProcessLogs.run w
             [VirtualizedProcessLogs.Render p; VirtualizedProcessLogs.Layout r;
              VirtualizedProcessLogs.Advance dt;
              VirtualizedProcessLogs.Timeout
                (Browser.next_timer (VirtualizedProcessLogs.browser w))] = Ok w'
       ∧ Browser.out (VirtualizedProcessLogs.browser w')
         = Browser.out (VirtualizedProcessLogs.browser w)
           ++ VirtualizedProcessLogs.search_scroll p (VirtualizedProcessLogs.hooks w)
           ++ VirtualizedProcessLogs.follow r
       ∧ (VirtualizedProcessLogs.matchIndices p = []
          ∨ VirtualizedProcessLogs.currentMatchIndex p < 0
          ∨ VirtualizedProcessLogs.prevCurrentMatchRef (VirtualizedProcessLogs.hooks w)
            = Some (VirtualizedProcessLogs.currentMatchIndex p) →
          Browser.out (VirtualizedProcessLogs.browser w')
          = Browser.out (VirtualizedProcessLogs.browser w)
            ++ VirtualizedProcessLogs.follow r))
  ∧ (∀ w p q ab,
     CachedProcessLogs.reachable w →
     CachedProcessLogs.rendered (CachedProcessLogs.hooks w) = Some (q, ab) →
     CachedProcessLogs.unmounted (CachedProcessLogs.hooks w) = false →
     CachedProcessLogs.didInitScroll (CachedProcessLogs.hooks w) = true →
     (length (CachedProcessLogs.logs q) < length (CachedProcessLogs.logs p))%nat →
     ∃ w', CachedProcessLogs.step w (CachedProcessLogs.Render p) = Ok w'
       ∧ Browser.frames (CachedProcessLogs.browser w')
         = Browser.frames (CachedProcessLogs.browser w)
           ++ (if CachedProcessLogs.atBottom (CachedProcessLogs.hooks w)
               then [Browser.FrameScrollToIndex
                       (Z.of_nat (length (CachedProcessLogs.logs p)) - 1) AlignEnd]
               else [])
       ∧ Browser.out (CachedProcessLogs.browser w')
         = Browser.out (CachedProcessLogs.browser w)
           ++ CachedProcessLogs.search_scroll p (CachedProcessLogs.hooks w)
       ∧ (CachedProcessLogs.matchIndices p = []
          ∨ CachedProcessLogs.currentMatchIndex p < 0
          ∨ CachedProcessLogs.prevCurrentMatchRef (CachedProcessLogs.hooks w)
            = Some (CachedProcessLogs.currentMatchIndex p) →
          Browser.out (CachedProcessLogs.browser w')
          = Browser.out (CachedProcessLogs.browser w)))
  ∧ (∀ w id at_ cl u,
     ConversationList.reachable w →
     ConversationList.unmounted (ConversationList.hooks w) = false →
     Browser.timers (ConversationList.browser w) !! id
     = Some (at_, ConversationList.Debounced cl) →
     ConversationList.pendingUpdateRef (ConversationList.hooks w) = Some u →
     at_ ≤ Browser.now (ConversationList.browser w) →
     ConversationList.didInitScroll (ConversationList.hooks w) = true →
     (length (ConversationList.entries (ConversationList.hooks w))
      < length (ConversationList.pending_entries u))%nat →
     ∃ w', ConversationList.step w (ConversationList.Timeout id) = Ok w'
       ∧ ConversationList.entries (ConversationList.hooks w')
         = ConversationList.pending_entries u
       ∧ Browser.frames (ConversationList.browser w')
         = Browser.frames (ConversationList.browser w)
           ++ ConversationList.follow (ConversationList.pending_addType u)
                (Z.of_nat (length (ConversationList.pending_entries u)))
                (ConversationList.atBottom (ConversationList.hooks w))
                (ConversationList.loading (ConversationList.hooks w'))
       ∧ Browser.out (ConversationList.browser w')
         = Browser.out (ConversationList.browser w)
           ++ [CtxSetEntries (ConversationList.pending_entries u)])
  ∧ (∀ w newEntries addType newLoading,
     VirtualizedList.reachable w →
     VirtualizedList.mounted (VirtualizedList.hooks w) = true →
     VirtualizedList.didInitScroll (VirtualizedList.hooks w) = true →
     (length (VirtualizedList.entries (VirtualizedList.hooks w)) < length newEntries)%nat →
     ∃ w', VirtualizedList.step w
             (VirtualizedList.EntriesUpdated newEntries addType newLoading) = Ok w'
       ∧ VirtualizedList.entries (VirtualizedList.hooks w') = newEntries
       ∧ Browser.frames (VirtualizedList.browser w')
         = Browser.frames (VirtualizedList.browser w)
           ++ (if VirtualizedList.atBottom (VirtualizedList.hooks w)
               then VirtualizedList.follow addType (Z.of_nat (length newEntries))
               else [])
       ∧ Browser.out (VirtualizedList.browser w')
         = Browser.out (VirtualizedList.browser w) ++ [CtxSetEntries newEntries])
  ∧ (∀ w newEntries addType newLoading,
     PollingList.reachable w →
     PollingList.mounted (PollingList.hooks w) = true →
     length newEntries ≠ length (PollingList.entries (PollingList.hooks w)) →
     newEntries ≠ [] →
     ∃ w', PollingList.step w
             (PollingList.EntriesUpdated newEntries addType newLoading) = Ok w'
       ∧ PollingList.entries (PollingList.hooks w') = newEntries
       ∧ Browser.out (PollingList.browser w')
         = Browser.out (PollingList.browser w)
           ++ [CtxSetEntries newEntries;
               ScrollToIndex (Z.of_nat (length newEntries) - 1) AlignEnd]).
Proof.
  repeat apply conj.
  - intros w p q r dt Hr Hq Hu Hd Hlen Hdt.
    destruct (pv_growth_run w p q r dt (pv_reachable_Inv _ Hr) Hq Hu Hd Hlen Hdt)
      as (w' & Hrun & Ho).
    exists w'. split; [exact Hrun|]. by rewrite Ho, app_nil_r.
  - intros w p q r dt Hr Hq Hu Hd Hlen Hdt.
    destruct (vp_growth_run w p q r dt (vp_reachable_Inv _ Hr) Hq Hu Hd Hlen Hdt)
      as (w' & Hrun & Ho).
    exists w'. split; [exact Hrun|]. split; [by rewrite Ho, app_assoc|].
    intros Hno. rewrite Ho.
    rewrite (vp_no_new_match p (VirtualizedProcessLogs.hooks w) Hno).
    by rewrite app_nil_r.
  - intros w p q ab Hr Hq Hu Hd Hlen.
    destruct (cp_growth w p q ab (cp_reachable_Inv _ Hr) Hq Hu Hd Hlen)
      as (w' & Hs & Hf & Ho).
    exists w'. split; [exact Hs|]. split; [exact Hf|]. split; [exact Ho|].
    intros Hno. rewrite Ho.
    rewrite (cp_no_new_match p (CachedProcessLogs.hooks w) Hno).
    by rewrite app_nil_r.
  - intros w id at_ cl u Hr Hu Ht Hp Hdue Hd Hlen.
    destruct (cl_fire w id at_ cl u (cl_reachable_Inv _ Hr) Hu Ht Hp Hdue)
      as (w' & Hs & He & _ & Hlo & Ho & _ & Hf).
    exists w'. split; [exact Hs|]. split; [exact He|]. split; [|exact Ho].
    rewrite Hlo. by apply Hf.
  - intros w newEntries addType newLoading Hr Hm Hd Hlen.
    destruct (vl_growth w newEntries addType newLoading (vl_reachable_Inv _ Hr) Hm Hd Hlen)
      as (w' & Hs & He & Ho & Hf).
    by exists w'.
  - intros w newEntries addType newLoading Hr Hm Hlen Hne.
    exact (pl_growth w newEntries addType newLoading (pl_reachable_Inv _ Hr) Hm Hlen Hne).
Qed.

Lemma follow_on_growth_witness :
  (* ProcessLogsViewerContent: a second line arrives, the container is near
     the bottom when the timer runs *)
  (ProcessLogsViewerContent.reachable Sample.pv_shown
   ∧ ProcessLogsViewerContent.didInitScroll
       (ProcessLogsViewerContent.hooks Sample.pv_shown) = true
   ∧ 50 ≤ 50
   ∧ ∃ w', ProcessLogsViewerContent.run Sample.pv_shown
             [ProcessLogsViewerContent.Render Sample.pv_two;
              ProcessLogsViewerContent.Layout (Some Sample.near_bottom);
              ProcessLogsViewerContent.Advance 50;
              ProcessLogsViewerContent.Timeout 3] = Ok w'
       ∧ Browser.out (ProcessLogsViewerContent.browser w')
         = Browser.out (ProcessLogsViewerContent.browser Sample.pv_shown)
           ++ [ScrollTo 1000 smooth])
  (* VirtualizedProcessLogs: the same, the container scrolled up *)
  ∧ (VirtualizedProcessLogs.reachable Sample.vp_shown
     ∧ ∃ w', VirtualizedProcessLogs.run Sample.vp_shown
               [VirtualizedProcessLogs.Render Sample.vp_two;
                VirtualizedProcessLogs.Layout (Some Sample.scrolled_up);
                VirtualizedProcessLogs.Advance 50;
                VirtualizedProcessLogs.Timeout 3] = Ok w'
         ∧ Browser.out (VirtualizedProcessLogs.browser w')
           = Browser.out (VirtualizedProcessLogs.browser Sample.vp_shown))
  (* the cached-state log viewer, at the bottom *)
  ∧ (CachedProcessLogs.reachable Sample.cp_shown
     ∧ CachedProcessLogs.atBottom (CachedProcessLogs.hooks Sample.cp_shown) = true
     ∧ ∃ w', CachedProcessLogs.step Sample.cp_shown
               (CachedProcessLogs.Render Sample.cp_two) = Ok w'
         ∧ Browser.frames (CachedProcessLogs.browser w')
           = Browser.frames (CachedProcessLogs.browser Sample.cp_shown)
             ++ [Browser.FrameScrollToIndex 1 AlignEnd])
  (* ConversationList: a 'plan' update, the user scrolled up *)
  ∧ (ConversationList.reachable Sample.cl_plan_pending
     ∧ ConversationList.atBottom (ConversationList.hooks Sample.cl_plan_pending) = false
     ∧ 200 ≤ Browser.now (ConversationList.browser Sample.cl_plan_pending)
     ∧ ∃ w', ConversationList.step Sample.cl_plan_pending (ConversationList.Timeout 2)
             = Ok w'
         ∧ ConversationList.entries (ConversationList.hooks w') = [Sample.e1; Sample.e2]
         ∧ Browser.frames (ConversationList.browser w')
           = Browser.frames (ConversationList.browser Sample.cl_plan_pending)
             ++ [Browser.FrameScrollToIndex 1 AlignStart])
  (* VirtualizedList: a 'running' update, the user at the bottom *)
  ∧ (VirtualizedList.reachable Sample.vl_loaded
     ∧ VirtualizedList.atBottom (VirtualizedList.hooks Sample.vl_loaded) = true
     ∧ ∃ w', VirtualizedList.step Sample.vl_loaded
               (VirtualizedList.EntriesUpdated [Sample.e1; Sample.e2] "running" false)
             = Ok w'
         ∧ VirtualizedList.entries (VirtualizedList.hooks w') = [Sample.e1; Sample.e2]
         ∧ Browser.frames (VirtualizedList.browser w')
           = Browser.frames (VirtualizedList.browser Sample.vl_loaded)
             ++ [Browser.FrameScrollToIndex 1 AlignEnd])
  (* the polling VirtualizedList, the container scrolled up *)
  ∧ (PollingList.reachable Sample.pl_loaded
     ∧ Browser.parentRef (PollingList.browser Sample.pl_loaded) = Some Sample.scrolled_up
     ∧ ∃ w', PollingList.step Sample.pl_loaded
               (PollingList.EntriesUpdated [Sample.e1; Sample.e2] "running" false) = Ok w'
         ∧ PollingList.entries (PollingList.hooks w') = [Sample.e1; Sample.e2]
         ∧ Browser.out (PollingList.browser w')
           = Browser.out (PollingList.browser Sample.pl_loaded)
             ++ [CtxSetEntries [Sample.e1; Sample.e2]; ScrollToIndex 1 AlignEnd]).
Proof.
  destruct follow_on_growth as (Hpv & Hvp & Hcp & Hcl & Hvl & Hpl).
  assert (Rpv : ProcessLogsViewerContent.reachable Sample.pv_shown).
  { exists [ProcessLogsViewerContent.Render Sample.pv_one]. by vm_compute. }
  assert (Rvp : VirtualizedProcessLogs.reachable Sample.vp_shown).
  { exists [VirtualizedProcessLogs.Render Sample.vp_one]. by vm_compute. }
  assert (Rcp : CachedProcessLogs.reachable Sample.cp_shown).
  { exists [CachedProcessLogs.Render Sample.cp_one]. by vm_compute. }
  assert (Rcl : ConversationList.reachable Sample.cl_plan_pending).
  { exists (Sample.cl_scrolled_up
              ++ [ConversationList.EntriesUpdated [Sample.e1; Sample.e2] "plan" false;
                  ConversationList.Advance 100]). by vm_compute. }
  assert (Rvl : VirtualizedList.reachable Sample.vl_loaded).
  { exists Sample.vl_first_entry. by vm_compute. }
  assert (Rpl : PollingList.reachable Sample.pl_loaded).
  { exists Sample.pl_first_entry. by vm_compute. }
  split; [|split; [|split; [|split; [|split]]]].
  - assert (Hd : ProcessLogsViewerContent.didInitScroll
                   (ProcessLogsViewerContent.hooks Sample.pv_shown) = true)
      by (by vm_compute).
    split; [exact Rpv|]. split; [exact Hd|]. split; [lia|].
    exact (Hpv Sample.pv_shown Sample.pv_two Sample.pv_one (Some Sample.near_bottom) 50
             Rpv ltac:(by vm_compute) ltac:(by vm_compute) Hd
             ltac:(cbn; lia) ltac:(lia)).
  - split; [exact Rvp|].
    destruct (Hvp Sample.vp_shown Sample.vp_two Sample.vp_one (Some Sample.scrolled_up) 50
                Rvp ltac:(by vm_compute) ltac:(by vm_compute) ltac:(by vm_compute)
                ltac:(cbn; lia) ltac:(lia)) as (w' & Hrun & Ho & _).
    exists w'. split; [exact Hrun|]. rewrite Ho. by vm_compute.
  - assert (Hab : CachedProcessLogs.atBottom (CachedProcessLogs.hooks Sample.cp_shown)
                  = true) by (by vm_compute).
    split; [exact Rcp|]. split; [exact Hab|].
    destruct (Hcp Sample.cp_shown Sample.cp_two Sample.cp_one true
                Rcp ltac:(by vm_compute) ltac:(by vm_compute) ltac:(by vm_compute)
                ltac:(cbn; lia)) as (w' & Hs & Hf & _).
    exists w'. split; [exact Hs|]. rewrite Hf, Hab. done.
  - assert (Hab : ConversationList.atBottom (ConversationList.hooks Sample.cl_plan_pending)
                  = false) by (by vm_compute).
    assert (Hnow : 200 ≤ Browser.now (ConversationList.browser Sample.cl_plan_pending))
      by (by vm_compute).
    split; [exact Rcl|]. split; [exact Hab|]. split; [exact Hnow|].
    destruct (Hcl Sample.cl_plan_pending 2%positive 200 false
                {| ConversationList.pending_entries := [Sample.e1; Sample.e2];
                   ConversationList.pending_addType := "plan";
                   ConversationList.pending_loading := false |}
                Rcl ltac:(by vm_compute) ltac:(by vm_compute) ltac:(by vm_compute)
                Hnow ltac:(by vm_compute) ltac:(vm_compute; lia))
      as (w' & Hs & He & Hf & _).
    exists w'. split; [exact Hs|]. split; [exact He|].
    rewrite Hf, Hab. cbn [ConversationList.pending_addType ConversationList.pending_entries].
    assert (Hlo : ConversationList.loading (ConversationList.hooks w') = false).
    { pose proof (f_equal (λ m, ConversationList.loading
                                  (ConversationList.hooks
                                     (Sample.outcome ConversationList.init m))) Hs) as H.
      cbn [Sample.outcome] in H. rewrite <- H. by vm_compute. }
    rewrite Hlo. done.
  - assert (Hab : VirtualizedList.atBottom (VirtualizedList.hooks Sample.vl_loaded) = true)
      by (by vm_compute).
    split; [exact Rvl|]. split; [exact Hab|].
    destruct (Hvl Sample.vl_loaded [Sample.e1; Sample.e2] "running" false
                Rvl ltac:(by vm_compute) ltac:(by vm_compute) ltac:(vm_compute; lia))
      as (w' & Hs & He & Hf & _).
    exists w'. split; [exact Hs|]. split; [exact He|]. rewrite Hf, Hab. done.
  - split; [exact Rpl|]. split; [by vm_compute|].
    exact (Hpl Sample.pl_loaded [Sample.e1; Sample.e2] "running" false
             Rpl ltac:(by vm_compute) ltac:(vm_compute; lia) ltac:(discriminate)).
Defined.

(** * Further properties of the components *)

(** ** The retry chain of the initial scroll *)

Section RetryChain.

Lemma pv_doScroll_step w id at_ (k : Z) el :
  Browser.timers (ProcessLogsViewerContent.browser w) !! id
  = Some (at_, ProcessLogsViewerContent.DoScroll k) →
  at_ ≤ Browser.now (ProcessLogsViewerContent.browser w) →
  Browser.parentRef (ProcessLogsViewerContent.browser w) = Some el →
  ProcessLogsViewerContent.step w (ProcessLogsViewerContent.Timeout id)
  = Ok (let b := ProcessLogsViewerContent.browser w in
        let b1 := Browser.emit [ScrollTo (scrollHeight el) auto] (Browser.clearTimeout id b) in
        {| ProcessLogsViewerContent.hooks := ProcessLogsViewerContent.hooks w;
           ProcessLogsViewerContent.browser :=
             if k >? 0
             then (Browser.setTimeout (ProcessLogsViewerContent.DoScroll (k - 1)) 100 b1).2
             else b1 |}).
Proof.
  intros Hl Hdue Hel. destruct w as [h b]. cbn in *.
  unfold Browser.due. rewrite Hl. apply Z.leb_le in Hdue. rewrite Hdue.
  cbn. unfold ProcessLogsViewerContent.doScroll. cbn. rewrite Hel. cbn.
  destruct (k >? 0); unfold ProcessLogsViewerContent.with_browser, VirtualizedProcessLogs.with_browser; cbn; rewrite ?Hel; reflexivity.
Qed.

Lemma vp_doScroll_step w id at_ (k : Z) el :
  Browser.timers (VirtualizedProcessLogs.browser w) !! id
  = Some (at_, VirtualizedProcessLogs.DoScroll k) →
  at_ ≤ Browser.now (VirtualizedProcessLogs.browser w) →
  Browser.parentRef (VirtualizedProcessLogs.browser w) = Some el →
  VirtualizedProcessLogs.step w (VirtualizedProcessLogs.Timeout id)
  = Ok (let b := VirtualizedProcessLogs.browser w in
        let b1 := Browser.emit [ScrollTo (scrollHeight el) auto] (Browser.clearTimeout id b) in
        {| VirtualizedProcessLogs.hooks := VirtualizedProcessLogs.hooks w;
           VirtualizedProcessLogs.browser :=
             if k >? 0
             then (Browser.setTimeout (VirtualizedProcessLogs.DoScroll (k - 1)) 100 b1).2
             else b1 |}).
Proof.
  intros Hl Hdue Hel. destruct w as [h b]. cbn in *.
  unfold Browser.due. rewrite Hl. apply Z.leb_le in Hdue. rewrite Hdue.
  cbn. unfold VirtualizedProcessLogs.doScroll. cbn. rewrite Hel. cbn.
  destruct (k >? 0); unfold ProcessLogsViewerContent.with_browser, VirtualizedProcessLogs.with_browser; cbn; rewrite ?Hel; reflexivity.
Qed.

Lemma pv_retry_chain_run (k : nat) : ∀ w id at_ el,
  Browser.timers (ProcessLogsViewerContent.browser w) !! id
  = Some (at_, ProcessLogsViewerContent.DoScroll (Z.of_nat k)) →
  at_ ≤ Browser.now (ProcessLogsViewerContent.browser w) →
  Browser.parentRef (ProcessLogsViewerContent.browser w) = Some el →
  ∃ w', ProcessLogsViewerContent.run w
          (viewer_retry_chain k id (Browser.next_timer (ProcessLogsViewerContent.browser w)))
        = Ok w'
    ∧ ProcessLogsViewerContent.hooks w' = ProcessLogsViewerContent.hooks w
    ∧ Browser.out (ProcessLogsViewerContent.browser w')
      = Browser.out (ProcessLogsViewerContent.browser w)
        ++ replicate (S k) (ScrollTo (scrollHeight el) auto)
    ∧ Browser.now (ProcessLogsViewerContent.browser w')
      = Browser.now (ProcessLogsViewerContent.browser w) + 100 * Z.of_nat k
    ∧ Browser.timers (ProcessLogsViewerContent.browser w')
      ⊆ delete id (Browser.timers (ProcessLogsViewerContent.browser w)).
Proof.
  induction k as [|k IH]; intros w id at_ el Hl Hdue Hel.
  - cbn [viewer_retry_chain ProcessLogsViewerContent.run].
    rewrite (pv_doScroll_step w id at_ _ el Hl Hdue Hel). cbn.
    replace (Z.of_nat 0 >? 0) with false by done.
    eexists. split; [reflexivity|]. cbn.
    split; [done|]. split; [done|]. split; [lia|done].
  - cbn [viewer_retry_chain ProcessLogsViewerContent.run].
    rewrite (pv_doScroll_step w id at_ _ el Hl Hdue Hel).
    replace (Z.of_nat (S k) >? 0) with true by (symmetry; apply Z.gtb_lt; lia).
    replace (Z.of_nat (S k) - 1) with (Z.of_nat k) by lia.
    destruct w as [h b]. cbn in Hl, Hdue, Hel |- *.
    match goal with
    | |- ∃ w', ProcessLogsViewerContent.run ?w2 _ = _ ∧ _ =>
        destruct (IH w2 (Browser.next_timer b) (Browser.now b + 100) el)
          as (w' & Hrun & Hh & Ho & Hn & Ht)
    end.
    + cbn. apply lookup_insert_eq.
    + cbn. lia.
    + cbn. exact Hel.
    + exists w'. cbn in Hrun, Hh, Ho, Hn, Ht.
      split; [exact Hrun|]. split; [exact Hh|].
      split; [rewrite Ho, <- app_assoc; done|].
      split; [rewrite Hn; lia|].
      etrans; [exact Ht|]. rewrite delete_insert_eq. apply delete_subseteq.
Qed.

Lemma vp_retry_chain_run (k : nat) : ∀ w id at_ el,
  Browser.timers (VirtualizedProcessLogs.browser w) !! id
  = Some (at_, VirtualizedProcessLogs.DoScroll (Z.of_nat k)) →
  at_ ≤ Browser.now (VirtualizedProcessLogs.browser w) →
  Browser.parentRef (VirtualizedProcessLogs.browser w) = Some el →
  ∃ w', VirtualizedProcessLogs.run w
          (logs_retry_chain k id (Browser.next_timer (VirtualizedProcessLogs.browser w)))
        = Ok w'
    ∧ VirtualizedProcessLogs.hooks w' = VirtualizedProcessLogs.hooks w
    ∧ Browser.out (VirtualizedProcessLogs.browser w')
      = Browser.out (VirtualizedProcessLogs.browser w)
        ++ replicate (S k) (ScrollTo (scrollHeight el) auto)
    ∧ Browser.now (VirtualizedProcessLogs.browser w')
      = Browser.now (VirtualizedProcessLogs.browser w) + 100 * Z.of_nat k
    ∧ Browser.timers (VirtualizedProcessLogs.browser w')
      ⊆ delete id (Browser.timers (VirtualizedProcessLogs.browser w)).
Proof.
  induction k as [|k IH]; intros w id at_ el Hl Hdue Hel.
  - cbn [logs_retry_chain VirtualizedProcessLogs.run].
    rewrite (vp_doScroll_step w id at_ _ el Hl Hdue Hel). cbn.
    replace (Z.of_nat 0 >? 0) with false by done.
    eexists. split; [reflexivity|]. cbn.
    split; [done|]. split; [done|]. split; [lia|done].
  - cbn [logs_retry_chain VirtualizedProcessLogs.run].
    rewrite (vp_doScroll_step w id at_ _ el Hl Hdue Hel).
    replace (Z.of_nat (S k) >? 0) with true by (symmetry; apply Z.gtb_lt; lia).
    replace (Z.of_nat (S k) - 1) with (Z.of_nat k) by lia.
    destruct w as [h b]. cbn in Hl, Hdue, Hel |- *.
    match goal with
    | |- ∃ w', VirtualizedProcessLogs.run ?w2 _ = _ ∧ _ =>
        destruct (IH w2 (Browser.next_timer b) (Browser.now b + 100) el)
          as (w' & Hrun & Hh & Ho & Hn & Ht)
    end.
    + cbn. apply lookup_insert_eq.
    + cbn. lia.
    + cbn. exact Hel.
    + exists w'. cbn in Hrun, Hh, Ho, Hn, Ht.
      split; [exact Hrun|]. split; [exact Hh|].
      split; [rewrite Ho, <- app_assoc; done|].
      split; [rewrite Hn; lia|].
      etrans; [exact Ht|]. rewrite delete_insert_eq. apply delete_subseteq.
Qed.

End RetryChain.

(** X1. The retry chain of the initial scroll ends.  A pending
    [doScroll(k)] timer that is due, with the container attached, starts a
    chain of [k + 1] calls [el.scrollTo({top: el.scrollHeight, behavior:
    'auto'})], 100 ms apart; the component's hooks are untouched and no timer
    of the chain is left when it is over. *)
Theorem initial_scroll_retry_chain (k : nat) (el : HTMLDivElement) :
  (∀ w id at_,
     Browser.timers (ProcessLogsViewerContent.browser w) !! id
     = Some (at_, ProcessLogsViewerContent.DoScroll (Z.of_nat k)) →
     at_ ≤ Browser.now (ProcessLogsViewerContent.browser w) →
     Browser.parentRef (ProcessLogsViewerContent.browser w) = Some el →
     ∃ w', ProcessLogsViewerContent.run w
             (viewer_retry_chain k id
                (Browser.next_timer (ProcessLogsViewerContent.browser w))) = Ok w'
       ∧ ProcessLogsViewerContent.hooks w' = ProcessLogsViewerContent.hooks w
       ∧ Browser.out (ProcessLogsViewerContent.browser w')
         = Browser.out (ProcessLogsViewerContent.browser w)
           ++ replicate (S k) (ScrollTo (scrollHeight el) auto)
       ∧ Browser.now (ProcessLogsViewerContent.browser w')
         = Browser.now (ProcessLogsViewerContent.browser w) + 100 * Z.of_nat k
       ∧ Browser.timers (ProcessLogsViewerContent.browser w')
         ⊆ delete id (Browser.timers (ProcessLogsViewerContent.browser w)))
  ∧ (∀ w id at_,
     Browser.timers (VirtualizedProcessLogs.browser w) !! id
     = Some (at_, VirtualizedProcessLogs.DoScroll (Z.of_nat k)) →
     at_ ≤ Browser.now (VirtualizedProcessLogs.browser w) →
     Browser.parentRef (VirtualizedProcessLogs.browser w) = Some el →
     ∃ w', VirtualizedProcessLogs.run w
             (logs_retry_chain k id
                (Browser.next_timer (VirtualizedProcessLogs.browser w))) = Ok w'
       ∧ VirtualizedProcessLogs.hooks w' = VirtualizedProcessLogs.hooks w
       ∧ Browser.out (VirtualizedProcessLogs.browser w')
         = Browser.out (VirtualizedProcessLogs.browser w)
           ++ replicate (S k) (ScrollTo (scrollHeight el) auto)
       ∧ Browser.now (VirtualizedProcessLogs.browser w')
         = Browser.now (VirtualizedProcessLogs.browser w) + 100 * Z.of_nat k
       ∧ Browser.timers (VirtualizedProcessLogs.browser w')
         ⊆ delete id (Browser.timers (VirtualizedProcessLogs.browser w))).
Proof.
  split.
  - intros w id at_. apply pv_retry_chain_run.
  - intros w id at_. apply vp_retry_chain_run.
Qed.

Lemma initial_scroll_retry_chain_witness :
  let w := Sample.outcome ProcessLogsViewerContent.init
             (ProcessLogsViewerContent.run Sample.pv_shown
                [ProcessLogsViewerContent.Layout (Some Sample.near_bottom);
                 ProcessLogsViewerContent.Advance 50]) in
  Browser.timers (ProcessLogsViewerContent.browser w) !! 1%positive
  = Some (50, ProcessLogsViewerContent.DoScroll 3)
  ∧ 50 ≤ Browser.now (ProcessLogsViewerContent.browser w)
  ∧ Browser.parentRef (ProcessLogsViewerContent.browser w) = Some Sample.near_bottom
  ∧ ∃ w', ProcessLogsViewerContent.run w
            [ProcessLogsViewerContent.Timeout 1;
             ProcessLogsViewerContent.Advance 100; ProcessLogsViewerContent.Timeout 3;
             ProcessLogsViewerContent.Advance 100; ProcessLogsViewerContent.Timeout 4;
             ProcessLogsViewerContent.Advance 100; ProcessLogsViewerContent.Timeout 5]
          = Ok w'
      ∧ Browser.out (ProcessLogsViewerContent.browser w')
        = [ScrollTo 1000 auto; ScrollTo 1000 auto; ScrollTo 1000 auto; ScrollTo 1000 auto]
      ∧ Browser.now (ProcessLogsViewerContent.browser w') = 350.
Proof.
  intros w.
  assert (Hl : Browser.timers (ProcessLogsViewerContent.browser w) !! 1%positive
               = Some (50, ProcessLogsViewerContent.DoScroll (Z.of_nat 3)))
    by (by vm_compute).
  assert (Hdue : 50 ≤ Browser.now (ProcessLogsViewerContent.browser w)) by (by vm_compute).
  assert (Hel : Browser.parentRef (ProcessLogsViewerContent.browser w)
                = Some Sample.near_bottom) by (by vm_compute).
  split; [exact Hl|]. split; [exact Hdue|]. split; [exact Hel|].
  destruct (proj1 (initial_scroll_retry_chain 3 Sample.near_bottom) w 1%positive 50
              Hl Hdue Hel) as (w' & Hrun & _ & Ho & Hn & _).
  exists w'. split; [exact Hrun|]. split.
  - rewrite Ho. by vm_compute.
  - rewrite Hn. by vm_compute.
Defined.

(** X2. First data in the two timer-based log viewers.  The render that
    first shows a non-empty list, in a component that has not yet made its
    initial scroll, arms two timers, both due 50 ms later: the retry chain
    [doScroll(3)] and, because effect 2 runs after effect 1 has set the flag,
    the follow-up check as well.  It calls nothing by itself (apart, in
    VirtualizedProcessLogs, from the scroll to a search match).  A render with
    an empty list arms nothing. *)
Theorem first_logs_arm_retry_and_follow :
  (∀ w p, ProcessLogsViewerContent.reachable w →
     ProcessLogsViewerContent.unmounted (ProcessLogsViewerContent.hooks w) = false →
     ProcessLogsViewerContent.didInitScroll (ProcessLogsViewerContent.hooks w) = false →
     ∃ w', ProcessLogsViewerContent.step w (ProcessLogsViewerContent.Render p) = Ok w'
       ∧ Browser.out (ProcessLogsViewerContent.browser w')
         = Browser.out (ProcessLogsViewerContent.browser w)
       ∧ (ProcessLogsViewerContent.logs p ≠ [] →
          ProcessLogsViewerContent.didInitScroll (ProcessLogsViewerContent.hooks w') = true
          ∧ Browser.timers (ProcessLogsViewerContent.browser w')
            = <[Pos.succ (Browser.next_timer (ProcessLogsViewerContent.browser w))
                  := (Browser.now (ProcessLogsViewerContent.browser w) + 50,
                      ProcessLogsViewerContent.ScrollIfAtBottom)]>
                (<[Browser.next_timer (ProcessLogsViewerContent.browser w)
                     := (Browser.now (ProcessLogsViewerContent.browser w) + 50,
                         ProcessLogsViewerContent.DoScroll 3)]>
                   (Browser.timers (ProcessLogsViewerContent.browser w))))
       ∧ (ProcessLogsViewerContent.logs p = [] →
          ProcessLogsViewerContent.didInitScroll (ProcessLogsViewerContent.hooks w') = false
          ∧ Browser.timers (ProcessLogsViewerContent.browser w')
            = Browser.timers (ProcessLogsViewerContent.browser w)))
  ∧ (∀ w p, VirtualizedProcessLogs.reachable w →
     VirtualizedProcessLogs.unmounted (VirtualizedProcessLogs.hooks w) = false →
     VirtualizedProcessLogs.didInitScroll (VirtualizedProcessLogs.hooks w) = false →
     ∃ w', VirtualizedProcessLogs.step w (VirtualizedProcessLogs.Render p) = Ok w'
       ∧ Browser.out (VirtualizedProcessLogs.browser w')
         = Browser.out (VirtualizedProcessLogs.browser w)
           ++ VirtualizedProcessLogs.search_scroll p (VirtualizedProcessLogs.hooks w)
       ∧ (VirtualizedProcessLogs.logs p ≠ [] →
          VirtualizedProcessLogs.didInitScroll (VirtualizedProcessLogs.hooks w') = true
          ∧ Browser.timers (VirtualizedProcessLogs.browser w')
            = <[Pos.succ (Browser.next_timer (VirtualizedProcessLogs.browser w))
                  := (Browser.now (VirtualizedProcessLogs.browser w) + 50,
                      VirtualizedProcessLogs.ScrollIfAtBottom)]>
                (<[Browser.next_timer (VirtualizedProcessLogs.browser w)
                     := (Browser.now (VirtualizedProcessLogs.browser w) + 50,
                         VirtualizedProcessLogs.DoScroll 3)]>
                   (Browser.timers (VirtualizedProcessLogs.browser w))))
       ∧ (VirtualizedProcessLogs.logs p = [] →
          VirtualizedProcessLogs.didInitScroll (VirtualizedProcessLogs.hooks w') = false
          ∧ Browser.timers (VirtualizedProcessLogs.browser w')
            = Browser.timers (VirtualizedProcessLogs.browser w))).
Proof.
  split.
  - intros [h b] p Hr Hu Hd. pose proof (pv_reachable_Inv _ Hr) as HI.
    cbn in Hu, Hd. cbn [ProcessLogsViewerContent.step ProcessLogsViewerContent.hooks].
    rewrite Hu. eexists. split; [reflexivity|].
    rewrite pv_commit_eq. cbn zeta. rewrite Hd.
    assert (Hprev : ProcessLogsViewerContent.prevLenRef h = 0
                    ∧ (ProcessLogsViewerContent.logs p ≠ [] →
                       ProcessLogsViewerContent.len_changed p h = true)).
    { destruct (ProcessLogsViewerContent.rendered h) as [q|] eqn:Hq.
      - assert (Hq0 : ProcessLogsViewerContent.logs q = []).
        { destruct (ProcessLogsViewerContent.logs q) eqn:E; [done|].
          pose proof (ProcessLogsViewerContent.inv_init _ HI q Hq) as Hi. cbn in Hi.
          rewrite E, Hd in Hi. by specialize (Hi ltac:(done)). }
        pose proof (ProcessLogsViewerContent.inv_prev _ HI q Hq) as Hp. cbn in Hp.
        unfold ProcessLogsViewerContent.len_changed, ProcessLogsViewerContent.len in *.
        rewrite Hq, Hp, Hq0. split; [done|]. intros Hne.
        destruct (ProcessLogsViewerContent.logs p); [done|]. done.
      - pose proof (ProcessLogsViewerContent.inv_fresh _ HI Hq) as Hf. cbn in Hf.
        subst h. unfold ProcessLogsViewerContent.len_changed. by cbn. }
    destruct Hprev as [Hprev Hlc]. rewrite Hprev.
    destruct (ProcessLogsViewerContent.logs p) as [|e l] eqn:Hp.
    + assert (Hn : ProcessLogsViewerContent.len p = 0)
        by (unfold ProcessLogsViewerContent.len; by rewrite Hp).
      rewrite Hn. cbn. rewrite !andb_false_r. cbn. repeat split; done.
    + assert (Hn : (ProcessLogsViewerContent.len p >? 0) = true).
      { unfold ProcessLogsViewerContent.len. rewrite Hp. cbn [length].
        apply Z.gtb_lt. lia. }
      assert (Hn' : (ProcessLogsViewerContent.len p - 0 >? 0) = true)
        by (by rewrite Z.sub_0_r).
      rewrite (Hlc ltac:(done)), Hn, Hn'. cbn. repeat split; done.
  - intros [h b] p Hr Hu Hd. pose proof (vp_reachable_Inv _ Hr) as HI.
    cbn in Hu, Hd. cbn [VirtualizedProcessLogs.step VirtualizedProcessLogs.hooks].
    rewrite Hu. eexists. split; [reflexivity|].
    rewrite vp_commit_eq. cbn zeta. rewrite Hd.
    assert (Hprev : VirtualizedProcessLogs.prevLogsLengthRef h = 0
                    ∧ (VirtualizedProcessLogs.logs p ≠ [] →
                       VirtualizedProcessLogs.len_changed p h = true)).
    { destruct (VirtualizedProcessLogs.rendered h) as [q|] eqn:Hq.
      - assert (Hq0 : VirtualizedProcessLogs.logs q = []).
        { destruct (VirtualizedProcessLogs.logs q) eqn:E; [done|].
          pose proof (VirtualizedProcessLogs.inv_init _ HI q Hq) as Hi. cbn in Hi.
          rewrite E, Hd in Hi. by specialize (Hi ltac:(done)). }
        pose proof (VirtualizedProcessLogs.inv_prev _ HI q Hq) as Hp. cbn in Hp.
        unfold VirtualizedProcessLogs.len_changed, VirtualizedProcessLogs.len in *.
        rewrite Hq, Hp, Hq0. split; [done|]. intros Hne.
        destruct (VirtualizedProcessLogs.logs p); [done|]. done.
      - pose proof (VirtualizedProcessLogs.inv_fresh _ HI Hq) as Hf. cbn in Hf.
        subst h. unfold VirtualizedProcessLogs.len_changed. by cbn. }
    destruct Hprev as [Hprev Hlc]. rewrite Hprev.
    destruct (VirtualizedProcessLogs.logs p) as [|e l] eqn:Hp.
    + assert (Hn : VirtualizedProcessLogs.len p = 0)
        by (unfold VirtualizedProcessLogs.len; by rewrite Hp).
      rewrite Hn. cbn. rewrite !andb_false_r. cbn. repeat split; done.
    + assert (Hn : (VirtualizedProcessLogs.len p >? 0) = true).
      { unfold VirtualizedProcessLogs.len. rewrite Hp. cbn [length].
        apply Z.gtb_lt. lia. }
      assert (Hn' : (VirtualizedProcessLogs.len p - 0 >? 0) = true)
        by (by rewrite Z.sub_0_r).
      rewrite (Hlc ltac:(done)), Hn, Hn'. cbn. repeat split; done.
Qed.

Lemma first_logs_arm_retry_and_follow_witness :
  ProcessLogsViewerContent.reachable ProcessLogsViewerContent.init
  ∧ ProcessLogsViewerContent.logs Sample.pv_one ≠ []
  ∧ ∃ w', ProcessLogsViewerContent.step ProcessLogsViewerContent.init
            (ProcessLogsViewerContent.Render Sample.pv_one) = Ok w'
      ∧ Browser.timers (ProcessLogsViewerContent.browser w') !! 1%positive
        = Some (50, ProcessLogsViewerContent.DoScroll 3)
      ∧ Browser.timers (ProcessLogsViewerContent.browser w') !! 2%positive
        = Some (50, ProcessLogsViewerContent.ScrollIfAtBottom)
      ∧ Browser.out (ProcessLogsViewerContent.browser w') = [].
Proof.
  assert (Hr : ProcessLogsViewerContent.reachable ProcessLogsViewerContent.init)
    by (by exists []).
  assert (Hne : ProcessLogsViewerContent.logs Sample.pv_one ≠ []) by discriminate.
  split; [exact Hr|]. split; [exact Hne|].
  destruct (proj1 first_logs_arm_retry_and_follow ProcessLogsViewerContent.init
              Sample.pv_one Hr eq_refl eq_refl) as (w' & Hs & Ho & Hfull & _).
  destruct (Hfull Hne) as [_ Ht].
  exists w'. split; [exact Hs|]. rewrite Ht, Ho. by vm_compute.
Defined.

(** ** Rendering: what [mapM] over the visible rows yields *)

Lemma mapM_js_inv {A B} (f : A → js B) (l : list A) (ys : list B) :
  mapM f l = Ok ys → Forall2 (λ x y, f x = Ok y) l ys.
Proof.
  revert ys. induction l as [|x l IH]; intros ys; cbn.
  - intros [= <-]. constructor.
  - destruct (f x) as [y|] eqn:Hx; cbn; [|done].
    destruct (mapM f l) as [ys'|] eqn:Hl; cbn; [|done].
    intros [= <-]. constructor; [done|]. by apply IH.
Qed.

Lemma vp_logsWithKeys_lookup p i d :
  VirtualizedProcessLogs.logsWithKeys p !! i = Some d →
  VirtualizedProcessLogs.key d = "log-" +:+ pretty i
  ∧ VirtualizedProcessLogs.originalIndex d = i
  ∧ VirtualizedProcessLogs.logs p !! i = Some (VirtualizedProcessLogs.entry d).
Proof.
  unfold VirtualizedProcessLogs.logsWithKeys. rewrite list_lookup_imap.
  destruct (VirtualizedProcessLogs.logs p !! i) as [e|]; cbn; [|done].
  by intros [= <-].
Qed.

Lemma cp_logsWithKeys_lookup p i d :
  CachedProcessLogs.logsWithKeys p !! i = Some d →
  CachedProcessLogs.key d = "log-" +:+ pretty i
  ∧ CachedProcessLogs.originalIndex d = i
  ∧ CachedProcessLogs.logs p !! i = Some (CachedProcessLogs.entry d).
Proof.
  unfold CachedProcessLogs.logsWithKeys. rewrite list_lookup_imap.
  destruct (CachedProcessLogs.logs p !! i) as [e|]; cbn; [|done].
  by intros [= <-].
Qed.

(** The rows of a rendered list, one per visible item. *)
Lemma vp_render_inv p items rows :
  VirtualizedProcessLogs.render p items = Ok (ListView rows) →
  Forall2 (λ vi r, ∃ e, VirtualizedProcessLogs.logs p !! index vi = Some e
                     ∧ r = VirtualizedProcessLogs.row_of p vi e) items rows.
Proof.
  unfold VirtualizedProcessLogs.render.
  destruct (_ && _); [done|]. destruct (truthy_string _); [done|].
  destruct (mapM _ items) as [rs|] eqn:Hm; cbn; [|done]. intros [= <-].
  apply mapM_js_inv in Hm. eapply Forall2_impl; [exact Hm|].
  intros vi r. cbn beta. unfold VirtualizedProcessLogs.render_row, at_index.
  destruct (VirtualizedProcessLogs.logsWithKeys p !! index vi) as [d|] eqn:Hd; cbn; [|done].
  destruct (vp_logsWithKeys_lookup _ _ _ Hd) as (Hk & Ho & He).
  intros [= <-]. exists (VirtualizedProcessLogs.entry d). split; [done|].
  unfold VirtualizedProcessLogs.row_of. by rewrite Hk, Ho.
Qed.

Lemma cp_render_inv p items rows :
  CachedProcessLogs.render p items = Ok (ListView rows) →
  Forall2 (λ vi r, ∃ e, CachedProcessLogs.logs p !! index vi = Some e
                     ∧ r = CachedProcessLogs.row_of p vi e) items rows.
Proof.
  unfold CachedProcessLogs.render.
  destruct (_ && _); [done|]. destruct (truthy_string _); [done|].
  destruct (mapM _ items) as [rs|] eqn:Hm; cbn; [|done]. intros [= <-].
  apply mapM_js_inv in Hm. eapply Forall2_impl; [exact Hm|].
  intros vi r. cbn beta. unfold CachedProcessLogs.render_row, at_index.
  destruct (CachedProcessLogs.logsWithKeys p !! index vi) as [d|] eqn:Hd; cbn; [|done].
  destruct (cp_logsWithKeys_lookup _ _ _ Hd) as (Hk & Ho & He).
  intros [= <-]. exists (CachedProcessLogs.entry d). split; [done|].
  unfold CachedProcessLogs.row_of. by rewrite Hk, Ho.
Qed.

Lemma vp_current_is_match p k :
  VirtualizedProcessLogs.is_current p k = true →
  VirtualizedProcessLogs.includes (VirtualizedProcessLogs.matchIndices p) k = true.
Proof.
  unfold VirtualizedProcessLogs.is_current, VirtualizedProcessLogs.includes.
  destruct (_ <? 0); [done|]. intros H%bool_decide_eq_true.
  apply bool_decide_eq_true. by eapply list_elem_of_lookup_2.
Qed.

Lemma cp_current_is_match p k :
  CachedProcessLogs.is_current p k = true →
  CachedProcessLogs.includes (CachedProcessLogs.matchIndices p) k = true.
Proof.
  unfold CachedProcessLogs.is_current, CachedProcessLogs.includes.
  destruct (_ <? 0); [done|]. intros H%bool_decide_eq_true.
  apply bool_decide_eq_true. by eapply list_elem_of_lookup_2.
Qed.

Lemma log_key_inj : Inj (=) (=) (λ i : nat, "log-" +:+ pretty i).
Proof. intros i j H. by apply (inj pretty), (inj (String.app "log-")). Qed.

(** X3. Search highlighting is consistent.  In every rendered row of the two
    searching log viewers, the current-match highlight implies the match
    highlight: a row flagged [isCurrentMatch] is always handed the search
    query, whatever [matchIndices] and [currentMatchIndex] hold (negative,
    past the end, or pointing at a row that is not there). *)
Theorem current_match_row_gets_query :
  (∀ p items rows,
     VirtualizedProcessLogs.render p items = Ok (ListView rows) →
     Forall (λ r, VirtualizedProcessLogs.row_isCurrentMatch r = true →
                  VirtualizedProcessLogs.row_searchQuery r
                  = Some (VirtualizedProcessLogs.searchQuery p)) rows)
  ∧ (∀ p items rows,
     CachedProcessLogs.render p items = Ok (ListView rows) →
     Forall (λ r, CachedProcessLogs.row_isCurrentMatch r = true →
                  CachedProcessLogs.row_searchQuery r
                  = Some (CachedProcessLogs.searchQuery p)) rows).
Proof.
  split.
  - intros p items rows Hr. apply vp_render_inv in Hr.
    induction Hr as [|vi r items rows (e & _ & ->) _ IH]; constructor; [|exact IH].
    cbn. intros Hc. by rewrite (vp_current_is_match _ _ Hc).
  - intros p items rows Hr. apply cp_render_inv in Hr.
    induction Hr as [|vi r items rows (e & _ & ->) _ IH]; constructor; [|exact IH].
    cbn. intros Hc. by rewrite (cp_current_is_match _ _ Hc).
Qed.

Lemma current_match_row_gets_query_witness :
  let p := VirtualizedProcessLogs.Build_Props [Sample.line1; Sample.line2] None
             "warning" [1] 0 in
  ∃ rows, VirtualizedProcessLogs.render p [Sample.row0; Sample.row1] = Ok (ListView rows)
    ∧ map VirtualizedProcessLogs.row_isCurrentMatch rows = [false; true]
    ∧ Forall (λ r, VirtualizedProcessLogs.row_isCurrentMatch r = true →
                   VirtualizedProcessLogs.row_searchQuery r = Some "warning") rows.
Proof.
  intros p.
  exists [VirtualizedProcessLogs.row_of p Sample.row0 Sample.line1;
          VirtualizedProcessLogs.row_of p Sample.row1 Sample.line2].
  assert (Hr : VirtualizedProcessLogs.render p [Sample.row0; Sample.row1]
               = Ok (ListView [VirtualizedProcessLogs.row_of p Sample.row0 Sample.line1;
                               VirtualizedProcessLogs.row_of p Sample.row1 Sample.line2]))
    by (by vm_compute).
  split; [exact Hr|]. split; [by vm_compute|].
  exact (proj1 current_match_row_gets_query p _ _ Hr).
Defined.

(** X4. Row keys are unique.  The rows the two searching log viewers render
    for distinct virtual indices carry distinct React keys [log-<index>]. *)
Theorem log_row_keys_distinct :
  (∀ p items rows,
     VirtualizedProcessLogs.render p items = Ok (ListView rows) →
     NoDup (map index items) →
     NoDup (map VirtualizedProcessLogs.row_key rows))
  ∧ (∀ p items rows,
     CachedProcessLogs.render p items = Ok (ListView rows) →
     NoDup (map index items) →
     NoDup (map CachedProcessLogs.row_key rows)).
Proof.
  split.
  - intros p items rows Hr Hnd. apply vp_render_inv in Hr.
    assert (Hk : map VirtualizedProcessLogs.row_key rows
                 = (λ i : nat, "log-" +:+ pretty i) <$> map index items).
    { induction Hr as [|vi r items rows (e & _ & ->) _ IH]; [done|].
      apply NoDup_cons in Hnd as [_ Hnd]. cbn. f_equal. by apply IH. }
    rewrite Hk. apply NoDup_fmap_2; [apply log_key_inj|done].
  - intros p items rows Hr Hnd. apply cp_render_inv in Hr.
    assert (Hk : map CachedProcessLogs.row_key rows
                 = (λ i : nat, "log-" +:+ pretty i) <$> map index items).
    { induction Hr as [|vi r items rows (e & _ & ->) _ IH]; [done|].
      apply NoDup_cons in Hnd as [_ Hnd]. cbn. f_equal. by apply IH. }
    rewrite Hk. apply NoDup_fmap_2; [apply log_key_inj|done].
Qed.

Lemma log_row_keys_distinct_witness :
  let p := VirtualizedProcessLogs.Build_Props [Sample.line1; Sample.line2] None "" [] 0 in
  NoDup (map index [Sample.row0; Sample.row1])
  ∧ ∃ rows, VirtualizedProcessLogs.render p [Sample.row0; Sample.row1] = Ok (ListView rows)
      ∧ map VirtualizedProcessLogs.row_key rows = ["log-0"; "log-1"]
      ∧ NoDup (map VirtualizedProcessLogs.row_key rows).
Proof.
  intros p.
  assert (Hnd : NoDup (map index [Sample.row0; Sample.row1])).
  { cbn. apply NoDup_cons. split; [|apply NoDup_singleton].
    intros H%list_elem_of_singleton. discriminate. }
  assert (Hr : VirtualizedProcessLogs.render p [Sample.row0; Sample.row1]
               = Ok (ListView [VirtualizedProcessLogs.row_of p Sample.row0 Sample.line1;
                               VirtualizedProcessLogs.row_of p Sample.row1 Sample.line2]))
    by (by vm_compute).
  split; [exact Hnd|]. eexists. split; [exact Hr|]. split; [by vm_compute|].
  exact (proj1 log_row_keys_distinct p _ _ Hr Hnd).
Defined.

(** ** The search-match effect of the searching log viewers *)

Lemma vp_render_step w p :
  VirtualizedProcessLogs.unmounted (VirtualizedProcessLogs.hooks w) = false →
  ∃ w', VirtualizedProcessLogs.step w (VirtualizedProcessLogs.Render p) = Ok w'
    ∧ Browser.out (VirtualizedProcessLogs.browser w')
      = Browser.out (VirtualizedProcessLogs.browser w)
        ++ VirtualizedProcessLogs.search_scroll p (VirtualizedProcessLogs.hooks w)
    ∧ VirtualizedProcessLogs.prevCurrentMatchRef (VirtualizedProcessLogs.hooks w')
      = (if VirtualizedProcessLogs.match_fires p (VirtualizedProcessLogs.hooks w)
         then Some (VirtualizedProcessLogs.currentMatchIndex p)
         else VirtualizedProcessLogs.prevCurrentMatchRef (VirtualizedProcessLogs.hooks w))
    ∧ VirtualizedProcessLogs.unmounted (VirtualizedProcessLogs.hooks w') = false
    ∧ VirtualizedProcessLogs.rendered (VirtualizedProcessLogs.hooks w') = Some p.
Proof.
  intros Hu. destruct w as [h b]. cbn in Hu.
  cbn [VirtualizedProcessLogs.step VirtualizedProcessLogs.hooks]. rewrite Hu.
  eexists. split; [reflexivity|]. rewrite vp_commit_eq. cbn zeta. cbn.
  repeat split; try done.
  by repeat case_match.
Qed.

Lemma cp_render_step w p :
  CachedProcessLogs.unmounted (CachedProcessLogs.hooks w) = false →
  ∃ w', CachedProcessLogs.step w (CachedProcessLogs.Render p) = Ok w'
    ∧ Browser.out (CachedProcessLogs.browser w')
      = Browser.out (CachedProcessLogs.browser w)
        ++ CachedProcessLogs.search_scroll p (CachedProcessLogs.hooks w)
    ∧ CachedProcessLogs.prevCurrentMatchRef (CachedProcessLogs.hooks w')
      = (if CachedProcessLogs.match_fires p (CachedProcessLogs.hooks w)
         then Some (CachedProcessLogs.currentMatchIndex p)
         else CachedProcessLogs.prevCurrentMatchRef (CachedProcessLogs.hooks w))
    ∧ CachedProcessLogs.unmounted (CachedProcessLogs.hooks w') = false
    ∧ CachedProcessLogs.rendered (CachedProcessLogs.hooks w')
      = Some (p, CachedProcessLogs.atBottom (CachedProcessLogs.hooks w)).
Proof.
  intros Hu. destruct w as [h b]. cbn in Hu.
  cbn [CachedProcessLogs.step CachedProcessLogs.hooks]. rewrite Hu.
  eexists. split; [reflexivity|]. rewrite cp_commit_eq. cbn zeta. cbn.
  repeat split; done.
Qed.

Lemma vp_same_index_silent p h :
  VirtualizedProcessLogs.prevCurrentMatchRef h
  = Some (VirtualizedProcessLogs.currentMatchIndex p) →
  VirtualizedProcessLogs.match_fires p h = false.
Proof.
  intros Hp. unfold VirtualizedProcessLogs.match_fires, VirtualizedProcessLogs.differs.
  rewrite Hp, Z.eqb_refl. cbn. by rewrite !andb_false_r.
Qed.

Lemma cp_same_index_silent p h :
  CachedProcessLogs.prevCurrentMatchRef h
  = Some (CachedProcessLogs.currentMatchIndex p) →
  CachedProcessLogs.match_fires p h = false.
Proof.
  intros Hp. unfold CachedProcessLogs.match_fires, CachedProcessLogs.differs.
  rewrite Hp, Z.eqb_refl. cbn. by rewrite !andb_false_r.
Qed.

Lemma vp_same_index_run k ps : ∀ w,
  VirtualizedProcessLogs.prevCurrentMatchRef (VirtualizedProcessLogs.hooks w) = Some k →
  Forall (λ p, VirtualizedProcessLogs.currentMatchIndex p = k) ps →
  ∃ w', VirtualizedProcessLogs.run w (map VirtualizedProcessLogs.Render ps) = Ok w'
    ∧ Browser.out (VirtualizedProcessLogs.browser w')
      = Browser.out (VirtualizedProcessLogs.browser w)
    ∧ VirtualizedProcessLogs.prevCurrentMatchRef (VirtualizedProcessLogs.hooks w') = Some k.
Proof.
  induction ps as [|p ps IH]; intros w Hp Hall; cbn [map VirtualizedProcessLogs.run].
  - by exists w.
  - apply Forall_cons in Hall as [Hk Hall].
    destruct (VirtualizedProcessLogs.unmounted (VirtualizedProcessLogs.hooks w)) eqn:Hu.
    + cbn [VirtualizedProcessLogs.step]. rewrite Hu. cbn. by apply IH.
    + destruct (vp_render_step w p Hu) as (w1 & Hs & Ho & Hp1 & _).
      rewrite Hs. cbn.
      assert (Hf : VirtualizedProcessLogs.match_fires p (VirtualizedProcessLogs.hooks w)
                   = false) by (apply vp_same_index_silent; congruence).
      unfold VirtualizedProcessLogs.search_scroll in Ho. rewrite Hf in Ho, Hp1.
      rewrite app_nil_r in Ho.
      destruct (IH w1 ltac:(congruence) Hall) as (w' & Hrun & Ho' & Hp').
      exists w'. split; [done|]. split; congruence.
Qed.

Lemma cp_same_index_run k ps : ∀ w,
  CachedProcessLogs.prevCurrentMatchRef (CachedProcessLogs.hooks w) = Some k →
  Forall (λ p, CachedProcessLogs.currentMatchIndex p = k) ps →
  ∃ w', CachedProcessLogs.run w (map CachedProcessLogs.Render ps) = Ok w'
    ∧ Browser.out (CachedProcessLogs.browser w')
      = Browser.out (CachedProcessLogs.browser w)
    ∧ CachedProcessLogs.prevCurrentMatchRef (CachedProcessLogs.hooks w') = Some k.
Proof.
  induction ps as [|p ps IH]; intros w Hp Hall; cbn [map CachedProcessLogs.run].
  - by exists w.
  - apply Forall_cons in Hall as [Hk Hall].
    destruct (CachedProcessLogs.unmounted (CachedProcessLogs.hooks w)) eqn:Hu.
    + cbn [CachedProcessLogs.step]. rewrite Hu. cbn. by apply IH.
    + destruct (cp_render_step w p Hu) as (w1 & Hs & Ho & Hp1 & _).
      rewrite Hs. cbn.
      assert (Hf : CachedProcessLogs.match_fires p (CachedProcessLogs.hooks w)
                   = false) by (apply cp_same_index_silent; congruence).
      unfold CachedProcessLogs.search_scroll in Ho. rewrite Hf in Ho, Hp1.
      rewrite app_nil_r in Ho.
      destruct (IH w1 ltac:(congruence) Hall) as (w' & Hrun & Ho' & Hp').
      exists w'. split; [done|]. split; congruence.
Qed.

(** X5. A new search is not scrolled to when its current match has the
    number of the last one.  Once a searching log viewer has scrolled to match
    number [k] ([prevCurrentMatchRef] holds [k]), no later render whose
    [currentMatchIndex] is [k] scrolls to a match, whatever its logs, its
    query and its [matchIndices] are: a different list of matches with the same
    current number is not scrolled to. *)
Theorem same_match_number_never_scrolls (k : Z) :
  (∀ ps w,
     VirtualizedProcessLogs.prevCurrentMatchRef (VirtualizedProcessLogs.hooks w) = Some k →
     Forall (λ p, VirtualizedProcessLogs.currentMatchIndex p = k) ps →
     ∃ w', VirtualizedProcessLogs.run w (map VirtualizedProcessLogs.Render ps) = Ok w'
       ∧ Browser.out (VirtualizedProcessLogs.browser w')
         = Browser.out (VirtualizedProcessLogs.browser w)
       ∧ VirtualizedProcessLogs.prevCurrentMatchRef (VirtualizedProcessLogs.hooks w')
         = Some k)
  ∧ (∀ ps w,
     CachedProcessLogs.prevCurrentMatchRef (CachedProcessLogs.hooks w) = Some k →
     Forall (λ p, CachedProcessLogs.currentMatchIndex p = k) ps →
     ∃ w', CachedProcessLogs.run w (map CachedProcessLogs.Render ps) = Ok w'
       ∧ Browser.out (CachedProcessLogs.browser w')
         = Browser.out (CachedProcessLogs.browser w)
       ∧ CachedProcessLogs.prevCurrentMatchRef (CachedProcessLogs.hooks w') = Some k).
Proof.
  split; intros ps w; [apply vp_same_index_run | apply cp_same_index_run].
Qed.

Lemma same_match_number_never_scrolls_witness :
  let first := VirtualizedProcessLogs.Build_Props [Sample.line1; Sample.line2] None
                 "compiling" [0] 0 in
  let second := VirtualizedProcessLogs.Build_Props [Sample.line1; Sample.line2] None
                  "warning" [1] 0 in
  let w := Sample.outcome VirtualizedProcessLogs.init
             (VirtualizedProcessLogs.run VirtualizedProcessLogs.init
                [VirtualizedProcessLogs.Render first]) in
  Browser.out (VirtualizedProcessLogs.browser w) = [ScrollToMatch (Some 0)]
  ∧ VirtualizedProcessLogs.prevCurrentMatchRef (VirtualizedProcessLogs.hooks w) = Some 0
  ∧ Forall (λ p, VirtualizedProcessLogs.currentMatchIndex p = 0) [second]
  ∧ ∃ w', VirtualizedProcessLogs.run w [VirtualizedProcessLogs.Render second] = Ok w'
      ∧ Browser.out (VirtualizedProcessLogs.browser w') = [ScrollToMatch (Some 0)].
Proof.
  intros first second w.
  assert (Ho : Browser.out (VirtualizedProcessLogs.browser w) = [ScrollToMatch (Some 0)])
    by (by vm_compute).
  assert (Hp : VirtualizedProcessLogs.prevCurrentMatchRef (VirtualizedProcessLogs.hooks w)
               = Some 0) by (by vm_compute).
  assert (Hall : Forall (λ p, VirtualizedProcessLogs.currentMatchIndex p = 0) [second])
    by (by repeat constructor).
  split; [exact Ho|]. split; [exact Hp|]. split; [exact Hall|].
  destruct (proj1 (same_match_number_never_scrolls 0) [second] w Hp Hall)
    as (w' & Hrun & Ho' & _).
  exists w'. split; [exact Hrun|]. by rewrite Ho'.
Defined.

(** X6. What the search-match effect scrolls to.  When a render changes
    [currentMatchIndex] to a value that is not negative and differs from the
    last one scrolled to, and [matchIndices] is not empty, the component calls
    [virtualizer.scrollToIndex(matchIndices[currentMatchIndex], {align:
    'center'})] once and records the index.  The upper bound is not checked: a
    [currentMatchIndex] at or past the end of [matchIndices] makes the call
    with [undefined]. *)
Theorem match_scroll_target :
  (∀ w p q,
     VirtualizedProcessLogs.rendered (VirtualizedProcessLogs.hooks w) = Some q →
     VirtualizedProcessLogs.unmounted (VirtualizedProcessLogs.hooks w) = false →
     VirtualizedProcessLogs.currentMatchIndex q ≠ VirtualizedProcessLogs.currentMatchIndex p →
     VirtualizedProcessLogs.prevCurrentMatchRef (VirtualizedProcessLogs.hooks w)
     ≠ Some (VirtualizedProcessLogs.currentMatchIndex p) →
     VirtualizedProcessLogs.matchIndices p ≠ [] →
     0 ≤ VirtualizedProcessLogs.currentMatchIndex p →
     ∃ w', VirtualizedProcessLogs.step w (VirtualizedProcessLogs.Render p) = Ok w'
       ∧ Browser.out (VirtualizedProcessLogs.browser w')
         = Browser.out (VirtualizedProcessLogs.browser w)
           ++ [ScrollToMatch (VirtualizedProcessLogs.matchIndices p
                              !! Z.to_nat (VirtualizedProcessLogs.currentMatchIndex p))]
       ∧ VirtualizedProcessLogs.prevCurrentMatchRef (VirtualizedProcessLogs.hooks w')
         = Some (VirtualizedProcessLogs.currentMatchIndex p)
       ∧ (Z.of_nat (length (VirtualizedProcessLogs.matchIndices p))
          ≤ VirtualizedProcessLogs.currentMatchIndex p →
          Browser.out (VirtualizedProcessLogs.browser w')
          = Browser.out (VirtualizedProcessLogs.browser w) ++ [ScrollToMatch None]))
  ∧ (∀ w p q ab,
     CachedProcessLogs.rendered (CachedProcessLogs.hooks w) = Some (q, ab) →
     CachedProcessLogs.unmounted (CachedProcessLogs.hooks w) = false →
     CachedProcessLogs.currentMatchIndex q ≠ CachedProcessLogs.currentMatchIndex p →
     CachedProcessLogs.prevCurrentMatchRef (CachedProcessLogs.hooks w)
     ≠ Some (CachedProcessLogs.currentMatchIndex p) →
     CachedProcessLogs.matchIndices p ≠ [] →
     0 ≤ CachedProcessLogs.currentMatchIndex p →
     ∃ w', CachedProcessLogs.step w (CachedProcessLogs.Render p) = Ok w'
       ∧ Browser.out (CachedProcessLogs.browser w')
         = Browser.out (CachedProcessLogs.browser w)
           ++ [ScrollToMatch (CachedProcessLogs.matchIndices p
                              !! Z.to_nat (CachedProcessLogs.currentMatchIndex p))]
       ∧ CachedProcessLogs.prevCurrentMatchRef (CachedProcessLogs.hooks w')
         = Some (CachedProcessLogs.currentMatchIndex p)
       ∧ (Z.of_nat (length (CachedProcessLogs.matchIndices p))
          ≤ CachedProcessLogs.currentMatchIndex p →
          Browser.out (CachedProcessLogs.browser w')
          = Browser.out (CachedProcessLogs.browser w) ++ [ScrollToMatch None])).
Proof.
  split.
  - intros w p q Hq Hu Hne Hprev Hm Hpos.
    destruct (vp_render_step w p Hu) as (w' & Hs & Ho & Hp & _).
    assert (Hf : VirtualizedProcessLogs.match_fires p (VirtualizedProcessLogs.hooks w) = true).
    { unfold VirtualizedProcessLogs.match_fires, VirtualizedProcessLogs.match_changed,
        VirtualizedProcessLogs.differs.
      rewrite Hq.
      replace (VirtualizedProcessLogs.currentMatchIndex q
               =? VirtualizedProcessLogs.currentMatchIndex p)
        with false by (symmetry; by apply Z.eqb_neq).
      cbn [negb orb andb].
      replace (Z.of_nat (length (VirtualizedProcessLogs.matchIndices p)) >? 0) with true.
      2:{ symmetry. apply Z.gtb_lt.
          destruct (VirtualizedProcessLogs.matchIndices p); [done|cbn [length]; lia]. }
      replace (VirtualizedProcessLogs.currentMatchIndex p >=? 0) with true
        by (symmetry; apply Z.geb_le; lia).
      cbn [andb].
      destruct (VirtualizedProcessLogs.prevCurrentMatchRef
                  (VirtualizedProcessLogs.hooks w)) as [j|]; [|done].
      apply negb_true_iff, Z.eqb_neq. congruence. }
    unfold VirtualizedProcessLogs.search_scroll in Ho. rewrite Hf in Ho, Hp.
    exists w'. split; [exact Hs|]. split; [exact Ho|]. split; [exact Hp|].
    intros Hlen. rewrite Ho. do 3 f_equal. apply lookup_ge_None_2. lia.
  - intros w p q ab Hq Hu Hne Hprev Hm Hpos.
    destruct (cp_render_step w p Hu) as (w' & Hs & Ho & Hp & _).
    assert (Hf : CachedProcessLogs.match_fires p (CachedProcessLogs.hooks w) = true).
    { unfold CachedProcessLogs.match_fires, CachedProcessLogs.match_changed,
        CachedProcessLogs.differs.
      rewrite Hq.
      replace (CachedProcessLogs.currentMatchIndex q
               =? CachedProcessLogs.currentMatchIndex p)
        with false by (symmetry; by apply Z.eqb_neq).
      cbn [negb orb andb].
      replace (Z.of_nat (length (CachedProcessLogs.matchIndices p)) >? 0) with true.
      2:{ symmetry. apply Z.gtb_lt.
          destruct (CachedProcessLogs.matchIndices p); [done|cbn [length]; lia]. }
      replace (CachedProcessLogs.currentMatchIndex p >=? 0) with true
        by (symmetry; apply Z.geb_le; lia).
      cbn [andb].
      destruct (CachedProcessLogs.prevCurrentMatchRef
                  (CachedProcessLogs.hooks w)) as [j|]; [|done].
      apply negb_true_iff, Z.eqb_neq. congruence. }
    unfold CachedProcessLogs.search_scroll in Ho. rewrite Hf in Ho, Hp.
    exists w'. split; [exact Hs|]. split; [exact Ho|]. split; [exact Hp|].
    intros Hlen. rewrite Ho. do 3 f_equal. apply lookup_ge_None_2. lia.
Qed.

Lemma match_scroll_target_witness :
  let past := VirtualizedProcessLogs.Build_Props [Sample.line1] None "compiling" [0] 1 in
  VirtualizedProcessLogs.rendered (VirtualizedProcessLogs.hooks Sample.vp_shown)
  = Some Sample.vp_one
  ∧ VirtualizedProcessLogs.matchIndices past ≠ []
  ∧ 0 ≤ VirtualizedProcessLogs.currentMatchIndex past
  ∧ ∃ w', VirtualizedProcessLogs.step Sample.vp_shown (VirtualizedProcessLogs.Render past)
          = Ok w'
      ∧ Browser.out (VirtualizedProcessLogs.browser w') = [ScrollToMatch None].
Proof.
  intros past.
  assert (Hq : VirtualizedProcessLogs.rendered (VirtualizedProcessLogs.hooks Sample.vp_shown)
               = Some Sample.vp_one) by (by vm_compute).
  assert (Hm : VirtualizedProcessLogs.matchIndices past ≠ []) by discriminate.
  assert (Hpos : 0 ≤ VirtualizedProcessLogs.currentMatchIndex past) by (cbn; lia).
  split; [exact Hq|]. split; [exact Hm|]. split; [exact Hpos|].
  destruct (proj1 match_scroll_target Sample.vp_shown past Sample.vp_one Hq
              ltac:(by vm_compute) ltac:(discriminate) ltac:(by vm_compute) Hm Hpos)
    as (w' & Hs & _ & _ & Hnone).
  exists w'. split; [exact Hs|]. rewrite Hnone; [by vm_compute|cbn; lia].
Defined.

(** ** Keys of the conversation rows *)

Lemma conv_row_key_eq prefix vi d :
  conv_row_key (conv_row prefix vi d) = prefix +:+ patch_key d.
Proof. by destruct d. Qed.

(** Visible entries inherit distinctness from the whole list. *)
Lemma visible_NoDup {A B} (f : A → B) (l : list A) (idx : list nat) (xs : list A) :
  Forall2 (λ i x, l !! i = Some x) idx xs →
  NoDup idx → NoDup (f <$> l) → NoDup (f <$> xs).
Proof.
  intros HF Hidx Hl. induction HF as [|i x idx xs Hi HF IH]; [constructor|].
  apply NoDup_cons in Hidx as [Hni Hidx]. cbn. apply NoDup_cons. split; [|by apply IH].
  intros Hin. apply list_elem_of_fmap in Hin as (x' & Hfx & Hx').
  apply list_elem_of_lookup in Hx' as [j Hj].
  destruct (Forall2_lookup_r _ _ _ _ _ HF Hj) as (i' & Hi' & Hli').
  assert (i = i').
  { eapply (NoDup_lookup (f <$> l)); [exact Hl| |].
    - rewrite list_lookup_fmap, Hi. reflexivity.
    - rewrite list_lookup_fmap, Hli'. cbn. by rewrite Hfx. }
  subst i'. apply Hni. by eapply list_elem_of_lookup_2.
Qed.

Lemma conv_rows_keys prefix (l : list PatchTypeWithKey) (items : list VirtualItem)
    (rows : list ConvRow) :
  Forall2 (λ vi r, ∃ d, l !! index vi = Some d ∧ r = conv_row prefix vi d) items rows →
  ∃ xs, Forall2 (λ i x, l !! i = Some x) (map index items) xs
      ∧ map conv_row_key rows = String.app prefix <$> (patch_key <$> xs).
Proof.
  induction 1 as [|vi r items rows (d & Hd & ->) _ (xs & Hxs & Hk)].
  - by exists [].
  - exists (d :: xs). split; [by constructor|]. cbn. by rewrite conv_row_key_eq, Hk.
Qed.

Lemma cl_render_inv h items view :
  ConversationList.render h items = Ok view →
  Forall2 (λ vi r, ∃ d, ConversationList.entries h !! index vi = Some d
                     ∧ r = conv_row "conv-" vi d) items (ConversationList.rows view)
  ∧ ConversationList.hasContent view
    = negb (ConversationList.loading h) || (ConversationList.len h >? 0).
Proof.
  unfold ConversationList.render.
  destruct (mapM _ items) as [rs|] eqn:Hm; cbn; [|done]. intros [= <-]. cbn.
  split; [|done]. apply mapM_js_inv in Hm. eapply Forall2_impl; [exact Hm|].
  intros vi r. cbn beta. unfold ConversationList.render_row, at_index.
  destruct (ConversationList.entries h !! index vi) as [d|]; cbn; [|done].
  intros [= <-]. by exists d.
Qed.

Lemma vl_render_inv h items view :
  VirtualizedList.render h items = Ok view →
  Forall2 (λ vi r, ∃ d, VirtualizedList.entries h !! index vi = Some d
                     ∧ r = conv_row "l-" vi d) items (VirtualizedList.rows view)
  ∧ VirtualizedList.overlay view = VirtualizedList.loading h.
Proof.
  unfold VirtualizedList.render.
  destruct (mapM _ items) as [rs|] eqn:Hm; cbn; [|done]. intros [= <-]. cbn.
  split; [|done]. apply mapM_js_inv in Hm. eapply Forall2_impl; [exact Hm|].
  intros vi r. cbn beta. unfold VirtualizedList.render_row, at_index.
  destruct (VirtualizedList.entries h !! index vi) as [d|]; cbn; [|done].
  intros [= <-]. by exists d.
Qed.

(** X7. Keys of conversation rows.  ConversationList and the first
    VirtualizedList key a row by its entry's patch key ([conv-<patchKey>],
    [l-<patchKey>]): when the entries have pairwise distinct patch keys, the
    rows rendered for distinct virtual indices have pairwise distinct keys. *)
Theorem conversation_row_keys_distinct :
  (∀ h items view,
     ConversationList.render h items = Ok view →
     NoDup (map index items) →
     NoDup (map patch_key (ConversationList.entries h)) →
     NoDup (map conv_row_key (ConversationList.rows view)))
  ∧ (∀ h items view,
     VirtualizedList.render h items = Ok view →
     NoDup (map index items) →
     NoDup (map patch_key (VirtualizedList.entries h)) →
     NoDup (map conv_row_key (VirtualizedList.rows view))).
Proof.
  split.
  - intros h items view Hr Hidx Hpk. apply cl_render_inv in Hr as [Hr _].
    destruct (conv_rows_keys _ _ _ _ Hr) as (xs & Hxs & ->).
    apply NoDup_fmap_2; [apply _|]. by eapply visible_NoDup.
  - intros h items view Hr Hidx Hpk. apply vl_render_inv in Hr as [Hr _].
    destruct (conv_rows_keys _ _ _ _ Hr) as (xs & Hxs & ->).
    apply NoDup_fmap_2; [apply _|]. by eapply visible_NoDup.
Qed.

Lemma conversation_row_keys_distinct_witness :
  let h := ConversationList.hooks Sample.cl_two in
  NoDup (map index [Sample.row0; Sample.row1])
  ∧ NoDup (map patch_key (ConversationList.entries h))
  ∧ ∃ view, ConversationList.render h [Sample.row0; Sample.row1] = Ok view
      ∧ map conv_row_key (ConversationList.rows view) = ["conv-k1"; "conv-k2"]
      ∧ NoDup (map conv_row_key (ConversationList.rows view)).
Proof.
  intros h.
  assert (Hidx : NoDup (map index [Sample.row0; Sample.row1])).
  { cbn. apply NoDup_cons. split; [|apply NoDup_singleton].
    intros H%list_elem_of_singleton. discriminate. }
  assert (He : ConversationList.entries h = [Sample.e1; Sample.e2]) by (by vm_compute).
  assert (Hpk : NoDup (map patch_key (ConversationList.entries h))).
  { rewrite He. cbn. apply NoDup_cons. split; [|apply NoDup_singleton].
    intros H%list_elem_of_singleton. discriminate. }
  assert (Hr : ConversationList.render h [Sample.row0; Sample.row1]
               = Ok (Sample.outcome
                       {| ConversationList.hasContent := false;
                          ConversationList.rows := [] |}
                       (ConversationList.render h [Sample.row0; Sample.row1])))
    by (by vm_compute).
  split; [exact Hidx|]. split; [exact Hpk|].
  eexists. split; [exact Hr|]. split; [by vm_compute|].
  exact (proj1 conversation_row_keys_distinct h _ _ Hr Hidx Hpk).
Defined.

(** ** PollingList: the interval *)

Section PollingInterval.
Import PollingList.

Ltac pl_simpl :=
  cbn [hooks browser entries loading interval rendered unmounted dep_attempt dep_len] in *;
  browser_simpl.

Lemma pl_poll_atBottom_total r : ∃ v, poll_atBottom r = Ok v.
Proof. destruct r; cbn; by eexists. Qed.

(** One tick. *)
Lemma pl_tick w id at_ e n r v :
  mounted (hooks w) = true →
  Browser.timers (browser w) !! id = Some (at_, Poll e n) →
  at_ ≤ Browser.now (browser w) + 50 →
  poll_atBottom r = Ok v →
  ∃ w', run w [Layout r; Advance 50; Timeout id] = Ok w'
    ∧ hooks w' = hooks w
    ∧ Browser.now (browser w') = Browser.now (browser w) + 50
    ∧ Browser.out (browser w')
      = Browser.out (browser w)
        ++ (if v || (e + 50 >=? 500) then [] else scrollToEnd n)
    ∧ Browser.timers (browser w')
      = (if v || (e + 50 >=? 500) then delete id (Browser.timers (browser w))
         else <[id := (Browser.now (browser w) + 100, Poll (e + 50) n)]>
                (Browser.timers (browser w))).
Proof.
  intros Hm Hl Hdue Hv. destruct w as [h b]. pl_simpl.
  cbn [run step]. pl_simpl. rewrite Hm. cbn [negb mbind mret js_bind js_ret].
  unfold with_browser. pl_simpl.
  unfold Browser.due. cbn [Browser.timers Browser.advance Browser.set_parentRef Browser.now].
  rewrite Hl. replace (at_ <=? Browser.now b + Z.max 0 50) with true
    by (symmetry; apply Z.leb_le; lia).
  unfold poll. pl_simpl.
  cbn [Browser.parentRef Browser.advance Browser.set_parentRef]. rewrite Hv.
  cbn [mbind js_bind].
  destruct (v || (e + 50 >=? 500)); cbn [mret js_ret]; eexists; (split; [reflexivity|]);
    cbn; rewrite ?app_nil_r; repeat split; try done.
  rewrite Z.max_r by lia.
  by replace (Browser.now b + 50 + 50) with (Browser.now b + 100) by lia.
Qed.

(** With the interval gone, ticks do nothing. *)
Lemma pl_ticks_idle id rs : ∀ w,
  Browser.timers (browser w) !! id = None →
  ∃ w', run w (poll_ticks id rs) = Ok w'
    ∧ hooks w' = hooks w
    ∧ Browser.out (browser w') = Browser.out (browser w)
    ∧ Browser.timers (browser w') = Browser.timers (browser w).
Proof.
  induction rs as [|r rs IH]; intros w Hn; cbn [poll_ticks flat_map app run].
  - by exists w.
  - assert (HL : ∃ w1, step w (Layout r) = Ok w1 ∧ hooks w1 = hooks w
                  ∧ Browser.out (browser w1) = Browser.out (browser w)
                  ∧ Browser.timers (browser w1) = Browser.timers (browser w)).
    { cbn [step]. destruct (negb (mounted (hooks w))); by eexists. }
    destruct HL as (w1 & HL & Hh1 & Ho1 & Ht1). rewrite HL.
    cbn [mbind mret js_bind js_ret step].
    unfold Browser.due. cbn [with_browser browser Browser.advance Browser.timers].
    rewrite Ht1, Hn. cbn [mret js_ret].
    destruct (IH (with_browser (Browser.advance 50) w1)) as (w' & Hrun & Hh & Ho & Ht).
    + cbn. by rewrite Ht1.
    + exists w'. split; [exact Hrun|]. cbn in Hh, Ho, Ht.
      split; [congruence|]. split; congruence.
Qed.

(** However the container behaves, an interval with [b] scrolls left in its
    budget scrolls at most [b] times more. *)
Lemma pl_ticks_bound id n rs : ∀ (b : nat) w at_,
  (b ≤ 9)%nat →
  mounted (hooks w) = true →
  Browser.timers (browser w) !! id = Some (at_, Poll (450 - 50 * Z.of_nat b) n) →
  at_ ≤ Browser.now (browser w) + 50 →
  ∃ w' m, run w (poll_ticks id rs) = Ok w'
    ∧ (m ≤ b)%nat
    ∧ hooks w' = hooks w
    ∧ Browser.out (browser w') = Browser.out (browser w) ++ replicate m (ScrollToIndex (n - 1) AlignEnd).
Proof.
  induction rs as [|r rs IH]; intros b w at_ Hb Hm Hl Hdue.
  - exists w, 0%nat. cbn. rewrite app_nil_r. repeat split; [lia|done..].
  - change (poll_ticks id (r :: rs))
      with ([Layout r; Advance 50; Timeout id] ++ poll_ticks id rs).
    destruct (pl_poll_atBottom_total r) as [v Hv].
    destruct (pl_tick w id at_ _ n r v Hm Hl Hdue Hv) as (w1 & Hrun1 & Hh1 & Hn1 & Ho1 & Ht1).
    assert (Happ : ∀ es1 es2 w0, run w0 (es1 ++ es2) = w1 ← run w0 es1; run w1 es2).
    { induction es1 as [|e es1 IH1]; intros es2 w0; cbn [run app]; [done|].
      destruct (step w0 e); cbn; [apply IH1|done]. }
    rewrite Happ, Hrun1. cbn [mbind js_bind].
    destruct (v || (450 - 50 * Z.of_nat b + 50 >=? 500)) eqn:Hstop.
    + destruct (pl_ticks_idle id rs w1) as (w' & Hrun & Hh & Ho & _).
      { rewrite Ht1. apply lookup_delete_eq. }
      exists w', 0%nat. split; [exact Hrun|]. split; [lia|]. split; [congruence|].
      rewrite Ho, Ho1. done.
    + apply orb_false_iff in Hstop as [_ Hlt]. rewrite Z.geb_leb in Hlt. apply Z.leb_gt in Hlt.
      destruct b as [|b]; [lia|].
      destruct (IH b w1 (Browser.now (browser w) + 100)) as (w' & m & Hrun & Hmb & Hh & Ho).
      * lia.
      * by rewrite Hh1.
      * rewrite Ht1, lookup_insert_eq. do 3 f_equal. lia.
      * lia.
      * exists w', (S m). split; [exact Hrun|]. split; [lia|]. split; [congruence|].
        rewrite Ho, Ho1, <- app_assoc. done.
Qed.

(** Ten ticks that never find the container at the bottom: nine scrolls, and
    the tenth tick clears the interval. *)
Lemma pl_ticks_far id n : ∀ (b : nat) w at_ rs,
  mounted (hooks w) = true →
  Browser.timers (browser w) !! id = Some (at_, Poll (450 - 50 * Z.of_nat b) n) →
  at_ ≤ Browser.now (browser w) + 50 →
  length rs = S b →
  Forall (λ r, poll_atBottom r = Ok false) rs →
  ∃ w', run w (poll_ticks id rs) = Ok w'
    ∧ hooks w' = hooks w
    ∧ Browser.out (browser w')
      = Browser.out (browser w) ++ replicate b (ScrollToIndex (n - 1) AlignEnd)
    ∧ Browser.timers (browser w') = delete id (Browser.timers (browser w)).
Proof.
  induction b as [|b IH]; intros w at_ rs Hm Hl Hdue Hlen Hfar;
    destruct rs as [|r rs]; try discriminate; injection Hlen as Hlen;
    apply Forall_cons in Hfar as [Hr Hfar];
    destruct (pl_tick w id at_ _ n r false Hm Hl Hdue Hr)
      as (w1 & Hrun1 & Hh1 & Hn1 & Ho1 & Ht1).
  - destruct rs; [|discriminate].
    replace (poll_ticks id [r]) with [Layout r; Advance 50; Timeout id] by done.
    exists w1. split; [exact Hrun1|]. split; [exact Hh1|].
    replace (450 - 50 * Z.of_nat 0 + 50 >=? 500) with true in Ho1, Ht1 by done.
    cbn [orb] in Ho1, Ht1. split; [exact Ho1|exact Ht1].
  - change (poll_ticks id (r :: rs))
      with ([Layout r; Advance 50; Timeout id] ++ poll_ticks id rs).
    assert (Happ : ∀ es1 es2 w0, run w0 (es1 ++ es2) = w1 ← run w0 es1; run w1 es2).
    { induction es1 as [|e es1 IH1]; intros es2 w0; cbn [run app]; [done|].
      destruct (step w0 e); cbn; [apply IH1|done]. }
    rewrite Happ, Hrun1. cbn [mbind js_bind].
    replace (450 - 50 * Z.of_nat (S b) + 50 >=? 500) with false in Ho1, Ht1
      by (symmetry; rewrite Z.geb_leb; apply Z.leb_gt; lia).
    cbn [orb] in Ho1, Ht1.
    destruct (IH w1 (Browser.now (browser w) + 100) rs) as (w' & Hrun & Hh & Ho & Ht).
    + by rewrite Hh1.
    + rewrite Ht1, lookup_insert_eq. do 3 f_equal. lia.
    + lia.
    + done.
    + done.
    + exists w'. split; [exact Hrun|]. split; [congruence|].
      split; [rewrite Ho, Ho1, <- app_assoc; done|].
      rewrite Ht, Ht1. apply delete_insert_eq.
Qed.

(** *** At most one interval *)

Lemma pl_owned_empty w :
  Browser.timers (browser w) = ∅ → poll_owned w.
Proof. intros He id t. by rewrite He, lookup_empty. Qed.

Lemma pl_cleanup_timers w :
  poll_owned w → Browser.timers (browser (cleanup w)) = ∅.
Proof.
  intros Ho. unfold cleanup.
  pose proof (only_timer_gone (Browser.timers (browser w)) (interval (hooks w)) Ho) as He.
  by destruct (interval (hooks w)).
Qed.

Lemma pl_scrollEffect_timers n w :
  poll_owned w →
  poll_owned (scrollEffect n w)
  ∧ Browser.timers (browser (scrollEffect n w))
    = (if n =? 0 then ∅
       else {[ Browser.next_timer (browser w) := (Browser.now (browser w) + 50, Poll 0 n) ]}).
Proof.
  intros Ho. pose proof (pl_cleanup_timers w Ho) as He.
  assert (Hc : Browser.next_timer (browser (cleanup w)) = Browser.next_timer (browser w)
               ∧ Browser.now (browser (cleanup w)) = Browser.now (browser w)).
  { unfold cleanup. by destruct (interval (hooks w)). }
  destruct Hc as [Hnt Hnow].
  unfold scrollEffect. cbn zeta. destruct (n =? 0).
  - split; [by apply pl_owned_empty|done].
  - cbn. rewrite He, Hnt, Hnow. split; [|by rewrite insert_empty].
    intros id t. cbn. intros Hl. apply lookup_insert_Some in Hl as [[<- _]|[_ Hl]]; [done|].
    by rewrite lookup_empty in Hl.
Qed.

Lemma pl_pass_timers a w :
  poll_owned w →
  poll_owned (pass a w)
  ∧ Browser.timers (browser (pass a w))
    = (if len_changed (hooks w)
       then if len (hooks w) =? 0 then ∅
            else {[ Browser.next_timer (browser w)
                    := (Browser.now (browser w) + 50, Poll 0 (len (hooks w))) ]}
       else Browser.timers (browser w)).
Proof.
  intros Ho. unfold pass. cbn zeta.
  set (w1 := if attempt_changed a (hooks w) then resetEffect w else w).
  assert (H1 : poll_owned w1 ∧ Browser.timers (browser w1) = Browser.timers (browser w)
               ∧ Browser.next_timer (browser w1) = Browser.next_timer (browser w)
               ∧ Browser.now (browser w1) = Browser.now (browser w)).
  { subst w1. by destruct (attempt_changed a (hooks w)). }
  destruct H1 as (Ho1 & Ht1 & Hnt1 & Hn1).
  set (w2 := if len_changed (hooks w) then scrollEffect (len (hooks w)) w1 else w1).
  assert (H2 : poll_owned w2
               ∧ Browser.timers (browser w2)
                 = (if len_changed (hooks w)
                    then if len (hooks w) =? 0 then ∅
                         else {[ Browser.next_timer (browser w)
                                 := (Browser.now (browser w) + 50, Poll 0 (len (hooks w))) ]}
                    else Browser.timers (browser w))).
  { subst w2. destruct (len_changed (hooks w)); [|done].
    destruct (pl_scrollEffect_timers (len (hooks w)) w1 Ho1) as [Ho2 Ht2].
    split; [done|]. by rewrite Ht2, Hnt1, Hn1. }
  destruct H2 as [Ho2 Ht2].
  by destruct (attempt_changed a (hooks w)).
Qed.

Lemma pl_commit_owned a w : poll_owned w → poll_owned (commit a w).
Proof.
  intros Ho. unfold commit. apply pl_pass_timers. by apply pl_pass_timers.
Qed.

Lemma pl_rerender_owned w : poll_owned w → poll_owned (rerender w).
Proof.
  intros Ho. unfold rerender. destruct (rendered (hooks w)); [|done].
  by apply pl_commit_owned.
Qed.

Lemma pl_step_owned w e w' : poll_owned w → step w e = Ok w' → poll_owned w'.
Proof.
  intros Ho. destruct e; cbn [step].
  - destruct (unmounted (hooks w)); intros [= <-]; [done|by apply pl_commit_owned].
  - destruct (rendered (hooks w)) eqn:Hr; intros [= <-]; [|done].
    unfold onEntriesUpdated. destruct (unmounted (hooks w)); [done|].
    by apply pl_rerender_owned.
  - destruct (negb (mounted (hooks w))); by intros [= <-].
  - by intros [= <-].
  - destruct (Browser.due id (browser w)) as [[e n]|] eqn:Hd; [|by intros [= <-]].
    apply due_lookup in Hd as (at_ & Hl & _).
    pose proof (Ho _ _ Hl) as Hi.
    unfold poll. destruct (pl_poll_atBottom_total (Browser.parentRef (browser w))) as [v ->].
    cbn [mbind js_bind]. destruct (v || _); intros [= <-]; intros id' t; cbn.
    + intros [_ H]%lookup_delete_Some. by eapply Ho.
    + intros [[<- _]|[_ H]]%lookup_insert_Some; [exact Hi|by eapply Ho].
  - destruct (negb (mounted (hooks w))); intros [= <-]; [done|].
    apply pl_owned_empty. cbn. by apply pl_cleanup_timers.
Qed.

Lemma pl_reachable_owned w : reachable w → poll_owned w.
Proof.
  intros [es Hrun]. revert w Hrun.
  assert (H : ∀ es w0 w, poll_owned w0 → run w0 es = Ok w → poll_owned w).
  { clear. induction es as [|e es IH]; intros w0 w Ho; cbn [run].
    - by intros [= <-].
    - destruct (step w0 e) as [w1|] eqn:Hs; cbn; [|done].
      apply IH. by eapply pl_step_owned. }
  intros w. apply H. by apply pl_owned_empty.
Qed.

(** An update that changes the length to something positive replaces the
    interval. *)
Lemma pl_update_interval w newEntries addType newLoading :
  Inv w → poll_owned w → mounted (hooks w) = true →
  length newEntries ≠ length (entries (hooks w)) → newEntries ≠ [] →
  ∃ w', step w (EntriesUpdated newEntries addType newLoading) = Ok w'
    ∧ Browser.timers (browser w')
      = {[ Browser.next_timer (browser w)
           := (Browser.now (browser w) + 50, Poll 0 (Z.of_nat (length newEntries))) ]}.
Proof.
  intros HI Ho Hm Hlen Hne. destruct w as [h b]. pl_simpl. cbn [step]. pl_simpl.
  destruct (pl_mounted_rendered _ Hm) as (d & Hd & Hun). rewrite Hd.
  eexists. split; [reflexivity|].
  unfold onEntriesUpdated. pl_simpl. rewrite Hun.
  set (w1 := {| hooks := apply_update newEntries newLoading h;
                browser := Browser.emit [CtxSetEntries newEntries] b |}).
  assert (Ho1 : poll_owned w1) by (intros id t; apply Ho).
  assert (Hr1 : rendered (hooks w1) = Some d) by done.
  unfold rerender. rewrite Hr1. unfold commit.
  assert (Ha1 : attempt_changed (dep_attempt d) (hooks w1) = false).
  { unfold attempt_changed. rewrite Hr1. by rewrite String.eqb_refl. }
  assert (Hl1 : len (hooks w1) = Z.of_nat (length newEntries)).
  { unfold len, w1, apply_update. pl_simpl. by rewrite Hun. }
  assert (Hc1 : len_changed (hooks w1) = true).
  { unfold len_changed. rewrite Hr1, Hl1.
    pose proof (inv_synced _ HI d Hd) as Hs. unfold len in Hs. pl_simpl. rewrite Hs.
    apply negb_true_iff, Z.eqb_neq. lia. }
  destruct (pl_pass_timers (dep_attempt d) w1 Ho1) as [Ho2 Ht2].
  rewrite Hc1, Hl1 in Ht2.
  replace (Z.of_nat (length newEntries) =? 0) with false in Ht2.
  2:{ symmetry. apply Z.eqb_neq. destruct newEntries; [done|cbn [length]; lia]. }
  destruct (pl_pass_timers (dep_attempt d) (pass (dep_attempt d) w1) Ho2) as [_ Ht3].
  rewrite pl_len_changed_after, Ha1 in Ht3. by rewrite Ht3, Ht2.
Qed.

End PollingInterval.

Section PollingAttempt.
Import PollingList.

Ltac pl_simpl :=
  cbn [hooks browser entries loading interval rendered unmounted dep_attempt dep_len] in *;
  browser_simpl.

Lemma pl_len_zero h : len h = 0 ↔ entries h = [].
Proof.
  unfold len. destruct (entries h); cbn [length]; split; (done || lia).
Qed.

(** The timers a commit leaves. *)
Lemma pl_commit_idle a w :
  poll_owned w →
  (len_changed (hooks w) = false → poll_idle_when_empty w) →
  poll_idle_when_empty (commit a w)
  ∧ (attempt_changed a (hooks w) = true → Browser.timers (browser (commit a w)) = ∅).
Proof.
  intros Ho HQ. unfold commit.
  destruct (pl_pass_timers a w Ho) as [Ho1 Ht1].
  destruct (pl_pass_fields a w) as (He1 & _ & Hr1 & _ & _). cbn zeta in He1, Hr1.
  destruct (pl_pass_timers a (pass a w) Ho1) as [_ Ht2].
  destruct (pl_pass_fields a (pass a w)) as (He2 & _ & _ & _ & _). cbn zeta in He2.
  rewrite pl_len_changed_after in Ht2. rewrite pl_attempt_changed_after in He2.
  assert (Hl1 : len (hooks (pass a w))
                = if attempt_changed a (hooks w) then 0 else len (hooks w)).
  { unfold len at 1. rewrite He1. by destruct (attempt_changed a (hooks w)). }
  assert (Hz : len (hooks w) = 0 → Browser.timers (browser (pass a w)) = ∅).
  { intros Hz. rewrite Ht1, Hz. destruct (len_changed (hooks w)) eqn:Hlc; [done|].
    apply (HQ eq_refl). by apply pl_len_zero. }
  assert (Hempty : attempt_changed a (hooks w) = true →
                   Browser.timers (browser (pass a (pass a w))) = ∅).
  { intros Hac. rewrite Ht2, Hac, Hl1, Hac.
    destruct (len (hooks w) =? 0) eqn:E; cbn [negb]; [|done].
    apply Hz. by apply Z.eqb_eq. }
  split; [|exact Hempty].
  intros Hnil. destruct (attempt_changed a (hooks w)) eqn:Hac; [by apply Hempty|].
  rewrite Ht2. rewrite He2, He1 in Hnil. apply Hz. by apply pl_len_zero.
Qed.

Lemma pl_step_idle w e w' :
  Inv w → poll_owned w → poll_idle_when_empty w → step w e = Ok w' →
  poll_idle_when_empty w'.
Proof.
  intros HI Ho HQ. destruct e; cbn [step].
  - destruct (unmounted (hooks w)); intros [= <-]; [done|].
    by apply pl_commit_idle.
  - destruct (rendered (hooks w)) as [d|] eqn:Hd; intros [= <-]; [|done].
    unfold onEntriesUpdated. destruct (unmounted (hooks w)) eqn:Hun.
    + unfold poll_idle_when_empty, apply_update. pl_simpl. rewrite Hun. exact HQ.
    + set (w1 := {| hooks := apply_update newEntries newLoading (hooks w);
                    browser := Browser.emit [CtxSetEntries newEntries] (browser w) |}).
      assert (Hr1 : rendered (hooks w1) = Some d) by exact Hd.
      assert (He1 : entries (hooks w1) = newEntries).
      { subst w1. unfold apply_update. pl_simpl. by rewrite Hun. }
      unfold rerender. rewrite Hr1. apply pl_commit_idle.
      * intros id t. apply Ho.
      * unfold len_changed. rewrite Hr1. intros Hlc Hnil.
        apply negb_false_iff, Z.eqb_eq in Hlc.
        pose proof (inv_synced _ HI d Hd) as Hs. rewrite Hs in Hlc.
        change (Browser.timers (browser w1)) with (Browser.timers (browser w)).
        apply HQ. apply pl_len_zero. rewrite Hlc. by apply pl_len_zero.
  - destruct (negb (mounted (hooks w))); by intros [= <-].
  - by intros [= <-].
  - destruct (Browser.due id (browser w)) as [[el n]|] eqn:Hd; [|by intros [= <-]].
    apply due_lookup in Hd as (at_ & Hl & _).
    unfold poll. destruct (pl_poll_atBottom_total (Browser.parentRef (browser w))) as [v ->].
    cbn [mbind js_bind].
    destruct (v || _); intros [= <-]; intros Hnil; cbn in Hnil;
      rewrite (HQ Hnil) in Hl; by rewrite lookup_empty in Hl.
  - destruct (negb (mounted (hooks w))); intros [= <-]; [done|].
    intros _. cbn. by apply pl_cleanup_timers.
Qed.

Lemma pl_reachable_idle w : reachable w → poll_idle_when_empty w.
Proof.
  intros [es Hrun]. revert w Hrun.
  assert (H : ∀ es w0 w, Inv w0 → poll_owned w0 → poll_idle_when_empty w0 →
                         run w0 es = Ok w → poll_idle_when_empty w).
  { clear. induction es as [|e es IH]; intros w0 w HI Ho HQ; cbn [run].
    - by intros [= <-].
    - destruct (step w0 e) as [w1|] eqn:Hs; cbn; [|done].
      apply IH; [by eapply pl_step_Inv|by eapply pl_step_owned|by eapply pl_step_idle]. }
  intros w. apply H; [apply pl_init_Inv|by apply pl_owned_empty|done].
Qed.

End PollingAttempt.

(** X8. The polling list's retries are bounded.  After a change of length
    the interval ticks every 50 ms.  However the container behaves between the
    ticks, it calls [scrollToIndex(n - 1, {align: 'end'})] at most nine more
    times; if the container is never within 50 px of its bottom (or is not
    there) it makes exactly nine calls and the tenth tick, at 500 ms, clears
    the interval; a tick that finds the container within 50 px of its bottom
    clears the interval at once, without a call. *)
Theorem polling_is_bounded (id : positive) (n : Z) :
  (∀ rs w at_,
     PollingList.mounted (PollingList.hooks w) = true →
     Browser.timers (PollingList.browser w) !! id = Some (at_, PollingList.Poll 0 n) →
     at_ ≤ Browser.now (PollingList.browser w) + 50 →
     ∃ w' m, PollingList.run w (poll_ticks id rs) = Ok w'
       ∧ (m ≤ 9)%nat
       ∧ Browser.out (PollingList.browser w')
         = Browser.out (PollingList.browser w)
           ++ replicate m (ScrollToIndex (n - 1) AlignEnd))
  ∧ (∀ rs w at_,
     PollingList.mounted (PollingList.hooks w) = true →
     Browser.timers (PollingList.browser w) !! id = Some (at_, PollingList.Poll 0 n) →
     at_ ≤ Browser.now (PollingList.browser w) + 50 →
     length rs = 10%nat →
     Forall (λ r, PollingList.poll_atBottom r = Ok false) rs →
     ∃ w', PollingList.run w (poll_ticks id rs) = Ok w'
       ∧ Browser.out (PollingList.browser w')
         = Browser.out (PollingList.browser w)
           ++ replicate 9 (ScrollToIndex (n - 1) AlignEnd)
       ∧ Browser.timers (PollingList.browser w')
         = delete id (Browser.timers (PollingList.browser w)))
  ∧ (∀ w at_ e el,
     PollingList.mounted (PollingList.hooks w) = true →
     Browser.timers (PollingList.browser w) !! id = Some (at_, PollingList.Poll e n) →
     at_ ≤ Browser.now (PollingList.browser w) + 50 →
     scrollHeight el - scrollTop el - clientHeight el < 50 →
     ∃ w', PollingList.run w (poll_ticks id [Some el]) = Ok w'
       ∧ Browser.out (PollingList.browser w') = Browser.out (PollingList.browser w)
       ∧ Browser.timers (PollingList.browser w')
         = delete id (Browser.timers (PollingList.browser w))).
Proof.
  repeat apply conj.
  - intros rs w at_ Hm Hl Hdue.
    destruct (pl_ticks_bound id n rs 9 w at_ ltac:(lia) Hm Hl Hdue)
      as (w' & m & Hrun & Hm9 & _ & Ho).
    by exists w', m.
  - intros rs w at_ Hm Hl Hdue Hlen Hfar.
    destruct (pl_ticks_far id n 9 w at_ rs Hm Hl Hdue Hlen Hfar)
      as (w' & Hrun & _ & Ho & Ht).
    by exists w'.
  - intros w at_ e el Hm Hl Hdue Hnear.
    assert (Hv : PollingList.poll_atBottom (Some el) = Ok true).
    { cbn. f_equal. by apply Z.ltb_lt. }
    destruct (pl_tick w id at_ e n (Some el) true Hm Hl Hdue Hv)
      as (w' & Hrun & _ & _ & Ho & Ht).
    exists w'. split; [exact Hrun|]. cbn [orb] in Ho, Ht.
    rewrite app_nil_r in Ho. done.
Qed.

Lemma polling_is_bounded_witness :
  PollingList.mounted (PollingList.hooks Sample.pl_loaded) = true
  ∧ Browser.timers (PollingList.browser Sample.pl_loaded) !! 1%positive
    = Some (50, PollingList.Poll 0 1)
  ∧ 50 ≤ Browser.now (PollingList.browser Sample.pl_loaded) + 50
  ∧ Forall (λ r, PollingList.poll_atBottom r = Ok false)
      (replicate 10 (Some Sample.scrolled_up))
  ∧ (∃ w', PollingList.run Sample.pl_loaded
             (poll_ticks 1 (replicate 10 (Some Sample.scrolled_up))) = Ok w'
       ∧ Browser.out (PollingList.browser w')
         = Browser.out (PollingList.browser Sample.pl_loaded)
           ++ replicate 9 (ScrollToIndex 0 AlignEnd)
       ∧ Browser.timers (PollingList.browser w') = ∅)
  ∧ 1000 - 880 - 100 < 50
  ∧ (∃ w', PollingList.run Sample.pl_loaded (poll_ticks 1 [Some Sample.near_bottom])
           = Ok w'
       ∧ Browser.out (PollingList.browser w')
         = Browser.out (PollingList.browser Sample.pl_loaded)
       ∧ Browser.timers (PollingList.browser w') = ∅).
Proof.
  destruct (polling_is_bounded 1%positive 1) as (_ & Hfar & Hnear).
  assert (Hm : PollingList.mounted (PollingList.hooks Sample.pl_loaded) = true)
    by (by vm_compute).
  assert (Hl : Browser.timers (PollingList.browser Sample.pl_loaded) !! 1%positive
               = Some (50, PollingList.Poll 0 1)) by (by vm_compute).
  assert (Hdue : 50 ≤ Browser.now (PollingList.browser Sample.pl_loaded) + 50)
    by (by vm_compute).
  assert (Hall : Forall (λ r, PollingList.poll_atBottom r = Ok false)
                   (replicate 10 (Some Sample.scrolled_up)))
    by (by repeat constructor).
  assert (Hd : delete 1%positive (Browser.timers (PollingList.browser Sample.pl_loaded))
               = ∅) by (by vm_compute).
  split; [exact Hm|]. split; [exact Hl|]. split; [exact Hdue|]. split; [exact Hall|].
  split; [|split; [lia|]].
  - destruct (Hfar (replicate 10 (Some Sample.scrolled_up)) Sample.pl_loaded 50 Hm Hl Hdue eq_refl Hall) as (w' & Hrun & Ho & Ht).
    exists w'. split; [exact Hrun|]. split; [exact Ho|]. by rewrite Ht.
  - destruct (Hnear Sample.pl_loaded 50 0 Sample.near_bottom Hm Hl Hdue ltac:(cbn; lia))
      as (w' & Hrun & Ho & Ht).
    exists w'. split; [exact Hrun|]. split; [exact Ho|]. by rewrite Ht.
Defined.

(** X9. The polling list never has two intervals, and none after unmount.
    In every reachable state at most one timer is pending; the unmount
    cleanup leaves none; and an update that changes the length of the list
    to [n > 0] replaces whatever interval was pending by a fresh one, first
    due 50 ms later, that starts counting from 0. *)
Theorem polling_single_interval (w : PollingList.World) :
  PollingList.reachable w →
  (∀ id1 id2 t1 t2,
     Browser.timers (PollingList.browser w) !! id1 = Some t1 →
     Browser.timers (PollingList.browser w) !! id2 = Some t2 → id1 = id2)
  ∧ (PollingList.mounted (PollingList.hooks w) = true →
     ∃ w', PollingList.step w PollingList.Unmount = Ok w'
       ∧ Browser.timers (PollingList.browser w') = ∅)
  ∧ (∀ newEntries addType newLoading,
     PollingList.mounted (PollingList.hooks w) = true →
     length newEntries ≠ length (PollingList.entries (PollingList.hooks w)) →
     newEntries ≠ [] →
     ∃ w', PollingList.step w (PollingList.EntriesUpdated newEntries addType newLoading)
           = Ok w'
       ∧ Browser.timers (PollingList.browser w')
         = {[ Browser.next_timer (PollingList.browser w)
              := (Browser.now (PollingList.browser w) + 50,
                  PollingList.Poll 0 (Z.of_nat (length newEntries))) ]}).
Proof.
  intros Hr. pose proof (pl_reachable_owned w Hr) as Ho.
  pose proof (pl_reachable_Inv w Hr) as HI.
  repeat apply conj.
  - intros id1 id2 t1 t2 H1 H2. apply Ho in H1, H2. congruence.
  - intros Hm. cbn [PollingList.step]. rewrite Hm. cbn [negb].
    eexists. split; [reflexivity|]. cbn. by apply pl_cleanup_timers.
  - intros newEntries addType newLoading Hm Hlen Hne.
    by apply pl_update_interval.
Qed.

Lemma polling_single_interval_witness :
  PollingList.reachable Sample.pl_loaded
  ∧ PollingList.mounted (PollingList.hooks Sample.pl_loaded) = true
  ∧ Browser.timers (PollingList.browser Sample.pl_loaded) !! 1%positive
    = Some (50, PollingList.Poll 0 1)
  ∧ (∃ w', PollingList.step Sample.pl_loaded PollingList.Unmount = Ok w'
       ∧ Browser.timers (PollingList.browser w') = ∅)
  ∧ (∃ w', PollingList.step Sample.pl_loaded
             (PollingList.EntriesUpdated [Sample.e1; Sample.e2] "running" false) = Ok w'
       ∧ Browser.timers (PollingList.browser w') !! 1%positive = None
       ∧ Browser.timers (PollingList.browser w') !! 2%positive
         = Some (50, PollingList.Poll 0 2)).
Proof.
  assert (Hr : PollingList.reachable Sample.pl_loaded).
  { exists Sample.pl_first_entry. by vm_compute. }
  assert (Hm : PollingList.mounted (PollingList.hooks Sample.pl_loaded) = true)
    by (by vm_compute).
  destruct (polling_single_interval Sample.pl_loaded Hr) as (_ & Hun & Hup).
  split; [exact Hr|]. split; [exact Hm|]. split; [by vm_compute|].
  split; [exact (Hun Hm)|].
  destruct (Hup [Sample.e1; Sample.e2] "running" false Hm ltac:(vm_compute; lia)
              ltac:(discriminate)) as (w' & Hs & Ht).
  exists w'. split; [exact Hs|]. rewrite Ht. split; by vm_compute.
Defined.

(** X10. Switching attempt stops the polling.  In the polling
    VirtualizedList a render for another attempt empties the list and leaves
    no interval pending, so nothing scrolls the new attempt's view until its
    own entries arrive; more generally, whenever the list is empty no timer
    is pending. *)
Theorem attempt_change_stops_polling (w : PollingList.World) (a : string) :
  PollingList.reachable w →
  PollingList.unmounted (PollingList.hooks w) = false →
  (∀ d, PollingList.rendered (PollingList.hooks w) = Some d →
        PollingList.dep_attempt d ≠ a) →
  (PollingList.entries (PollingList.hooks w) = [] →
   Browser.timers (PollingList.browser w) = ∅)
  ∧ ∃ w', PollingList.step w (PollingList.Render a) = Ok w'
      ∧ PollingList.entries (PollingList.hooks w') = []
      ∧ Browser.timers (PollingList.browser w') = ∅.
Proof.
  intros Hr Hun Hd.
  pose proof (pl_reachable_owned w Hr) as Ho.
  pose proof (pl_reachable_idle w Hr) as HQ.
  split; [exact HQ|].
  cbn [PollingList.step]. rewrite Hun. eexists. split; [reflexivity|].
  assert (Hac : PollingList.attempt_changed a (PollingList.hooks w) = true).
  { unfold PollingList.attempt_changed.
    destruct (PollingList.rendered (PollingList.hooks w)) as [d|]; [|done].
    apply negb_true_iff, String.eqb_neq. by apply Hd. }
  split.
  - destruct (pl_commit_fields a w) as (He & _). cbn zeta in He.
    rewrite He. by rewrite Hac.
  - by apply (pl_commit_idle a w Ho (λ _, HQ)).
Qed.

Lemma attempt_change_stops_polling_witness :
  PollingList.reachable Sample.pl_loaded
  ∧ Browser.timers (PollingList.browser Sample.pl_loaded) !! 1%positive
    = Some (50, PollingList.Poll 0 1)
  ∧ ∃ w', PollingList.step Sample.pl_loaded (PollingList.Render "a2") = Ok w'
      ∧ PollingList.entries (PollingList.hooks w') = []
      ∧ Browser.timers (PollingList.browser w') = ∅.
Proof.
  assert (Hr : PollingList.reachable Sample.pl_loaded).
  { exists Sample.pl_first_entry. by vm_compute. }
  split; [exact Hr|]. split; [by vm_compute|].
  refine (proj2 (attempt_change_stops_polling Sample.pl_loaded "a2" Hr _ _)).
  - by vm_compute.
  - intros d Hd. vm_compute in Hd. injection Hd as <-. cbn. discriminate.
Defined.

(** ** ConversationList, event by event *)

Lemma ctx_told_snoc cs c :
  ctx_told (cs ++ [c])
  = match c with
    | CtxSetEntries entries => entries
    | CtxReset => []
    | _ => ctx_told cs
    end.
Proof. unfold ctx_told. by rewrite fold_left_app. Qed.

Lemma ctx_told_frames cs (fs : list Browser.Frame) :
  ctx_told (cs ++ map Browser.run_frame fs) = ctx_told cs.
Proof.
  revert cs. induction fs as [|f fs IH]; intros cs; cbn [map].
  - by rewrite app_nil_r.
  - change (cs ++ Browser.run_frame f :: map Browser.run_frame fs)
      with (cs ++ [Browser.run_frame f] ++ map Browser.run_frame fs).
    rewrite (assoc_L (++)), IH, ctx_told_snoc. by destruct f.
Qed.

Section ConversationListEvents.
Import ConversationList.

Ltac cl_simpl :=
  cbn [hooks browser entries loading atBottom didInitScroll prevEntriesLengthRef addTypeRef
       pendingUpdateRef debounceTimeoutRef rendered unmounted initJumps
       dep_attempt dep_len dep_loading dep_atBottom
       pending_entries pending_addType pending_loading] in *;
  browser_simpl.

Lemma cl_follow_loading addType n ab : follow addType n ab true = [].
Proof. unfold follow. by rewrite !andb_false_r. Qed.

(** A scroll event only moves [atBottom]. *)
Lemma cl_scroll_quiet w el :
  Inv w → mounted (hooks w) = true →
  ∃ w', step w (Scroll el) = Ok w'
    ∧ atBottom (hooks w') = (scrollHeight el - scrollTop el - clientHeight el <? 100)
    ∧ entries (hooks w') = entries (hooks w)
    ∧ loading (hooks w') = loading (hooks w)
    ∧ didInitScroll (hooks w') = didInitScroll (hooks w)
    ∧ Browser.out (browser w') = Browser.out (browser w)
    ∧ Browser.frames (browser w') = Browser.frames (browser w)
    ∧ Browser.timers (browser w') = Browser.timers (browser w).
Proof.
  intros HI Hm. destruct w as [h b]. cl_simpl. cbn [step]. cl_simpl. rewrite Hm.
  cbn [negb]. destruct (cl_mounted_rendered _ Hm) as (d & Hd & Hu).
  unfold with_browser, Browser.set_parentRef. cl_simpl.
  rewrite conversation_checkAtBottom_el. js_simpl.
  rewrite (cl_rerender_nf _ _ d) by (unfold set_atBottom; cl_simpl; exact Hd).
  cbn zeta. eexists. split; [reflexivity|].
  destruct (inv_synced _ HI d Hd) as (Hlen & Hlo & _). cl_simpl.
  pose proof (inv_prev _ HI) as Hprev. cl_simpl.
  specialize (Hprev ltac:(congruence)).
  assert (Hi : init_deps_changed
                 (set_atBottom (scrollHeight el - scrollTop el - clientHeight el <? 100) h)
               = false).
  { unfold init_deps_changed, set_atBottom, len in *. cl_simpl.
    rewrite Hd, Hlen, Hlo, Z.eqb_refl. by destruct (loading h). }
  rewrite Hi. unfold set_atBottom, len in *. cl_simpl. rewrite Hprev, Z.sub_diag.
  cbn. rewrite !andb_false_r, !orb_false_r, !app_nil_r. repeat split; done.
Qed.

(** What one event does to the context calls and to the frame queue. *)
Lemma cl_step_facts w e w' :
  Inv w → step w e = Ok w' →
  (unmounted (hooks w') = false → unmounted (hooks w) = false)
  ∧ (unmounted (hooks w') = false →
     entries (hooks w) = ctx_told (Browser.out (browser w)) →
     entries (hooks w') = ctx_told (Browser.out (browser w')))
  ∧ (loading (hooks w') = true →
     Browser.frames (browser w')
     = match e with Paint => [] | _ => Browser.frames (browser w) end).
Proof.
  intros HI. destruct w as [h b]. cl_simpl.
  destruct e; cbn [step]; cl_simpl.
  - (* Render *)
    destruct (unmounted h) eqn:Hun; intros [= <-]; [cbn [hooks browser]; rewrite Hun; done|].
    destruct (attempt_changed attempt_id h) eqn:Hch.
    + rewrite cl_commit_changed; [|done|apply (cl_Inv_no_fire _ HI)].
      cl_simpl. unfold Browser.emit. cl_simpl. split; [done|]. split; [|done].
      intros _ _. by rewrite ctx_told_snoc.
    + rewrite cl_commit_same, cl_pass_stable; [done|done|apply HI|done].
  - (* EntriesUpdated *)
    destruct (rendered h) as [d|] eqn:Hd; intros [= <-]; cl_simpl; [|done].
    unfold onEntriesUpdated, Browser.setTimeout, set_pending. cl_simpl.
    destruct (debounceTimeoutRef h); cl_simpl; done.
  - (* Scroll *)
    destruct (mounted h) eqn:Hm; cl_simpl; [|intros [= <-]; done].
    destruct (cl_mounted_rendered _ Hm) as (d & Hd & Hu).
    destruct (cl_scroll_quiet {| hooks := h; browser := b |} el HI Hm)
      as (w1 & Hs & _ & He & _ & _ & Ho & Hf & _).
    cbn [step] in Hs. cl_simpl. rewrite Hm in Hs. cbn [negb] in Hs. rewrite Hs.
    intros [= <-]. cl_simpl. rewrite He, Ho, Hf. done.
  - (* Layout *)
    destruct (negb (mounted h)); intros [= <-]; cl_simpl; done.
  - (* Advance *)
    intros [= <-]. cl_simpl. done.
  - (* Timeout *)
    destruct (Browser.due id b) as [[cl]|] eqn:Hdue; intros [= <-]; [|done].
    apply due_lookup in Hdue as (at_ & Hl & _).
    assert (Hr : ∃ d, rendered h = Some d).
    { destruct (rendered h) as [d|] eqn:Hd; [by eexists|].
      destruct (inv_fresh _ HI Hd) as [_ He]. cl_simpl. rewrite He in Hl. done. }
    destruct Hr as [d Hd].
    unfold debounced, with_browser, Browser.clearTimeout. cl_simpl.
    destruct (pendingUpdateRef h) as [u|] eqn:Hu; [|cl_simpl; done].
    destruct (unmounted h) eqn:Hun.
    + unfold apply_pending. rewrite Hun. cl_simpl. done.
    + rewrite (cl_rerender_nf _ _ d) by (unfold apply_pending; cl_simpl; exact Hd).
      cbn zeta. unfold apply_pending, init_fires, Browser.emit. rewrite Hun. cl_simpl.
      split; [done|]. split.
      * intros _ _. by rewrite ctx_told_snoc.
      * intros ->. rewrite cl_follow_loading. cbn [negb].
        rewrite !andb_false_r.
        match goal with |- context [if ?c then [] else []] => destruct c end;
          by rewrite !app_nil_r.
  - (* Paint *)
    intros [= <-]. cl_simpl. split; [done|]. split; [|done].
    intros _ He. unfold with_browser, Browser.paint. cl_simpl.
    by rewrite ctx_told_frames.
  - (* Unmount *)
    destruct (negb (mounted h)); intros [= <-]; cl_simpl; [done|].
    split; [done|]. split; [done|]. unfold cleanup. cl_simpl. by case_match.
Qed.

(** An attempt change leaves the pending debounced update in place. *)
Lemma cl_attempt_change_keeps_pending a w d :
  Inv w → rendered (hooks w) = Some d → unmounted (hooks w) = false →
  dep_attempt d ≠ a →
  ∃ w', step w (Render a) = Ok w'
    ∧ entries (hooks w') = [] ∧ loading (hooks w') = true
    ∧ unmounted (hooks w') = false
    ∧ pendingUpdateRef (hooks w') = pendingUpdateRef (hooks w)
    ∧ Browser.timers (browser w') = Browser.timers (browser w)
    ∧ Browser.now (browser w') = Browser.now (browser w)
    ∧ Browser.out (browser w') = Browser.out (browser w) ++ [CtxReset].
Proof.
  intros HI Hd Hu Hne. destruct w as [h b]. cl_simpl. cbn [step]. cl_simpl. rewrite Hu.
  eexists. split; [reflexivity|].
  rewrite cl_commit_changed; [| |apply (cl_Inv_no_fire _ HI)].
  - cl_simpl. by repeat split.
  - unfold attempt_changed. rewrite Hd. apply negb_true_iff. by apply String.eqb_neq.
Qed.

End ConversationListEvents.

(** ** VirtualizedList, event by event *)

Section VirtualizedListEvents.
Import VirtualizedList.

Ltac vl_simpl :=
  cbn [hooks browser entries loading atBottom didInitScroll prevEntriesLengthRef addTypeRef
       rendered unmounted initJumps dep_attempt dep_len dep_loading dep_atBottom] in *;
  browser_simpl.

(** A scroll event only moves [atBottom]. *)
Lemma vl_scroll_quiet w el :
  Inv w → mounted (hooks w) = true →
  ∃ w', step w (Scroll el) = Ok w'
    ∧ atBottom (hooks w') = (scrollHeight el - scrollTop el - clientHeight el <? 100)
    ∧ entries (hooks w') = entries (hooks w)
    ∧ loading (hooks w') = loading (hooks w)
    ∧ didInitScroll (hooks w') = didInitScroll (hooks w)
    ∧ unmounted (hooks w') = unmounted (hooks w)
    ∧ Browser.out (browser w') = Browser.out (browser w)
    ∧ Browser.frames (browser w') = Browser.frames (browser w).
Proof.
  intros HI Hm. destruct w as [h b]. vl_simpl. cbn [step]. vl_simpl. rewrite Hm.
  cbn [negb]. destruct (vl_mounted_rendered _ Hm) as (d & Hd & Hu).
  unfold with_browser, Browser.set_parentRef. vl_simpl.
  rewrite list_checkAtBottom_el. js_simpl.
  rewrite (vl_rerender_nf _ _ d) by (unfold set_atBottom; vl_simpl; exact Hd).
  cbn zeta. eexists. split; [reflexivity|].
  destruct (inv_synced _ HI d Hd) as (Hlen & Hlo & _). vl_simpl.
  pose proof (inv_prev _ HI) as Hprev. vl_simpl.
  specialize (Hprev ltac:(congruence)).
  assert (Hi : init_deps_changed
                 (set_atBottom (scrollHeight el - scrollTop el - clientHeight el <? 100) h)
               = false).
  { unfold init_deps_changed, set_atBottom, len in *. vl_simpl.
    rewrite Hd, Hlen, Hlo, Z.eqb_refl. by destruct (loading h). }
  rewrite Hi. unfold set_atBottom, len in *. vl_simpl. rewrite Hprev, Z.sub_diag.
  cbn. rewrite !andb_false_r, !orb_false_r, !app_nil_r. repeat split; done.
Qed.

(** What one event does to the context calls and to the frame queue. *)
Lemma vl_step_facts w e w' :
  Inv w → vl_loading_uninit w → step w e = Ok w' →
  vl_loading_uninit w'
  ∧ (unmounted (hooks w') = false → unmounted (hooks w) = false)
  ∧ (unmounted (hooks w') = false →
     entries (hooks w) = ctx_told (Browser.out (browser w)) →
     entries (hooks w') = ctx_told (Browser.out (browser w')))
  ∧ (loading (hooks w') = true →
     Browser.frames (browser w')
     = match e with Paint => [] | _ => Browser.frames (browser w) end).
Proof.
  intros HI HL. destruct w as [h b]. unfold vl_loading_uninit in *. vl_simpl.
  destruct e; cbn [step]; vl_simpl.
  - (* Render *)
    destruct (unmounted h) eqn:Hun; intros [= <-]; [cbn [hooks browser]; rewrite Hun; done|].
    destruct (attempt_changed attempt_id h) eqn:Hch.
    + rewrite vl_commit_changed; [|done|apply (vl_Inv_no_fire _ HI)].
      vl_simpl. unfold Browser.emit. vl_simpl. split; [done|]. split; [done|].
      split; [|done]. intros _ _. by rewrite ctx_told_snoc.
    + rewrite vl_commit_same, vl_pass_stable; [done|done|apply HI|done].
  - (* EntriesUpdated *)
    destruct (rendered h) as [d|] eqn:Hd; intros [= <-]; vl_simpl; [|done].
    unfold onEntriesUpdated. vl_simpl.
    destruct (unmounted h) eqn:Hun.
    + unfold apply_update. rewrite Hun. vl_simpl. done.
    + rewrite (vl_rerender_nf _ _ d) by (unfold apply_update; vl_simpl; exact Hd).
      cbn zeta. unfold apply_update, init_fires, Browser.emit. rewrite Hun. vl_simpl.
      assert (Hlo : (if loading h then newLoading else loading h) = true →
                    didInitScroll h = false).
      { intros Hlo. apply HL. by destruct (loading h). }
      split; [|split; [done|split]].
      * intros Hlo'. rewrite (Hlo Hlo'), Hlo'. cbn [negb orb].
        by rewrite !andb_false_r.
      * intros _ _. by rewrite ctx_told_snoc.
      * intros Hlo'. rewrite (Hlo Hlo'), Hlo'. cbn [negb orb].
        rewrite ?andb_false_r. cbn [orb]. rewrite ?andb_false_r.
        by rewrite !app_nil_r.
  - (* Scroll *)
    destruct (mounted h) eqn:Hm; vl_simpl; [|intros [= <-]; done].
    destruct (vl_mounted_rendered _ Hm) as (d0 & Hd0 & Hu).
    destruct (vl_scroll_quiet {| hooks := h; browser := b |} el HI Hm)
      as (w1 & Hs & _ & He & Hlo & Hd & _ & Ho & Hf).
    cbn [step] in Hs. vl_simpl. rewrite Hm in Hs. cbn [negb] in Hs. rewrite Hs.
    intros [= <-]. vl_simpl. rewrite He, Ho, Hf, Hlo, Hd. done.
  - (* Layout *)
    destruct (negb (mounted h)); intros [= <-]; vl_simpl; done.
  - (* Paint *)
    intros [= <-]. vl_simpl. split; [done|]. split; [done|]. split; [|done].
    intros _ He. unfold with_browser, Browser.paint. vl_simpl.
    by rewrite ctx_told_frames.
  - (* Unmount *)
    destruct (negb (mounted h)); intros [= <-]; vl_simpl; done.
Qed.

End VirtualizedListEvents.

(** ** PollingList, event by event *)

Section PollingListEvents.
Import PollingList.

Ltac pl_simpl :=
  cbn [hooks browser entries loading interval rendered unmounted dep_attempt dep_len] in *;
  browser_simpl.

Lemma ctx_told_scrollToEnd cs (c : bool) n :
  ctx_told (cs ++ (if c then scrollToEnd n else [])) = ctx_told cs.
Proof. destruct c; [apply ctx_told_snoc|by rewrite app_nil_r]. Qed.

Lemma pl_step_ctx w e w' :
  Inv w → step w e = Ok w' →
  (unmounted (hooks w') = false → unmounted (hooks w) = false)
  ∧ (unmounted (hooks w') = false →
     entries (hooks w) = ctx_told (Browser.out (browser w)) →
     entries (hooks w') = ctx_told (Browser.out (browser w'))).
Proof.
  intros HI. destruct e; cbn [step].
  - (* Render *)
    destruct (unmounted (hooks w)) eqn:Hun; intros [= <-]; [by rewrite Hun|].
    destruct (pl_commit_fields attempt_id w) as (He & _ & _ & Hu & Ho). cbn zeta in *.
    split; [done|]. intros _ Hm. rewrite He, Ho, ctx_told_scrollToEnd.
    destruct (attempt_changed attempt_id (hooks w)).
    + by rewrite ctx_told_snoc.
    + by rewrite app_nil_r.
  - (* EntriesUpdated *)
    destruct (rendered (hooks w)) as [d|] eqn:Hd; intros [= <-]; [|done].
    unfold onEntriesUpdated. destruct (unmounted (hooks w)) eqn:Hun.
    + cbn. by rewrite Hun.
    + split; [done|]. intros _ _.
      destruct (pl_rerender_fields (apply_update newEntries newLoading (hooks w))
                  (Browser.emit [CtxSetEntries newEntries] (browser w)) d)
        as (He & _ & _ & Ho); [by unfold apply_update|].
      cbn zeta in *. rewrite He, Ho, ctx_told_scrollToEnd.
      unfold apply_update, Browser.emit. pl_simpl. rewrite Hun.
      by rewrite ctx_told_snoc.
  - (* Layout *)
    destruct (negb (mounted (hooks w))); by intros [= <-].
  - (* Advance *)
    by intros [= <-].
  - (* Timeout *)
    destruct (Browser.due id (browser w)) as [[el n]|]; [|by intros [= <-]].
    unfold poll. destruct (pl_poll_atBottom_total (Browser.parentRef (browser w))) as [v ->].
    cbn [mbind js_bind]. destruct (v || _); intros [= <-]; [done|].
    split; [done|]. intros _ Hm.
    unfold with_browser, Browser.rearm, Browser.emit, scrollToEnd.
    cbn [hooks browser Browser.out]. by rewrite ctx_told_snoc.
  - (* Unmount *)
    destruct (negb (mounted (hooks w))); by intros [= <-].
Qed.

End PollingListEvents.

(** ** The entries context mirrors the state; no scroll while loading *)

Lemma cl_reachable_mirror w :
  ConversationList.reachable w →
  ConversationList.unmounted (ConversationList.hooks w) = false →
  ConversationList.entries (ConversationList.hooks w)
  = ctx_told (Browser.out (ConversationList.browser w)).
Proof.
  intros [es Hrun]. revert w Hrun.
  assert (H : ∀ es w0 w,
            ConversationList.Inv w0 →
            (ConversationList.unmounted (ConversationList.hooks w0) = false →
             ConversationList.entries (ConversationList.hooks w0)
             = ctx_told (Browser.out (ConversationList.browser w0))) →
            ConversationList.run w0 es = Ok w →
            ConversationList.unmounted (ConversationList.hooks w) = false →
            ConversationList.entries (ConversationList.hooks w)
            = ctx_told (Browser.out (ConversationList.browser w))).
  { clear. induction es as [|e es IH]; intros w0 w HI HK; cbn [ConversationList.run].
    - intros [= <-]. exact HK.
    - destruct (ConversationList.step w0 e) as [w1|] eqn:Hs; cbn; [|done].
      destruct (cl_step_facts w0 e w1 HI Hs) as (Hmono & Hctx & _).
      apply IH; [by eapply cl_step_Inv|]. intros Hu. apply Hctx; [done|]. auto. }
  intros w Hrun. eapply H; [apply cl_init_Inv| |exact Hrun]. done.
Qed.

Lemma vl_reachable_facts w :
  VirtualizedList.reachable w →
  vl_loading_uninit w
  ∧ (VirtualizedList.unmounted (VirtualizedList.hooks w) = false →
     VirtualizedList.entries (VirtualizedList.hooks w)
     = ctx_told (Browser.out (VirtualizedList.browser w))).
Proof.
  intros [es Hrun]. revert w Hrun.
  assert (H : ∀ es w0 w,
            VirtualizedList.Inv w0 → vl_loading_uninit w0 →
            (VirtualizedList.unmounted (VirtualizedList.hooks w0) = false →
             VirtualizedList.entries (VirtualizedList.hooks w0)
             = ctx_told (Browser.out (VirtualizedList.browser w0))) →
            VirtualizedList.run w0 es = Ok w →
            vl_loading_uninit w
            ∧ (VirtualizedList.unmounted (VirtualizedList.hooks w) = false →
               VirtualizedList.entries (VirtualizedList.hooks w)
               = ctx_told (Browser.out (VirtualizedList.browser w)))).
  { clear. induction es as [|e es IH]; intros w0 w HI HL HK; cbn [VirtualizedList.run].
    - intros [= <-]. done.
    - destruct (VirtualizedList.step w0 e) as [w1|] eqn:Hs; cbn; [|done].
      destruct (vl_step_facts w0 e w1 HI HL Hs) as (HL1 & Hmono & Hctx & _).
      apply IH; [by eapply vl_step_Inv|done|]. intros Hu. apply Hctx; [done|]. auto. }
  intros w Hrun. eapply H; [apply vl_init_Inv| | |exact Hrun]; done.
Qed.

Lemma pl_reachable_mirror w :
  PollingList.reachable w →
  PollingList.unmounted (PollingList.hooks w) = false →
  PollingList.entries (PollingList.hooks w)
  = ctx_told (Browser.out (PollingList.browser w)).
Proof.
  intros [es Hrun]. revert w Hrun.
  assert (H : ∀ es w0 w,
            PollingList.Inv w0 →
            (PollingList.unmounted (PollingList.hooks w0) = false →
             PollingList.entries (PollingList.hooks w0)
             = ctx_told (Browser.out (PollingList.browser w0))) →
            PollingList.run w0 es = Ok w →
            PollingList.unmounted (PollingList.hooks w) = false →
            PollingList.entries (PollingList.hooks w)
            = ctx_told (Browser.out (PollingList.browser w))).
  { clear. induction es as [|e es IH]; intros w0 w HI HK; cbn [PollingList.run].
    - intros [= <-]. exact HK.
    - destruct (PollingList.step w0 e) as [w1|] eqn:Hs; cbn; [|done].
      destruct (pl_step_ctx w0 e w1 HI Hs) as (Hmono & Hctx).
      apply IH; [by eapply pl_step_Inv|]. intros Hu. apply Hctx; [done|]. auto. }
  intros w Hrun. eapply H; [apply pl_init_Inv| |exact Hrun]. done.
Qed.

(** X11. An attempt change does not cancel the debounced update.  The
    reset effect of ConversationList clears neither [pendingUpdateRef] nor the
    debounce timer: when the attempt changes while an update is pending, the
    list is emptied and [reset()] is called, and when the timer then runs the
    pending entries, handed in for the previous attempt, are applied and sent
    to the context all the same.  A callback that closed over [loading =
    false] leaves loading at the true the reset has set. *)
Theorem pending_update_survives_attempt_change
    (w : ConversationList.World) (a : string) (d : ConversationList.Deps)
    (id : positive) (at_ : Z) (cl : bool) (u : ConversationList.Pending) (dt : Z) :
  ConversationList.reachable w →
  ConversationList.rendered (ConversationList.hooks w) = Some d →
  ConversationList.unmounted (ConversationList.hooks w) = false →
  ConversationList.dep_attempt d ≠ a →
  Browser.timers (ConversationList.browser w) !! id
  = Some (at_, ConversationList.Debounced cl) →
  ConversationList.pendingUpdateRef (ConversationList.hooks w) = Some u →
  0 ≤ dt → at_ ≤ Browser.now (ConversationList.browser w) + dt →
  ∃ w1 w2,
    ConversationList.step w (ConversationList.Render a) = Ok w1
    ∧ ConversationList.entries (ConversationList.hooks w1) = []
    ∧ ConversationList.loading (ConversationList.hooks w1) = true
    ∧ ConversationList.run w1 [ConversationList.Advance dt; ConversationList.Timeout id]
      = Ok w2
    ∧ ConversationList.entries (ConversationList.hooks w2)
      = ConversationList.pending_entries u
    ∧ ConversationList.loading (ConversationList.hooks w2)
      = (if cl then ConversationList.pending_loading u else true)
    ∧ Browser.out (ConversationList.browser w2)
      = Browser.out (ConversationList.browser w)
        ++ [CtxReset; CtxSetEntries (ConversationList.pending_entries u)].
Proof.
  intros Hr Hd Hu Hne Hl Hp Hdt Hdue.
  pose proof (cl_reachable_Inv _ Hr) as HI.
  destruct (cl_attempt_change_keeps_pending a w d HI Hd Hu Hne)
    as (w1 & Hs1 & He1 & Hlo1 & Hu1 & Hp1 & Ht1 & Hn1 & Ho1).
  pose proof (cl_step_Inv _ _ _ HI Hs1) as HI1.
  set (w1' := ConversationList.with_browser (Browser.advance dt) w1).
  assert (HI1' : ConversationList.Inv w1').
  { eapply (cl_step_Inv w1 (ConversationList.Advance dt)); [exact HI1|reflexivity]. }
  destruct (cl_fire w1' id at_ cl u HI1') as (w2 & Hs2 & He2 & _ & Hlo2 & Ho2 & _).
  - exact Hu1.
  - subst w1'. cbn. by rewrite Ht1.
  - subst w1'. cbn. by rewrite Hp1.
  - subst w1'. cbn. rewrite Hn1. lia.
  - exists w1, w2. split; [exact Hs1|]. split; [exact He1|]. split; [exact Hlo1|].
    split.
    { cbn [ConversationList.run].
      change (ConversationList.step w1 (ConversationList.Advance dt)) with (Ok w1').
      cbn [mbind js_bind]. by rewrite Hs2. }
    split; [exact He2|]. split.
    + rewrite Hlo2. subst w1'. cbn. by rewrite Hlo1.
    + rewrite Ho2. subst w1'. cbn. rewrite Ho1, <- app_assoc. done.
Qed.

Lemma pending_update_survives_attempt_change_witness :
  ConversationList.reachable Sample.cl_plan_pending
  ∧ Browser.timers (ConversationList.browser Sample.cl_plan_pending) !! 2%positive
    = Some (200, ConversationList.Debounced false)
  ∧ ∃ w1 w2,
      ConversationList.step Sample.cl_plan_pending (ConversationList.Render "a2") = Ok w1
      ∧ ConversationList.entries (ConversationList.hooks w1) = []
      ∧ ConversationList.run w1 [ConversationList.Advance 0; ConversationList.Timeout 2]
        = Ok w2
      ∧ ConversationList.entries (ConversationList.hooks w2) = [Sample.e1; Sample.e2]
      ∧ ConversationList.loading (ConversationList.hooks w2) = true.
Proof.
  assert (Hr : ConversationList.reachable Sample.cl_plan_pending).
  { exists (Sample.cl_scrolled_up
              ++ [ConversationList.EntriesUpdated [Sample.e1; Sample.e2] "plan" false;
                  ConversationList.Advance 100]). by vm_compute. }
  assert (Hl : Browser.timers (ConversationList.browser Sample.cl_plan_pending)
                 !! 2%positive = Some (200, ConversationList.Debounced false))
    by (by vm_compute).
  split; [exact Hr|]. split; [exact Hl|].
  destruct (pending_update_survives_attempt_change Sample.cl_plan_pending "a2"
              {| ConversationList.dep_attempt := "a1"; ConversationList.dep_len := 1;
                 ConversationList.dep_loading := false;
                 ConversationList.dep_atBottom := false |}
              2%positive 200 false
              {| ConversationList.pending_entries := [Sample.e1; Sample.e2];
                 ConversationList.pending_addType := "plan";
                 ConversationList.pending_loading := false |} 0
              Hr ltac:(by vm_compute) ltac:(by vm_compute) ltac:(discriminate) Hl
              ltac:(by vm_compute) ltac:(lia) ltac:(by vm_compute))
    as (w1 & w2 & Hs1 & He1 & _ & Hrun & He2 & Hlo2 & _).
  exists w1, w2. repeat split; done.
Defined.

(** X12. A scroll event never scrolls.  In the three components that cache
    the at-bottom flag, a scroll event updates the flag and nothing else: it
    queues no animation frame, makes no call and, in ConversationList, arms no
    timer, also when the flag flips back to true (the follow effect re-runs,
    but finds nothing new). *)
Theorem scroll_event_only_updates_flag (el : HTMLDivElement) :
  (∀ w, ConversationList.reachable w →
     ConversationList.mounted (ConversationList.hooks w) = true →
     ∃ w', ConversationList.step w (ConversationList.Scroll el) = Ok w'
       ∧ ConversationList.atBottom (ConversationList.hooks w')
         = (scrollHeight el - scrollTop el - clientHeight el <? 100)
       ∧ ConversationList.entries (ConversationList.hooks w')
         = ConversationList.entries (ConversationList.hooks w)
       ∧ ConversationList.loading (ConversationList.hooks w')
         = ConversationList.loading (ConversationList.hooks w)
       ∧ Browser.out (ConversationList.browser w')
         = Browser.out (ConversationList.browser w)
       ∧ Browser.frames (ConversationList.browser w')
         = Browser.frames (ConversationList.browser w)
       ∧ Browser.timers (ConversationList.browser w')
         = Browser.timers (ConversationList.browser w))
  ∧ (∀ w, VirtualizedList.reachable w →
     VirtualizedList.mounted (VirtualizedList.hooks w) = true →
     ∃ w', VirtualizedList.step w (VirtualizedList.Scroll el) = Ok w'
       ∧ VirtualizedList.atBottom (VirtualizedList.hooks w')
         = (scrollHeight el - scrollTop el - clientHeight el <? 100)
       ∧ VirtualizedList.entries (VirtualizedList.hooks w')
         = VirtualizedList.entries (VirtualizedList.hooks w)
       ∧ VirtualizedList.loading (VirtualizedList.hooks w')
         = VirtualizedList.loading (VirtualizedList.hooks w)
       ∧ Browser.out (VirtualizedList.browser w')
         = Browser.out (VirtualizedList.browser w)
       ∧ Browser.frames (VirtualizedList.browser w')
         = Browser.frames (VirtualizedList.browser w))
  ∧ (∀ w, CachedProcessLogs.reachable w →
     CachedProcessLogs.mounted (CachedProcessLogs.hooks w) = true →
     ∃ w', CachedProcessLogs.step w (CachedProcessLogs.Scroll el) = Ok w'
       ∧ CachedProcessLogs.atBottom (CachedProcessLogs.hooks w')
         = (scrollHeight el - scrollTop el - clientHeight el <? 50)
       ∧ Browser.out (CachedProcessLogs.browser w')
         = Browser.out (CachedProcessLogs.browser w)
       ∧ Browser.frames (CachedProcessLogs.browser w')
         = Browser.frames (CachedProcessLogs.browser w)).
Proof.
  repeat apply conj.
  - intros w Hr Hm.
    destruct (cl_scroll_quiet w el (cl_reachable_Inv _ Hr) Hm)
      as (w' & Hs & Hab & He & Hlo & _ & Ho & Hf & Ht).
    exists w'. repeat split; done.
  - intros w Hr Hm.
    destruct (vl_scroll_quiet w el (vl_reachable_Inv _ Hr) Hm)
      as (w' & Hs & Hab & He & Hlo & _ & _ & Ho & Hf).
    exists w'. repeat split; done.
  - intros [h b] Hr Hm. cbn in Hm.
    destruct (cp_mounted_rendered _ Hm) as (p & ab & Hp & Hu).
    destruct (cp_scroll_fields h b el p ab (cp_reachable_Inv _ Hr) Hp Hu)
      as (w' & Hs & Hab & _ & _ & _ & _ & _ & Hf & Ho).
    exists w'. repeat split; done.
Qed.

Lemma scroll_event_only_updates_flag_witness :
  ConversationList.reachable Sample.cl_away
  ∧ ConversationList.mounted (ConversationList.hooks Sample.cl_away) = true
  ∧ ConversationList.atBottom (ConversationList.hooks Sample.cl_away) = false
  ∧ ∃ w', ConversationList.step Sample.cl_away (ConversationList.Scroll Sample.near_bottom)
          = Ok w'
      ∧ ConversationList.atBottom (ConversationList.hooks w') = true
      ∧ Browser.frames (ConversationList.browser w')
        = Browser.frames (ConversationList.browser Sample.cl_away)
      ∧ Browser.out (ConversationList.browser w')
        = Browser.out (ConversationList.browser Sample.cl_away).
Proof.
  assert (Hr : ConversationList.reachable Sample.cl_away).
  { exists Sample.cl_scrolled_up. by vm_compute. }
  assert (Hm : ConversationList.mounted (ConversationList.hooks Sample.cl_away) = true)
    by (by vm_compute).
  split; [exact Hr|]. split; [exact Hm|]. split; [by vm_compute|].
  destruct (proj1 (scroll_event_only_updates_flag Sample.near_bottom) Sample.cl_away Hr Hm)
    as (w' & Hs & Hab & _ & _ & Ho & Hf & _).
  exists w'. split; [exact Hs|]. split; [by rewrite Hab|]. split; done.
Defined.

(** X13. The entries context is told what the list shows.  In every state
    a mounted conversation list can reach, its [entries] state is the list of
    its last call to the entries context: the argument of the last
    [setEntries], or the empty list when the last call was [reset()] or no call
    was made yet. *)
Theorem context_mirrors_entries :
  (∀ w, ConversationList.reachable w →
        ConversationList.unmounted (ConversationList.hooks w) = false →
        ConversationList.entries (ConversationList.hooks w)
        = ctx_told (Browser.out (ConversationList.browser w)))
  ∧ (∀ w, VirtualizedList.reachable w →
        VirtualizedList.unmounted (VirtualizedList.hooks w) = false →
        VirtualizedList.entries (VirtualizedList.hooks w)
        = ctx_told (Browser.out (VirtualizedList.browser w)))
  ∧ (∀ w, PollingList.reachable w →
        PollingList.unmounted (PollingList.hooks w) = false →
        PollingList.entries (PollingList.hooks w)
        = ctx_told (Browser.out (PollingList.browser w))).
Proof.
  repeat apply conj.
  - apply cl_reachable_mirror.
  - intros w Hr. by apply vl_reachable_facts.
  - apply pl_reachable_mirror.
Qed.

Lemma context_mirrors_entries_witness :
  ConversationList.reachable Sample.cl_two
  ∧ ConversationList.unmounted (ConversationList.hooks Sample.cl_two) = false
  ∧ Browser.out (ConversationList.browser Sample.cl_two)
    = [CtxReset; CtxSetEntries [Sample.e1]; ScrollToIndex 0 AlignEnd;
       ScrollToIndex 0 AlignEnd; CtxSetEntries [Sample.e1; Sample.e2]]
  ∧ ConversationList.entries (ConversationList.hooks Sample.cl_two)
    = ctx_told (Browser.out (ConversationList.browser Sample.cl_two)).
Proof.
  assert (Hr : ConversationList.reachable Sample.cl_two).
  { exists (Sample.cl_scrolled_up
              ++ [ConversationList.EntriesUpdated [Sample.e1; Sample.e2] "plan" false;
                  ConversationList.Advance 100; ConversationList.Timeout 2]).
    by vm_compute. }
  assert (Hu : ConversationList.unmounted (ConversationList.hooks Sample.cl_two) = false)
    by (by vm_compute).
  split; [exact Hr|]. split; [exact Hu|]. split; [by vm_compute|].
  exact (proj1 context_mirrors_entries Sample.cl_two Hr Hu).
Defined.

(** ** Scroll requests and the loading flag, for any callback instance *)

Section LoadingAndScroll.








End LoadingAndScroll.



(** ** First data *)

Lemma eqb_same b : eqb b b = true.
Proof. by destruct b. Qed.

Section FirstData.

Lemma cp_first_data w p :
  CachedProcessLogs.Inv w →
  CachedProcessLogs.unmounted (CachedProcessLogs.hooks w) = false →
  CachedProcessLogs.didInitScroll (CachedProcessLogs.hooks w) = false →
  CachedProcessLogs.logs p ≠ [] →
  ∃ w', CachedProcessLogs.step w (CachedProcessLogs.Render p) = Ok w'
    ∧ CachedProcessLogs.didInitScroll (CachedProcessLogs.hooks w') = true
    ∧ Browser.frames (CachedProcessLogs.browser w')
      = Browser.frames (CachedProcessLogs.browser w)
        ++ Browser.FrameScrollToIndex (CachedProcessLogs.len p - 1) AlignEnd
           :: (if CachedProcessLogs.atBottom (CachedProcessLogs.hooks w)
               then [Browser.FrameScrollToIndex (CachedProcessLogs.len p - 1) AlignEnd]
               else []).
Proof.
  intros HI Hu Hd Hne. destruct w as [h b]. cbn in Hu, Hd.
  cbn [CachedProcessLogs.step CachedProcessLogs.hooks]. rewrite Hu.
  eexists. split; [reflexivity|]. rewrite cp_commit_eq. cbn zeta. rewrite Hd.
  assert (Hn : (CachedProcessLogs.len p >? 0) = true).
  { unfold CachedProcessLogs.len. apply Z.gtb_lt.
    destruct (CachedProcessLogs.logs p); [done|cbn [length]; lia]. }
  assert (Hprev : CachedProcessLogs.prevLogsLengthRef h = 0
                  ∧ CachedProcessLogs.len_changed p h = true
                  ∧ CachedProcessLogs.auto_deps_changed p h = true).
  { apply Z.gtb_lt in Hn.
    destruct (CachedProcessLogs.rendered h) as [[q ab]|] eqn:Hq.
    - assert (Hq0 : CachedProcessLogs.logs q = []).
      { destruct (CachedProcessLogs.logs q) eqn:E; [done|].
        pose proof (CachedProcessLogs.inv_init _ HI q ab Hq) as Hi. cbn in Hi.
        rewrite E, Hd in Hi. by specialize (Hi ltac:(done)). }
      destruct (CachedProcessLogs.inv_prev _ HI q ab Hq) as [Hp _]. cbn in Hp.
      unfold CachedProcessLogs.len_changed, CachedProcessLogs.auto_deps_changed,
        CachedProcessLogs.len in *.
      rewrite Hq, Hp, Hq0. cbn [length].
      replace (Z.of_nat 0 =? Z.of_nat (length (CachedProcessLogs.logs p))) with false
        by (symmetry; apply Z.eqb_neq; lia).
      done.
    - pose proof (CachedProcessLogs.inv_fresh _ HI Hq) as Hf. cbn in Hf. subst h.
      unfold CachedProcessLogs.len_changed, CachedProcessLogs.auto_deps_changed. by cbn. }
  destruct Hprev as (Hprev & Hlc & Hac). rewrite Hprev, Hlc, Hac, Z.sub_0_r, Hn.
  cbn. split; [done|]. rewrite !andb_true_r, <- app_assoc. cbn.
  by destruct (CachedProcessLogs.atBottom h).
Qed.

Lemma vl_first_data w newEntries addType :
  VirtualizedList.Inv w →
  VirtualizedList.mounted (VirtualizedList.hooks w) = true →
  VirtualizedList.didInitScroll (VirtualizedList.hooks w) = false →
  newEntries ≠ [] →
  ∃ w', VirtualizedList.step w (VirtualizedList.EntriesUpdated newEntries addType false)
        = Ok w'
    ∧ VirtualizedList.loading (VirtualizedList.hooks w') = false
    ∧ VirtualizedList.didInitScroll (VirtualizedList.hooks w') = true
    ∧ Browser.frames (VirtualizedList.browser w')
      = Browser.frames (VirtualizedList.browser w)
        ++ Browser.FrameScrollToIndex (Z.of_nat (length newEntries) - 1) AlignEnd
           :: (if (Z.of_nat (length (VirtualizedList.entries (VirtualizedList.hooks w)))
                   <? Z.of_nat (length newEntries))
                  && VirtualizedList.atBottom (VirtualizedList.hooks w)
               then VirtualizedList.follow addType (Z.of_nat (length newEntries))
               else []).
Proof.
  intros HI Hm Hdid Hne. destruct w as [h b]. cbn in Hm, Hdid.
  cbn [VirtualizedList.step VirtualizedList.hooks VirtualizedList.browser].
  destruct (vl_mounted_rendered _ Hm) as (d & Hd & Hun). rewrite Hd.
  eexists. split; [reflexivity|].
  unfold VirtualizedList.onEntriesUpdated.
  cbn [VirtualizedList.hooks VirtualizedList.browser]. rewrite Hun.
  rewrite (vl_rerender_nf _ _ d) by (unfold VirtualizedList.apply_update; exact Hd).
  cbn zeta.
  destruct (VirtualizedList.inv_synced _ HI d Hd) as (Hlen & Hlo & Hab). cbn in Hlen, Hlo, Hab.
  pose proof (VirtualizedList.inv_prev _ HI) as Hprev. cbn in Hprev.
  specialize (Hprev ltac:(congruence)).
  pose proof (VirtualizedList.inv_init _ HI Hdid) as Hinit. cbn in Hinit.
  set (n := Z.of_nat (length newEntries)).
  assert (Hn : (n >? 0) = true).
  { apply Z.gtb_lt. subst n. destruct newEntries; [done|cbn [length]; lia]. }
  unfold VirtualizedList.apply_update, VirtualizedList.init_fires,
    VirtualizedList.init_deps_changed, VirtualizedList.auto_deps_changed,
    VirtualizedList.len in *.
  cbn [VirtualizedList.hooks VirtualizedList.browser VirtualizedList.entries
       VirtualizedList.loading VirtualizedList.atBottom VirtualizedList.didInitScroll
       VirtualizedList.prevEntriesLengthRef VirtualizedList.addTypeRef
       VirtualizedList.rendered VirtualizedList.unmounted VirtualizedList.initJumps
       Browser.frames Browser.emit] in *.
  rewrite Hun, Hd, Hdid, Hlen, Hlo, Hab, Hprev. fold n. rewrite Hn, eqb_same.
  set (m := Z.of_nat (length (VirtualizedList.entries h))) in *.
  assert (Hfire : negb (m =? n)
                  || negb (eqb (VirtualizedList.loading h)
                             (if VirtualizedList.loading h then false
                              else VirtualizedList.loading h)) = true).
  { destruct (VirtualizedList.loading h) eqn:E; [by rewrite orb_true_r|].
    destruct Hinit as [He|?]; [|done]. subst m. rewrite He. cbn [length].
    apply Z.gtb_lt in Hn. apply orb_true_iff. left.
    apply negb_true_iff, Z.eqb_neq. lia. }
  rewrite Hfire.
  replace (if VirtualizedList.loading h then false else VirtualizedList.loading h)
    with false by (by destruct (VirtualizedList.loading h)).
  cbn [negb andb orb]. split; [done|]. split; [done|].
  rewrite <- app_assoc. cbn [app]. do 2 f_equal.
  rewrite !andb_true_r, orb_false_r.
  destruct (m <? n) eqn:Hlt.
  - replace (m =? n) with false by (symmetry; apply Z.eqb_neq; apply Z.ltb_lt in Hlt; lia).
    replace (n - m >? 0) with true by (symmetry; apply Z.gtb_lt; apply Z.ltb_lt in Hlt; lia).
    done.
  - replace (n - m >? 0) with false
      by (symmetry; rewrite Z.gtb_ltb; apply Z.ltb_ge; apply Z.ltb_ge in Hlt; lia).
    by rewrite andb_false_r.
Qed.

Lemma cl_first_data w id at_ cl u :
  ConversationList.Inv w →
  ConversationList.unmounted (ConversationList.hooks w) = false →
  ConversationList.didInitScroll (ConversationList.hooks w) = false →
  Browser.timers (ConversationList.browser w) !! id
  = Some (at_, ConversationList.Debounced cl) →
  ConversationList.pendingUpdateRef (ConversationList.hooks w) = Some u →
  at_ ≤ Browser.now (ConversationList.browser w) →
  ConversationList.pending_entries u ≠ [] →
  (if cl then ConversationList.pending_loading u
   else ConversationList.loading (ConversationList.hooks w)) = false →
  ∃ w', ConversationList.step w (ConversationList.Timeout id) = Ok w'
    ∧ ConversationList.loading (ConversationList.hooks w') = false
    ∧ ConversationList.didInitScroll (ConversationList.hooks w') = true
    ∧ Browser.frames (ConversationList.browser w')
      = Browser.frames (ConversationList.browser w)
        ++ Browser.FrameScrollToIndex
             (Z.of_nat (length (ConversationList.pending_entries u)) - 1) AlignEnd
           :: (if Z.of_nat (length (ConversationList.entries (ConversationList.hooks w)))
                  <? Z.of_nat (length (ConversationList.pending_entries u))
               then ConversationList.follow (ConversationList.pending_addType u)
                      (Z.of_nat (length (ConversationList.pending_entries u)))
                      (ConversationList.atBottom (ConversationList.hooks w)) false
               else []).
Proof.
  intros HI Hun Hdid Hl Hu Hdue Hne Hlo'. destruct w as [h b]. cbn in Hun, Hdid, Hl, Hu, Hdue, Hlo'.
  cbn [ConversationList.step ConversationList.browser].
  unfold Browser.due. rewrite Hl. apply Z.leb_le in Hdue. rewrite Hdue.
  eexists. split; [reflexivity|].
  assert (Hr : ∃ d, ConversationList.rendered h = Some d).
  { destruct (ConversationList.rendered h) as [d|] eqn:Hd; [by eexists|].
    destruct (ConversationList.inv_fresh _ HI Hd) as [_ He]. cbn in He.
    rewrite He in Hl. done. }
  destruct Hr as [d Hd].
  unfold ConversationList.debounced, ConversationList.with_browser, Browser.clearTimeout.
  cbn [ConversationList.hooks ConversationList.browser]. rewrite Hu, Hun.
  rewrite (cl_rerender_nf _ _ d) by (unfold ConversationList.apply_pending; exact Hd).
  cbn zeta.
  destruct (ConversationList.inv_synced _ HI d Hd) as (Hlen & Hlo & Hab).
  cbn in Hlen, Hlo, Hab.
  pose proof (ConversationList.inv_prev _ HI) as Hprev. cbn in Hprev.
  specialize (Hprev ltac:(congruence)).
  pose proof (ConversationList.inv_init _ HI Hdid) as Hinit. cbn in Hinit.
  set (n := Z.of_nat (length (ConversationList.pending_entries u))).
  assert (Hn : (n >? 0) = true).
  { apply Z.gtb_lt. subst n.
    destruct (ConversationList.pending_entries u); [done|cbn [length]; lia]. }
  unfold ConversationList.apply_pending, ConversationList.init_fires,
    ConversationList.init_deps_changed, ConversationList.auto_deps_changed,
    ConversationList.len in *.
  cbn [ConversationList.hooks ConversationList.browser ConversationList.entries
       ConversationList.loading ConversationList.atBottom ConversationList.didInitScroll
       ConversationList.prevEntriesLengthRef ConversationList.addTypeRef
       ConversationList.pendingUpdateRef ConversationList.debounceTimeoutRef
       ConversationList.rendered ConversationList.unmounted ConversationList.initJumps
       Browser.frames Browser.emit] in *.
  rewrite Hun, Hd, Hdid, Hlen, Hlo, Hab, Hprev, Hlo'. fold n. rewrite Hn, eqb_same.
  set (m := Z.of_nat (length (ConversationList.entries h))) in *.
  assert (Hfire : negb (m =? n) || negb (eqb (ConversationList.loading h) false) = true).
  { destruct (ConversationList.loading h) eqn:E; [by rewrite orb_true_r|].
    destruct Hinit as [He|?]; [|done]. subst m. rewrite He. cbn [length].
    apply Z.gtb_lt in Hn. apply orb_true_iff. left.
    apply negb_true_iff, Z.eqb_neq. lia. }
  rewrite Hfire. cbn [negb andb orb]. split; [done|]. split; [done|].
  rewrite <- app_assoc. cbn [app]. do 2 f_equal.
  rewrite !andb_true_r, orb_false_r.
  destruct (m <? n) eqn:Hlt.
  - replace (m =? n) with false by (symmetry; apply Z.eqb_neq; apply Z.ltb_lt in Hlt; lia).
    replace (n - m >? 0) with true by (symmetry; apply Z.gtb_lt; apply Z.ltb_lt in Hlt; lia).
    done.
  - replace (n - m >? 0) with false
      by (symmetry; rewrite Z.gtb_ltb; apply Z.ltb_ge; apply Z.ltb_ge in Hlt; lia).
    by rewrite andb_false_r.
Qed.

End FirstData.

(** X15. First data is scrolled to twice.  In the three components that
    scroll through the virtualizer, the render that makes the initial scroll
    (the first non-empty list in the cached log viewer; the first update that
    ends loading with a non-empty list in the conversation lists) queues the
    initial [scrollToIndex(n - 1, {align: 'end'})] and, since the follow effect
    runs after the init flag is set, the follow effect's request as well: a
    second jump to the end when the user is at the bottom (for the add types
    the component follows), or, in ConversationList on a 'plan' update, a jump
    that aligns the last row to the top. *)
Theorem first_data_jumps_and_follows :
  (∀ w p, CachedProcessLogs.reachable w →
     CachedProcessLogs.unmounted (CachedProcessLogs.hooks w) = false →
     CachedProcessLogs.didInitScroll (CachedProcessLogs.hooks w) = false →
     CachedProcessLogs.logs p ≠ [] →
     ∃ w', CachedProcessLogs.step w (CachedProcessLogs.Render p) = Ok w'
       ∧ CachedProcessLogs.didInitScroll (CachedProcessLogs.hooks w') = true
       ∧ Browser.frames (CachedProcessLogs.browser w')
         = Browser.frames (CachedProcessLogs.browser w)
           ++ Browser.FrameScrollToIndex (CachedProcessLogs.len p - 1) AlignEnd
              :: (if CachedProcessLogs.atBottom (CachedProcessLogs.hooks w)
                  then [Browser.FrameScrollToIndex (CachedProcessLogs.len p - 1) AlignEnd]
                  else []))
  ∧ (∀ w newEntries addType, VirtualizedList.reachable w →
     VirtualizedList.mounted (VirtualizedList.hooks w) = true →
     VirtualizedList.didInitScroll (VirtualizedList.hooks w) = false →
     newEntries ≠ [] →
     ∃ w', VirtualizedList.step w
             (VirtualizedList.EntriesUpdated newEntries addType false) = Ok w'
       ∧ VirtualizedList.loading (VirtualizedList.hooks w') = false
       ∧ VirtualizedList.didInitScroll (VirtualizedList.hooks w') = true
       ∧ Browser.frames (VirtualizedList.browser w')
         = Browser.frames (VirtualizedList.browser w)
           ++ Browser.FrameScrollToIndex (Z.of_nat (length newEntries) - 1) AlignEnd
              :: (if (Z.of_nat (length (VirtualizedList.entries (VirtualizedList.hooks w)))
                      <? Z.of_nat (length newEntries))
                     && VirtualizedList.atBottom (VirtualizedList.hooks w)
                  then VirtualizedList.follow addType (Z.of_nat (length newEntries))
                  else []))
  ∧ (∀ w id at_ cl u, ConversationList.reachable w →
     ConversationList.unmounted (ConversationList.hooks w) = false →
     ConversationList.didInitScroll (ConversationList.hooks w) = false →
     Browser.timers (ConversationList.browser w) !! id
     = Some (at_, ConversationList.Debounced cl) →
     ConversationList.pendingUpdateRef (ConversationList.hooks w) = Some u →
     at_ ≤ Browser.now (ConversationList.browser w) →
     ConversationList.pending_entries u ≠ [] →
     (if cl then ConversationList.pending_loading u
      else ConversationList.loading (ConversationList.hooks w)) = false →
     ∃ w', ConversationList.step w (ConversationList.Timeout id) = Ok w'
       ∧ ConversationList.loading (ConversationList.hooks w') = false
       ∧ ConversationList.didInitScroll (ConversationList.hooks w') = true
       ∧ Browser.frames (ConversationList.browser w')
         = Browser.frames (ConversationList.browser w)
           ++ Browser.FrameScrollToIndex
                (Z.of_nat (length (ConversationList.pending_entries u)) - 1) AlignEnd
              :: (if Z.of_nat (length (ConversationList.entries (ConversationList.hooks w)))
                     <? Z.of_nat (length (ConversationList.pending_entries u))
                  then ConversationList.follow (ConversationList.pending_addType u)
                         (Z.of_nat (length (ConversationList.pending_entries u)))
                         (ConversationList.atBottom (ConversationList.hooks w)) false
                  else [])).
Proof.
  repeat apply conj.
  - intros w p Hr. apply cp_first_data. by apply cp_reachable_Inv.
  - intros w newEntries addType Hr. apply vl_first_data. by apply vl_reachable_Inv.
  - intros w id at_ cl u Hr. apply cl_first_data. by apply cl_reachable_Inv.
Qed.

Lemma first_data_jumps_and_follows_witness :
  let w := Sample.outcome VirtualizedList.init
             (VirtualizedList.run VirtualizedList.init [VirtualizedList.Render "a1"]) in
  VirtualizedList.reachable w
  ∧ VirtualizedList.mounted (VirtualizedList.hooks w) = true
  ∧ VirtualizedList.didInitScroll (VirtualizedList.hooks w) = false
  ∧ ∃ w', VirtualizedList.step w (VirtualizedList.EntriesUpdated [Sample.e1] "running" false)
          = Ok w'
      ∧ Browser.frames (VirtualizedList.browser w')
        = [Browser.FrameScrollToIndex 0 AlignEnd; Browser.FrameScrollToIndex 0 AlignEnd].
Proof.
  intros w.
  assert (Hr : VirtualizedList.reachable w).
  { exists [VirtualizedList.Render "a1"]. by vm_compute. }
  assert (Hm : VirtualizedList.mounted (VirtualizedList.hooks w) = true) by (by vm_compute).
  assert (Hd : VirtualizedList.didInitScroll (VirtualizedList.hooks w) = false)
    by (by vm_compute).
  split; [exact Hr|]. split; [exact Hm|]. split; [exact Hd|].
  destruct (proj1 (proj2 first_data_jumps_and_follows) w [Sample.e1] "running" Hr Hm Hd
              ltac:(discriminate)) as (w' & Hs & _ & _ & Hf).
  exists w'. split; [exact Hs|]. rewrite Hf. by vm_compute.
Defined.

(** ** SearchableDropdown *)

Section SearchableDropdownFacts.
Import SearchableDropdown.
Context {T : Type}.
Implicit Types (p : Props T) (items : list VirtualItem).

Lemma sd_render_items p items :
  filteredItems p ≠ [] →
  body (render p items) = Items (map (render_row p) items).
Proof.
  intros Hne. unfold render. cbn.
  replace (Z.of_nat (length (filteredItems p)) =? 0) with false; [done|].
  symmetry. apply Z.eqb_neq. destruct (filteredItems p); [done|cbn [length]; lia].
Qed.

Lemma sd_render_empty p items :
  filteredItems p = [] →
  body (render p items) = EmptyMessage (default "No items found" (emptyMessage p)).
Proof. intros He. unfold render. cbn. by rewrite He. Qed.

Lemma sd_row_lookup p items i r :
  map (render_row p) items !! i = Some r →
  ∃ vi, items !! i = Some vi ∧ r = render_row p vi.
Proof.
  rewrite list_lookup_fmap. destruct (items !! i) as [vi|]; cbn; [|done].
  intros [= <-]. by exists vi.
Qed.

End SearchableDropdownFacts.

(** X16. The dropdown shows the filtered items as they are.  With no items
    the component renders the empty message (by default 'No items found') and
    no list.  Otherwise it renders one row per visible virtual item, in the
    virtualizer's order, and the row reported for an index [i] within the list
    shows item [i]: its key, label and badge, [onSelect] is called with that
    item and hovering reports [i]. *)
Theorem dropdown_rows_show_items {T : Type} (p : SearchableDropdown.Props T)
    (items : list VirtualItem) :
  (SearchableDropdown.filteredItems p = [] →
   SearchableDropdown.body (SearchableDropdown.render p items)
   = SearchableDropdown.EmptyMessage
       (default "No items found" (SearchableDropdown.emptyMessage p)))
  ∧ (SearchableDropdown.filteredItems p ≠ [] →
     ∃ rows, SearchableDropdown.body (SearchableDropdown.render p items)
             = SearchableDropdown.Items rows
       ∧ length rows = length items
       ∧ ∀ i vi x, items !! i = Some vi →
           SearchableDropdown.filteredItems p !! index vi = Some x →
           ∃ r, rows !! i = Some r
             ∧ SearchableDropdown.row_key r = SearchableDropdown.getItemKey p (Some x)
             ∧ SearchableDropdown.row_label r = SearchableDropdown.getItemLabel p (Some x)
             ∧ SearchableDropdown.row_badge r
               = match SearchableDropdown.getItemBadge p with
                 | Some f => f (Some x)
                 | None => None
                 end
             ∧ SearchableDropdown.row_onSelect r = Some x
             ∧ SearchableDropdown.row_onMouseEnter r = index vi
             ∧ SearchableDropdown.row_start r = start vi).
Proof.
  split; [apply sd_render_empty|].
  intros Hne. exists (map (SearchableDropdown.render_row p) items).
  split; [by apply sd_render_items|]. split; [by rewrite length_map|].
  intros i vi x Hvi Hx. exists (SearchableDropdown.render_row p vi).
  split; [by rewrite list_lookup_fmap, Hvi|].
  unfold SearchableDropdown.render_row. cbn. rewrite Hx. done.
Qed.

Lemma dropdown_rows_show_items_witness :
  let p := {| SearchableDropdown.filteredItems := ["main"; "dev"];
              SearchableDropdown.selectedValue := Some "dev";
              SearchableDropdown.getItemKey := default "";
              SearchableDropdown.getItemLabel := default "";
              SearchableDropdown.getItemBadge := None;
              SearchableDropdown.searchTerm := "";
              SearchableDropdown.highlightedIndex := Some 0;
              SearchableDropdown.placeholder := None;
              SearchableDropdown.emptyMessage := None |} in
  SearchableDropdown.filteredItems p ≠ []
  ∧ ∃ rows, SearchableDropdown.body (SearchableDropdown.render p [Sample.row0; Sample.row1])
            = SearchableDropdown.Items rows
      ∧ map SearchableDropdown.row_label rows = ["main"; "dev"]
      ∧ map SearchableDropdown.row_isSelected rows = [false; true]
      ∧ map SearchableDropdown.row_isHighlighted rows = [true; false].
Proof.
  intros p.
  assert (Hne : SearchableDropdown.filteredItems p ≠ []) by discriminate.
  split; [exact Hne|].
  destruct (proj2 (dropdown_rows_show_items p [Sample.row0; Sample.row1]) Hne)
    as (rows & Hb & _ & _).
  exists rows. split; [exact Hb|].
  assert (rows = map (SearchableDropdown.render_row p) [Sample.row0; Sample.row1]) as ->.
  { rewrite sd_render_items in Hb by exact Hne. by injection Hb. }
  repeat split; by vm_compute.
Defined.

(** X17. At most one row is selected and at most one is highlighted.  When
    the items in range have pairwise distinct keys and the virtualizer reports
    each index once, no two rendered rows are both selected, and none is when
    [selectedValue] is null; no two rows are both highlighted, the highlighted
    row is the one at [highlightedIndex], and none is when it is null. *)
Theorem dropdown_single_selection {T : Type} (p : SearchableDropdown.Props T)
    (items : list VirtualItem) (rows : list (SearchableDropdown.Row T)) :
  SearchableDropdown.body (SearchableDropdown.render p items)
  = SearchableDropdown.Items rows →
  in_range (length (SearchableDropdown.filteredItems p)) items →
  NoDup (map index items) →
  NoDup (map (λ x, SearchableDropdown.getItemKey p (Some x))
           (SearchableDropdown.filteredItems p)) →
  (∀ i j ri rj, rows !! i = Some ri → rows !! j = Some rj →
     SearchableDropdown.row_isSelected ri = true →
     SearchableDropdown.row_isSelected rj = true → i = j)
  ∧ (∀ i j ri rj, rows !! i = Some ri → rows !! j = Some rj →
     SearchableDropdown.row_isHighlighted ri = true →
     SearchableDropdown.row_isHighlighted rj = true → i = j)
  ∧ (∀ i r, rows !! i = Some r → SearchableDropdown.row_isHighlighted r = true →
     SearchableDropdown.highlightedIndex p
     = Some (Z.of_nat (SearchableDropdown.row_onMouseEnter r)))
  ∧ (SearchableDropdown.selectedValue p = None →
     Forall (λ r, SearchableDropdown.row_isSelected r = false) rows)
  ∧ (SearchableDropdown.highlightedIndex p = None →
     Forall (λ r, SearchableDropdown.row_isHighlighted r = false) rows).
Proof.
  intros Hb Hin Hidx Hkeys.
  assert (Hrows : rows = map (SearchableDropdown.render_row p) items).
  { unfold SearchableDropdown.render in Hb. cbn in Hb.
    destruct (_ =? 0); [done|]. by injection Hb. }
  subst rows.
  assert (Hitem : ∀ i vi, items !! i = Some vi →
            ∃ x, SearchableDropdown.filteredItems p !! index vi = Some x).
  { intros i vi Hvi. apply lookup_lt_is_Some_2.
    eapply (Forall_lookup_1 _ _ _ _ Hin Hvi). }
  assert (Hsame : ∀ i j vi vj, items !! i = Some vi → items !! j = Some vj →
            index vi = index vj → i = j).
  { intros i j vi vj Hi Hj He. eapply (NoDup_lookup _ _ _ _ Hidx).
    - rewrite list_lookup_fmap, Hi. reflexivity.
    - rewrite list_lookup_fmap, Hj. cbn. by rewrite He. }
  repeat apply conj.
  - intros i j ri rj Hi Hj Hsi Hsj.
    apply sd_row_lookup in Hi as (vi & Hvi & ->), Hj as (vj & Hvj & ->).
    destruct (Hitem _ _ Hvi) as [xi Hxi], (Hitem _ _ Hvj) as [xj Hxj].
    unfold SearchableDropdown.render_row, SearchableDropdown.is_selected in Hsi, Hsj.
    cbn in Hsi, Hsj. rewrite Hxi in Hsi. rewrite Hxj in Hsj.
    destruct (SearchableDropdown.selectedValue p) as [v|]; [|done].
    apply String.eqb_eq in Hsi, Hsj.
    apply (Hsame i j vi vj Hvi Hvj).
    eapply (NoDup_lookup _ _ _ _ Hkeys).
    + rewrite list_lookup_fmap, Hxi. reflexivity.
    + rewrite list_lookup_fmap, Hxj. cbn. congruence.
  - intros i j ri rj Hi Hj Hhi Hhj.
    apply sd_row_lookup in Hi as (vi & Hvi & ->), Hj as (vj & Hvj & ->).
    unfold SearchableDropdown.render_row, SearchableDropdown.is_highlighted in Hhi, Hhj.
    cbn in Hhi, Hhj.
    destruct (SearchableDropdown.highlightedIndex p) as [k|]; [|done].
    apply Z.eqb_eq in Hhi, Hhj. apply (Hsame i j vi vj Hvi Hvj). lia.
  - intros i r Hi Hh. apply sd_row_lookup in Hi as (vi & Hvi & ->).
    unfold SearchableDropdown.render_row, SearchableDropdown.is_highlighted in *.
    cbn in *. destruct (SearchableDropdown.highlightedIndex p) as [k|]; [|done].
    apply Z.eqb_eq in Hh. by rewrite Hh.
  - intros Hnone. apply Forall_forall. intros r Hr.
    apply list_elem_of_fmap in Hr as (vi & -> & _).
    unfold SearchableDropdown.render_row, SearchableDropdown.is_selected. cbn.
    by rewrite Hnone.
  - intros Hnone. apply Forall_forall. intros r Hr.
    apply list_elem_of_fmap in Hr as (vi & -> & _).
    unfold SearchableDropdown.render_row, SearchableDropdown.is_highlighted. cbn.
    by rewrite Hnone.
Qed.

Lemma dropdown_single_selection_witness :
  let p := {| SearchableDropdown.filteredItems := ["main"; "dev"];
              SearchableDropdown.selectedValue := Some "dev";
              SearchableDropdown.getItemKey := default "";
              SearchableDropdown.getItemLabel := default "";
              SearchableDropdown.getItemBadge := None;
              SearchableDropdown.searchTerm := "";
              SearchableDropdown.highlightedIndex := Some 0;
              SearchableDropdown.placeholder := None;
              SearchableDropdown.emptyMessage := None |} in
  let rows := map (SearchableDropdown.render_row p) [Sample.row0; Sample.row1] in
  SearchableDropdown.body (SearchableDropdown.render p [Sample.row0; Sample.row1])
  = SearchableDropdown.Items rows
  ∧ in_range 2 [Sample.row0; Sample.row1]
  ∧ NoDup (map index [Sample.row0; Sample.row1])
  ∧ NoDup ["main"; "dev"]
  ∧ map SearchableDropdown.row_isSelected rows = [false; true]
  ∧ ∀ i ri, rows !! i = Some ri → SearchableDropdown.row_isSelected ri = true → i = 1%nat.
Proof.
  intros p rows.
  assert (Hb : SearchableDropdown.body (SearchableDropdown.render p [Sample.row0; Sample.row1])
               = SearchableDropdown.Items rows) by reflexivity.
  assert (Hin : in_range 2 [Sample.row0; Sample.row1]).
  { repeat constructor; cbn; lia. }
  assert (Hidx : NoDup (map index [Sample.row0; Sample.row1])).
  { cbn. apply NoDup_cons. split; [|apply NoDup_singleton].
    intros H%list_elem_of_singleton. discriminate. }
  assert (Hk : NoDup ["main"; "dev"]).
  { apply NoDup_cons. split; [|apply NoDup_singleton].
    intros H%list_elem_of_singleton. discriminate. }
  split; [exact Hb|]. split; [exact Hin|]. split; [exact Hidx|]. split; [exact Hk|].
  split; [reflexivity|].
  destruct (dropdown_single_selection p [Sample.row0; Sample.row1] rows Hb Hin Hidx Hk)
    as (Hsel & _).
  intros i ri Hi Hs.
  exact (Hsel i 1%nat ri (SearchableDropdown.render_row p Sample.row1) Hi eq_refl Hs eq_refl).
Defined.

(** ** Re-rendering with unchanged props; rows past the end *)

Lemma mapM_js_throws {A B} (f : A → js B) (l : list A) (x : A) :
  x ∈ l → f x = TypeError → mapM f l = TypeError.
Proof.
  intros Hin Hx. induction l as [|a l IH]; [by apply elem_of_nil in Hin|].
  cbn. destruct (f a) as [y|] eqn:Ha; cbn; [|done].
  apply elem_of_cons in Hin as [->|Hin]; [congruence|].
  by rewrite (IH Hin).
Qed.

Lemma mapM_js_total {A B} (f : A → js B) (g : A → B) (l : list A) :
  (∀ x, f x = Ok (g x)) → mapM f l = Ok (map g l).
Proof. intros Hf. induction l as [|a l IH]; cbn; [done|]. by rewrite Hf, IH. Qed.

Lemma at_index_past {A} (a : list A) (i : nat) :
  (length a ≤ i)%nat → at_index a i = @TypeError A.
Proof. intros H. unfold at_index. by rewrite lookup_ge_None_2. Qed.

Lemma pv_rerender_same w p :
  ProcessLogsViewerContent.rendered (ProcessLogsViewerContent.hooks w) = Some p →
  ProcessLogsViewerContent.step w (ProcessLogsViewerContent.Render p) = Ok w.
Proof.
  intros Hp. destruct w as [h b]. cbn in Hp. cbn [ProcessLogsViewerContent.step].
  cbn [ProcessLogsViewerContent.hooks].
  destruct (ProcessLogsViewerContent.unmounted h) eqn:Hu; [done|].
  rewrite pv_commit_eq. cbn zeta.
  unfold ProcessLogsViewerContent.len_changed. rewrite Hp, Z.eqb_refl. cbn.
  rewrite orb_false_r. destruct h. cbn in *. by subst.
Qed.

Lemma vp_rerender_same w p :
  VirtualizedProcessLogs.rendered (VirtualizedProcessLogs.hooks w) = Some p →
  VirtualizedProcessLogs.step w (VirtualizedProcessLogs.Render p) = Ok w.
Proof.
  intros Hp. destruct w as [h b]. cbn in Hp. cbn [VirtualizedProcessLogs.step].
  cbn [VirtualizedProcessLogs.hooks].
  destruct (VirtualizedProcessLogs.unmounted h) eqn:Hu; [done|].
  rewrite vp_commit_eq. cbn zeta.
  unfold VirtualizedProcessLogs.search_scroll, VirtualizedProcessLogs.match_fires,
    VirtualizedProcessLogs.match_changed, VirtualizedProcessLogs.len_changed.
  rewrite Hp, !Z.eqb_refl, bool_decide_eq_true_2 by done. cbn.
  unfold Browser.emit. rewrite ?app_nil_r, ?orb_false_r.
  destruct h, b. cbn in *. by subst.
Qed.

Lemma cp_rerender_same w p ab :
  CachedProcessLogs.Inv w →
  CachedProcessLogs.rendered (CachedProcessLogs.hooks w) = Some (p, ab) →
  CachedProcessLogs.step w (CachedProcessLogs.Render p) = Ok w.
Proof.
  intros HI Hp. destruct w as [h b]. cbn in Hp. cbn [CachedProcessLogs.step].
  cbn [CachedProcessLogs.hooks].
  destruct (CachedProcessLogs.unmounted h) eqn:Hu; [done|].
  destruct (CachedProcessLogs.inv_prev _ HI p ab Hp) as [_ Hab]. cbn in Hab.
  rewrite cp_commit_eq. cbn zeta.
  unfold CachedProcessLogs.search_scroll, CachedProcessLogs.match_fires,
    CachedProcessLogs.match_changed, CachedProcessLogs.len_changed,
    CachedProcessLogs.auto_deps_changed.
  rewrite Hp, !Z.eqb_refl, bool_decide_eq_true_2 by done. rewrite Hab, eqb_same. cbn.
  rewrite ?app_nil_r, ?orb_false_r.
  destruct h, b. cbn in *. by subst.
Qed.

Lemma cl_rerender_same w d :
  ConversationList.Inv w →
  ConversationList.rendered (ConversationList.hooks w) = Some d →
  ConversationList.step w (ConversationList.Render (ConversationList.dep_attempt d)) = Ok w.
Proof.
  intros HI Hd. destruct w as [h b]. cbn in Hd. cbn [ConversationList.step].
  cbn [ConversationList.hooks].
  destruct (ConversationList.unmounted h) eqn:Hu; [done|].
  assert (Ha : ConversationList.attempt_changed (ConversationList.dep_attempt d) h = false).
  { unfold ConversationList.attempt_changed. by rewrite Hd, String.eqb_refl. }
  rewrite cl_commit_same, cl_pass_stable; [done|done|apply HI|done].
Qed.

Lemma vl_rerender_same w d :
  VirtualizedList.Inv w →
  VirtualizedList.rendered (VirtualizedList.hooks w) = Some d →
  VirtualizedList.step w (VirtualizedList.Render (VirtualizedList.dep_attempt d)) = Ok w.
Proof.
  intros HI Hd. destruct w as [h b]. cbn in Hd. cbn [VirtualizedList.step].
  cbn [VirtualizedList.hooks].
  destruct (VirtualizedList.unmounted h) eqn:Hu; [done|].
  assert (Ha : VirtualizedList.attempt_changed (VirtualizedList.dep_attempt d) h = false).
  { unfold VirtualizedList.attempt_changed. by rewrite Hd, String.eqb_refl. }
  rewrite vl_commit_same, vl_pass_stable; [done|done|apply HI|done].
Qed.

Lemma pl_rerender_same w d :
  PollingList.Inv w →
  PollingList.rendered (PollingList.hooks w) = Some d →
  PollingList.step w (PollingList.Render (PollingList.dep_attempt d)) = Ok w.
Proof.
  intros HI Hd. destruct w as [h b]. cbn in Hd. cbn [PollingList.step].
  cbn [PollingList.hooks].
  destruct (PollingList.unmounted h) eqn:Hu; [done|].
  pose proof (PollingList.inv_synced _ HI d Hd) as Hs. cbn in Hs.
  assert (Hp : PollingList.pass (PollingList.dep_attempt d)
                 {| PollingList.hooks := h; PollingList.browser := b |}
               = {| PollingList.hooks := h; PollingList.browser := b |}).
  { unfold PollingList.pass, PollingList.attempt_changed, PollingList.len_changed.
    cbn. rewrite Hd, String.eqb_refl, Hs, Z.eqb_refl. cbn.
    unfold PollingList.with_hooks, PollingList.set_rendered. cbn.
    rewrite <- Hs. destruct d; cbn. rewrite <- Hd. by destruct h. }
  unfold PollingList.commit. by rewrite !Hp.
Qed.

(** X18. A re-render with unchanged props does nothing.  In every
    reachable state, rendering again with the props of the last render (the
    same attempt, in the conversation lists) leaves the component and the
    browser exactly as they were: no effect runs, no timer is armed, no frame
    is queued and no call is made. *)
Theorem rerender_with_same_props_is_noop :
  (∀ w p, ProcessLogsViewerContent.reachable w →
     ProcessLogsViewerContent.rendered (ProcessLogsViewerContent.hooks w) = Some p →
     ProcessLogsViewerContent.step w (ProcessLogsViewerContent.Render p) = Ok w)
  ∧ (∀ w p, VirtualizedProcessLogs.reachable w →
     VirtualizedProcessLogs.rendered (VirtualizedProcessLogs.hooks w) = Some p →
     VirtualizedProcessLogs.step w (VirtualizedProcessLogs.Render p) = Ok w)
  ∧ (∀ w p ab, CachedProcessLogs.reachable w →
     CachedProcessLogs.rendered (CachedProcessLogs.hooks w) = Some (p, ab) →
     CachedProcessLogs.step w (CachedProcessLogs.Render p) = Ok w)
  ∧ (∀ w d, ConversationList.reachable w →
     ConversationList.rendered (ConversationList.hooks w) = Some d →
     ConversationList.step w (ConversationList.Render (ConversationList.dep_attempt d))
     = Ok w)
  ∧ (∀ w d, VirtualizedList.reachable w →
     VirtualizedList.rendered (VirtualizedList.hooks w) = Some d →
     VirtualizedList.step w (VirtualizedList.Render (VirtualizedList.dep_attempt d))
     = Ok w)
  ∧ (∀ w d, PollingList.reachable w →
     PollingList.rendered (PollingList.hooks w) = Some d →
     PollingList.step w (PollingList.Render (PollingList.dep_attempt d)) = Ok w).
Proof.
  repeat apply conj.
  - intros w p _. apply pv_rerender_same.
  - intros w p _. apply vp_rerender_same.
  - intros w p ab Hr. apply cp_rerender_same. by apply cp_reachable_Inv.
  - intros w d Hr. apply cl_rerender_same. by apply cl_reachable_Inv.
  - intros w d Hr. apply vl_rerender_same. by apply vl_reachable_Inv.
  - intros w d Hr. apply pl_rerender_same. by apply pl_reachable_Inv.
Qed.

Lemma rerender_with_same_props_is_noop_witness :
  ProcessLogsViewerContent.reachable Sample.pv_shown
  ∧ ProcessLogsViewerContent.rendered (ProcessLogsViewerContent.hooks Sample.pv_shown)
    = Some Sample.pv_one
  ∧ ProcessLogsViewerContent.step Sample.pv_shown
      (ProcessLogsViewerContent.Render Sample.pv_one) = Ok Sample.pv_shown
  ∧ ConversationList.reachable Sample.cl_two
  ∧ ConversationList.step Sample.cl_two (ConversationList.Render "a1") = Ok Sample.cl_two.
Proof.
  destruct rerender_with_same_props_is_noop as (Hpv & _ & _ & Hcl & _).
  assert (Rpv : ProcessLogsViewerContent.reachable Sample.pv_shown).
  { exists [ProcessLogsViewerContent.Render Sample.pv_one]. by vm_compute. }
  assert (Hp : ProcessLogsViewerContent.rendered
                 (ProcessLogsViewerContent.hooks Sample.pv_shown) = Some Sample.pv_one)
    by (by vm_compute).
  assert (Rcl : ConversationList.reachable Sample.cl_two).
  { exists (Sample.cl_scrolled_up
              ++ [ConversationList.EntriesUpdated [Sample.e1; Sample.e2] "plan" false;
                  ConversationList.Advance 100; ConversationList.Timeout 2]).
    by vm_compute. }
  split; [exact Rpv|]. split; [exact Hp|]. split; [exact (Hpv _ _ Rpv Hp)|].
  split; [exact Rcl|].
  exact (Hcl Sample.cl_two
           {| ConversationList.dep_attempt := "a1"; ConversationList.dep_len := 2;
              ConversationList.dep_loading := false;
              ConversationList.dep_atBottom := false |} Rcl ltac:(by vm_compute)).
Defined.

(** X19. A visible row past the end of the list.  When the virtualizer
    reports an index at or beyond the length of the list, rendering the list
    throws a TypeError in five of the components (they read a property of
    [undefined]); only the polling VirtualizedList guards the read with
    [if (!data) return null], renders that row as null and the others as
    usual. *)
Theorem row_index_past_the_end :
  (∀ p items vi,
     truthy_string (ProcessLogsViewerContent.error p) = false →
     ProcessLogsViewerContent.logs p ≠ [] →
     vi ∈ items → (length (ProcessLogsViewerContent.logs p) ≤ index vi)%nat →
     ProcessLogsViewerContent.render p items = TypeError)
  ∧ (∀ p items vi,
     truthy_string (VirtualizedProcessLogs.error p) = false →
     VirtualizedProcessLogs.logs p ≠ [] →
     vi ∈ items → (length (VirtualizedProcessLogs.logs p) ≤ index vi)%nat →
     VirtualizedProcessLogs.render p items = TypeError)
  ∧ (∀ p items vi,
     truthy_string (CachedProcessLogs.error p) = false →
     CachedProcessLogs.logs p ≠ [] →
     vi ∈ items → (length (CachedProcessLogs.logs p) ≤ index vi)%nat →
     CachedProcessLogs.render p items = TypeError)
  ∧ (∀ h items vi,
     vi ∈ items → (length (ConversationList.entries h) ≤ index vi)%nat →
     ConversationList.render h items = TypeError)
  ∧ (∀ h items vi,
     vi ∈ items → (length (VirtualizedList.entries h) ≤ index vi)%nat →
     VirtualizedList.render h items = TypeError)
  ∧ (∀ h items,
     PollingList.render h items
     = Ok {| PollingList.rows :=
               map (λ vi, conv_row "l-" vi <$> PollingList.entries h !! index vi) items;
             PollingList.overlay := PollingList.loading h |}).
Proof.
  repeat apply conj.
  - intros p items vi He Hne Hin Hge. unfold ProcessLogsViewerContent.render.
    rewrite He. cbn [negb andb].
    replace (ProcessLogsViewerContent.len p =? 0) with false.
    2:{ symmetry. apply Z.eqb_neq. unfold ProcessLogsViewerContent.len.
        destruct (ProcessLogsViewerContent.logs p); [done|cbn [length]; lia]. }
    cbn [andb]. rewrite (mapM_js_throws _ _ vi Hin); [done|].
    unfold ProcessLogsViewerContent.render_row. by rewrite at_index_past.
  - intros p items vi He Hne Hin Hge. unfold VirtualizedProcessLogs.render.
    rewrite He. cbn [negb andb].
    replace (VirtualizedProcessLogs.len p =? 0) with false.
    2:{ symmetry. apply Z.eqb_neq. unfold VirtualizedProcessLogs.len.
        destruct (VirtualizedProcessLogs.logs p); [done|cbn [length]; lia]. }
    cbn [andb]. rewrite (mapM_js_throws _ _ vi Hin); [done|].
    unfold VirtualizedProcessLogs.render_row. rewrite at_index_past; [done|].
    unfold VirtualizedProcessLogs.logsWithKeys. by rewrite length_imap.
  - intros p items vi He Hne Hin Hge. unfold CachedProcessLogs.render.
    rewrite He. cbn [negb andb].
    replace (CachedProcessLogs.len p =? 0) with false.
    2:{ symmetry. apply Z.eqb_neq. unfold CachedProcessLogs.len.
        destruct (CachedProcessLogs.logs p); [done|cbn [length]; lia]. }
    cbn [andb]. rewrite (mapM_js_throws _ _ vi Hin); [done|].
    unfold CachedProcessLogs.render_row. rewrite at_index_past; [done|].
    unfold CachedProcessLogs.logsWithKeys. by rewrite length_imap.
  - intros h items vi Hin Hge. unfold ConversationList.render.
    rewrite (mapM_js_throws _ _ vi Hin); [done|].
    unfold ConversationList.render_row. by rewrite at_index_past.
  - intros h items vi Hin Hge. unfold VirtualizedList.render.
    rewrite (mapM_js_throws _ _ vi Hin); [done|].
    unfold VirtualizedList.render_row. by rewrite at_index_past.
  - intros h items. unfold PollingList.render.
    rewrite (mapM_js_total _
               (λ vi, conv_row "l-" vi <$> PollingList.entries h !! index vi)); [done|].
    intros vi. unfold PollingList.render_row.
    by destruct (PollingList.entries h !! index vi).
Qed.

Lemma row_index_past_the_end_witness :
  let h := VirtualizedList.hooks Sample.vl_loaded in
  Sample.row1 ∈ [Sample.row0; Sample.row1]
  ∧ (length (VirtualizedList.entries h) ≤ index Sample.row1)%nat
  ∧ VirtualizedList.render h [Sample.row0; Sample.row1] = TypeError
  ∧ PollingList.rows
      (Sample.outcome {| PollingList.rows := []; PollingList.overlay := false |}
         (PollingList.render (PollingList.hooks Sample.pl_loaded)
            [Sample.row0; Sample.row1]))
    = [Some (conv_row "l-" Sample.row0 Sample.e1); None].
Proof.
  intros h.
  destruct row_index_past_the_end as (_ & _ & _ & _ & Hvl & Hpl).
  assert (Hin : Sample.row1 ∈ [Sample.row0; Sample.row1]).
  { apply elem_of_cons. right. apply list_elem_of_singleton. reflexivity. }
  assert (Hge : (length (VirtualizedList.entries h) ≤ index Sample.row1)%nat)
    by (vm_compute; lia).
  split; [exact Hin|]. split; [exact Hge|].
  split; [exact (Hvl h _ _ Hin Hge)|].
  rewrite Hpl. by vm_compute.
Defined.

(** * The initial scroll *)

(** ** The initial scroll: when it is triggered, and what it asks for *)

Section InitialScrollTrigger.









Section VirtualizedListInit.
Import VirtualizedList.

Ltac vl_simpl :=
  cbn [hooks browser entries loading atBottom didInitScroll prevEntriesLengthRef addTypeRef
       rendered unmounted initJumps dep_attempt dep_len dep_loading dep_atBottom] in *;
  browser_simpl.


End VirtualizedListInit.

Section ConversationListInit.
Import ConversationList.

Ltac cl_simpl :=
  cbn [hooks browser entries loading atBottom didInitScroll prevEntriesLengthRef addTypeRef
       pendingUpdateRef debounceTimeoutRef rendered unmounted initJumps
       dep_attempt dep_len dep_loading dep_atBottom
       pending_entries pending_addType pending_loading] in *;
  browser_simpl.



End ConversationListInit.

End InitialScrollTrigger.


